(** * node-ble-host: HCI adapter, ATT engine, GATT cache, storage and utilities

    A shallow embedding of the parts of the host stack that the
    specification's testable properties talk about:

    - [Utils]    : [Queue], [DuplicateCache], [serializeUuid]  (lib/internal/utils.ts)
    - [Uuid]     : [getFullUuid], [fixUuid]                    (gatt)
    - [Att]      : the per-connection ATT engine [AttConnection]
    - [Gatt]     : [RangeMap] and [GattConnection.invalidateServices]
    - [Storage]  : the IRK table, [storeKeys], [init], [resolveAddress]
    - [Hci]      : the command discipline of [HciAdapter] and its 'data' listener
    - [IdGenerator], [BdAddr], [Wire] : ids, device addresses, [PacketWriter]
      and [PacketReader]
    - [Acl]      : ACL data of [HciAdapter]: fragments, controller buffers,
      incoming packets
    - [Db], [GattDb], [RemoveService] : the attribute database of the GATT
      server, the handles of [addServices] and [removeService]
    - [Cccd], [CccdStore] : the Client Characteristic Configuration
      descriptor and its values in storage
    - [AttServer], [AttWrite], [AttClient], [WriteClient] : request handlers
      of [AttConnection], and the requests and parsers of its client side

    Bytes are integers in [0, 255] kept in lists; JavaScript exceptions are
    explicit results; callbacks supplied by other layers are data.

    Part I holds the definitions, Part II the properties. *)

From Stdlib Require Import ZArith List Lia Bool Ascii.
From stdpp Require Import gmap strings list.

Set Warnings "-register-all".

Import ListNotations.
Local Open Scope Z_scope.

(** * Part I: the program *)

(** ** JavaScript results and values *)

Module Js.

Inductive Exn : Type :=
| TypeError        (* property access on null/undefined, call of a non-function *)
| RangeError       (* crypto.timingSafeEqual on buffers of different length *)
| ReferenceError   (* strict-mode assignment to an undeclared identifier *)
| Error.           (* `throw new Error(...)`: validate, throwInvalidLength *)

Inductive result (A : Type) : Type :=
| Ok (a : A)
| Throw (e : Exn).

Arguments Ok {A} a.
Arguments Throw {A} e.

Definition bind {A B : Type} (r : result A) (k : A -> result B) : result B :=
  match r with
  | Ok a => k a
  | Throw e => Throw e
  end.

Definition isOk {A : Type} (r : result A) : bool :=
  match r with Ok _ => true | Throw _ => false end.

(** The values user code can hand to a container typed [any]. *)
Inductive Val : Type :=
| VUndefined
| VNull
| VNum (n : Z)
| VStr (s : string)
| VObj (fields : list (string * Val)).

Fixpoint lookupField (name : string) (fields : list (string * Val)) : Val :=
  match fields with
  | [] => VUndefined
  | (k, v) :: rest => if String.eqb k name then v else lookupField name rest
  end.

(** [v.name]: reading a property of null or undefined throws; primitives
    have no own data properties of the names used here. *)
Definition getProp (v : Val) (name : string) : result Val :=
  match v with
  | VUndefined | VNull => Throw TypeError
  | VNum _ | VStr _ => Ok VUndefined
  | VObj fields => Ok (lookupField name fields)
  end.

(** [v.name = ...] in strict code (class bodies are strict): only an object
    accepts the write. *)
Definition canSetProp (v : Val) : result unit :=
  match v with
  | VObj _ => Ok tt
  | _ => Throw TypeError
  end.

Definition isNull (v : Val) : bool :=
  match v with VNull => true | _ => false end.

End Js.

Notation "'try!' x ':=' r 'in' k" := (Js.bind r (fun x => k))
  (at level 10, x name, r at level 100, k at level 200, only parsing).

(** ** Buffers and strings *)

Module Buf.

(** Buffer.from([...]) keeps every entry modulo 256. *)
Definition u8 (n : Z) : Z := n mod 256.

(** buf.readUInt16LE(i) *)
Definition readUInt16LE (i : nat) (buf : list Z) : Z :=
  nth i buf 0 + 256 * nth (S i) buf 0.

(** the two bytes written by buf.writeUInt16LE(v, _) *)
Definition uint16LE (v : Z) : list Z := [v mod 256; (v / 256) mod 256].

(** buf.slice(0, n) *)
Definition slice0 (n : Z) (buf : list Z) : list Z := firstn (Z.to_nat n) buf.

Definition len (buf : list Z) : Z := Z.of_nat (length buf).

Definition hexDigitValue (c : ascii) : option Z :=
  let n := Z.of_N (Ascii.N_of_ascii c) in
  if (48 <=? n) && (n <=? 57) then Some (n - 48)
  else if (65 <=? n) && (n <=? 70) then Some (n - 55)
  else if (97 <=? n) && (n <=? 102) then Some (n - 87)
  else None.

(** Buffer.from(s, 'hex'): pairs of hex digits, up to the first pair that
    is not one. *)
Fixpoint fromHex (s : string) : list Z :=
  match s with
  | String a (String b rest) =>
      match hexDigitValue a, hexDigitValue b with
      | Some x, Some y => (16 * x + y) :: fromHex rest
      | _, _ => []
      end
  | _ => []
  end.

Definition hexDigitUpper (d : Z) : ascii :=
  Ascii.ascii_of_N (Z.to_N (if d <? 10 then 48 + d else 55 + d)).

Definition hexDigitLower (d : Z) : ascii :=
  Ascii.ascii_of_N (Z.to_N (if d <? 10 then 48 + d else 87 + d)).

Fixpoint hexDigitsOf (fuel : nat) (n : Z) (acc : string) : string :=
  match fuel with
  | O => acc
  | S fuel' =>
      let acc' := String (hexDigitLower (n mod 16)) acc in
      if n / 16 =? 0 then acc' else hexDigitsOf fuel' (n / 16) acc'
  end.

(** n.toString(16) for an integer n *)
Definition toString16 (n : Z) : string :=
  if n <? 0 then String "-"%char (hexDigitsOf (S (Z.to_nat (Z.log2 (- n)))) (- n) EmptyString)
  else hexDigitsOf (S (Z.to_nat (Z.log2 n))) n EmptyString.

Definition upperChar (c : ascii) : ascii :=
  let n := Ascii.N_of_ascii c in
  if (N.leb 97 n) && (N.leb n 122) then Ascii.ascii_of_N (n - 32) else c.

Fixpoint toUpperCase (s : string) : string :=
  match s with
  | EmptyString => EmptyString
  | String c rest => String (upperChar c) (toUpperCase rest)
  end.

(** s.substr(start, len) and s.substr(start), for start >= 0 *)
Definition substr (start len : nat) (s : string) : string := String.substring start len s.
Definition substrFrom (start : nat) (s : string) : string :=
  String.substring start (String.length s - start) s.

(** s.substr(-n) *)
Definition substrLast (n : nat) (s : string) : string :=
  substrFrom (String.length s - n) s.

(** s.replace(/c/g, '') and s.replace(/c/g, d) *)
Fixpoint removeChar (c : ascii) (s : string) : string :=
  match s with
  | EmptyString => EmptyString
  | String a rest => if Ascii.eqb a c then removeChar c rest else String a (removeChar c rest)
  end.

Fixpoint replaceChar (c d : ascii) (s : string) : string :=
  match s with
  | EmptyString => EmptyString
  | String a rest => String (if Ascii.eqb a c then d else a) (replaceChar c d rest)
  end.

(** buf.toString('hex') *)
Fixpoint toHex (buf : list Z) : string :=
  match buf with
  | [] => EmptyString
  | b :: rest => String (hexDigitLower (b / 16)) (String (hexDigitLower (b mod 16)) (toHex rest))
  end.

End Buf.

(** ** lib/internal/utils.ts *)

Module Utils.

(** *** class Queue<T> *)

Section QueueDef.
Context {T : Type}.

Record Queue : Type := mkQueue { q : list T; pos : nat }.

(* constructor *)
Definition newQueue : Queue := mkQueue [] 0.

(* getLength(): this.q.length - this.pos *)
Definition getLength (Q : Queue) : Z :=
  Z.of_nat (length (q Q)) - Z.of_nat (pos Q).

(* push(item): this.q.push(item) *)
Definition push (item : T) (Q : Queue) : Queue :=
  mkQueue (q Q ++ [item]) (pos Q).

(* shift():
     if (this.pos === this.q.length) return undefined
     const elem = this.q[this.pos++]
     if (this.pos * 2 >= this.q.length) {
       this.q.slice(0, this.pos)      <- builds a copy and drops it
       this.pos = 0
     }
     return elem
   [None] stands for undefined. *)
Definition shift (Q : Queue) : option T * Queue :=
  if Nat.eqb (pos Q) (length (q Q)) then (None, Q)
  else
    let elem := nth_error (q Q) (pos Q) in
    let pos1 := S (pos Q) in
    if Nat.leb (length (q Q)) (pos1 * 2)
    then (elem, mkQueue (q Q) 0)
    else (elem, mkQueue (q Q) pos1).

(* peek() *)
Definition peek (Q : Queue) : option T :=
  if Nat.eqb (pos Q) (length (q Q)) then None else nth_error (q Q) (pos Q).

(* The entries returned by n successive calls of shift(). *)
Fixpoint shiftMany (n : nat) (Q : Queue) : list (option T) * Queue :=
  match n with
  | O => ([], Q)
  | S n' =>
      let '(e, Q1) := shift Q in
      let '(es, Q2) := shiftMany n' Q1 in
      (e :: es, Q2)
  end.

Definition pushAll (items : list T) (Q : Queue) : Queue :=
  fold_left (fun acc x => push x acc) items Q.

End QueueDef.

Arguments Queue T : clear implicits.

(** *** class DuplicateCache *)

(** A CacheNode object lives in the heap and is referred to by its
    location: [nodeMap], [first], [last], [next] and [prev] all alias it. *)
Definition loc := nat.

Record CacheNode : Type := mkNode {
  key : string;
  value : Js.Val;
  next : option loc;
  prev : option loc
}.

Record DuplicateCache : Type := mkCache {
  first : option loc;
  last : option loc;
  nodeMap : gmap string loc;
  capacity : Z;
  heap : gmap loc CacheNode;
  nextLoc : loc;
  emitted : list string      (* keys carried by the 'remove' events, oldest first *)
}.

(* constructor(capacity) *)
Definition newCache (cap : Z) : Js.result DuplicateCache :=
  if cap <=? 0 then Js.Throw Js.Error
  else Js.Ok (mkCache None None ∅ cap ∅ 0%nat []).

(* isDuplicate(key): key in this.nodeMap *)
Definition isDuplicate (k : string) (c : DuplicateCache) : bool :=
  bool_decide (is_Some (nodeMap c !! k)).

(* get(key): this.isDuplicate(key) ? this.nodeMap[key].value : null *)
Definition get (k : string) (c : DuplicateCache) : Js.Val :=
  match nodeMap c !! k with
  | Some l =>
      match heap c !! l with
      | Some n => value n
      | None => Js.VUndefined
      end
  | None => Js.VNull
  end.

(* `this.first === node` and `this.last === node`: the left side is a list
   node or null, the right side is whatever get() returned. *)
Definition sameObject (n : option loc) (v : Js.Val) : bool :=
  match n, v with
  | None, Js.VNull => true
  | _, _ => false
  end.

(* remove(key):
     if (this.isDuplicate(key)) {
       const node = this.get(key)          <- the cached value
       delete this.nodeMap[key]
       if (node.next !== null) node.next.prev = node.prev
       if (this.first === node) this.first = node.next
       if (this.last === node) this.last = node.prev
       ++this.capacity
       return true
     }
     return false
   The result comes with the cache as the call left it, also when it
   throws.  Once node.next has been read, node is not null, so neither
   identity test holds ([sameObject_after_getProp]) and first and last
   stay as they are. *)
Definition remove (k : string) (c : DuplicateCache) : Js.result bool * DuplicateCache :=
  if isDuplicate k c then
    let node := get k c in
    let c1 := mkCache (first c) (last c) (delete k (nodeMap c)) (capacity c)
                      (heap c) (nextLoc c) (emitted c) in
    match Js.getProp node "next" with
    | Js.Throw e => (Js.Throw e, c1)
    | Js.Ok nx =>
        match (if Js.isNull nx then Js.Ok tt else Js.canSetProp nx) with
        | Js.Throw e => (Js.Throw e, c1)
        | Js.Ok _ =>
            (Js.Ok true,
             mkCache (first c1) (last c1) (nodeMap c1) (capacity c1 + 1)
                     (heap c1) (nextLoc c1) (emitted c1))
        end
    end
  else (Js.Ok false, c).

(* The eviction block of add():
     firstKey = this.first.key
     removedFirstKey = true
     delete this.nodeMap[this.first.key]
     this.first = this.first.next
     if (this.first) { this.first.prev = null } else { this.last = null }
     ++this.capacity *)
Definition evictFirst (c : DuplicateCache) : Js.result string * DuplicateCache :=
  match first c with
  | None => (Js.Throw Js.TypeError, c)
  | Some f =>
      match heap c !! f with
      | None => (Js.Throw Js.TypeError, c)
      | Some fn =>
          let firstKey := key fn in
          let nm := delete firstKey (nodeMap c) in
          let first' := next fn in
          match first' with
          | Some f' =>
              let hp := alter (fun n => mkNode (key n) (value n) (next n) None) f' (heap c) in
              (Js.Ok firstKey,
               mkCache first' (last c) nm (capacity c + 1) hp (nextLoc c) (emitted c))
          | None =>
              (Js.Ok firstKey,
               mkCache None None nm (capacity c + 1) (heap c) (nextLoc c) (emitted c))
          end
      end
  end.

(* add(key, value):
     const exists = this.dc.remove(key)
     let firstKey, removedFirstKey = false
     if (this.capacity === 0) { ...eviction block... }
     const node = { key, value, next: null, prev: this.last }
     this.nodeMap[key] = node
     this.last = node
     --this.capacity
     if (removedFirstKey && firstKey !== key) this.dc.emit('remove', firstKey)
     return !exists *)
Definition add (k : string) (v : Js.Val) (c : DuplicateCache) : Js.result bool * DuplicateCache :=
  match remove k c with
  | (Js.Throw e, c1) => (Js.Throw e, c1)
  | (Js.Ok exists_, c1) =>
      let evicted :=
        if capacity c1 =? 0 then
          match evictFirst c1 with
          | (Js.Throw e, c2) => (Js.Throw e, c2)
          | (Js.Ok firstKey, c2) => (Js.Ok (Some firstKey), c2)
          end
        else (Js.Ok None, c1) in
      match evicted with
      | (Js.Throw e, c2) => (Js.Throw e, c2)
      | (Js.Ok removedFirstKey, c2) =>
          let l := nextLoc c2 in
          let node := mkNode k v None (last c2) in
          let ev :=
            match removedFirstKey with
            | Some firstKey => if String.eqb firstKey k then [] else [firstKey]
            | None => []
            end in
          (Js.Ok (negb exists_),
           mkCache (first c2) (Some l) (<[k := l]> (nodeMap c2)) (capacity c2 - 1)
                   (<[l := node]> (heap c2)) (S l) (emitted c2 ++ ev))
      end
  end.

(** The nodes reachable from [nodeMap] are allocated. *)
Definition allocated (c : DuplicateCache) : Prop :=
  forall k l, nodeMap c !! k = Some l -> (l < nextLoc c)%nat /\ is_Some (heap c !! l).

(* A run of add() calls that stops at the first exception. *)
Fixpoint addAll (kvs : list (string * Js.Val)) (c : DuplicateCache)
  : Js.result (list bool) * DuplicateCache :=
  match kvs with
  | [] => (Js.Ok [], c)
  | (k, v) :: rest =>
      match add k v c with
      | (Js.Throw e, c1) => (Js.Throw e, c1)
      | (Js.Ok b, c1) =>
          match addAll rest c1 with
          | (Js.Throw e, c2) => (Js.Throw e, c2)
          | (Js.Ok bs, c2) => (Js.Ok (b :: bs), c2)
          end
      end
  end.

(** *** serializeUuid *)

Definition BASE_UUID_SECOND_PART : string := "-0000-1000-8000-00805F9B34FB".

Inductive UuidArg : Type :=
| UuidStr (s : string)
| UuidNum (n : Z).       (* an integral number *)

(* serializeUuid(uuid):
     if (typeof uuid === 'string') {
       if (uuid.substr(8) === BASE_UUID_SECOND_PART && uuid.substr(0, 4) === '0000')
         return Buffer.from(uuid.substr(4, 4), 'hex').reverse()
       const ret = Buffer.from(uuid.replace(/-/g, ''), 'hex').reverse()
       if (ret.length === 16) return ret
     } else if (Number.isInteger(uuid) && uuid >= 0 && uuid <= 0xffff) {
       return Buffer.from([uuid, uuid > 8])
     }
     throw new Error('Invalid uuid: ' + uuid) *)
Definition serializeUuid (uuid : UuidArg) : Js.result (list Z) :=
  match uuid with
  | UuidStr s =>
      if String.eqb (Buf.substrFrom 8 s) BASE_UUID_SECOND_PART
         && String.eqb (Buf.substr 0 4 s) "0000"
      then Js.Ok (rev (Buf.fromHex (Buf.substr 4 4 s)))
      else
        let ret := rev (Buf.fromHex (Buf.removeChar "-"%char s)) in
        if Nat.eqb (length ret) 16 then Js.Ok ret else Js.Throw Js.Error
  | UuidNum n =>
      if (0 <=? n) && (n <=? 65535)
      then Js.Ok [Buf.u8 n; Buf.u8 (if 8 <? n then 1 else 0)]
      else Js.Throw Js.Error
  end.

End Utils.

(** ** UUID helpers of the GATT layer *)

Module Uuid.

Inductive Arg : Type :=
| ABuf (b : list Z)
| AStr (s : string)
| ANum (n : Z).

Definition ofNumber (v : Z) : string :=
  Buf.toUpperCase (Buf.substrLast 8 (Buf.toString16 (4294967296 + v)))
  +:+ Utils.BASE_UUID_SECOND_PART.

(* getFullUuid(v):
     if (v instanceof Buffer && v.length === 2) v = v[0] | (v[1] << 8)
     if (Number.isInteger(v))
       return (0x100000000 + v).toString(16).substr(-8).toUpperCase() + BASE_UUID_SECOND_PART
     else if (typeof v === 'string') return v.toUpperCase()
     else if (v instanceof Buffer && v.length === 16) {
       const uuid = Buffer.from(v).reverse().toString('hex').toUpperCase()
       return [uuid.substr(0, 8), uuid.substr(8, 4), uuid.substr(12, 4),
               uuid.substr(16, 4), uuid.substr(20, 12)].join('-')
     }
     return null *)
Definition getFullUuid (v : Arg) : option string :=
  match v with
  | ABuf b =>
      if Nat.eqb (length b) 2 then Some (ofNumber (Z.lor (nth 0 b 0) (Z.shiftl (nth 1 b 0) 8)))
      else if Nat.eqb (length b) 16 then
        let uuid := Buf.toUpperCase (Buf.toHex (rev b)) in
        Some (Buf.substr 0 8 uuid +:+ "-" +:+ Buf.substr 8 4 uuid +:+ "-"
              +:+ Buf.substr 12 4 uuid +:+ "-" +:+ Buf.substr 16 4 uuid +:+ "-"
              +:+ Buf.substr 20 12 uuid)
      else None
  | ANum n => Some (ofNumber n)
  | AStr s => Some (Buf.toUpperCase s)
  end.

Definition isHexChar (c : ascii) : bool :=
  match Buf.hexDigitValue c with Some _ => true | None => false end.

Fixpoint allHex (s : string) : bool :=
  match s with
  | EmptyString => true
  | String c rest => isHexChar c && allHex rest
  end.

(* /^[0-9a-fA-F]{8}-([0-9a-fA-F]{4}-){3}[0-9a-fA-F]{12}$/ *)
Definition isUuidString (s : string) : bool :=
  Nat.eqb (String.length s) 36
  && allHex (Buf.substr 0 8 s) && String.eqb (Buf.substr 8 1 s) "-"
  && allHex (Buf.substr 9 4 s) && String.eqb (Buf.substr 13 1 s) "-"
  && allHex (Buf.substr 14 4 s) && String.eqb (Buf.substr 18 1 s) "-"
  && allHex (Buf.substr 19 4 s) && String.eqb (Buf.substr 23 1 s) "-"
  && allHex (Buf.substr 24 12 s).

(* fixUuid(uuid) *)
Definition fixUuid (uuid : Utils.UuidArg) : Js.result string :=
  match uuid with
  | Utils.UuidStr s =>
      if isUuidString s then Js.Ok (Buf.toUpperCase s) else Js.Throw Js.Error
  | Utils.UuidNum n =>
      if (0 <=? n) && (n <=? 65535) then Js.Ok (ofNumber n) else Js.Throw Js.Error
  end.

(* The value of the service declaration attribute written by addServices:
     s.uuid = fixUuid(service.uuid)
     addAttribute(handle++, s.endHandle, 0x2800 or 0x2801, serializeUuid(s.uuid), ...) *)
Definition serviceDeclarationValue (uuid : Utils.UuidArg) : Js.result (list Z) :=
  try! s := fixUuid uuid in Utils.serializeUuid (Utils.UuidStr s).

End Uuid.

(** ** The ATT engine: AttConnection *)

Module AttErrors.

(** Modelled from the spec: the error table of [../att-errors], which is not
    among the sources.  The specification names these codes as "the standard
    table"; the numbers are those of the Attribute Protocol. *)
Definition INVALID_HANDLE : Z := 0x01.
Definition READ_NOT_PERMITTED : Z := 0x02.
Definition WRITE_NOT_PERMITTED : Z := 0x03.
Definition INVALID_PDU : Z := 0x04.
Definition INSUFFICIENT_AUTHENTICATION : Z := 0x05.
Definition INVALID_OFFSET : Z := 0x07.
Definition INSUFFICIENT_AUTHORIZATION : Z := 0x08.
Definition INSUFFICIENT_ENCRYPTION_KEY_SIZE : Z := 0x0c.
Definition INVALID_ATTRIBUTE_VALUE_LENGTH : Z := 0x0d.
Definition UNLIKELY_ERROR : Z := 0x0e.
Definition INSUFFICIENT_ENCRYPTION : Z := 0x0f.

End AttErrors.

Module Att.

Import Utils.

(* enum BleGattAttribute *)
Definition ERROR_RESPONSE : Z := 0x01.
Definition EXCHANGE_MTU_REQUEST : Z := 0x02.
Definition EXCHANGE_MTU_RESPONSE : Z := 0x03.
Definition FIND_INFORMATION_REQUEST : Z := 0x04.
Definition FIND_INFORMATION_RESPONSE : Z := 0x05.
Definition FIND_BY_TYPE_VALUE_REQUEST : Z := 0x06.
Definition FIND_BY_TYPE_VALUE_RESPONSE : Z := 0x07.
Definition READ_BY_TYPE_REQUEST : Z := 0x08.
Definition READ_BY_TYPE_RESPONSE : Z := 0x09.
Definition READ_REQUEST : Z := 0x0a.
Definition READ_RESPONSE : Z := 0x0b.
Definition READ_BLOB_REQUEST : Z := 0x0c.
Definition READ_BLOB_RESPONSE : Z := 0x0d.
Definition READ_MULTIPLE_REQUEST : Z := 0x0e.
Definition READ_MULTIPLE_RESPONSE : Z := 0x0f.
Definition READ_BY_GROUP_TYPE_REQUEST : Z := 0x10.
Definition READ_BY_GROUP_TYPE_RESPONSE : Z := 0x11.
Definition WRITE_REQUEST : Z := 0x12.
Definition WRITE_RESPONSE : Z := 0x13.
Definition WRITE_COMMAND : Z := 0x52.
Definition PREPARE_WRITE_REQUEST : Z := 0x16.
Definition PREPARE_WRITE_RESPONSE : Z := 0x17.
Definition EXECUTE_WRITE_REQUEST : Z := 0x18.
Definition EXECUTE_WRITE_RESPONSE : Z := 0x19.
Definition HANDLE_VALUE_NOTIFICATION : Z := 0x1b.
Definition HANDLE_VALUE_INDICATION : Z := 0x1d.
Definition HANDLE_VALUE_CONFIRMATION : Z := 0x1e.

Definition isKnownRequestOpcode (opcode : Z) : bool :=
  existsb (Z.eqb opcode)
    [EXCHANGE_MTU_REQUEST; FIND_INFORMATION_REQUEST; FIND_BY_TYPE_VALUE_REQUEST;
     READ_BY_TYPE_REQUEST; READ_REQUEST; READ_BLOB_REQUEST; READ_MULTIPLE_REQUEST;
     READ_BY_GROUP_TYPE_REQUEST; WRITE_REQUEST; PREPARE_WRITE_REQUEST;
     EXECUTE_WRITE_REQUEST].

Definition isKnownResponseOpcode (opcode : Z) : bool :=
  existsb (Z.eqb opcode)
    [ERROR_RESPONSE; EXCHANGE_MTU_RESPONSE; FIND_INFORMATION_RESPONSE;
     FIND_BY_TYPE_VALUE_RESPONSE; READ_BY_TYPE_RESPONSE; READ_RESPONSE;
     READ_BLOB_RESPONSE; READ_MULTIPLE_RESPONSE; READ_BY_GROUP_TYPE_RESPONSE;
     WRITE_RESPONSE; PREPARE_WRITE_RESPONSE; EXECUTE_WRITE_RESPONSE].

(** *** The attribute database and the connection, as the engine sees them *)

Inductive Perm : Type :=
| NotPermitted | Open | Encrypted | EncryptedMitm | EncryptedMitmSc | Custom.

(* connection.smp and connection.disconnected *)
Record Connection : Type := mkConnection {
  isEncrypted : bool;
  hasLtk : bool;
  levelMitm : bool;      (* currentEncryptionLevel.mitm *)
  levelSc : bool;        (* currentEncryptionLevel.sc *)
  disconnected : bool
}.

(** An attribute's dispatchers take a continuation; here each one gives the
    arguments it passes to that continuation, or [None] when it does not
    call it. *)
Record Attribute : Type := mkAttribute {
  readPerm : Perm;
  writePerm : Perm;
  maxLength : Z;
  read : Z -> Z -> option (Z * list Z);             (* opcode, offset *)
  authorizeWrite : Z -> Z -> list Z -> option Z;    (* opcode, offset, value *)
  write : Z -> Z -> list Z -> option Z
}.

(* checkPerm(perm, isWrite) *)
Definition checkPerm (conn : Connection) (perm : Perm) (isWrite : bool) : Z :=
  match perm with
  | NotPermitted =>
      if isWrite then AttErrors.WRITE_NOT_PERMITTED else AttErrors.READ_NOT_PERMITTED
  | Open => 0
  | Custom => 0
  | _ =>
      if negb (isEncrypted conn) then
        if hasLtk conn then AttErrors.INSUFFICIENT_ENCRYPTION
        else AttErrors.INSUFFICIENT_AUTHENTICATION
      else
        match perm with
        | EncryptedMitm =>
            if levelMitm conn then 0 else AttErrors.INSUFFICIENT_AUTHENTICATION
        | EncryptedMitmSc =>
            if levelMitm conn && levelSc conn then 0
            else AttErrors.INSUFFICIENT_AUTHENTICATION
        | _ => 0
        end
  end.

Definition checkReadPermission (conn : Connection) (item : Attribute) : Z :=
  checkPerm conn (readPerm item) false.

Definition checkWritePermission (conn : Connection) (item : Attribute) : Z :=
  checkPerm conn (writePerm item) true.

(** *** Session state *)

(** The closures handed to sendDataFn as sentCallback. *)
Inductive SentCallback : Type :=
| OnRequestSent         (* currentOutgoingRequestIsSent = true *)
| OnResponseSent        (* isHandlingRequest = false *)
| OnIndicationSent      (* currentOutgoingIndicationIsSent = true *)
| OnConfirmationSent    (* hasOutgoingConfirmation = false *)
| OnUserSent.           (* the caller's sentCallback of notify / writeCommand *)

(** The parser closures handed to enqueueRequest.  Each returns false for a
    malformed response and otherwise reports to its caller. *)
Inductive ResponseHandler : Type :=
| HExchangeMtu
| HParser (accepts : Z -> list Z -> bool).

Record Request : Type := mkRequest { data : list Z; callback : ResponseHandler }.

Record OutgoingRequest : Type := mkOutgoing {
  responseOpcode : Z;
  handler : ResponseHandler
}.

(** What the engine does to the outside: PDUs handed to sendDataFn and
    completions reported to the caller of a request. *)
Inductive Effect : Type :=
| Tx (pdu : list Z) (onSent : SentCallback)
| Completed (responseOpcode : Z) (err : Z).

Record State : Type := mkState {
  currentMtu : Z;
  timedout : bool;
  requestQueue : Queue Request;
  currentOutgoingRequest : option OutgoingRequest;
  currentOutgoingRequestIsSent : bool;
  hasOutgoingConfirmation : bool;
  isHandlingRequest : bool;
  indicationQueue : Queue (list Z);
  currentOutgoingIndication : bool;          (* a callback is stored *)
  currentOutgoingIndicationIsSent : bool;
  notificationQueue : Queue (list Z);
  trace : list Effect
}.

Definition initial : State :=
  mkState 23 false newQueue None false false false newQueue false false newQueue [].

Definition setMtu (m : Z) (s : State) : State :=
  mkState m (timedout s) (requestQueue s) (currentOutgoingRequest s)
    (currentOutgoingRequestIsSent s) (hasOutgoingConfirmation s) (isHandlingRequest s)
    (indicationQueue s) (currentOutgoingIndication s) (currentOutgoingIndicationIsSent s)
    (notificationQueue s) (trace s).

Definition setTimedout (b : bool) (s : State) : State :=
  mkState (currentMtu s) b (requestQueue s) (currentOutgoingRequest s)
    (currentOutgoingRequestIsSent s) (hasOutgoingConfirmation s) (isHandlingRequest s)
    (indicationQueue s) (currentOutgoingIndication s) (currentOutgoingIndicationIsSent s)
    (notificationQueue s) (trace s).

Definition setRequestQueue (Q : Queue Request) (s : State) : State :=
  mkState (currentMtu s) (timedout s) Q (currentOutgoingRequest s)
    (currentOutgoingRequestIsSent s) (hasOutgoingConfirmation s) (isHandlingRequest s)
    (indicationQueue s) (currentOutgoingIndication s) (currentOutgoingIndicationIsSent s)
    (notificationQueue s) (trace s).

Definition setOutgoingRequest (r : option OutgoingRequest) (s : State) : State :=
  mkState (currentMtu s) (timedout s) (requestQueue s) r
    (currentOutgoingRequestIsSent s) (hasOutgoingConfirmation s) (isHandlingRequest s)
    (indicationQueue s) (currentOutgoingIndication s) (currentOutgoingIndicationIsSent s)
    (notificationQueue s) (trace s).

Definition setRequestIsSent (b : bool) (s : State) : State :=
  mkState (currentMtu s) (timedout s) (requestQueue s) (currentOutgoingRequest s)
    b (hasOutgoingConfirmation s) (isHandlingRequest s)
    (indicationQueue s) (currentOutgoingIndication s) (currentOutgoingIndicationIsSent s)
    (notificationQueue s) (trace s).

Definition setOutgoingConfirmation (b : bool) (s : State) : State :=
  mkState (currentMtu s) (timedout s) (requestQueue s) (currentOutgoingRequest s)
    (currentOutgoingRequestIsSent s) b (isHandlingRequest s)
    (indicationQueue s) (currentOutgoingIndication s) (currentOutgoingIndicationIsSent s)
    (notificationQueue s) (trace s).

Definition setHandlingRequest (b : bool) (s : State) : State :=
  mkState (currentMtu s) (timedout s) (requestQueue s) (currentOutgoingRequest s)
    (currentOutgoingRequestIsSent s) (hasOutgoingConfirmation s) b
    (indicationQueue s) (currentOutgoingIndication s) (currentOutgoingIndicationIsSent s)
    (notificationQueue s) (trace s).

Definition setIndicationQueue (Q : Queue (list Z)) (s : State) : State :=
  mkState (currentMtu s) (timedout s) (requestQueue s) (currentOutgoingRequest s)
    (currentOutgoingRequestIsSent s) (hasOutgoingConfirmation s) (isHandlingRequest s)
    Q (currentOutgoingIndication s) (currentOutgoingIndicationIsSent s)
    (notificationQueue s) (trace s).

Definition setOutgoingIndication (b : bool) (s : State) : State :=
  mkState (currentMtu s) (timedout s) (requestQueue s) (currentOutgoingRequest s)
    (currentOutgoingRequestIsSent s) (hasOutgoingConfirmation s) (isHandlingRequest s)
    (indicationQueue s) b (currentOutgoingIndicationIsSent s)
    (notificationQueue s) (trace s).

Definition setIndicationIsSent (b : bool) (s : State) : State :=
  mkState (currentMtu s) (timedout s) (requestQueue s) (currentOutgoingRequest s)
    (currentOutgoingRequestIsSent s) (hasOutgoingConfirmation s) (isHandlingRequest s)
    (indicationQueue s) (currentOutgoingIndication s) b
    (notificationQueue s) (trace s).

Definition setNotificationQueue (Q : Queue (list Z)) (s : State) : State :=
  mkState (currentMtu s) (timedout s) (requestQueue s) (currentOutgoingRequest s)
    (currentOutgoingRequestIsSent s) (hasOutgoingConfirmation s) (isHandlingRequest s)
    (indicationQueue s) (currentOutgoingIndication s) (currentOutgoingIndicationIsSent s)
    Q (trace s).

Definition emit (e : Effect) (s : State) : State :=
  mkState (currentMtu s) (timedout s) (requestQueue s) (currentOutgoingRequest s)
    (currentOutgoingRequestIsSent s) (hasOutgoingConfirmation s) (isHandlingRequest s)
    (indicationQueue s) (currentOutgoingIndication s) (currentOutgoingIndicationIsSent s)
    (notificationQueue s) (trace s ++ [e]).

(** The PDUs handed to the lower layer, in order. *)
Definition transmitted (s : State) : list (list Z) :=
  flat_map (fun e => match e with Tx pdu _ => [pdu] | Completed _ _ => [] end) (trace s).

(** The completions reported to callers, in order. *)
Definition completions (s : State) : list (Z * Z) :=
  flat_map (fun e => match e with Tx _ _ => [] | Completed op err => [(op, err)] end) (trace s).

(* sendDataFn(buffer, sentCallback, completeCallback); attTimeout() replaces
   it by function() {} when it sets timedout. *)
Definition sendDataFn (pdu : list Z) (onSent : SentCallback) (s : State) : State :=
  if timedout s then s else emit (Tx pdu onSent) s.

(* attTimeout() *)
Definition attTimeout (s : State) : State :=
  if timedout s then s else setTimedout true s.

(* sendNextRequest(); `next.data[0] + 1` is read as 1 for an empty PDU, which
   no caller builds. *)
Definition sendNextRequest (s : State) : State :=
  match currentOutgoingRequest s with
  | Some _ => s
  | None =>
      let '(next, Q) := shift (requestQueue s) in
      let s1 := setRequestQueue Q s in
      match next with
      | None => s1
      | Some r =>
          let s2 := setOutgoingRequest
                      (Some (mkOutgoing (nth 0 (data r) 0 + 1) (callback r))) s1 in
          let s3 := setRequestIsSent false s2 in
          sendDataFn (Buf.slice0 (currentMtu s3) (data r)) OnRequestSent s3
      end
  end.

(* sendResponse(buffer) *)
Definition sendResponse (buffer : list Z) (s : State) : State :=
  sendDataFn buffer OnResponseSent (setHandlingRequest true s).

(* sendErrorResponse(opcode, handle, errorCode) *)
Definition sendErrorResponse (opcode handle errorCode : Z) (s : State) : State :=
  sendResponse ([ERROR_RESPONSE; Buf.u8 opcode] ++ Buf.uint16LE handle ++ [Buf.u8 errorCode]) s.

Definition mtuExchangeOutstanding (s : State) : bool :=
  match currentOutgoingRequest s with
  | Some r => responseOpcode r =? EXCHANGE_MTU_RESPONSE
  | None => false
  end.

(* sendNextIndication() *)
Definition sendNextIndication (s : State) : State :=
  if negb (currentOutgoingIndication s) && negb (mtuExchangeOutstanding s) then
    let '(next, Q) := shift (indicationQueue s) in
    let s1 := setIndicationQueue Q s in
    match next with
    | None => s1
    | Some pdu =>
        let s2 := setIndicationIsSent false (setOutgoingIndication true s1) in
        sendDataFn (Buf.slice0 (currentMtu s2) pdu) OnIndicationSent s2
    end
  else s.

(* The lower layer calls a sentCallback. *)
Definition runSentCallback (cb : SentCallback) (s : State) : State :=
  match cb with
  | OnRequestSent => setRequestIsSent true s
  | OnResponseSent => setHandlingRequest false s
  | OnIndicationSent => setIndicationIsSent true s
  | OnConfirmationSent => setOutgoingConfirmation false s
  | OnUserSent => s
  end.

(** How a call into the engine ends. *)
Inductive Outcome : Type :=
| Returned (s : State)
| Threw (e : Js.Exn) (s : State)
| Diverged                          (* the loop outlives every bound *)
| Unmodelled.                       (* an opcode whose handler is not embedded *)

(* while (notificationQueue.getLength() !== 0) {
     var item = notificationQueue.shift()
     sendDataFn(item.data.slice(0, currentMtu), item.sentCallback, item.completeCallback)
   } *)
Fixpoint flushNotifications (fuel : nat) (s : State) : Outcome :=
  match fuel with
  | O => Diverged
  | S fuel' =>
      if getLength (notificationQueue s) =? 0 then Returned s
      else
        let '(item, Q) := shift (notificationQueue s) in
        let s1 := setNotificationQueue Q s in
        match item with
        | None => Threw Js.TypeError s1
        | Some pdu =>
            flushNotifications fuel'
              (sendDataFn (Buf.slice0 (currentMtu s1) pdu) OnUserSent s1)
        end
  end.

(* The parser closure of exchangeMtu:
     if (err) { callback(err); return true }
     if (data.length !== 3) return false
     var serverRxMTU = Math.max(23, data.readUInt16LE(1))
     var newMTU = Math.min(clientRxMTU, serverRxMTU)        (clientRxMTU = 517)
     if (currentMtu === 23 && newMTU !== 23) currentMtu = newMTU
     callback(0); return true *)
Definition exchangeMtuHandler (err : Z) (pdu : list Z) (s : State) : bool * State :=
  if negb (err =? 0) then (true, emit (Completed EXCHANGE_MTU_RESPONSE err) s)
  else if negb (Buf.len pdu =? 3) then (false, s)
  else
    let serverRxMTU := Z.max 23 (Buf.readUInt16LE 1 pdu) in
    let newMTU := Z.min 517 serverRxMTU in
    let s1 := if (currentMtu s =? 23) && negb (newMTU =? 23) then setMtu newMTU s else s in
    (true, emit (Completed EXCHANGE_MTU_RESPONSE 0) s1).

Definition runHandler (h : ResponseHandler) (op err : Z) (pdu : list Z) (s : State)
  : bool * State :=
  match h with
  | HExchangeMtu => exchangeMtuHandler err pdu s
  | HParser accepts =>
      if accepts err pdu then (true, emit (Completed op err) s) else (false, s)
  end.

(* case EXCHANGE_MTU_REQUEST *)
Definition handleExchangeMtuRequest (opcode : Z) (pdu : list Z) (s : State) : State :=
  if negb (Buf.len pdu =? 3) then sendErrorResponse opcode 0 AttErrors.INVALID_PDU s
  else
    let clientRxMTU := Buf.readUInt16LE 1 pdu in
    let clientRxMTU := if clientRxMTU <? 23 then 23 else clientRxMTU in
    let serverRxMTU := 517 in
    let s1 := sendResponse [EXCHANGE_MTU_RESPONSE; Buf.u8 serverRxMTU;
                            Buf.u8 (Z.shiftr serverRxMTU 8)] s in
    let newMTU := Z.min clientRxMTU serverRxMTU in
    if (currentMtu s1 =? 23) && negb (newMTU =? 23) then setMtu newMTU s1 else s1.

(** *** READ_MULTIPLE_REQUEST *)

(* for (var i = 1; i < data.length; i += 2) handles.push(data.readUInt16LE(i)) *)
Fixpoint readHandles (bytes : list Z) : list Z :=
  match bytes with
  | lo :: hi :: rest => (lo + 256 * hi) :: readHandles rest
  | _ => []
  end.

(* an element of `list`: {err, handle} or {err: 0, value} *)
Inductive ReadEntry : Type :=
| EntryErr (err handle : Z)
| EntryValue (value : list Z).

Inductive Collected : Type :=
| AllRead (entries : list ReadEntry)
| Vanished (handle : Z)      (* the attribute is gone: "If att db changes while processing" *)
| Waiting.                   (* a read has not called back *)

(* nextFn(i), up to the end of its for loop *)
Fixpoint collectReads (attDb : gmap Z Attribute) (conn : Connection) (opcode requestMtu : Z)
    (handles : list Z) (acc : list ReadEntry) : Collected :=
  match handles with
  | [] => AllRead acc
  | handle :: rest =>
      match attDb !! handle with
      | None => Vanished handle
      | Some item =>
          let perm := checkReadPermission conn item in
          if negb (perm =? 0) then
            collectReads attDb conn opcode requestMtu rest (acc ++ [EntryErr perm handle])
          else
            match read item opcode 0 with
            | None => Waiting
            | Some (err, value) =>
                if negb (err =? 0) then
                  collectReads attDb conn opcode requestMtu rest (acc ++ [EntryErr err handle])
                else
                  collectReads attDb conn opcode requestMtu rest
                    (acc ++ [EntryValue (Buf.slice0 (requestMtu - 1) value)])
            end
      end
  end.

(* var firstAuthz = 0, firstAuth = 0, firstEncKeySize = 0, firstEnc = 0,
       firstReadNotPerm = 0, firstOther = 0, otherErrorType *)
Record Firsts : Type := mkFirsts {
  firstAuthz : Z;
  firstAuth : Z;
  firstEncKeySize : Z;
  firstEnc : Z;
  firstReadNotPerm : Z;
  firstOther : Z;
  otherErrorType : Z
}.

Definition noFirsts : Firsts := mkFirsts 0 0 0 0 0 0 0.

(* The body of list.forEach(v => ...):
     if (v.err !== 0) {
       if (firstAuthz === 0 && v.err === INSUFFICIENT_AUTHORIZATION) firstAuthz = v.handle
       if (firstAuth === 0 && v.err === INSUFFICIENT_AUTHENTICATION) firstAuth = v.handle
       if (firstEncKeySize === 0 && v.err === INSUFFICIENT_ENCRYPTION_KEY_SIZE) firstEncKeySize = v.handle
       if (firstEnc === 0 && v.err === INSUFFICIENT_ENCRYPTION) firstEnc = v.handle
       if (firstOther === 0) { firstOther = v.handle; otherErrorType = v.err }
     } else {
       buffers.push(v.value)
     }
   where `buffers` is the Buffer made by Buffer.from([READ_MULTIPLE_RESPONSE]):
   a Buffer has no push method, so the else branch throws. *)
Definition classify (f : Firsts) (v : ReadEntry) : Js.result Firsts :=
  match v with
  | EntryErr err handle =>
      let a := if (firstAuthz f =? 0) && (err =? AttErrors.INSUFFICIENT_AUTHORIZATION)
               then handle else firstAuthz f in
      let b := if (firstAuth f =? 0) && (err =? AttErrors.INSUFFICIENT_AUTHENTICATION)
               then handle else firstAuth f in
      let c := if (firstEncKeySize f =? 0) && (err =? AttErrors.INSUFFICIENT_ENCRYPTION_KEY_SIZE)
               then handle else firstEncKeySize f in
      let d := if (firstEnc f =? 0) && (err =? AttErrors.INSUFFICIENT_ENCRYPTION)
               then handle else firstEnc f in
      if firstOther f =? 0
      then Js.Ok (mkFirsts a b c d (firstReadNotPerm f) handle err)
      else Js.Ok (mkFirsts a b c d (firstReadNotPerm f) (firstOther f) (otherErrorType f))
  | EntryValue _ => Js.Throw Js.TypeError
  end.

Fixpoint classifyAll (f : Firsts) (entries : list ReadEntry) : Js.result Firsts :=
  match entries with
  | [] => Js.Ok f
  | v :: rest => try! f1 := classify f v in classifyAll f1 rest
  end.

(* The tail of nextFn: the if / else-if chain that picks the response.  Its
   last branch calls Buffer.concat on a Buffer, which takes an array. *)
Definition respondReadMultiple (opcode : Z) (f : Firsts) (s : State) : Outcome :=
  if negb (firstAuthz f =? 0) then
    Returned (sendErrorResponse opcode (firstAuthz f) AttErrors.INSUFFICIENT_AUTHORIZATION s)
  else if negb (firstAuth f =? 0) then
    Returned (sendErrorResponse opcode (firstAuth f) AttErrors.INSUFFICIENT_AUTHENTICATION s)
  else if negb (firstEncKeySize f =? 0) then
    Returned (sendErrorResponse opcode (firstEncKeySize f)
                AttErrors.INSUFFICIENT_ENCRYPTION_KEY_SIZE s)
  else if negb (firstEnc f =? 0) then
    Returned (sendErrorResponse opcode (firstEnc f) AttErrors.INSUFFICIENT_ENCRYPTION s)
  else if negb (firstReadNotPerm f =? 0) then
    Returned (sendErrorResponse opcode (firstReadNotPerm f) AttErrors.READ_NOT_PERMITTED s)
  else if negb (firstOther f =? 0) then
    Returned (sendErrorResponse opcode (firstOther f) (otherErrorType f) s)
  else Threw Js.TypeError s.

(* case READ_MULTIPLE_REQUEST *)
Definition handleReadMultiple (attDb : gmap Z Attribute) (conn : Connection)
    (opcode : Z) (pdu : list Z) (s : State) : Outcome :=
  if (Buf.len pdu <? 5) || negb ((Buf.len pdu - 1) mod 2 =? 0) then
    Returned (sendErrorResponse opcode 0 AttErrors.INVALID_PDU s)
  else
    let handles := readHandles (skipn 1 pdu) in
    match find (fun h => bool_decide (attDb !! h = None :> option Attribute)) handles with
    | Some handle => Returned (sendErrorResponse opcode handle AttErrors.INVALID_HANDLE s)
    | None =>
        let requestMtu := currentMtu s in
        let s1 := setHandlingRequest true s in
        match collectReads attDb conn opcode requestMtu handles [] with
        | Waiting => Returned s1
        | Vanished handle =>
            Returned (sendErrorResponse opcode handle AttErrors.INVALID_HANDLE s1)
        | AllRead entries =>
            match classifyAll noFirsts entries with
            | Js.Throw e => Threw e s1
            | Js.Ok f => respondReadMultiple opcode f s1
            end
        end
    end.

(** *** WRITE_REQUEST and WRITE_COMMAND *)

(* case WRITE_REQUEST: case WRITE_COMMAND:
     var isCommand = opcode === WRITE_COMMAND
     if (data.length < 3) { isCommand || sendErrorResponse(opcode, 0, INVALID_PDU); return }
     var handle = data.readUInt16LE(1); var value = data.slice(3); var item = attDb[handle]
     if (!item) { isCommand || sendErrorResponse(opcode, handle, INVALID_HANDLE); return }
     var perm = checkWritePermission(item)
     if (perm !== 0) { isCommand || sendErrorResponse(opcode, handle, perm); return }
     if (!isCommand) isHandlingRequest = true
     item.authorizeWrite(connection, opcode, 0, Buffer.from(value), function(err) {
       if (connection.disconnected) return
       if (err) { if (!isCommand) sendErrorResponse(opcode, handle, err) }
       else {
         if (value.length > item.maxLength) {
           sendErrorResponse(opcode, handle, INVALID_ATTRIBUTE_VALUE_LENGTH); return
         }
         item.write(connection, opcode, 0, value, function(err) {
           if (!isCommand) {
             if (err) sendErrorResponse(opcode, handle, err)
             else sendResponse(Buffer.from([WRITE_RESPONSE]))
           }
         })
       }
     }) *)
Definition handleWrite (attDb : gmap Z Attribute) (conn : Connection)
    (opcode : Z) (pdu : list Z) (s : State) : State :=
  let isCommand := opcode =? WRITE_COMMAND in
  if Buf.len pdu <? 3 then
    if isCommand then s else sendErrorResponse opcode 0 AttErrors.INVALID_PDU s
  else
    let handle := Buf.readUInt16LE 1 pdu in
    let value := skipn 3 pdu in
    match attDb !! handle with
    | None => if isCommand then s else sendErrorResponse opcode handle AttErrors.INVALID_HANDLE s
    | Some item =>
        let perm := checkWritePermission conn item in
        if negb (perm =? 0) then
          if isCommand then s else sendErrorResponse opcode handle perm s
        else
          let s1 := if negb isCommand then setHandlingRequest true s else s in
          match authorizeWrite item opcode 0 value with
          | None => s1
          | Some err =>
              if disconnected conn then s1
              else if negb (err =? 0) then
                if negb isCommand then sendErrorResponse opcode handle err s1 else s1
              else if Buf.len value >? maxLength item then
                sendErrorResponse opcode handle AttErrors.INVALID_ATTRIBUTE_VALUE_LENGTH s1
              else
                match write item opcode 0 value with
                | None => s1
                | Some werr =>
                    if negb isCommand then
                      if negb (werr =? 0) then sendErrorResponse opcode handle werr s1
                      else sendResponse [WRITE_RESPONSE] s1
                    else s1
                end
          end
    end.

(** *** The data callback: registerOnDataFn(data => ...) *)

(* data[4] = AttErrors.UNLIKELY_ERROR *)
Definition patchErrorCode (pdu : list Z) : list Z :=
  firstn 4 pdu ++ [AttErrors.UNLIKELY_ERROR] ++ skipn 5 pdu.

(* The branch taken when the PDU answers the request in flight. *)
Definition onResponse (fuel : nat) (opcode : Z) (pdu : list Z) (cur : OutgoingRequest)
    (s : State) : Outcome :=
  if (opcode =? ERROR_RESPONSE) && negb (Buf.len pdu =? 5) then Returned s
  else
    let pdu1 := if (opcode =? ERROR_RESPONSE) && (nth 4 pdu 0 =? 0)
                then patchErrorCode pdu else pdu in
    let err := if opcode =? ERROR_RESPONSE then nth 4 pdu1 0 else 0 in
    let '(accepted, s1) := runHandler (handler cur) (responseOpcode cur) err pdu1 s in
    if negb accepted then Returned s1
    else
      let wasMtuExchange := responseOpcode cur =? EXCHANGE_MTU_RESPONSE in
      let s2 := setOutgoingRequest None s1 in
      if wasMtuExchange then
        match flushNotifications fuel s2 with
        | Returned s3 => Returned (sendNextRequest (sendNextIndication s3))
        | other => other
        end
      else Returned (sendNextRequest s2).

(* What follows the response branch: stray responses and requests that
   arrive while one is being handled are dropped, the rest goes through
   the switch. *)
Definition dispatch (attDb : gmap Z Attribute) (conn : Connection)
    (opcode : Z) (pdu : list Z) (s : State) : Outcome :=
  if isKnownResponseOpcode opcode then Returned s
  else if isHandlingRequest s && isKnownRequestOpcode opcode then Returned s
  else if opcode =? EXCHANGE_MTU_REQUEST then Returned (handleExchangeMtuRequest opcode pdu s)
  else if opcode =? READ_MULTIPLE_REQUEST then handleReadMultiple attDb conn opcode pdu s
  else if (opcode =? WRITE_REQUEST) || (opcode =? WRITE_COMMAND)
       then Returned (handleWrite attDb conn opcode pdu s)
  else Unmodelled.

(* data => {
     if (timedout) return
     if (data.length === 0) return
     if (data.length > currentMtu) return
     var opcode = data[0]
     if (currentOutgoingRequest !== null && currentOutgoingRequestIsSent
         && (opcode === currentOutgoingRequest.responseOpcode || opcode === ERROR_RESPONSE)) {
       ...response branch...; return
     }
     if (isKnownResponseOpcode(opcode)) return
     if (isHandlingRequest && isKnownRequestOpcode(opcode)) return
     switch (opcode) { ... }
   } *)
Definition onData (fuel : nat) (attDb : gmap Z Attribute) (conn : Connection)
    (pdu : list Z) (s : State) : Outcome :=
  if timedout s then Returned s
  else if Buf.len pdu =? 0 then Returned s
  else if Buf.len pdu >? currentMtu s then Returned s
  else
    let opcode := nth 0 pdu 0 in
    match currentOutgoingRequest s with
    | Some cur =>
        if currentOutgoingRequestIsSent s
           && ((opcode =? responseOpcode cur) || (opcode =? ERROR_RESPONSE))
        then onResponse fuel opcode pdu cur s
        else dispatch attDb conn opcode pdu s
    | None => dispatch attDb conn opcode pdu s
    end.

(** *** The client and server entry points *)

(* enqueueRequest(data, callback) *)
Definition enqueueRequest (pdu : list Z) (h : ResponseHandler) (s : State) : State :=
  sendNextRequest (setRequestQueue (push (mkRequest pdu h) (requestQueue s)) s).

(* this.exchangeMtu(callback), with clientRxMTU = 517 *)
Definition exchangeMtu (s : State) : State :=
  enqueueRequest [EXCHANGE_MTU_REQUEST; Buf.u8 517; Buf.u8 (Z.shiftr 517 8)] HExchangeMtu s.

(* this.notify(attributeHandle, attributeValue, sentCallback, completeCallback) *)
Definition notify (attributeHandle : Z) (attributeValue : list Z) (s : State) : State :=
  let buffer := [HANDLE_VALUE_NOTIFICATION] ++ Buf.uint16LE attributeHandle ++ attributeValue in
  if mtuExchangeOutstanding s
  then setNotificationQueue (push buffer (notificationQueue s)) s
  else sendDataFn (Buf.slice0 (currentMtu s) buffer) OnUserSent s.

(* this.indicate(attributeHandle, attributeValue, callback) *)
Definition indicate (attributeHandle : Z) (attributeValue : list Z) (s : State) : State :=
  let buffer := [HANDLE_VALUE_INDICATION] ++ Buf.uint16LE attributeHandle ++ attributeValue in
  sendNextIndication (setIndicationQueue (push buffer (indicationQueue s)) s).

(** *** Exchanges of the MTU, one after another

    currentMtu is assigned in two places only: the EXCHANGE_MTU_REQUEST case
    of the server and the parser closure of exchangeMtu. *)
Inductive MtuExchange : Type :=
| ServerHandles (requestPdu : list Z)       (* an Exchange MTU request of the peer *)
| ClientReceives (responsePdu : list Z).    (* the peer's response to exchangeMtu *)

(* The receive MTU carried by the PDU, clamped below by 23. *)
Definition receivedMtu (x : MtuExchange) : Z :=
  match x with
  | ServerHandles pdu => Z.max 23 (Buf.readUInt16LE 1 pdu)
  | ClientReceives pdu => Z.max 23 (Buf.readUInt16LE 1 pdu)
  end.

Definition wellFormed (x : MtuExchange) : bool :=
  match x with
  | ServerHandles pdu => Buf.len pdu =? 3
  | ClientReceives pdu => Buf.len pdu =? 3
  end.

Definition exchange (x : MtuExchange) (s : State) : State :=
  match x with
  | ServerHandles pdu => handleExchangeMtuRequest EXCHANGE_MTU_REQUEST pdu s
  | ClientReceives pdu => snd (exchangeMtuHandler 0 pdu s)
  end.

Definition exchanges (xs : list MtuExchange) (s : State) : State :=
  fold_left (fun acc x => exchange x acc) xs s.

(* The MTU after each exchange of a run. *)
Fixpoint mtuHistory (xs : list MtuExchange) (s : State) : list Z :=
  match xs with
  | [] => []
  | x :: rest => currentMtu (exchange x s) :: mtuHistory rest (exchange x s)
  end.

(* How often the value changes along a list that starts from [m]. *)
Fixpoint changes (m : Z) (ms : list Z) : nat :=
  match ms with
  | [] => O
  | m' :: rest => ((if Z.eqb m m' then O else 1%nat) + changes m' rest)%nat
  end.

End Att.

(** ** The GATT client cache: RangeMap and invalidateServices *)

Module Gatt.

(* A discovered service, as far as the cache maps are concerned. *)
Record Service : Type := mkService {
  svcUuid : string;
  svcIncluded : option (list (Z * Z * string))   (* start, end, uuid of each include *)
}.

(* An entry {start, end, value} of a RangeMap; a null value is a verified gap. *)
Record RangeMapItem : Type := mkItem {
  start : Z;
  stop : Z;                      (* the `end` property *)
  value : option Service
}.

Definition RangeMap : Type := list RangeMapItem.

Definition covers (index : Z) (item : RangeMapItem) : bool :=
  (start item <=? index) && (index <=? stop item).

(* this.get(index) *)
Definition get (index : Z) (map : RangeMap) : option RangeMapItem :=
  find (covers index) map.

(* this.remove(index): splice out the first item that covers index *)
Fixpoint remove (index : Z) (map : RangeMap) : RangeMap :=
  match map with
  | [] => []
  | item :: rest => if covers index item then rest else item :: remove index rest
  end.

(* this.insert(start, end, value): before the first item that starts after end *)
Fixpoint insert (start_ end_ : Z) (v : option Service) (map : RangeMap) : RangeMap :=
  match map with
  | [] => [mkItem start_ end_ v]
  | item :: rest =>
      if end_ <? start item then mkItem start_ end_ v :: item :: rest
      else item :: insert start_ end_ v rest
  end.

Record GattCache : Type := mkGattCache {
  hasAllPrimaryServices : bool;
  allPrimaryServices : RangeMap;
  secondaryServices : RangeMap;
  primaryServicesByUUID : gmap string RangeMap
}.

(* clearGattCache() *)
Definition emptyCache : GattCache := mkGattCache false [] [] ∅.

(** The client state that invalidateServices touches.  [strayFlag] is the
    binding named `hasAllPrimaryServices` outside the cache object: no such
    variable is declared, so sloppy code creates it on assignment. *)
Record Client : Type := mkClient {
  gattCache : GattCache;
  strayFlag : option bool;
  storeCalls : list GattCache;     (* the cache at each call of storeGattCache() *)
  callbacks : nat                  (* calls of the user's callback *)
}.

(* An element of the `maps` array. *)
Inductive MapRef : Type :=
| TheAllPrimaryServices
| TheSecondaryServices
| TheByUuidObject.       (* gattCache.primaryServicesByUUID itself, not one of its maps *)

(* var maps = [gattCache.allPrimaryServices, gattCache.secondaryServices]
   for (var uuidKey in gattCache.primaryServicesByUUID) {
     maps.push(gattCache.primaryServicesByUUID)
   } *)
Definition mapsOf (c : GattCache) : list MapRef :=
  [TheAllPrimaryServices; TheSecondaryServices]
  ++ repeat TheByUuidObject (size (primaryServicesByUUID c)).

(* map.forEach(v => { if (v.start <= endHandle && v.end >= startHandle) toRemove.push(v.start) }) *)
Definition toRemove (startHandle endHandle : Z) (map : RangeMap) : list Z :=
  List.map start
    (List.filter (fun v => (start v <=? endHandle) && (stop v >=? startHandle)) map).

(* toRemove.forEach(handle => { map.remove(handle); modified = true }) *)
Definition sweepMap (startHandle endHandle : Z) (map : RangeMap) : RangeMap * bool :=
  let handles := toRemove startHandle endHandle map in
  (fold_left (fun m h => remove h m) handles map,
   match handles with [] => false | _ => true end).

(* maps.forEach(map => { ... }); the third kind of element has no forEach *)
Fixpoint sweep (maps : list MapRef) (startHandle endHandle : Z)
    (c : GattCache) (modified : bool) : Js.result bool * GattCache :=
  match maps with
  | [] => (Js.Ok modified, c)
  | TheAllPrimaryServices :: rest =>
      let '(m, changed) := sweepMap startHandle endHandle (allPrimaryServices c) in
      sweep rest startHandle endHandle
        (mkGattCache (hasAllPrimaryServices c) m (secondaryServices c)
                     (primaryServicesByUUID c))
        (modified || changed)
  | TheSecondaryServices :: rest =>
      let '(m, changed) := sweepMap startHandle endHandle (secondaryServices c) in
      sweep rest startHandle endHandle
        (mkGattCache (hasAllPrimaryServices c) (allPrimaryServices c) m
                     (primaryServicesByUUID c))
        (modified || changed)
  | TheByUuidObject :: _ => (Js.Throw Js.TypeError, c)
  end.

(* if (modified) { hasAllPrimaryServices = false; storeGattCache() }
   callback(); doneNextRequest()
   The assignment names no property of gattCache.  Strict code throws a
   ReferenceError there; sloppy code sets the stray binding. *)
Definition finish (strict : bool) (modified : bool) (cl : Client) : Js.result unit * Client :=
  if modified then
    if strict then (Js.Throw Js.ReferenceError, cl)
    else
      (Js.Ok tt,
       mkClient (gattCache cl) (Some false) (storeCalls cl ++ [gattCache cl])
                (S (callbacks cl)))
  else (Js.Ok tt, mkClient (gattCache cl) (strayFlag cl) (storeCalls cl) (S (callbacks cl))).

Definition withCache (c : GattCache) (cl : Client) : Client :=
  mkClient c (strayFlag cl) (storeCalls cl) (callbacks cl).

(* The closure that invalidateServices hands to enqueueRequest:
     var modified = false
     if (startHandle === 0x0001 && endHandle === 0xffff) {
       clearGattCache(); modified = true
     } else {
       var maps = ...
       maps.forEach(map => { ... })

       // ...
       [gattCache.allPrimaryServices, gattCache.secondaryServices].forEach(map => { ... })
     }
     if (modified) { ... }
     callback(); doneNextRequest()
   No semicolon separates the two statements of the else branch and the
   second begins with `[`, so they are one expression:
     maps.forEach(...)[gattCache.allPrimaryServices, gattCache.secondaryServices].forEach(...)
   maps.forEach(...) runs the sweep and yields undefined; indexing
   undefined throws.  The else branch therefore ends in a TypeError once
   the sweep is done. *)
Definition invalidateRequest (strict : bool) (startHandle endHandle : Z) (cl : Client)
  : Js.result unit * Client :=
  if (startHandle =? 1) && (endHandle =? 65535) then
    finish strict true (withCache emptyCache cl)
  else
    match sweep (mapsOf (gattCache cl)) startHandle endHandle (gattCache cl) false with
    | (Js.Throw e, c1) => (Js.Throw e, withCache c1 cl)
    | (Js.Ok _, c1) => (Js.Throw Js.TypeError, withCache c1 cl)
    end.

Definition validHandle (h : Z) : bool := (1 <=? h) && (h <=? 65535).

(* this.invalidateServices(startHandle, endHandle, callback), called when no
   other request is pending, so that the closure runs at once. *)
Definition invalidateServices (strict : bool) (startHandle endHandle : Z) (cl : Client)
  : Js.result unit * Client :=
  if negb (validHandle startHandle) then (Js.Throw Js.Error, cl)
  else if negb (validHandle endHandle) then (Js.Throw Js.Error, cl)
  else if negb (startHandle <=? endHandle) then (Js.Throw Js.Error, cl)
  else invalidateRequest strict startHandle endHandle cl.

(* Whether an interval of the map meets [startHandle, endHandle]. *)
Definition overlaps (startHandle endHandle : Z) (map : RangeMap) : bool :=
  existsb (fun v => (start v <=? endHandle) && (stop v >=? startHandle)) map.

(** A range map whose intervals are in ascending order and apart, all above
    [lower]. *)
Fixpoint ordered (lower : Z) (map : RangeMap) : Prop :=
  match map with
  | [] => True
  | item :: rest => lower < start item /\ start item <= stop item /\ ordered (stop item) rest
  end.

Definition meets (startHandle endHandle : Z) (v : RangeMapItem) : bool :=
  (start v <=? endHandle) && (stop v >=? startHandle).

End Gatt.

(** ** Persistence of keys: the IRK table and resolveAddress *)

Module Storage.

(* fixAddressToPath / fixAddressFromPath *)
Definition fixAddressToPath (address : string) : string :=
  Buf.replaceChar ":"%char "-"%char address.
Definition fixAddressFromPath (address : string) : string :=
  Buf.replaceChar "-"%char ":"%char address.

(** The cipher object made by crypto.createCipheriv('AES-128-ECB', key, ''):
    it is determined by its key. *)
Record Cipher : Type := mkCipher { cipherKey : list Z }.

(* interface BleIrks *)
Record BleIrks : Type := mkIrks { aes : Cipher; irk : list Z }.

(** A JavaScript object used as a table with string keys: `for ... in`
    visits the keys in the order of their first insertion. *)
Definition Table (V : Type) : Type := list (string * V).

Fixpoint tableSet {V : Type} (k : string) (v : V) (t : Table V) : Table V :=
  match t with
  | [] => [(k, v)]
  | (k', v') :: rest =>
      if String.eqb k' k then (k, v) :: rest else (k', v') :: tableSet k v rest
  end.

Definition tableDelete {V : Type} (k : string) (t : Table V) : Table V :=
  List.filter (fun kv => negb (String.eqb (fst kv) k)) t.

(* The part of a BleStorageCacheEntry that address resolution reads. *)
Record CacheEntry : Type := mkEntry { irks : Table BleIrks }.

(* const cache: { [ownAddress: string]: BleStorageCacheEntry } *)
Abbreviation Cache := (gmap string CacheEntry).

(* peerRandomAddress.replace(/:/g, '') *)
Definition stripColons (address : string) : string := Buf.removeChar ":"%char address.

(* crypto.createCipheriv: the key of AES-128 has 16 bytes *)
Definition createCipheriv (key : list Z) : Js.result Cipher :=
  if Nat.eqb (length key) 16 then Js.Ok (mkCipher key) else Js.Throw Js.RangeError.

(* The place of keys.json in init():
     if (keys.irk) {
       const irkBuffer = Buffer.from(keys.irk, 'hex')
       const irkBufferRev = irkBuffer          <- the same Buffer
       irkBufferRev.reverse()
       const aes = crypto.createCipheriv('AES-128-ECB', irkBufferRev, emptyBuffer)
       cacheEntry.irks[peerAddress] = { aes, irk: irkBuffer }
     }
   inside a try block whose catch drops the peer. *)
Definition loadIrk (t : Table BleIrks) (peer : string * option string) : Table BleIrks :=
  match snd peer with
  | None => t
  | Some hex =>
      if String.eqb hex "" then t
      else
        let irkBufferRev := rev (Buf.fromHex hex) in
        match createCipheriv irkBufferRev with
        | Js.Ok c => tableSet (fst peer) (mkIrks c irkBufferRev) t
        | Js.Throw _ => t
        end
  end.

Section Store.

(** What readdirSync and readFileSync find under <own>/bonds: the peer
    directories in listing order, each with the `irk` member of its
    keys.json when that file parses. *)
Variable bondsOnDisk : string -> list (string * option string).

(** AES-128: key and block to block. *)
Variable aes128 : list Z -> list Z -> list Z.

(* init(ownAddress), as far as the IRK table goes *)
Definition init (ownAddress : string) (cache : Cache) : Cache :=
  let ownAddress := fixAddressToPath ownAddress in
  match cache !! ownAddress with
  | Some _ => cache
  | None => <[ownAddress := mkEntry (fold_left loadIrk (bondsOnDisk ownAddress) [])]> cache
  end.

Definition entryOf (ownAddress : string) (cache : Cache) : CacheEntry :=
  match cache !! ownAddress with
  | Some e => e
  | None => mkEntry []
  end.

(* storeKeys(ownAddress, peerAddress, mitm, sc, irk, ...), as far as the
   IRK table goes:
     if (irk) {
       const irkRev = Buffer.from(irk); irkRev.reverse()
       cacheEntry.irks[peerAddress] = { aes: createCipheriv('AES-128-ECB', irkRev, ''), irk }
     } *)
Definition storeKeys (ownAddress peerAddress : string) (irk_ : option (list Z))
    (cache : Cache) : Js.result unit * Cache :=
  let ownAddress := fixAddressToPath ownAddress in
  let peerAddress := fixAddressToPath peerAddress in
  let cache1 := init ownAddress cache in
  match irk_ with
  | None => (Js.Ok tt, cache1)
  | Some key =>
      match createCipheriv (rev key) with
      | Js.Throw e => (Js.Throw e, cache1)
      | Js.Ok c =>
          (Js.Ok tt,
           <[ownAddress :=
               mkEntry (tableSet peerAddress (mkIrks c key) (irks (entryOf ownAddress cache1)))]>
             cache1)
      end
  end.

(* cipher.update(block) for one block *)
Definition update (c : Cipher) (block : list Z) : list Z := aes128 (cipherKey c) block.

(* timingSafeEqual(a, b): crypto.timingSafeEqual wants equal lengths *)
Definition timingSafeEqual (a b : list Z) : Js.result bool :=
  if Nat.eqb (length a) (length b)
  then Js.Ok (bool_decide (a = b))
  else Js.Throw Js.RangeError.

(* const peerRand = Buffer.alloc(16)
   Buffer.from(peerRandomAddress.substr(2, 6), 'hex').copy(peerRand, 13) *)
Definition peerRandOf (stripped : string) : list Z :=
  firstn 16 (repeat 0 13 ++ Buf.fromHex (Buf.substr 2 6 stripped) ++ repeat 0 3).

(* const hash = Buffer.from(peerRandomAddress.substr(8), 'hex') *)
Definition hashOf (stripped : string) : list Z :=
  Buf.fromHex (Buf.substrFrom 8 stripped).

(* for (const candidatePeerAddress in irks) {
     if (timingSafeEqual(irks[candidatePeerAddress].aes.update(peerRand).subarray(13), hash))
       return fixAddressFromPath(candidatePeerAddress)
   }
   return null *)
Fixpoint firstMatch (candidates : Table BleIrks) (peerRand hash : list Z)
  : Js.result (option string) :=
  match candidates with
  | [] => Js.Ok None
  | (candidatePeerAddress, e) :: rest =>
      try! same := timingSafeEqual (skipn 13 (update (aes e) peerRand)) hash in
      if same then Js.Ok (Some (fixAddressFromPath candidatePeerAddress))
      else firstMatch rest peerRand hash
  end.

(* resolveAddress(ownAddress, peerRandomAddress) *)
Definition resolveAddress (ownAddress peerRandomAddress : string) (cache : Cache)
  : Js.result (option string) * Cache :=
  let ownAddress := fixAddressToPath ownAddress in
  let stripped := stripColons peerRandomAddress in
  let peerRand := peerRandOf stripped in
  let hash := hashOf stripped in
  let cache1 := init ownAddress cache in
  (firstMatch (irks (entryOf ownAddress cache1)) peerRand hash, cache1).

(** The address-hash function of the specification: encrypt the block that
    carries prand in its last three bytes under the byte-reversed IRK and
    keep the last three bytes. *)
Definition ah (irk_ prand : list Z) : list Z :=
  skipn 13 (aes128 (rev irk_) (repeat 0 13 ++ prand)).

(** The IRK behind an entry of the table: the cipher was keyed with its
    bytes reversed. *)
Definition storedIrk (e : BleIrks) : list Z := rev (cipherKey (aes e)).

(* prand and hash of tt:aa:aa:aa:bb:bb:bb *)
Definition prandOf (peerRandomAddress : string) : list Z :=
  Buf.fromHex (Buf.substr 2 6 (stripColons peerRandomAddress)).
Definition addressHash (peerRandomAddress : string) : list Z :=
  hashOf (stripColons peerRandomAddress).

(** A random address in the form tt:aa:aa:aa:bb:bb:bb. *)
Definition wellFormedAddress (peerRandomAddress : string) : bool :=
  Nat.eqb (length (prandOf peerRandomAddress)) 3
  && Nat.eqb (length (addressHash peerRandomAddress)) 3.

End Store.

End Storage.

(** ** The HCI adapter: one command in flight *)

Module Hci.

Definition HCI_COMMAND : Z := 0x01.      (* HciPackage.COMMAND *)
Definition HCI_EVENT : Z := 0x04.        (* HciPackage.EVENT *)
Definition CMD_COMPLETE : Z := 0x0e.
Definition CMD_STATUS : Z := 0x0f.

(** A queued command {opcode, buffer, callback, handle}.  A callback gets
    the status and the rest of the event; what it does to the adapter is
    to send further commands. *)
Inductive Command : Type :=
| mkCommand (opcode : Z) (buffer : list Z)
            (callback : option (Z -> list Z -> list Command))
            (handle : option Z).

Definition cmdOpcode (c : Command) : Z := match c with mkCommand o _ _ _ => o end.
Definition cmdBuffer (c : Command) : list Z := match c with mkCommand _ b _ _ => b end.
Definition cmdCallback (c : Command) : option (Z -> list Z -> list Command) :=
  match c with mkCommand _ _ cb _ => cb end.
Definition cmdHandle (c : Command) : option Z := match c with mkCommand _ _ _ h => h end.

(* pendingCommand: {opcode, callback, handle, ignoreResponse} *)
Record Pending : Type := mkPending {
  pOpcode : Z;
  pHandle : option Z;
  pCallback : option (Z -> list Z -> list Command);
  ignoreResponse : bool
}.

Inductive Effect : Type :=
| Write (packet : list Z)               (* transport.write *)
| Callback (opcode status : Z).         (* the callback of the command `opcode` runs *)

Record Adapter : Type := mkAdapter {
  isStopped : bool;
  pendingCommand : option Pending;
  commandQueue : list Command;
  trace : list Effect
}.

Definition newAdapter : Adapter := mkAdapter false None [] [].

(* new PacketWriter().u8(COMMAND).u16(opcode).u8(buffer.length).toBuffer() *)
Definition commandHeader (opcode : Z) (buffer : list Z) : list Z :=
  [Buf.u8 HCI_COMMAND; Buf.u8 (Z.land opcode 255); Buf.u8 (Z.land (Z.shiftr opcode 8) 255);
   Buf.u8 (Buf.len buffer)].

(* reallySendCommand(opcode, buffer, callback, handle) *)
Definition reallySendCommand (c : Command) (a : Adapter) : Adapter :=
  if isStopped a then a
  else
    mkAdapter (isStopped a)
      (Some (mkPending (cmdOpcode c) (cmdHandle c) (cmdCallback c) false))
      (commandQueue a)
      (trace a ++ [Write (commandHeader (cmdOpcode c) (cmdBuffer c) ++ cmdBuffer c)]).

(* sendCommand(opcode, buffer, callback, handle) *)
Definition sendCommand (c : Command) (a : Adapter) : Adapter :=
  if isStopped a then a
  else
    match pendingCommand a with
    | Some _ => mkAdapter (isStopped a) (pendingCommand a) (commandQueue a ++ [c]) (trace a)
    | None => reallySendCommand c a
    end.

(* A callback runs: its commands go through sendCommand in order. *)
Definition runCallback (cmds : list Command) (a : Adapter) : Adapter :=
  fold_left (fun acc c => sendCommand c acc) cmds a.

(* class PacketReader, with throwFn = throwInvalidLength *)
Record Reader : Type := mkReader { buf : list Z; rpos : nat }.

Definition u8 (r : Reader) : Js.result (Z * Reader) :=
  if Nat.ltb (length (buf r)) (rpos r + 1) then Js.Throw Js.Error
  else Js.Ok (nth (rpos r) (buf r) 0, mkReader (buf r) (rpos r + 1)).

Definition u16 (r : Reader) : Js.result (Z * Reader) :=
  if Nat.ltb (length (buf r)) (rpos r + 2) then Js.Throw Js.Error
  else Js.Ok (Z.lor (nth (rpos r) (buf r) 0) (Z.shiftl (nth (rpos r + 1) (buf r) 0) 8),
              mkReader (buf r) (rpos r + 2)).

Definition getRemainingBuffer (r : Reader) : list Z := skipn (rpos r) (buf r).

Inductive Outcome : Type :=
| Returned (a : Adapter)
| Threw (e : Js.Exn) (a : Adapter)
| Unmodelled.                   (* ACL data and the events of other handlers *)

(* The else branch for a matching event:
     const pc = this.pendingCommand
     this.pendingCommand = null
     if (this.commandQueue.length !== 0) {
       const cmd = this.commandQueue.shift()
       this.reallySendCommand(cmd.opcode, cmd.buffer, cmd.callback, cmd.handle)
     }
     if (pc.callback && !pc.ignoreResponse) pc.callback(status, r) *)
Definition completePending (pc : Pending) (status : Z) (r : Reader) (a : Adapter) : Adapter :=
  let a1 := mkAdapter (isStopped a) None (commandQueue a) (trace a) in
  let a2 :=
    match commandQueue a1 with
    | cmd :: rest =>
        reallySendCommand cmd (mkAdapter (isStopped a1) (pendingCommand a1) rest (trace a1))
    | [] => a1
    end in
  match pCallback pc with
  | Some cb =>
      if negb (ignoreResponse pc) then
        runCallback (cb status (getRemainingBuffer r))
          (mkAdapter (isStopped a2) (pendingCommand a2) (commandQueue a2)
                     (trace a2 ++ [Callback (pOpcode pc) status]))
      else a2
  | None => a2
  end.

(* The CMD_COMPLETE / CMD_STATUS branch of onData. *)
Definition onCommandEvent (eventCode : Z) (r : Reader) (a : Adapter) : Outcome :=
  let readStatus :=
    if eventCode =? CMD_STATUS
    then (try! sr := u8 r in Js.Ok (Some (fst sr), snd sr))
    else Js.Ok (None, r) in
  match readStatus with
  | Js.Throw e => Threw e a
  | Js.Ok (status0, r1) =>
      match u8 r1 with
      | Js.Throw e => Threw e a
      | Js.Ok (_numPkts, r2) =>
          match u16 r2 with
          | Js.Throw e => Threw e a
          | Js.Ok (opcode, r3) =>
              match pendingCommand a with
              | None => Returned a
              | Some pc =>
                  if negb (pOpcode pc =? opcode) then Returned a
                  else if eventCode =? CMD_COMPLETE then
                    match u8 r3 with
                    | Js.Throw e => Threw e a
                    | Js.Ok (status, r4) => Returned (completePending pc status r4 a)
                    end
                  else
                    match status0 with
                    | Some status => Returned (completePending pc status r3 a)
                    | None => Returned a
                    end
              end
          end
      end
  end.

(* onData(data), run with the adapter as its receiver *)
Definition onData (packet : list Z) (a : Adapter) : Outcome :=
  if Nat.eqb (length packet) 0 then Threw Js.Error a
  else
    match u8 (mkReader packet 0) with
    | Js.Throw e => Threw e a
    | Js.Ok (packetType, r) =>
        if packetType =? HCI_EVENT then
          if Nat.ltb (length packet) 3 then Threw Js.Error a
          else
            match u8 r with
            | Js.Throw e => Threw e a
            | Js.Ok (eventCode, r1) =>
                match u8 r1 with
                | Js.Throw e => Threw e a
                | Js.Ok (paramLen, r2) =>
                    if negb (paramLen + 3 =? Buf.len packet) then Threw Js.Error a
                    else if (eventCode =? CMD_COMPLETE) || (eventCode =? CMD_STATUS)
                    then onCommandEvent eventCode r2 a
                    else Unmodelled
                end
            end
        else Unmodelled
    end.

(* handleDisconnectionComplete, the part on commands, for a handle that
   names an active connection:
     this.commandQueue = this.commandQueue.filter(cmd => cmd.handle !== handle)
     if (this.pendingCommand !== null && this.pendingCommand.handle === handle)
       this.pendingCommand.ignoreResponse = true *)
Definition dropCommandsOf (handle : Z) (a : Adapter) : Adapter :=
  mkAdapter (isStopped a)
    (match pendingCommand a with
     | Some pc =>
         if bool_decide (pHandle pc = Some handle)
         then Some (mkPending (pOpcode pc) (pHandle pc) (pCallback pc) true)
         else Some pc
     | None => None
     end)
    (List.filter (fun c => negb (bool_decide (cmdHandle c = Some handle))) (commandQueue a))
    (trace a).

(* The events CMD_STATUS and CMD_COMPLETE for `opcode`, as packets. *)
Definition commandStatusEvent (status numPkts opcode : Z) : list Z :=
  [HCI_EVENT; CMD_STATUS; 4; status; numPkts; opcode mod 256; opcode / 256].

Definition commandCompleteEvent (numPkts opcode status : Z) (returnParams : list Z) : list Z :=
  [HCI_EVENT; CMD_COMPLETE; 4 + Buf.len returnParams; numPkts; opcode mod 256; opcode / 256;
   status] ++ returnParams.

(* The packet written for a command, and the pending slot it occupies. *)
Definition packetOf (c : Command) : list Z :=
  commandHeader (cmdOpcode c) (cmdBuffer c) ++ cmdBuffer c.

Definition pendingOf (c : Command) : Pending :=
  mkPending (cmdOpcode c) (cmdHandle c) (cmdCallback c) false.

(* A Command Complete or Command Status event of the controller. *)
Inductive CommandEvent : Type :=
| CommandComplete (numPkts status : Z) (returnParams : list Z)
| CommandStatus (status numPkts : Z).

Definition eventPacket (opcode : Z) (ev : CommandEvent) : list Z :=
  match ev with
  | CommandComplete numPkts status returnParams =>
      commandCompleteEvent numPkts opcode status returnParams
  | CommandStatus status numPkts => commandStatusEvent status numPkts opcode
  end.

Definition eventStatus (ev : CommandEvent) : Z :=
  match ev with
  | CommandComplete _ status _ => status
  | CommandStatus status _ => status
  end.

(* What is left in the reader when the callback gets it. *)
Definition eventRest (ev : CommandEvent) : list Z :=
  match ev with
  | CommandComplete _ _ returnParams => returnParams
  | CommandStatus _ _ => []
  end.

(* The commands the callback of the pending command sends, if it is called. *)
Definition issuedBy (pc : Pending) (ev : CommandEvent) : list Command :=
  match pCallback pc with
  | Some cb => if ignoreResponse pc then [] else cb (eventStatus ev) (eventRest ev)
  | None => []
  end.

(* The trace entry of that call. *)
Definition calledBy (pc : Pending) (ev : CommandEvent) : list Effect :=
  match pCallback pc with
  | Some _ => if ignoreResponse pc then [] else [Callback (pOpcode pc) (eventStatus ev)]
  | None => []
  end.

(** *** The listener as the constructor registers it *)

(** The constructor of HciAdapter ends with
      this.transport.on('data', this.onData)
    onData is a method of the class and is handed over as it is: it is not
    bound and it is no arrow function.  An EventEmitter calls a listener
    with itself as receiver, so when the transport emits 'data' the body
    of onData runs with `this` = the transport.  [this] below is that
    object, given by what a read of a property finds on it, on the object
    or on its prototypes.  The adapter is another object, which the
    listener holds no reference to: it is handed through as it is. *)

(* v === n, for a number n *)
Definition isNumber (v : Js.Val) (n : Z) : bool :=
  match v with Js.VNum m => m =? n | _ => false end.

(* The CMD_COMPLETE / CMD_STATUS branch of onData with `this` = the
   transport:
     if (eventCode === BleEvents.CMD_STATUS) status = r.u8()
     const numPkts = r.u8()
     const opcode = r.u16()
     if (this.pendingCommand === null || this.pendingCommand.opcode !== opcode) {
     } else { ... }
   The else branch would go on with the properties of the transport; it
   takes a transport that has a pendingCommand of its own with the opcode
   of the event, and is not embedded. *)
Definition onCommandEventAt (this : Js.Val) (eventCode : Z) (r : Reader) (a : Adapter)
  : Outcome :=
  let readStatus :=
    if eventCode =? CMD_STATUS
    then (try! sr := u8 r in Js.Ok (Some (fst sr), snd sr))
    else Js.Ok (None, r) in
  match readStatus with
  | Js.Throw e => Threw e a
  | Js.Ok (_, r1) =>
      match u8 r1 with
      | Js.Throw e => Threw e a
      | Js.Ok (_numPkts, r2) =>
          match u16 r2 with
          | Js.Throw e => Threw e a
          | Js.Ok (opcode, _) =>
              match Js.getProp this "pendingCommand" with
              | Js.Throw e => Threw e a
              | Js.Ok pending =>
                  if Js.isNull pending then Returned a
                  else
                    match Js.getProp pending "opcode" with
                    | Js.Throw e => Threw e a
                    | Js.Ok op => if negb (isNumber op opcode) then Returned a else Unmodelled
                    end
              end
          end
      end
  end.

(* transport.emit('data', data): onData(data) with `this` = the transport *)
Definition onTransportData (this : Js.Val) (packet : list Z) (a : Adapter) : Outcome :=
  if Nat.eqb (length packet) 0 then Threw Js.Error a
  else
    match u8 (mkReader packet 0) with
    | Js.Throw e => Threw e a
    | Js.Ok (packetType, r) =>
        if packetType =? HCI_EVENT then
          if Nat.ltb (length packet) 3 then Threw Js.Error a
          else
            match u8 r with
            | Js.Throw e => Threw e a
            | Js.Ok (eventCode, r1) =>
                match u8 r1 with
                | Js.Throw e => Threw e a
                | Js.Ok (paramLen, r2) =>
                    if negb (paramLen + 3 =? Buf.len packet) then Threw Js.Error a
                    else if (eventCode =? CMD_COMPLETE) || (eventCode =? CMD_STATUS)
                    then onCommandEventAt this eventCode r2 a
                    else Unmodelled
                end
            end
        else Unmodelled
    end.

End Hci.

(** ** Concrete sessions used by the properties below *)

Module Scenario.

Import Att.

Definition plainConnection : Connection := mkConnection false false false false false.

Definition noAttributes : gmap Z Attribute := ∅.

(* A parser closure that takes every response. *)
Definition acceptAll : ResponseHandler := HParser (fun _ _ => true).

(* Read requests for the handles 3, 4 and 5, and a one-byte read response. *)
Definition readRequest (handle : Z) : list Z := [READ_REQUEST; handle; 0].
Definition readResponse : list Z := [READ_RESPONSE; 42].

(* One request is issued, reported as sent, and answered. *)
Definition oneRequestIssued : State :=
  runSentCallback OnRequestSent (enqueueRequest (readRequest 3) acceptAll initial).

(* Three requests are issued and the first is reported as sent. *)
Definition threeRequestsIssued : State :=
  runSentCallback OnRequestSent
    (enqueueRequest (readRequest 5) acceptAll
       (enqueueRequest (readRequest 4) acceptAll
          (enqueueRequest (readRequest 3) acceptAll initial))).

(* Exchange MTU requests of a peer announcing 100 and then 200 bytes. *)
Definition mtuRequest (clientRxMTU : Z) : list Z :=
  [EXCHANGE_MTU_REQUEST; clientRxMTU mod 256; clientRxMTU / 256].

(* This device has sent its Exchange MTU request and the lower layer has
   reported it as sent. *)
Definition mtuRequestOutstanding : State :=
  runSentCallback OnRequestSent (exchangeMtu initial).

Definition mtuResponse : list Z := [EXCHANGE_MTU_RESPONSE; 5; 2].   (* server MTU 517 *)

Definition heldNotification : list Z := [HANDLE_VALUE_NOTIFICATION; 0x10; 0x00; 0x01].

(* Handle 3 is readable and its onRead handler reports the application
   error 0x80; handle 5 has readPerm 'not-permitted'. *)
Definition failingReader : Attribute :=
  mkAttribute Open NotPermitted 512
    (fun _ _ => Some (0x80, [])) (fun _ _ _ => Some 0) (fun _ _ _ => Some 0).

Definition unreadable : Attribute :=
  mkAttribute NotPermitted NotPermitted 512
    (fun _ _ => Some (0, [])) (fun _ _ _ => Some 0) (fun _ _ _ => Some 0).

Definition readMultipleDb : gmap Z Attribute :=
  <[3 := failingReader]> (<[5 := unreadable]> ∅).

Definition readMultipleRequest : list Z := [READ_MULTIPLE_REQUEST; 3; 0; 5; 0].

(* Handle 3 is a characteristic value with writePerm 'open' and maxLength 2
   that stores what is written. *)
Definition twoByteValue : Attribute :=
  mkAttribute Open Open 2
    (fun _ _ => Some (0, [])) (fun _ _ _ => Some 0) (fun _ _ _ => Some 0).

Definition writeDb : gmap Z Attribute := <[3 := twoByteValue]> ∅.

(* Three bytes written to handle 3, as a command and as a request. *)
Definition writeCommand3 : list Z := [WRITE_COMMAND; 3; 0; 1; 2; 3].
Definition writeRequest3 : list Z := [WRITE_REQUEST; 3; 0; 1; 2; 3].

(* Handle 7 is readable and holds one byte. *)
Definition readable : Attribute :=
  mkAttribute Open NotPermitted 512
    (fun _ _ => Some (0, [9])) (fun _ _ _ => Some 0) (fun _ _ _ => Some 0).

Definition readMultipleDb2 : gmap Z Attribute :=
  <[7 := readable]> (<[5 := unreadable]> ∅).

Definition readMultipleRequest2 : list Z := [READ_MULTIPLE_REQUEST; 7; 0; 5; 0].

(* A cache of capacity 1 and one of capacity 2, before any add. *)
Definition cacheOfCapacity (n : Z) : Utils.DuplicateCache :=
  Utils.mkCache None None ∅ n ∅ 0%nat [].

(* A peer without services has been searched completely: one verified gap
   over all handles and hasAllPrimaryServices set. *)
Definition searchedEmptyPeer : Gatt.Client :=
  Gatt.mkClient (Gatt.mkGattCache true [Gatt.mkItem 1 65535 None] [] ∅) None [] 0.

(* A peer with the Generic Access service at handles 1..5. *)
Definition gapService : Gatt.Service :=
  Gatt.mkService "00001800-0000-1000-8000-00805F9B34FB" None.

Definition oneServiceKnown : Gatt.Client :=
  Gatt.mkClient
    (Gatt.mkGattCache false [Gatt.mkItem 1 5 (Some gapService)] []
       {[ "00001800-0000-1000-8000-00805F9B34FB"%string := [Gatt.mkItem 1 5 (Some gapService)] ]})
    None [] 0.

(* A bond store without files, a stand-in block function of the right
   shape, and one stored IRK. *)
Definition noBonds : string -> list (string * option string) := fun _ => [].

Definition shiftCipher (key block : list Z) : list Z :=
  List.map (fun b => (b + nth 0 key 0) mod 256) block.

Definition peerIrk : list Z := [1; 2; 3; 4; 5; 6; 7; 8; 9; 10; 11; 12; 13; 14; 15; 16].

Definition ownAddress : string := "00:11:22:33:44:55:66".
Definition peerIdentity : string := "00:AA:BB:CC:DD:EE:FF".

Definition cacheWithIrk : Storage.Cache :=
  snd (Storage.storeKeys noBonds ownAddress peerIdentity (Some peerIrk) ∅).

(* prand 42:1F:9A and the three bytes shiftCipher gives for it under the
   reversed IRK. *)
Definition resolvableAddress : string := "01:42:1F:9A:52:2F:AA".

(* An adapter with the command Reset (0x0c03) pending, whose callback sends
   Read Buffer Size (0x1005), and with Set Event Mask (0x0c01) queued. *)
Definition readBufferSize : Hci.Command := Hci.mkCommand 0x1005 [] None None.
Definition setEventMask : Hci.Command :=
  Hci.mkCommand 0x0c01 [0x90; 0x88; 0x00; 0x02; 0x00; 0x80; 0x00; 0x20] None None.
Definition resetPending : Hci.Pending :=
  Hci.mkPending 0x0c03 None (Some (fun _ _ => [readBufferSize])) false.

Definition adapterWithQueue : Hci.Adapter :=
  Hci.mkAdapter false (Some resetPending) [setEventMask] [].

(* A transport as class Transport declares it: an EventEmitter with a
   write method.  Neither the object nor EventEmitter.prototype nor
   Object.prototype has a property of the adapter's names. *)
Definition socketTransport : Js.Val :=
  Js.VObj [("write", Js.VObj []); ("_eventsCount", Js.VNum 1)].

End Scenario.

(** ** Numbers and strings of the language *)

Module Num.

(** A number as the code computes with it: an integer, or NaN. *)
Definition t : Type := option Z.

(* ToUint32 and ToInt32 of an integer *)
Definition toUint32 (n : Z) : Z := n mod 4294967296.
Definition toInt32 (n : Z) : Z :=
  let u := toUint32 n in if u <? 2147483648 then u else u - 4294967296.

(* a & b, a | b, a << k, a >> k, a >>> k on integers *)
Definition and (a b : Z) : Z := toInt32 (Z.land (toInt32 a) (toInt32 b)).
Definition or (a b : Z) : Z := toInt32 (Z.lor (toInt32 a) (toInt32 b)).
Definition shl (a k : Z) : Z := toInt32 (Z.shiftl (toInt32 a) (k mod 32)).
Definition shr (a k : Z) : Z := Z.shiftr (toInt32 a) (k mod 32).
Definition ushr (a k : Z) : Z := Z.shiftr (toUint32 a) (k mod 32).

(* The byte Buffer.from([x]) and buf[i] = x store for a number x. *)
Definition toByte (x : t) : Z :=
  match x with
  | Some n => n mod 256
  | None => 0
  end.

(* StrWhiteSpaceChar, among the characters below 256 *)
Definition isWhiteSpace (c : ascii) : bool :=
  existsb (N.eqb (Ascii.N_of_ascii c)) [9; 10; 11; 12; 13; 32; 160]%N.

Fixpoint trimStart (s : string) : string :=
  match s with
  | String c rest => if isWhiteSpace c then trimStart rest else s
  | EmptyString => s
  end.

(* The longest prefix of hexadecimal digits, as a number; [seen] tells
   whether a digit has been read. *)
Fixpoint hexPrefix (s : string) (acc : Z) (seen : bool) : t :=
  match s with
  | String c rest =>
      match Buf.hexDigitValue c with
      | Some d => hexPrefix rest (16 * acc + d) true
      | None => if seen then Some acc else None
      end
  | EmptyString => if seen then Some acc else None
  end.

(* parseInt(s, 16): white space, a sign, an optional 0x, then digits *)
Definition parseInt16 (s : string) : t :=
  let s1 := trimStart s in
  let '(negative, s2) :=
    match s1 with
    | String "-" rest => (true, rest)
    | String "+" rest => (false, rest)
    | _ => (false, s1)
    end in
  let s3 :=
    match s2 with
    | String "0" (String "x" rest) => rest
    | String "0" (String "X" rest) => rest
    | _ => s2
    end in
  match hexPrefix s3 0 false with
  | Some v => Some (if negative then - v else v)
  | None => None
  end.

(* 'a'.repeat(n) *)
Fixpoint repeatChar (c : ascii) (n : nat) : string :=
  match n with
  | O => EmptyString
  | S n' => String c (repeatChar c n')
  end.

End Num.

(** ** lib/internal/utils.ts: IdGenerator and Bluetooth device addresses *)

Module IdGenerator.

(* String.fromCharCode(c.charCodeAt(0) + 1), for a character below 255 *)
Definition nextChar (c : ascii) : ascii :=
  Ascii.ascii_of_N (Ascii.N_of_ascii c + 1).

(* for (let pos = this.last.length - 1; pos >= 0; --pos) {
     if (this.last[pos] !== 'z') {
       return this.last = this.last.substr(0, pos)
         + String.fromCharCode(this.last.charCodeAt(pos) + 1)
         + 'a'.repeat(this.last.length - pos - 1)
     }
   }
   [count] is pos + 1; [None] means that the loop ran to its end. *)
Fixpoint scan (last : string) (count : nat) : option string :=
  match count with
  | O => None
  | S pos =>
      match String.get pos last with
      | Some c =>
          if Ascii.eqb c "z" then scan last pos
          else Some (Buf.substr 0 pos last
                     +:+ String (nextChar c) EmptyString
                     +:+ Num.repeatChar "a" (String.length last - pos - 1))
      | None => scan last pos
      end
  end.

(* next(): the new value of this.last, which is also returned *)
Definition next (last : string) : string :=
  match scan last (String.length last) with
  | Some s => s
  | None => Num.repeatChar "a" (String.length last + 1)
  end.

(* The n-th id of a fresh generator (last = ''). *)
Fixpoint nth_id (n : nat) : string :=
  match n with
  | O => EmptyString
  | S n' => next (nth_id n')
  end.

(* The place of an id in the sequence a, b, ..., z, aa, ab, ... *)
Definition letterValue (c : ascii) : Z := Z.of_N (Ascii.N_of_ascii c) - 96.

Fixpoint rankFrom (acc : Z) (s : string) : Z :=
  match s with
  | EmptyString => acc
  | String c rest => rankFrom (26 * acc + letterValue c) rest
  end.

Definition rank (s : string) : Z := rankFrom 0 s.

(* Whether a string consists of the letters a..z. *)
Definition isLetter (c : ascii) : bool :=
  (97 <=? Z.of_N (Ascii.N_of_ascii c)) && (Z.of_N (Ascii.N_of_ascii c) <=? 122).

Fixpoint letters (s : string) : bool :=
  match s with
  | EmptyString => true
  | String c rest => isLetter c && letters rest
  end.

End IdGenerator.

Module BdAddr.

(* /^([0-9a-fA-F]{2}:){5}[0-9a-fA-F]{2}$/.test(bdAddr) *)
Fixpoint groups (n : nat) (s : string) : bool :=
  match n with
  | O => false
  | S n' =>
      match s with
      | String a (String b rest) =>
          Uuid.isHexChar a && Uuid.isHexChar b &&
          match n', rest with
          | O, EmptyString => true
          | S _, String ":" rest' => groups n' rest'
          | _, _ => false
          end
      | _ => false
      end
  end.

(* isValidBdAddr(bdAddr), for a string argument *)
Definition isValidBdAddr (bdAddr : string) : bool := groups 6 bdAddr.

(* for (let i = 15; i >= 0; i -= 3) buf.push(parseInt(address.substr(i, 2), 16)) *)
Definition parts (address : string) : list Num.t :=
  List.map (fun i => Num.parseInt16 (Buf.substr i 2 address)) [15; 12; 9; 6; 3; 0]%nat.

(* bdAddrToBuffer(address) *)
Definition bdAddrToBuffer (address : string) : list Z :=
  List.map Num.toByte (parts address).

End BdAddr.

(** ** The HCI packet writer and reader *)

Module Wire.

(** class PacketWriter: [buf] holds numbers; toBuffer() turns them into
    bytes. *)
Definition Writer : Type := list Num.t.

Definition newWriter : Writer := [].

(* u8(value), i8(value): this.buf.push(value) *)
Definition u8 (value : Z) (w : Writer) : Writer := w ++ [Some value].
Definition i8 (value : Z) (w : Writer) : Writer := w ++ [Some value].

(* u16(value): push(value & 0xff); push((value >>> 8) & 0xff) *)
Definition u16 (value : Z) (w : Writer) : Writer :=
  w ++ [Some (Num.and value 255); Some (Num.and (Num.ushr value 8) 255)].

Definition u24 (value : Z) (w : Writer) : Writer :=
  w ++ [Some (Num.and value 255); Some (Num.and (Num.ushr value 8) 255);
        Some (Num.and (Num.ushr value 16) 255)].

Definition u32 (value : Z) (w : Writer) : Writer :=
  w ++ [Some (Num.and value 255); Some (Num.and (Num.ushr value 8) 255);
        Some (Num.and (Num.ushr value 16) 255); Some (Num.and (Num.ushr value 24) 255)].

(* bdAddr(value) *)
Definition bdAddr (value : string) (w : Writer) : Writer := w ++ BdAddr.parts value.

(* buffer(value) *)
Definition buffer (value : list Z) (w : Writer) : Writer := w ++ List.map Some value.

(* toBuffer(): Buffer.from(this.buf) *)
Definition toBuffer (w : Writer) : list Z := List.map Num.toByte w.

(** class PacketReader as onData makes it, with throwFn = throwInvalidLength:
    [Hci.Reader], [Hci.u8] and [Hci.u16], and the readers below. *)
Definition check (n : nat) (r : Hci.Reader) : Js.result unit :=
  if Nat.ltb (length (Hci.buf r)) (Hci.rpos r + n) then Js.Throw Js.Error else Js.Ok tt.

Definition byteAt (r : Hci.Reader) (i : nat) : Z := nth (Hci.rpos r + i) (Hci.buf r) 0.

Definition advance (n : nat) (r : Hci.Reader) : Hci.Reader :=
  Hci.mkReader (Hci.buf r) (Hci.rpos r + n).

(* i8() *)
Definition readI8 (r : Hci.Reader) : Js.result (Z * Hci.Reader) :=
  try! vr := Hci.u8 r in
  Js.Ok (if fst vr >=? 128 then fst vr - 256 else fst vr, snd vr).

(* u32() *)
Definition readU32 (r : Hci.Reader) : Js.result (Z * Hci.Reader) :=
  try! _ := check 4 r in
  Js.Ok (Num.or (Num.or (Num.or (byteAt r 0) (Num.shl (byteAt r 1) 8))
                        (Num.shl (byteAt r 2) 16))
                (Num.shl (byteAt r 3) 24),
         advance 4 r).

(* (0x100 + b).toString(16).substr(-2).toUpperCase() *)
Definition hexByte (b : Z) : string :=
  Buf.toUpperCase (Buf.substrLast 2 (Buf.toString16 (256 + b))).

(* bdAddr() *)
Definition readBdAddr (r : Hci.Reader) : Js.result (string * Hci.Reader) :=
  try! _ := check 6 r in
  Js.Ok (hexByte (byteAt r 5) +:+ ":" +:+ hexByte (byteAt r 4) +:+ ":"
         +:+ hexByte (byteAt r 3) +:+ ":" +:+ hexByte (byteAt r 2) +:+ ":"
         +:+ hexByte (byteAt r 1) +:+ ":" +:+ hexByte (byteAt r 0),
         advance 6 r).

(* buffer(length) *)
Definition readBuffer (n : nat) (r : Hci.Reader) : Js.result (list Z * Hci.Reader) :=
  try! _ := check n r in
  Js.Ok (firstn n (skipn (Hci.rpos r) (Hci.buf r)), advance n r).

(* getRemainingSize() *)
Definition getRemainingSize (r : Hci.Reader) : Z :=
  Z.of_nat (length (Hci.buf r)) - Z.of_nat (Hci.rpos r).

End Wire.

(** ** The HCI adapter: ACL data, fragments and controller buffers *)

Module Acl.

Import Utils.

Definition HCI_ACLDATA : Z := 0x02.                (* HciPackage.ACLDATA *)
Definition DISCONNECTION_COMPLETE : Z := 0x05.
Definition NUMBER_OF_COMPLETE_PACKETS : Z := 0x13.

(** An entry {isFirst, buffer, sentCallback, completeCallback} of
    outgoingL2CAPBuffer.  A callback of the upper layer is known by a
    label; [None] is a missing (or null) callback. *)
Record Item : Type := mkItem {
  isFirst : bool;
  buffer : list Z;
  sentCallback : option nat;
  completeCallback : option nat
}.

(* class AclConnection, without the callbacks of the link-layer procedures *)
Record Conn : Type := mkConn {
  role : Z;
  disconnecting : bool;
  incomingL2CAPBuffer : list (list Z);
  totalLength : Z;                                   (* incomingL2CAPBuffer.totalLength *)
  outgoingL2CAPBuffer : Queue Item;
  outgoingL2CAPPacketsInController : list (option nat)
}.

(* new AclConnection(handle, role) *)
Definition newConn (role_ : Z) : Conn := mkConn role_ false [] 0 newQueue [].

Inductive Effect : Type :=
| Write (packet : list Z)                       (* transport.write *)
| Sent (label : nat)                            (* a sentCallback runs *)
| Complete (label : nat)                        (* a completeCallback runs *)
| Data (handle cid : Z) (payload : list Z)      (* aclConn.emit('data', cid, payload) *)
| Disconnected (handle reason : Z).             (* conn.emit('disconnect', reason) *)

(** The adapter: its command side is [Hci.Adapter]; activeConnections is
    an object keyed by handle, kept here in ascending order of the handles,
    which is the order `for ... in` visits integer keys in. *)
Record Adapter : Type := mkAdapter {
  commands : Hci.Adapter;
  aclMtu : Z;
  numFreeBuffers : Z;
  activeConnections : list (Z * Conn);
  rolls : nat;                                   (* calls of Math.random() so far *)
  events : list Effect
}.

Definition isStopped (a : Adapter) : bool := Hci.isStopped (commands a).

(* this.activeConnections[handle] *)
Fixpoint connOf (handle : Z) (conns : list (Z * Conn)) : option Conn :=
  match conns with
  | [] => None
  | (h, c) :: rest => if h =? handle then Some c else connOf handle rest
  end.

(* this.activeConnections[handle] = conn *)
Fixpoint setConn (handle : Z) (c : Conn) (conns : list (Z * Conn)) : list (Z * Conn) :=
  match conns with
  | [] => [(handle, c)]
  | (h, c') :: rest =>
      if h =? handle then (handle, c) :: rest
      else if handle <? h then (handle, c) :: (h, c') :: rest
      else (h, c') :: setConn handle c rest
  end.

(* delete this.activeConnections[handle] *)
Definition dropConn (handle : Z) (conns : list (Z * Conn)) : list (Z * Conn) :=
  List.filter (fun hc => negb (fst hc =? handle)) conns.

Definition setConns (conns : list (Z * Conn)) (a : Adapter) : Adapter :=
  mkAdapter (commands a) (aclMtu a) (numFreeBuffers a) conns (rolls a) (events a).

Definition setFree (n : Z) (a : Adapter) : Adapter :=
  mkAdapter (commands a) (aclMtu a) n (activeConnections a) (rolls a) (events a).

Definition emit (e : Effect) (a : Adapter) : Adapter :=
  mkAdapter (commands a) (aclMtu a) (numFreeBuffers a) (activeConnections a) (rolls a)
            (events a ++ [e]).

(** The packets handed to the transport, in order. *)
Definition written (a : Adapter) : list (list Z) :=
  flat_map (fun e => match e with Write p => [p] | _ => [] end) (events a).

Inductive Outcome : Type :=
| Returned (a : Adapter)
| Threw (e : Js.Exn) (a : Adapter)
| Diverged                       (* a loop that no bound ends *)
| Unmodelled.                    (* the events of other handlers *)

(* new PacketWriter().u8(ACLDATA)
     .u16((handle & 0xfff) | (isFirst ? 0 : 0x1000)).u16(buffer.length).toBuffer() *)
Definition aclHeader (handle : Z) (first : bool) (buf : list Z) : list Z :=
  Wire.toBuffer
    (Wire.u16 (Buf.len buf)
       (Wire.u16 (Num.or (Num.and handle 0xfff) (if first then 0 else 0x1000))
          (Wire.u8 HCI_ACLDATA Wire.newWriter))).

(* The candidates of triggerSendPackets():
     for (let handle in this.activeConnections) {
       const c = this.activeConnections[handle]
       if (c.outgoingL2CAPBuffer.getLength() != 0 && !c.disconnecting) candidates.push(handle)
     } *)
Definition candidates (conns : list (Z * Conn)) : list Z :=
  List.map fst
    (List.filter (fun hc => negb (getLength (outgoingL2CAPBuffer (snd hc)) =? 0)
                            && negb (disconnecting (snd hc))) conns).

Section Random.

(** Math.random(): the k-th call, for a list of n candidates, yields the
    index [random k mod n]. *)
Variable random : nat -> nat.

(* triggerSendPackets(conn), the connection being given by its handle:
     while (this.numFreeBuffers != 0) {
       if (this.isStopped) return
       ...select handle and selectedConn...
       const item = selectedConn.outgoingL2CAPBuffer.shift()
       if (!item) break
       --this.numFreeBuffers
       selectedConn.outgoingL2CAPPacketsInController.push(item.completeCallback)
       this.transport.write(Buffer.concat([header, buffer]))
       if (item.sentCallback) item.sentCallback()
     } *)
Fixpoint triggerSendPackets (fuel : nat) (conn : option Z) (a : Adapter) : Outcome :=
  match fuel with
  | O => Diverged
  | S fuel' =>
      if numFreeBuffers a =? 0 then Returned a
      else if isStopped a then Returned a
      else
        let selection :=
          match conn with
          | None =>
              let cs := candidates (activeConnections a) in
              match cs with
              | [] => None
              | _ =>
                  let handle := nth (random (rolls a) mod length cs)%nat cs 0 in
                  match connOf handle (activeConnections a) with
                  | Some c =>
                      Some (handle, c,
                            mkAdapter (commands a) (aclMtu a) (numFreeBuffers a)
                                      (activeConnections a) (S (rolls a)) (events a))
                  | None => None
                  end
              end
          | Some handle =>
              match connOf handle (activeConnections a) with
              | Some c => if disconnecting c then None else Some (handle, c, a)
              | None => None
              end
          end in
        match selection with
        | None => Returned a
        | Some (handle, c, a1) =>
            match shift (outgoingL2CAPBuffer c) with
            | (None, _) => Returned a1
            | (Some item, Q) =>
                let c1 := mkConn (role c) (disconnecting c) (incomingL2CAPBuffer c)
                                 (totalLength c) Q
                                 (outgoingL2CAPPacketsInController c ++ [completeCallback item]) in
                let a2 := setConns (setConn handle c1 (activeConnections a1))
                                   (setFree (numFreeBuffers a1 - 1) a1) in
                let a3 := emit (Write (aclHeader handle (isFirst item) (buffer item)
                                       ++ buffer item)) a2 in
                let a4 := match sentCallback item with
                          | Some label => emit (Sent label) a3
                          | None => a3
                          end in
                triggerSendPackets fuel' conn a4
            end
        end
  end.

(* data.subarray(from, to), for 0 <= from <= to <= data.length *)
Definition subarray (from to : Z) (data : list Z) : list Z :=
  firstn (Z.to_nat (to - from)) (skipn (Z.to_nat from) data).

(* for (let i = 0; i < data.length; i += this.aclMtu) {
     const isFirst = i === 0
     const isLast = i + this.aclMtu >= data.length
     const slice = data.subarray(i, isLast ? data.length : i + this.aclMtu)
     conn.outgoingL2CAPBuffer.push({ isFirst, buffer: slice,
       sentCallback: isLast ? sentCallback : null,
       completeCallback: isLast ? completeCallback : null })
   }
   for a positive aclMtu; [fuel] bounds the number of turns. *)
Fixpoint fragments (fuel : nat) (mtu : Z) (data : list Z) (i : Z)
    (sentCb completeCb : option nat) : list Item :=
  match fuel with
  | O => []
  | S fuel' =>
      if i <? Buf.len data then
        let isLast := i + mtu >=? Buf.len data in
        mkItem (i =? 0)
               (subarray i (if isLast then Buf.len data else i + mtu) data)
               (if isLast then sentCb else None)
               (if isLast then completeCb else None)
        :: fragments fuel' mtu data (i + mtu) sentCb completeCb
      else []
  end.

(* The L2CAP frame: new PacketWriter().u16(data.length).u16(cid), then data *)
Definition l2capFrame (cid : Z) (data : list Z) : list Z :=
  Wire.toBuffer (Wire.u16 cid (Wire.u16 (Buf.len data) Wire.newWriter)) ++ data.

(* sendData(handle, cid, data, sentCallback, completeCallback) *)
Definition sendData (fuel : nat) (handle cid : Z) (data : list Z)
    (sentCb completeCb : option nat) (a : Adapter) : Outcome :=
  if isStopped a then Returned a
  else
    let frame := l2capFrame cid data in
    match connOf handle (activeConnections a) with
    | None => Threw Js.TypeError a
    | Some c =>
        if aclMtu a <=? 0 then Diverged
        else
          let items := fragments (length frame) (aclMtu a) frame 0 sentCb completeCb in
          let c1 := mkConn (role c) (disconnecting c) (incomingL2CAPBuffer c) (totalLength c)
                           (pushAll items (outgoingL2CAPBuffer c))
                           (outgoingL2CAPPacketsInController c) in
          triggerSendPackets fuel (Some handle)
            (setConns (setConn handle c1 (activeConnections a)) a)
    end.

(* The callbacks of handleNumberOfCompletePackets:
     if (callbacks[i][j]) callbacks[i][j]() *)
Definition runCompleted (labels : list (option nat)) (a : Adapter) : Adapter :=
  fold_left (fun acc l => match l with Some label => emit (Complete label) acc | None => acc end)
            labels a.

(* The first loop of handleNumberOfCompletePackets(r):
     for (let i = 0; i < numHandles; i++) {
       const handle = r.u16()
       let numCompleted = r.u16()
       const conn = this.activeConnections[handle]
       if (!conn) continue
       if (numCompleted > conn.outgoingL2CAPPacketsInController.length)
         numCompleted = conn.outgoingL2CAPPacketsInController.length
       this.numFreeBuffers += numCompleted
       callbacks.push(conn.outgoingL2CAPPacketsInController.splice(0, numCompleted))
     } *)
Fixpoint completedLoop (numHandles : nat) (r : Hci.Reader) (callbacks : list (option nat))
    (a : Adapter) : Js.result (list (option nat)) * Adapter :=
  match numHandles with
  | O => (Js.Ok callbacks, a)
  | S n =>
      match Hci.u16 r with
      | Js.Throw e => (Js.Throw e, a)
      | Js.Ok (handle, r1) =>
          match Hci.u16 r1 with
          | Js.Throw e => (Js.Throw e, a)
          | Js.Ok (numCompleted, r2) =>
              match connOf handle (activeConnections a) with
              | None => completedLoop n r2 callbacks a
              | Some c =>
                  let inController := outgoingL2CAPPacketsInController c in
                  let numCompleted :=
                    if numCompleted >? Z.of_nat (length inController)
                    then Z.of_nat (length inController)
                    else numCompleted in
                  let c1 := mkConn (role c) (disconnecting c) (incomingL2CAPBuffer c)
                                   (totalLength c) (outgoingL2CAPBuffer c)
                                   (skipn (Z.to_nat numCompleted) inController) in
                  completedLoop n r2
                    (callbacks ++ firstn (Z.to_nat numCompleted) inController)
                    (setConns (setConn handle c1 (activeConnections a))
                              (setFree (numFreeBuffers a + numCompleted) a))
              end
          end
      end
  end.

(* handleNumberOfCompletePackets(r) *)
Definition handleNumberOfCompletePackets (fuel : nat) (r : Hci.Reader) (a : Adapter) : Outcome :=
  match Hci.u8 r with
  | Js.Throw e => Threw e a
  | Js.Ok (numHandles, r1) =>
      match completedLoop (Z.to_nat numHandles) r1 [] a with
      | (Js.Throw e, a1) => Threw e a1
      | (Js.Ok callbacks, a1) => triggerSendPackets fuel None (runCompleted callbacks a1)
      end
  end.

(* handleDisconnectionComplete(r) *)
Definition handleDisconnectionComplete (fuel : nat) (r : Hci.Reader) (a : Adapter) : Outcome :=
  match Hci.u8 r with
  | Js.Throw e => Threw e a
  | Js.Ok (status, r1) =>
      if negb (status =? 0) then Returned a
      else
        match Hci.u16 r1 with
        | Js.Throw e => Threw e a
        | Js.Ok (handle, r2) =>
            match Hci.u8 r2 with
            | Js.Throw e => Threw e a
            | Js.Ok (reason, _) =>
                match connOf handle (activeConnections a) with
                | None => Returned a
                | Some c =>
                    let a1 :=
                      mkAdapter (Hci.dropCommandsOf handle (commands a)) (aclMtu a)
                        (numFreeBuffers a + Z.of_nat (length (outgoingL2CAPPacketsInController c)))
                        (dropConn handle (activeConnections a)) (rolls a) (events a) in
                    triggerSendPackets fuel None (emit (Disconnected handle reason) a1)
                end
            end
        end
  end.

End Random.

(** *** Incoming ACL data *)

Definition setIncoming (ib : list (list Z)) (total : Z) (c : Conn) : Conn :=
  mkConn (role c) (disconnecting c) ib total (outgoingL2CAPBuffer c)
         (outgoingL2CAPPacketsInController c).

(* buf[i] | (buf[i + 1] << 8); a missing byte counts as 0 *)
Definition u16At (i : nat) (buf : list Z) : Z :=
  Z.lor (nth i buf 0) (Z.shiftl (nth (S i) buf 0) 8).

(* The branch `pb === 2`: the first packet of an L2CAP frame. *)
Definition firstPacket (handle len : Z) (packet : list Z) (r : Hci.Reader) (c : Conn)
  : Js.result (Conn * list Effect) :=
  if len <? 4 then
    let rest := Hci.getRemainingBuffer r in
    Js.Ok (setIncoming [rest] (0 + Buf.len rest) c, [])
  else
    let l2capLength := u16At 5 packet in
    if 4 + l2capLength =? len then
      try! lr := Hci.u16 r in
      try! cr := Hci.u16 (snd lr) in
      Js.Ok (setIncoming [] 0 c, [Data handle (fst cr) (Hci.getRemainingBuffer (snd cr))])
    else if 4 + l2capLength <? len then Js.Ok (setIncoming [] 0 c, [])
    else
      let rest := Hci.getRemainingBuffer r in
      Js.Ok (setIncoming [rest] (0 + Buf.len rest) c, []).

(* The branch `pb === 1`: a continuation. *)
Definition continuation (handle : Z) (r : Hci.Reader) (c : Conn) : Conn * list Effect :=
  let buf := Hci.getRemainingBuffer r in
  let ib := incomingL2CAPBuffer c in
  match rev ib with
  | [] => (c, [])
  | lastBuf :: before =>
      let ib1 := if Buf.len lastBuf <? 4 then rev before ++ [lastBuf ++ buf] else ib ++ [buf] in
      let total := totalLength c + Buf.len buf in
      if total >=? 4 then
        let l2capLength := u16At 0 (nth 0 ib1 []) in
        if 4 + l2capLength =? total then
          let completePacket :=
            firstn (Z.to_nat total) (concat ib1 ++ repeat 0 (Z.to_nat total)) in
          (setIncoming [] 0 c, [Data handle (u16At 2 completePacket) (skipn 4 completePacket)])
        else (setIncoming ib1 total c, [])
      else (setIncoming ib1 total c, [])
  end.

(* The branch `packetType === HciPackage.ACLDATA` of onData *)
Definition onAclData (packet : list Z) (r : Hci.Reader) (a : Adapter) : Outcome :=
  if Nat.ltb (length packet) 5 then Threw Js.Error a
  else
    match Hci.u16 r with
    | Js.Throw e => Threw e a
    | Js.Ok (conhdl, r1) =>
        let pb := Z.land (Z.shiftr conhdl 12) 3 in
        let conhdl := Z.land conhdl 0xfff in
        match Hci.u16 r1 with
        | Js.Throw e => Threw e a
        | Js.Ok (len, r2) =>
            match connOf conhdl (activeConnections a) with
            | None => Returned a
            | Some c =>
                if pb =? 2 then
                  match firstPacket conhdl len packet r2 c with
                  | Js.Throw e =>
                      Threw e (setConns (setConn conhdl (setIncoming [] 0 c) (activeConnections a)) a)
                  | Js.Ok (c1, es) =>
                      Returned (fold_left (fun acc e => emit e acc) es
                                  (setConns (setConn conhdl c1 (activeConnections a)) a))
                  end
                else if pb =? 1 then
                  let '(c1, es) := continuation conhdl r2 c in
                  Returned (fold_left (fun acc e => emit e acc) es
                              (setConns (setConn conhdl c1 (activeConnections a)) a))
                else Returned a
            end
        end
    end.

(* onData(data), run with the adapter as its receiver, for ACL data and for
   the two events that return buffers *)
Definition onData (random : nat -> nat) (fuel : nat) (packet : list Z) (a : Adapter) : Outcome :=
  if Nat.eqb (length packet) 0 then Threw Js.Error a
  else
    match Hci.u8 (Hci.mkReader packet 0) with
    | Js.Throw e => Threw e a
    | Js.Ok (packetType, r) =>
        if packetType =? Hci.HCI_EVENT then
          if Nat.ltb (length packet) 3 then Threw Js.Error a
          else
            match Hci.u8 r with
            | Js.Throw e => Threw e a
            | Js.Ok (eventCode, r1) =>
                match Hci.u8 r1 with
                | Js.Throw e => Threw e a
                | Js.Ok (paramLen, r2) =>
                    if negb (paramLen + 3 =? Buf.len packet) then Threw Js.Error a
                    else if eventCode =? DISCONNECTION_COMPLETE
                    then handleDisconnectionComplete random fuel r2 a
                    else if eventCode =? NUMBER_OF_COMPLETE_PACKETS
                    then handleNumberOfCompletePackets random fuel r2 a
                    else Unmodelled
                end
            end
        else if packetType =? HCI_ACLDATA then onAclData packet r a
        else Returned a
    end.

(** The buffers the controller holds for the host: free ones and those
    taken by packets of the active connections. *)
Definition inController (conns : list (Z * Conn)) : Z :=
  fold_right (fun hc acc => Z.of_nat (length (outgoingL2CAPPacketsInController (snd hc))) + acc)
             0 conns.

Definition credits (a : Adapter) : Z := numFreeBuffers a + inController (activeConnections a).

(** The handles of activeConnections are in ascending order. *)
Fixpoint ascending (lower : Z) (conns : list (Z * Conn)) : Prop :=
  match conns with
  | [] => True
  | (h, _) :: rest => lower < h /\ ascending h rest
  end.

(** An adapter whose count of free buffers is not negative. *)
Definition sound (a : Adapter) : Prop :=
  0 <= numFreeBuffers a /\ ascending (-1) (activeConnections a).

(** What the upper layer and the transport do to the adapter. *)
Inductive Op : Type :=
| Send (handle cid : Z) (data : list Z) (sentCb completeCb : option nat)
| Receive (packet : list Z).

Definition step (random : nat -> nat) (fuel : nat) (op : Op) (a : Adapter) : Outcome :=
  match op with
  | Send handle cid data sentCb completeCb =>
      sendData random fuel handle cid data sentCb completeCb a
  | Receive packet => onData random fuel packet a
  end.

(** What the incoming buffer of a connection holds while a frame is being
    collected: the bytes received so far, with only the last buffer
    possibly shorter than four bytes. *)
Definition collecting (acc : list Z) (c : Conn) : Prop :=
  concat (incomingL2CAPBuffer c) = acc
  /\ totalLength c = Buf.len acc
  /\ match incomingL2CAPBuffer c with
     | [] => False
     | [_] => True
     | x :: _ => 4 <= Buf.len x
     end.

(* An ACL data packet of the controller for `handle`: pb = 2 marks the
   first packet of a frame, pb = 1 a continuation. *)
Definition aclPacket (handle pb : Z) (chunk : list Z) : list Z :=
  [HCI_ACLDATA] ++ Buf.uint16LE (handle + 4096 * pb) ++ Buf.uint16LE (Buf.len chunk) ++ chunk.

(* The packets that carry a frame cut into chunks. *)
Definition aclPackets (handle : Z) (chunks : list (list Z)) : list (list Z) :=
  match chunks with
  | [] => []
  | c :: rest => aclPacket handle 2 c :: List.map (aclPacket handle 1) rest
  end.

(* onData for one packet after another, while it returns *)
Fixpoint receiveAll (random : nat -> nat) (fuel : nat) (packets : list (list Z)) (a : Adapter)
  : Outcome :=
  match packets with
  | [] => Returned a
  | p :: rest =>
      match onData random fuel p a with
      | Returned a1 => receiveAll random fuel rest a1
      | other => other
      end
  end.

(** *** The listener as the constructor registers it

    As told at [Hci.onTransportData], the transport runs the body of
    onData with itself as receiver.  Here are the branches of that body
    for ACL data and for the two events that give buffers back; [this] is
    the transport, the adapter is out of the listener's reach. *)

(* this.handleDisconnectionComplete(r) and the like, with `this` = the
   transport: the method is looked up on the transport and what is found
   is called.  A transport that has a member of that name is not
   embedded. *)
Definition callAt (this : Js.Val) (method : string) (a : Adapter) : Outcome :=
  match Js.getProp this method with
  | Js.Throw e => Threw e a
  | Js.Ok (Js.VObj _) => Unmodelled
  | Js.Ok _ => Threw Js.TypeError a
  end.

(* The branch `packetType === HciPackage.ACLDATA` with `this` = the
   transport:
     if (data.length < 5) throwInvalidLength()
     let conhdl = r.u16(); ...; const len = r.u16()
     const aclConn = this.activeConnections[conhdl]
   An index into undefined or null throws; a transport that has a member
   activeConnections is not embedded. *)
Definition onAclDataAt (this : Js.Val) (packet : list Z) (r : Hci.Reader) (a : Adapter)
  : Outcome :=
  if Nat.ltb (length packet) 5 then Threw Js.Error a
  else
    match Hci.u16 r with
    | Js.Throw e => Threw e a
    | Js.Ok (_, r1) =>
        match Hci.u16 r1 with
        | Js.Throw e => Threw e a
        | Js.Ok _ =>
            match Js.getProp this "activeConnections" with
            | Js.Throw e => Threw e a
            | Js.Ok Js.VUndefined | Js.Ok Js.VNull => Threw Js.TypeError a
            | Js.Ok _ => Unmodelled
            end
        end
    end.

(* transport.emit('data', data): onData(data) with `this` = the transport *)
Definition onTransportData (this : Js.Val) (packet : list Z) (a : Adapter) : Outcome :=
  if Nat.eqb (length packet) 0 then Threw Js.Error a
  else
    match Hci.u8 (Hci.mkReader packet 0) with
    | Js.Throw e => Threw e a
    | Js.Ok (packetType, r) =>
        if packetType =? Hci.HCI_EVENT then
          if Nat.ltb (length packet) 3 then Threw Js.Error a
          else
            match Hci.u8 r with
            | Js.Throw e => Threw e a
            | Js.Ok (eventCode, r1) =>
                match Hci.u8 r1 with
                | Js.Throw e => Threw e a
                | Js.Ok (paramLen, r2) =>
                    if negb (paramLen + 3 =? Buf.len packet) then Threw Js.Error a
                    else if eventCode =? DISCONNECTION_COMPLETE
                    then callAt this "handleDisconnectionComplete" a
                    else if eventCode =? NUMBER_OF_COMPLETE_PACKETS
                    then callAt this "handleNumberOfCompletePackets" a
                    else Unmodelled
                end
            end
        else if packetType =? HCI_ACLDATA then onAclDataAt this packet r a
        else Returned a
    end.

End Acl.

(** ** The attribute database of the GATT server: attDb *)

Module AttCodes.

(** Modelled from the spec: further codes of the error table of
    [../att-errors], which is not among the sources.  The specification
    lists them among "the standard table"; the numbers are those of the
    Attribute Protocol. *)
Definition PREPARE_QUEUE_FULL : Z := 0x09.
Definition ATTRIBUTE_NOT_FOUND : Z := 0x0a.
Definition UNSUPPORTED_GROUP_TYPE : Z := 0x10.
Definition CCCD_IMPROPERLY_CONFIGURED : Z := 0xfd.

End AttCodes.

Module Db.

(** What a read function does with the callback it is given. *)
Inductive Reply : Type :=
| Calls (err : Z) (value : option (list Z))    (* callback(err, value) *)
| NoCall                                       (* the callback is not called *)
| Raises (e : Js.Exn).

(* attDb[handle] = {groupEndHandle, uuid16, uuid, value, maxLength, readPerm,
                    writePerm, read, write, authorizeWrite} *)
Record Item : Type := mkItem {
  groupEndHandle : option Z;          (* undefined for an attribute that heads no group *)
  uuid16 : option Num.t;              (* null, or what parseInt gave *)
  uuid : string;
  value : option (list Z);
  maxLength : Z;
  readPerm : Att.Perm;
  writePerm : Att.Perm;
  read : Z -> Z -> Reply;                                    (* opcode, offset *)
  write : option (Z -> Z -> list Z -> option Z);             (* opcode, offset, value *)
  authorizeWrite : option (Z -> Z -> list Z -> option Z)
}.

(** The array attDb; the index is the attribute handle, a hole is [None]. *)
Definition T : Type := list (option Item).

(* attDb[i] *)
Definition get (attDb : T) (i : Z) : option Item :=
  if i <? 0 then None else nth (Z.to_nat i) attDb None.

(* attDb[handle] = item, for a handle that is an array index; an index
   past the end extends the array with holes. *)
Definition set (handle : Z) (item : Item) (attDb : T) : T :=
  let n := Z.to_nat handle in
  if (n <? length attDb)%nat then firstn n attDb ++ [Some item] ++ skipn (S n) attDb
  else attDb ++ repeat None (n - length attDb) ++ [Some item].

(* readFn || function(connection, opcode, offset, callback) {
     offset > value.length ? callback(AttErrors.INVALID_OFFSET)
                           : callback(0, value.slice(offset)) } *)
Definition defaultRead (value : option (list Z)) (opcode offset : Z) : Reply :=
  match value with
  | None => Raises Js.TypeError
  | Some v =>
      if offset >? Buf.len v then Calls AttErrors.INVALID_OFFSET None
      else Calls 0 (Some (skipn (Z.to_nat offset) v))
  end.

(* uuid16: (uuid.substr(8) === BASE_UUID_SECOND_PART && uuid.substr(0, 4) === '0000')
             ? parseInt(uuid, 16) : null *)
Definition uuid16Of (uuid : string) : option Num.t :=
  if String.eqb (Buf.substrFrom 8 uuid) Utils.BASE_UUID_SECOND_PART
     && String.eqb (Buf.substr 0 4 uuid) "0000"
  then Some (Num.parseInt16 uuid) else None.

(* addAttribute(handle, groupEndHandle, uuid, value, maxLength, readPerm, writePerm,
                readFn, writeFn, authorizeWriteFn) *)
Definition addAttribute (handle : Z) (groupEndHandle_ : option Z) (uuid_ : Uuid.Arg)
    (value_ : option (list Z)) (maxLength_ : Z) (readPerm_ writePerm_ : Att.Perm)
    (readFn : option (Z -> Z -> Reply))
    (writeFn authorizeWriteFn : option (Z -> Z -> list Z -> option Z))
    (attDb : T) : Js.result T :=
  match Uuid.getFullUuid uuid_ with
  | None => Js.Throw Js.TypeError          (* null.substr *)
  | Some u =>
      Js.Ok (set handle
               (mkItem groupEndHandle_ (uuid16Of u) u value_ maxLength_ readPerm_ writePerm_
                  (match readFn with Some f => f | None => defaultRead value_ end)
                  writeFn authorizeWriteFn)
               attDb)
  end.

(** An attribute whose uuid is a result of fixUuid, with the uuid16 that
    addAttribute derives from it: the attributes addServices creates. *)
Definition fromFixUuid (item : Item) : Prop :=
  (exists arg, Uuid.fixUuid arg = Js.Ok (uuid item)) /\ uuid16 item = uuid16Of (uuid item).

(** The attributes at the [count] handles from [i] on, in ascending order. *)
Fixpoint attributesIn (attDb : T) (count : nat) (i : Z) : list (Z * Item) :=
  match count with
  | O => []
  | S count' =>
      match get attDb i with
      | Some item => (i, item) :: attributesIn attDb count' (i + 1)
      | None => attributesIn attDb count' (i + 1)
      end
  end.

End Db.

(** ** GattServerDb: the handles of the services *)

Module GattDb.

(* an entry of allServices, as far as the choice of handles reads it *)
Record Service : Type := mkService {
  userObj : nat;             (* the identity of the user's service object *)
  startHandle : Z;
  endHandle : Z
}.

(* an entry of servicesToAdd before it has its handles: the startHandle the
   user proposed (validated to be 1..0xffff when it is given) and
   numberOfHandles *)
Record Request : Type := mkRequest {
  reqObj : nat;
  proposed : option Z;
  numberOfHandles : Z
}.

(* s.startHandle && ... *)
Definition truthy (p : option Z) : bool :=
  match p with Some h => negb (h =? 0) | None => false end.

(* for (var i = 0; i < allServices.length; i++) {
     if (allServices[i].startHandle - lastHandle - 1 >= s.numberOfHandles) {
       if (chosenStartHandle === 0x0000) {
         chosenStartHandle = lastHandle + 1
         chosenPosition = i
       }
       if (s.startHandle && lastHandle + 1 <= s.startHandle
           && s.startHandle + s.numberOfHandles <= allServices[i].startHandle) {
         chosenStartHandle = s.startHandle
         chosenPosition = i
         break
       }
     }
     lastHandle = allServices[i].endHandle
   }
   over the entries from index i on *)
Fixpoint scan (s : Request) (entries : list Service) (i : nat) (lastHandle : Z)
    (chosenStartHandle : Z) (chosenPosition : nat) : Z * nat :=
  match entries with
  | [] => (chosenStartHandle, chosenPosition)
  | e :: rest =>
      if startHandle e - lastHandle - 1 >=? numberOfHandles s then
        let '(chosen1, position1) :=
          if chosenStartHandle =? 0 then (lastHandle + 1, i)
          else (chosenStartHandle, chosenPosition) in
        if truthy (proposed s)
           && (lastHandle + 1 <=? default 0 (proposed s))
           && (default 0 (proposed s) + numberOfHandles s <=? startHandle e)
        then (default 0 (proposed s), i)
        else scan s rest (S i) (endHandle e) chosen1 position1
      else scan s rest (S i) (endHandle e) chosenStartHandle chosenPosition
  end.

(* allServices.splice(position, 0, s) and allServices.splice(position, 1) *)
Definition insertAt {A : Type} (position : nat) (a : A) (l : list A) : list A :=
  firstn position l ++ [a] ++ skipn position l.

Definition removeAt {A : Type} (position : nat) (l : list A) : list A :=
  firstn position l ++ skipn (S position) l.

(* var chosenStartHandle = 0x0000; var chosenPosition; var lastHandle = 0x0000
   allServices.push({startHandle: 0xffff})
   for (...) { ... }
   allServices.pop()
   if (chosenStartHandle) {
     s.startHandle = chosenStartHandle
     s.endHandle = chosenStartHandle + s.numberOfHandles - 1
     allServices.splice(chosenPosition, 0, s)
     insertPositions.push(chosenPosition)
   }
   The result is the new allServices and the position, or nothing when no
   start handle was chosen.  The endHandle of the entry pushed for the
   loop is never read. *)
Definition place (allServices : list Service) (s : Request) : option (list Service * nat) :=
  let '(chosenStartHandle, chosenPosition) :=
    scan s (allServices ++ [mkService 0 0xffff 0]) 0 0 0 0 in
  if chosenStartHandle =? 0 then None
  else
    Some (insertAt chosenPosition
            (mkService (reqObj s) chosenStartHandle
               (chosenStartHandle + numberOfHandles s - 1))
            allServices,
          chosenPosition).

(* while (insertPositions.length !== 0) allServices.splice(insertPositions.pop(), 1)
   The list holds the positions with the last one pushed first. *)
Fixpoint rollback (insertPositions : list nat) (allServices : list Service) : list Service :=
  match insertPositions with
  | [] => allServices
  | position :: rest => rollback rest (removeAt position allServices)
  end.

(* var insertPositions = []
   for (var si = 0; si < services.length; si++) { ...place...
     else { ...roll back...; throw new Error('No space for these services in the db') } }
   The result is how the loop ends and allServices as it is left. *)
Fixpoint placeAll (servicesToAdd : list Request) (allServices : list Service)
    (insertPositions : list nat) : Js.result unit * list Service :=
  match servicesToAdd with
  | [] => (Js.Ok tt, allServices)
  | s :: rest =>
      match place allServices s with
      | Some (allServices', position) => placeAll rest allServices' (position :: insertPositions)
      | None => (Js.Throw Js.Error, rollback insertPositions allServices)
      end
  end.

(** Services in ascending order of their handles, apart from one another,
    all above [lower] and below 0xffff. *)
Fixpoint placed (lower : Z) (allServices : list Service) : Prop :=
  match allServices with
  | [] => lower < 0xffff
  | e :: rest => lower < startHandle e /\ startHandle e <= endHandle e
                 /\ placed (endHandle e) rest
  end.

End GattDb.

(** ** The Client Characteristic Configuration descriptor *)

Module Cccd.

(* c.cccds[connection.id] ? c.cccds[connection.id].value : 0 *)
Definition current (cccds : gmap nat Z) (id : nat) : Z :=
  match cccds !! id with Some v => v | None => 0 end.

(* createReadFn(d, true):
     var value = Buffer.from([c.cccds[connection.id] ? c.cccds[connection.id].value : 0, 0])
     callback(0, value.slice(offset)) *)
Definition read (id : nat) (offset : Z) (cccds : gmap nat Z) : list Z :=
  skipn (Z.to_nat offset) [Buf.u8 (current cccds id); 0].

(** const storage = require('./storage'): what the storage module
    exports.  The module ends with
      export default { constructAddress, storeKeys, getKeys, resolveAddress,
                       storeCccd, getCccd, storeGattCache, getGattCache, removeBond }
    and exports nothing else, so the object that require yields has the
    one member `default`: storage.constructAddress and storage.storeCccd
    are undefined. *)
Definition storageExports : list string := ["default"].

(* whether storage.<name> is there to be called *)
Definition storageHas (name : string) : bool :=
  existsb (String.eqb name) storageExports.

(** How a write ends: with the callback called, or with an exception
    before that.  [cccds] are the subscriptions afterwards, [stored] the
    value handed to storage.storeCccd, [subscription] the arguments of
    onSubscriptionChange. *)
Inductive Written : Type :=
| Calls (err : Z) (cccds : gmap nat Z) (stored : option Z)
        (subscription : option (bool * bool))
| Throws (e : Js.Exn) (cccds : gmap nat Z).

(* createWriteFn(d, true):
     if (offset > 2) { callback(AttErrors.INVALID_OFFSET); return }
     if (offset + value.length !== 2) {
       callback(AttErrors.INVALID_ATTRIBUTE_VALUE_LENGTH); return }
     var prev = Buffer.from([c.cccds[connection.id] ? c.cccds[connection.id].value : 0, 0])
     var v = Buffer.concat([prev.slice(0, offset), value])
     var notification = !!(v[0] & 1)
     var indication = !!(v[0] & 2)
     if ((notification && !(c.properties & 0x10)) || (indication && !(c.properties & 0x20))
         || v[1] !== 0 || v[0] > 3) {
       callback(AttErrors.CLIENT_CHARACTERISTIC_CONFIGURATION_DESCRIPTOR_IMPROPERLY_CONFIGURED)
       return
     }
     if (!c.cccds[connection.id]) c.cccds[connection.id] = {connection: connection, value: v[0]}
     else c.cccds[connection.id].value = v[0]
     if (connection.smp.isBonded && !prev.equals(v)) {
       storage.storeCccd(
         storage.constructAddress(connection.ownAddressType, connection.ownAddress),
         storage.constructAddress(connection.peerIdentityAddressType,
                                  connection.peerIdentityAddress),
         obj.handle, v[0])
     }
     callback(0)
     var fn = c.userObj.onSubscriptionChange
     if (typeof fn === 'function') fn.call(c.userObj, connection, notification, indication, true)
   The arguments of storage.storeCccd are evaluated before it is called:
   the first of them calls storage.constructAddress. *)
Definition write (properties : Z) (isBonded : bool) (id : nat) (offset : Z) (value : list Z)
    (cccds_ : gmap nat Z) : Written :=
  if offset >? 2 then Calls AttErrors.INVALID_OFFSET cccds_ None None
  else if negb (offset + Buf.len value =? 2) then
    Calls AttErrors.INVALID_ATTRIBUTE_VALUE_LENGTH cccds_ None None
  else
    let prev := [Buf.u8 (current cccds_ id); 0] in
    let v := firstn (Z.to_nat offset) prev ++ value in
    let notification := negb (Num.and (nth 0 v 0) 1 =? 0) in
    let indication := negb (Num.and (nth 0 v 0) 2 =? 0) in
    if (notification && (Num.and properties 0x10 =? 0))
       || (indication && (Num.and properties 0x20 =? 0))
       || negb (nth 1 v 0 =? 0) || (nth 0 v 0 >? 3)
    then Calls AttCodes.CCCD_IMPROPERLY_CONFIGURED cccds_ None None
    else
      let cccds1 := <[id := nth 0 v 0]> cccds_ in
      if isBonded && negb (bool_decide (prev = v)) then
        if storageHas "constructAddress" && storageHas "storeCccd"
        then Calls 0 cccds1 (Some (nth 0 v 0)) (Some (notification, indication))
        else Throws Js.TypeError cccds1
      else Calls 0 cccds1 None (Some (notification, indication)).

End Cccd.

(** ** Storage: the CCCD values of a bonded peer *)

Module CccdStore.

(** cacheEntry.cccdValues[peerAddress]: an object whose keys are handles;
    a key is a number here, NaN included. *)
Definition Table : Type := list (Num.t * Z).

Definition sameKey (a b : Num.t) : bool :=
  match a, b with
  | Some x, Some y => x =? y
  | None, None => true
  | _, _ => false
  end.

(* table[key] *)
Fixpoint lookup (key : Num.t) (table : Table) : option Z :=
  match table with
  | [] => None
  | (k, v) :: rest => if sameKey k key then Some v else lookup key rest
  end.

(* table[key] = value *)
Fixpoint assign (key : Num.t) (value : Z) (table : Table) : Table :=
  match table with
  | [] => [(key, value)]
  | (k, v) :: rest =>
      if sameKey k key then (k, value) :: rest else (k, v) :: assign key value rest
  end.

(** The directory gatt_server_cccds of one peer: file names and what
    JSON.parse gives for their contents.  writeFile with
    JSON.stringify(value) leaves a file that parses to the number value. *)
Definition Files : Type := list (string * Js.Val).

Fixpoint writeFile (name : string) (content : Js.Val) (files : Files) : Files :=
  match files with
  | [] => [(name, content)]
  | (n, c) :: rest =>
      if String.eqb n name then (n, content) :: rest else (n, c) :: writeFile name content rest
  end.

(* ("000" + handle.toString(16)).substr(-4) + '.json' *)
Definition cccdFileName (handle : Z) : string :=
  Buf.substrLast 4 ("000" +:+ Buf.toString16 handle) +:+ ".json".

Definition isAlnum (c : ascii) : bool :=
  let n := Ascii.N_of_ascii c in
  ((48 <=? n) && (n <=? 57) || (65 <=? n) && (n <=? 90) || (97 <=? n) && (n <=? 122))%N.

(* /^[a-zA-Z0-9]{4}\.json$/.test(handleFileName) *)
Definition isCccdFileName (name : string) : bool :=
  match name with
  | String a (String b (String c (String d rest))) =>
      isAlnum a && isAlnum b && isAlnum c && isAlnum d && String.eqb rest ".json"
  | _ => false
  end.

(* storeCccd(ownAddress, peerAddress, handle, value), for one pair of
   addresses:
     if (!cacheEntry.cccdValues[peerAddress])
       cacheEntry.cccdValues[peerAddress] = Object.create(null)
     if (cacheEntry.cccdValues[peerAddress][handle] !== value) {
       cacheEntry.cccdValues[peerAddress][handle] = value
       writeFile([..., 'gatt_server_cccds',
                  ("000" + handle.toString(16)).substr(-4) + '.json'], JSON.stringify(value))
     } *)
Definition storeCccd (handle value : Z) (st : option Table * Files) : option Table * Files :=
  let table := match fst st with Some t => t | None => [] end in
  match lookup (Some handle) table with
  | Some v =>
      if v =? value then (Some table, snd st)
      else (Some (assign (Some handle) value table),
            writeFile (cccdFileName handle) (Js.VNum value) (snd st))
  | None =>
      (Some (assign (Some handle) value table),
       writeFile (cccdFileName handle) (Js.VNum value) (snd st))
  end.

(* getCccd(ownAddress, peerAddress, handle):
     if (cacheEntry.cccdValues[peerAddress]) return cacheEntry.cccdValues[peerAddress][handle]
     return 0
   The result is [None] for undefined. *)
Definition getCccd (handle : Z) (table : option Table) : option Z :=
  match table with
  | Some t => lookup (Some handle) t
  | None => Some 0
  end.

(* init, the loop over the directory gatt_server_cccds of a peer:
     fs.readdirSync(...).forEach(handleFileName => {
       if (/^[a-zA-Z0-9]{4}\.json$/.test(handleFileName)) {
         const v = JSON.parse(fs.readFileSync(...).toString())
         if (v === 0 || v === 1 || v === 2 || v === 3) {
           if (!cacheEntry.cccdValues[peerAddress])
             cacheEntry.cccdValues[peerAddress] = Object.create(null)
           cacheEntry.cccdValues[peerAddress][parseInt(handleFileName, 16)] = v
         }
       }
     }) *)
Fixpoint loadCccds (files : Files) (table : option Table) : option Table :=
  match files with
  | [] => table
  | (handleFileName, content) :: rest =>
      if isCccdFileName handleFileName then
        match content with
        | Js.VNum v =>
            if (v =? 0) || (v =? 1) || (v =? 2) || (v =? 3) then
              loadCccds rest
                (Some (assign (Num.parseInt16 handleFileName) v
                         (match table with Some t => t | None => [] end)))
            else loadCccds rest table
        | _ => loadCccds rest table
        end
      else loadCccds rest table
  end.

(* a sequence of calls of storeCccd *)
Fixpoint storeAll (writes : list (Z * Z)) (st : option Table * Files) : option Table * Files :=
  match writes with
  | [] => st
  | (handle, value) :: rest => storeAll rest (storeCccd handle value st)
  end.

End CccdStore.

(** ** The server side of AttConnection: discovery and read requests *)

Module AttServer.

Import Att.

(* buf.writeUInt16LE(value, pos): the two bytes written.  A value outside
   0..65535 throws; NaN passes the range check and is stored as 0. *)
Definition writeUInt16LE (value : Num.t) : Js.result (list Z) :=
  match value with
  | None => Js.Ok [0; 0]
  | Some v =>
      if (v <? 0) || (v >? 65535) then Js.Throw Js.RangeError else Js.Ok (Buf.uint16LE v)
  end.

(* writeUuid128(buf, uuid, pos):
     uuid = uuid.replace(/-/g, '')
     for (let i = 30; i >= 0; i -= 2) buf[pos++] = parseInt(uuid.substr(i, 2), 16) *)
Definition writeUuid128 (uuid : string) : list Z :=
  let u := Buf.removeChar "-"%char uuid in
  List.map (fun i => Num.toByte (Num.parseInt16 (Buf.substr i 2 u)))
    [30; 28; 26; 24; 22; 20; 18; 16; 14; 12; 10; 8; 6; 4; 2; 0]%nat.

(** *** FIND_INFORMATION_REQUEST *)

(* an element of `list`: {handle, uuid16} or {handle, uuid} *)
Inductive Found : Type :=
| Found16 (handle : Z) (uuid16 : Num.t)
| Found128 (handle : Z) (uuid : string).

Definition foundHandle (v : Found) : Z :=
  match v with Found16 h _ => h | Found128 h _ => h end.

(* for (var i = startingHandle; i <= endingHandle; i++) {
     var item = attDb[i]
     if (item) {
       if (item.uuid16 !== null) {
         if (format === 2 || list.length === max16) break
         format = 1
         list.push({handle: i, uuid16: item.uuid16})
       } else {
         if (format === 1 || list.length === max128) break
         format = 2
         list.push({handle: i, uuid: item.uuid})
       }
     }
   }
   [count] is the number of handles from i to endingHandle. *)
Fixpoint findLoop (attDb : Db.T) (max16 max128 : Z) (count : nat) (i : Z)
    (format : Z) (list_ : list Found) : Z * list Found :=
  match count with
  | O => (format, list_)
  | S count' =>
      match Db.get attDb i with
      | Some item =>
          match Db.uuid16 item with
          | Some u =>
              if (format =? 2) || (Z.of_nat (length list_) =? max16) then (format, list_)
              else findLoop attDb max16 max128 count' (i + 1) 1 (list_ ++ [Found16 i u])
          | None =>
              if (format =? 1) || (Z.of_nat (length list_) =? max128) then (format, list_)
              else findLoop attDb max16 max128 count' (i + 1) 2
                     (list_ ++ [Found128 i (Db.uuid item)])
          end
      | None => findLoop attDb max16 max128 count' (i + 1) format list_
      end
  end.

(** The entry the loop pushes for the attribute [a] = (handle, item). *)
Definition toFound (a : Z * Db.Item) : Found :=
  match Db.uuid16 (snd a) with
  | Some u => Found16 (fst a) u
  | None => Found128 (fst a) (Db.uuid (snd a))
  end.

(** The format an entry belongs to: 1 for a 16-bit UUID, 2 for a 128-bit one. *)
Definition kind (v : Found) : Z :=
  match v with Found16 _ _ => 1 | Found128 _ _ => 2 end.

(* ret.writeUInt16LE(v.handle, pos); pos += 2
   if (format === 1) { ret.writeUInt16LE(v.uuid16, pos); pos += 2 }
   else { writeUuid128(ret, v.uuid, pos); pos += 16 }
   An entry without the property read gives undefined: writeUInt16LE
   stores it as NaN does, uuid.replace throws. *)
Definition writeFound (format : Z) (v : Found) : Js.result (list Z) :=
  try! h := writeUInt16LE (Some (foundHandle v)) in
  if format =? 1 then
    try! u := writeUInt16LE (match v with Found16 _ u => u | Found128 _ _ => None end) in
    Js.Ok (h ++ u)
  else
    match v with
    | Found128 _ uuid => Js.Ok (h ++ writeUuid128 uuid)
    | Found16 _ _ => Js.Throw Js.TypeError
    end.

(* list.forEach(v => ...) over a buffer of the size the entries take *)
Fixpoint writeAll {A : Type} (enc : A -> Js.result (list Z)) (list_ : list A)
    : Js.result (list Z) :=
  match list_ with
  | [] => Js.Ok []
  | v :: rest =>
      try! b := enc v in
      try! bs := writeAll enc rest in
      Js.Ok (b ++ bs)
  end.

(* x / d >>> 0 for the d of the handlers: the quotient, cut towards zero *)
Definition quotUint32 (x d : Z) : Z := Num.toUint32 (Z.quot x d).

(* case BleGattAttribute.FIND_INFORMATION_REQUEST *)
Definition handleFindInformation (attDb : Db.T) (opcode : Z) (data : list Z) (s : State)
    : Outcome :=
  if negb (Buf.len data =? 5) then
    Returned (sendErrorResponse opcode 0 AttErrors.INVALID_PDU s)
  else
    let startingHandle := Buf.readUInt16LE 1 data in
    let endingHandle := Buf.readUInt16LE 3 data in
    if (startingHandle =? 0) || (startingHandle >? endingHandle) then
      Returned (sendErrorResponse opcode startingHandle AttErrors.INVALID_HANDLE s)
    else
      let endingHandle := Z.min endingHandle (Z.of_nat (length attDb) - 1) in
      let max16 := quotUint32 (currentMtu s - 2) 2 in
      let max128 := quotUint32 (currentMtu s - 2) 16 in
      let '(format, list_) :=
        findLoop attDb max16 max128 (Z.to_nat (endingHandle - startingHandle + 1))
          startingHandle 0 [] in
      if format =? 0 then
        Returned (sendErrorResponse opcode startingHandle AttCodes.ATTRIBUTE_NOT_FOUND s)
      else
        match writeAll (writeFound format) list_ with
        | Js.Ok body => Returned (sendResponse ([FIND_INFORMATION_RESPONSE; format] ++ body) s)
        | Js.Throw e => Threw e s
        end.

(** *** READ_BY_GROUP_TYPE_REQUEST *)

(* an element of `list`: {start, end, value} *)
Record Group : Type := mkGroup { gStart : Z; gEnd : Z; gValue : list Z }.

(* item.groupEndHandle || i *)
Definition groupEnd (item : Db.Item) (i : Z) : Z :=
  match Db.groupEndHandle item with
  | Some g => if g =? 0 then i else g
  | None => i
  end.

(* for (var i = startingHandle; i <= endingHandle; i++) {
     var item = attDb[i]
     if (item && item.uuid === attributeGroupType) {
       var value = item.value.slice(0, Math.min(251, currentMtu - 6))
       if (list.length !== 0 && (list[0].value.length !== value.length
           || 2 + (4 + value.length) * (list.length + 1) > currentMtu)) break
       list.push({start: i, end: item.groupEndHandle || i, value: value})
     }
   } *)
Fixpoint groupLoop (attDb : Db.T) (attributeGroupType : string) (mtu : Z) (count : nat)
    (i : Z) (list_ : list Group) : Js.result (list Group) :=
  match count with
  | O => Js.Ok list_
  | S count' =>
      match Db.get attDb i with
      | Some item =>
          if String.eqb (Db.uuid item) attributeGroupType then
            match Db.value item with
            | None => Js.Throw Js.TypeError
            | Some v =>
                let value := Buf.slice0 (Z.min 251 (mtu - 6)) v in
                let full :=
                  match list_ with
                  | [] => false
                  | first :: _ =>
                      negb (Buf.len (gValue first) =? Buf.len value)
                      || (2 + (4 + Buf.len value) * (Z.of_nat (length list_) + 1) >? mtu)
                  end in
                if full then Js.Ok list_
                else groupLoop attDb attributeGroupType mtu count' (i + 1)
                       (list_ ++ [mkGroup i (groupEnd item i) value])
            end
          else groupLoop attDb attributeGroupType mtu count' (i + 1) list_
      | None => groupLoop attDb attributeGroupType mtu count' (i + 1) list_
      end
  end.

(** The entry the loop pushes for the attribute [a] = (handle, item) of the
    group type, and the attributes of that type among the [count] handles
    from [i] on. *)
Definition toGroup (mtu : Z) (a : Z * Db.Item) : Group :=
  mkGroup (fst a) (groupEnd (snd a) (fst a))
    (Buf.slice0 (Z.min 251 (mtu - 6))
       (match Db.value (snd a) with Some v => v | None => [] end)).

Definition groupsIn (attDb : Db.T) (attributeGroupType : string) (count : nat) (i : Z)
    : list (Z * Db.Item) :=
  List.filter (fun a => String.eqb (Db.uuid (snd a)) attributeGroupType)
    (Db.attributesIn attDb count i).

(* ret.writeUInt16LE(v.start, pos); ret.writeUInt16LE(v.end, pos + 2)
   v.value.copy(ret, pos + 4); pos += 4 + v.value.length *)
Definition writeGroup (v : Group) : Js.result (list Z) :=
  try! a := writeUInt16LE (Some (gStart v)) in
  try! b := writeUInt16LE (Some (gEnd v)) in
  Js.Ok (a ++ b ++ gValue v).

Definition PRIMARY_SERVICE : string := "00002800" +:+ Utils.BASE_UUID_SECOND_PART.
Definition SECONDARY_SERVICE : string := "00002801" +:+ Utils.BASE_UUID_SECOND_PART.

(* getFullUuid(data.length === 7 ? data.readUInt16LE(5) : data.slice(5)) *)
Definition typeOfRequest (data : list Z) : option string :=
  Uuid.getFullUuid (if Buf.len data =? 7 then Uuid.ANum (Buf.readUInt16LE 5 data)
                    else Uuid.ABuf (skipn 5 data)).

(* case BleGattAttribute.READ_BY_GROUP_TYPE_REQUEST *)
Definition handleReadByGroupType (attDb : Db.T) (opcode : Z) (data : list Z) (s : State)
    : Outcome :=
  if negb (Buf.len data =? 7) && negb (Buf.len data =? 21) then
    Returned (sendErrorResponse opcode 0 AttErrors.INVALID_PDU s)
  else
    let startingHandle := Buf.readUInt16LE 1 data in
    let endingHandle := Buf.readUInt16LE 3 data in
    let attributeGroupType := typeOfRequest data in
    if (startingHandle =? 0) || (startingHandle >? endingHandle) then
      Returned (sendErrorResponse opcode startingHandle AttErrors.INVALID_HANDLE s)
    else
      let endingHandle := Z.min endingHandle (Z.of_nat (length attDb) - 1) in
      match attributeGroupType with
      | Some type =>
          if String.eqb type PRIMARY_SERVICE || String.eqb type SECONDARY_SERVICE then
            match groupLoop attDb type (currentMtu s)
                    (Z.to_nat (endingHandle - startingHandle + 1)) startingHandle [] with
            | Js.Throw e => Threw e s
            | Js.Ok [] =>
                Returned (sendErrorResponse opcode startingHandle
                            AttCodes.ATTRIBUTE_NOT_FOUND s)
            | Js.Ok ((first :: _) as list_) =>
                match writeAll writeGroup list_ with
                | Js.Ok body =>
                    Returned (sendResponse
                                ([READ_BY_GROUP_TYPE_RESPONSE; Buf.u8 (4 + Buf.len (gValue first))]
                                 ++ body) s)
                | Js.Throw e => Threw e s
                end
            end
          else
            Returned (sendErrorResponse opcode startingHandle
                        AttCodes.UNSUPPORTED_GROUP_TYPE s)
      | None =>
          Returned (sendErrorResponse opcode startingHandle AttCodes.UNSUPPORTED_GROUP_TYPE s)
      end.

(** *** READ_REQUEST and READ_BLOB_REQUEST *)

(* item.read(connection, opcode, offset, function(err, value) {
     if (err !== 0) sendErrorResponse(opcode, handle, err)
     else {
       if (value) value = value.slice(0, requestMtu - 1)
       var ret = Buffer.alloc(1 + value.length)
       ret[0] = responseOpcode
       value.copy(ret, 1)
       sendResponse(ret)
     }
   }) *)
Definition answerRead (item : Db.Item) (opcode responseOpcode handle offset : Z) (s : State)
    : Outcome :=
  let requestMtu := currentMtu s in
  let s1 := setHandlingRequest true s in
  match Db.read item opcode offset with
  | Db.NoCall => Returned s1
  | Db.Raises e => Threw e s1
  | Db.Calls err value =>
      if negb (err =? 0) then Returned (sendErrorResponse opcode handle err s1)
      else
        match value with
        | None => Threw Js.TypeError s1
        | Some v => Returned (sendResponse (responseOpcode :: Buf.slice0 (requestMtu - 1) v) s1)
        end
  end.

(* case BleGattAttribute.READ_REQUEST *)
Definition handleRead (attDb : Db.T) (conn : Connection) (opcode : Z) (data : list Z)
    (s : State) : Outcome :=
  if negb (Buf.len data =? 3) then
    Returned (sendErrorResponse opcode 0 AttErrors.INVALID_PDU s)
  else
    let handle := Buf.readUInt16LE 1 data in
    match Db.get attDb handle with
    | None => Returned (sendErrorResponse opcode handle AttErrors.INVALID_HANDLE s)
    | Some item =>
        let perm := checkPerm conn (Db.readPerm item) false in
        if negb (perm =? 0) then Returned (sendErrorResponse opcode handle perm s)
        else answerRead item opcode READ_RESPONSE handle 0 s
    end.

(* case BleGattAttribute.READ_BLOB_REQUEST *)
Definition handleReadBlob (attDb : Db.T) (conn : Connection) (opcode : Z) (data : list Z)
    (s : State) : Outcome :=
  if negb (Buf.len data =? 5) then
    Returned (sendErrorResponse opcode 0 AttErrors.INVALID_PDU s)
  else
    let handle := Buf.readUInt16LE 1 data in
    let offset := Buf.readUInt16LE 3 data in
    match Db.get attDb handle with
    | None => Returned (sendErrorResponse opcode handle AttErrors.INVALID_HANDLE s)
    | Some item =>
        let perm := checkPerm conn (Db.readPerm item) false in
        if negb (perm =? 0) then Returned (sendErrorResponse opcode handle perm s)
        else answerRead item opcode READ_BLOB_RESPONSE handle offset s
    end.

(** *** The data callback *)

(* switch (opcode) { ... }, for the requests embedded here *)
Definition dispatch (attDb : Db.T) (conn : Connection) (opcode : Z) (data : list Z)
    (s : State) : Outcome :=
  if isKnownResponseOpcode opcode then Returned s
  else if isHandlingRequest s && isKnownRequestOpcode opcode then Returned s
  else if opcode =? FIND_INFORMATION_REQUEST then handleFindInformation attDb opcode data s
  else if opcode =? READ_REQUEST then handleRead attDb conn opcode data s
  else if opcode =? READ_BLOB_REQUEST then handleReadBlob attDb conn opcode data s
  else if opcode =? READ_BY_GROUP_TYPE_REQUEST then handleReadByGroupType attDb opcode data s
  else Unmodelled.

(* registerOnDataFn(data => {
     if (timedout) return
     if (data.length === 0) return
     if (data.length > currentMtu) return
     var opcode = data[0]
     if (currentOutgoingRequest !== null && currentOutgoingRequestIsSent
         && (opcode === currentOutgoingRequest.responseOpcode || opcode === ERROR_RESPONSE)) {
       ...response branch...; return
     }
     if (isKnownResponseOpcode(opcode)) return
     if (isHandlingRequest && isKnownRequestOpcode(opcode)) return
     switch (opcode) { ... }
   }) *)
Definition onData (fuel : nat) (attDb : Db.T) (conn : Connection) (data : list Z) (s : State)
    : Outcome :=
  if timedout s then Returned s
  else if Buf.len data =? 0 then Returned s
  else if Buf.len data >? currentMtu s then Returned s
  else
    let opcode := nth 0 data 0 in
    match currentOutgoingRequest s with
    | Some cur =>
        if currentOutgoingRequestIsSent s
           && ((opcode =? responseOpcode cur) || (opcode =? ERROR_RESPONSE))
        then onResponse fuel opcode data cur s
        else dispatch attDb conn opcode data s
    | None => dispatch attDb conn opcode data s
    end.

End AttServer.

(** ** The client side of AttConnection: requests and their parsers *)

Module AttClient.

Import Att.

(** What the parser handed to enqueueRequest does with a response. *)
Inductive Parsed (A : Type) : Type :=
| Rejected                 (* return false: the PDU is dropped *)
| Failed (err : Z)         (* callback(err) *)
| Done (a : A).            (* callback(0, a) *)

Arguments Rejected {A}.
Arguments Failed {A} err.
Arguments Done {A} a.

(* buffer = Buffer.alloc(5); buffer[0] = opcode
   buffer.writeUInt16LE(a, 1); buffer.writeUInt16LE(b, 3) *)
Definition request5 (opcode a b : Z) : Js.result (list Z) :=
  try! x := AttServer.writeUInt16LE (Some a) in
  try! y := AttServer.writeUInt16LE (Some b) in
  Js.Ok ([opcode] ++ x ++ y).

(* findInformation(startingHandle, endingHandle, callback): the request *)
Definition findInformationRequest (startingHandle endingHandle : Z) : Js.result (list Z) :=
  request5 FIND_INFORMATION_REQUEST startingHandle endingHandle.

(* for (var i = 2; i < data.length; i += (format === 0x01 ? 4 : 18)) {
     var handle = data.readUInt16LE(i)
     var uuid = getFullUuid(format === 0x01 ? data.readUInt16LE(i + 2)
                                            : data.slice(i + 2, i + 18))
     list.push({handle: handle, uuid: uuid})
   }
   The bound [fuel] is the length of data; every turn moves i on. *)
Fixpoint informationLoop (fuel : nat) (format : Z) (data : list Z) (i : nat)
    : list (Z * option string) :=
  match fuel with
  | O => []
  | S fuel' =>
      if (i <? length data)%nat then
        (Buf.readUInt16LE i data,
         Uuid.getFullUuid
           (if format =? 1 then Uuid.ANum (Buf.readUInt16LE (i + 2) data)
            else Uuid.ABuf (firstn 16 (skipn (i + 2) data))))
        :: informationLoop fuel' format data (i + (if format =? 1 then 4 else 18))
      else []
  end.

(* the parser of findInformation *)
Definition findInformationParser (err : Z) (data : list Z)
    : Parsed (list (Z * option string)) :=
  if negb (err =? 0) then Failed err
  else if Buf.len data <? 6 then Rejected
  else
    let format := nth 1 data 0 in
    if format >? 2 then Rejected
    else if negb ((Buf.len data - 2) mod (if format =? 1 then 4 else 18) =? 0) then Rejected
    else Done (informationLoop (length data) format data 2).

(* for (var i = 2; i < data.length; i += length) {
     list.push({attributeHandle: data.readUInt16LE(i),
                endGroupHandle: data.readUInt16LE(i + 2),
                attributeValue: data.slice(i + 4, i + length)})
   } *)
Fixpoint groupLoop (fuel : nat) (length_ : nat) (data : list Z) (i : nat)
    : list AttServer.Group :=
  match fuel with
  | O => []
  | S fuel' =>
      if (i <? length data)%nat then
        AttServer.mkGroup (Buf.readUInt16LE i data) (Buf.readUInt16LE (i + 2) data)
          (firstn (length_ - 4) (skipn (i + 4) data))
        :: groupLoop fuel' length_ data (i + length_)
      else []
  end.

(* readByGroupType(startingHandle, endingHandle, attributeGroupType, callback):
     var attributeGroupTypeBuffer = serializeUuid(attributeGroupType)
     var buffer = Buffer.alloc(5 + attributeGroupTypeBuffer.length)
     buffer[0] = BleGattAttribute.READ_BY_GROUP_TYPE_REQUEST
     buffer.writeUInt16LE(startingHandle, 1)
     buffer.writeUInt16LE(endingHandle, 3)
     attributeGroupTypeBuffer.copy(buffer, 5) *)
Definition readByGroupTypeRequest (startingHandle endingHandle : Z)
    (attributeGroupType : Utils.UuidArg) : Js.result (list Z) :=
  try! t := Utils.serializeUuid attributeGroupType in
  try! x := AttServer.writeUInt16LE (Some startingHandle) in
  try! y := AttServer.writeUInt16LE (Some endingHandle) in
  Js.Ok ([READ_BY_GROUP_TYPE_REQUEST] ++ x ++ y ++ t).

(* the parser of readByGroupType *)
Definition readByGroupTypeParser (err : Z) (data : list Z) : Parsed (list AttServer.Group) :=
  if negb (err =? 0) then Failed err
  else if Buf.len data <? 6 then Rejected
  else
    let length_ := nth 1 data 0 in
    if (length_ <? 4) || negb ((Buf.len data - 2) mod length_ =? 0) then Rejected
    else Done (groupLoop (length data) (Z.to_nat length_) data 2).

(* read(attributeHandle, callback):
     Buffer.from([BleGattAttribute.READ_REQUEST, attributeHandle, attributeHandle >> 8]) *)
Definition readRequest (attributeHandle : Z) : list Z :=
  [READ_REQUEST; Buf.u8 attributeHandle; Buf.u8 (Num.shr attributeHandle 8)].

(* readBlob(attributeHandle, valueOffset, callback): the request *)
Definition readBlobRequest (attributeHandle valueOffset : Z) : Js.result (list Z) :=
  request5 READ_BLOB_REQUEST attributeHandle valueOffset.

(* the parser of read and of readBlob *)
Definition readParser (err : Z) (data : list Z) : Parsed (list Z) :=
  if negb (err =? 0) then Failed err else Done (skipn 1 data).

(* The data callback for a PDU that arrives while the request is out and
   sent:
     if (timedout) return; if (data.length === 0) return
     if (data.length > currentMtu) return
     if (opcode === currentOutgoingRequest.responseOpcode || opcode === ERROR_RESPONSE) {
       if (opcode === ERROR_RESPONSE && data.length !== 5) return
       if (opcode === ERROR_RESPONSE && data[4] === 0) data[4] = AttErrors.UNLIKELY_ERROR
       var err = opcode === ERROR_RESPONSE ? data[4] : 0
       if (!cb(err, data)) return
       ...
     }
   for a connection that has not timed out.  A PDU that is dropped, or
   that is no response, leaves the request waiting: [Rejected]. *)
Definition deliver {A : Type} (currentMtu : Z) (request : list Z)
    (parser : Z -> list Z -> Parsed A) (data : list Z) : Parsed A :=
  if Buf.len data =? 0 then Rejected
  else if Buf.len data >? currentMtu then Rejected
  else
    let opcode := nth 0 data 0 in
    let responseOpcode := nth 0 request 0 + 1 in
    if (opcode =? responseOpcode) || (opcode =? ERROR_RESPONSE) then
      if (opcode =? ERROR_RESPONSE) && negb (Buf.len data =? 5) then Rejected
      else
        let data1 := if (opcode =? ERROR_RESPONSE) && (nth 4 data 0 =? 0)
                     then patchErrorCode data else data in
        let err := if opcode =? ERROR_RESPONSE then nth 4 data1 0 else 0 in
        parser err data1
    else Rejected.

End AttClient.

(** ** A server between two requests *)

Module Link.

Definition idle (s : Att.State) : Prop :=
  Att.timedout s = false /\ Att.isHandlingRequest s = false
  /\ Att.currentOutgoingRequest s = None.

End Link.

(** ** Long writes: PREPARE_WRITE and EXECUTE_WRITE *)

Module AttWrite.

Import Att.

(* an element of prepareWriteQueue: {item, handle, offset, data} *)
Record Elem : Type := mkElem {
  item : Db.Item;
  handle : Z;
  offset : Z;
  data : list Z
}.

(** The server with its queue of prepared writes:
      var prepareWriteQueue = []       // Array of {item, handle, offset, data}
      var prepareWriteQueueSize = 0    // Number of requests *)
Record Server : Type := mkServer {
  att : State;
  prepareWriteQueue : list Elem;
  prepareWriteQueueSize : Z
}.

Definition withAtt (f : State -> State) (sv : Server) : Server :=
  mkServer (f (att sv)) (prepareWriteQueue sv) (prepareWriteQueueSize sv).

(** How a call of the data callback ends. *)
Inductive Outcome : Type :=
| Returns (sv : Server)
| Throws (e : Js.Exn) (sv : Server)
| Diverges
| Unmodelled.

Definition lift (sv : Server) (o : Att.Outcome) : Outcome :=
  match o with
  | Returned s => Returns (withAtt (fun _ => s) sv)
  | Threw e s => Throws e (withAtt (fun _ => s) sv)
  | Diverged => Diverges
  | Att.Unmodelled => Unmodelled
  end.

(* if (prepareWriteQueue.length > 0) {
     var elem = prepareWriteQueue[prepareWriteQueue.length - 1]
     if (elem.handle === handle && elem.offset + elem.data.length === offset) {
       elem.data = Buffer.concat([elem.data, value])
       ...; return
     }
   }
   prepareWriteQueue.push({item: item, handle: handle, offset: offset, data: value}) *)
Definition enqueue (item_ : Db.Item) (handle_ offset_ : Z) (value : list Z)
    (queue : list Elem) : list Elem :=
  match rev queue with
  | elem :: before =>
      if (handle elem =? handle_) && (offset elem + Buf.len (data elem) =? offset_)
      then rev before ++ [mkElem (item elem) (handle elem) (offset elem) (data elem ++ value)]
      else queue ++ [mkElem item_ handle_ offset_ value]
  | [] => queue ++ [mkElem item_ handle_ offset_ value]
  end.

(* case BleGattAttribute.PREPARE_WRITE_REQUEST:
     if (data.length < 5) { sendErrorResponse(opcode, 0, AttErrors.INVALID_PDU); return }
     var handle = data.readUInt16LE(1)
     var offset = data.readUInt16LE(3)
     var value = data.slice(5)
     var item = attDb[handle]
     if (!item) { sendErrorResponse(opcode, handle, AttErrors.INVALID_HANDLE); return }
     var perm = checkWritePermission(item)
     if (perm !== 0) { sendErrorResponse(opcode, handle, perm); return }
     isHandlingRequest = true
     if (prepareWriteQueueSize >= 128) {
       sendErrorResponse(opcode, handle, AttErrors.PREPARE_QUEUE_FULL); return
     }
     item.authorizeWrite(connection, opcode, offset, Buffer.from(value), function(err) {
       if (err) sendErrorResponse(opcode, handle, err)
       else {
         ++prepareWriteQueueSize
         ...the queue takes the part...
         data[0] = BleGattAttribute.PREPARE_WRITE_RESPONSE
         sendResponse(data)
       }
     })
   An attribute without authorizeWrite function makes the call throw. *)
Definition handlePrepareWrite (attDb : Db.T) (conn : Connection) (opcode : Z)
    (pdu : list Z) (sv : Server) : Outcome :=
  if Buf.len pdu <? 5 then
    Returns (withAtt (sendErrorResponse opcode 0 AttErrors.INVALID_PDU) sv)
  else
    let handle_ := Buf.readUInt16LE 1 pdu in
    let offset_ := Buf.readUInt16LE 3 pdu in
    let value := skipn 5 pdu in
    match Db.get attDb handle_ with
    | None => Returns (withAtt (sendErrorResponse opcode handle_ AttErrors.INVALID_HANDLE) sv)
    | Some item_ =>
        let perm := checkPerm conn (Db.writePerm item_) true in
        if negb (perm =? 0) then Returns (withAtt (sendErrorResponse opcode handle_ perm) sv)
        else
          let sv1 := withAtt (setHandlingRequest true) sv in
          if prepareWriteQueueSize sv1 >=? 128 then
            Returns (withAtt (sendErrorResponse opcode handle_ AttCodes.PREPARE_QUEUE_FULL) sv1)
          else
            match Db.authorizeWrite item_ with
            | None => Throws Js.TypeError sv1
            | Some authorize =>
                match authorize opcode offset_ value with
                | None => Returns sv1
                | Some err =>
                    if negb (err =? 0) then
                      Returns (withAtt (sendErrorResponse opcode handle_ err) sv1)
                    else
                      Returns
                        (mkServer
                           (sendResponse (PREPARE_WRITE_RESPONSE :: skipn 1 pdu) (att sv1))
                           (enqueue item_ handle_ offset_ value (prepareWriteQueue sv1))
                           (prepareWriteQueueSize sv1 + 1))
                end
            end
    end.

(* for (var i = 0; i < prepareWriteQueue.length; i++) {
     var elem = prepareWriteQueue[i]
     if (elem.offset > elem.item.maxLength) { ...INVALID_OFFSET...; return }
     if (elem.offset + elem.data.length > elem.item.maxLength) {
       ...INVALID_ATTRIBUTE_VALUE_LENGTH...; return }
   }
   The first element out of range, with its error code. *)
Fixpoint firstOutOfRange (queue : list Elem) : option (Elem * Z) :=
  match queue with
  | [] => None
  | elem :: rest =>
      if offset elem >? Db.maxLength (item elem) then Some (elem, AttErrors.INVALID_OFFSET)
      else if offset elem + Buf.len (data elem) >? Db.maxLength (item elem)
      then Some (elem, AttErrors.INVALID_ATTRIBUTE_VALUE_LENGTH)
      else firstOutOfRange rest
  end.

(* case BleGattAttribute.EXECUTE_WRITE_REQUEST:
     if (data.length !== 2 || data[1] > 0x01) {
       sendErrorResponse(opcode, 0, AttErrors.INVALID_PDU); return }
     var flags = data[1]
     if (flags === 0x00 || prepareWriteQueue.length === 0) {
       prepareWriteQueue = []; prepareWriteQueueSize = 0
       sendResponse(Buffer.from([BleGattAttribute.EXECUTE_WRITE_RESPONSE]))
     } else {
       for (...) { ...the range checks: prepareWriteQueue = []; prepareWriteQueueSize = 0
                   sendErrorResponse(opcode, elem.handle, ...); return }
       isHandlingRequest = true
       var left = prepareWriteQueue.length
       for (var i = 0; i < prepareWriteQueue.length; i++) {
         var elem = prepareWriteQueue[i]
         (function() {
           var used = false
           elem.item.write(connection, opcode, elem.offset, elem.data, function(err) { ... })
         })()
       }
     }
   No semicolon ends the line `var elem = prepareWriteQueue[i]` and the
   next one begins with `(`, so the two are one statement:
     var elem = prepareWriteQueue[i](function() { ... })()
   The element of the queue is an object, not a function: the first turn
   of the loop throws a TypeError, before the function that holds the call
   of elem.item.write is run.  The queue is not empty in this branch, so
   the first turn is always reached. *)
Definition handleExecuteWrite (opcode : Z) (pdu : list Z) (sv : Server) : Outcome :=
  if negb (Buf.len pdu =? 2) || (nth 1 pdu 0 >? 1) then
    Returns (withAtt (sendErrorResponse opcode 0 AttErrors.INVALID_PDU) sv)
  else
    let flags := nth 1 pdu 0 in
    if (flags =? 0) || (Z.of_nat (length (prepareWriteQueue sv)) =? 0) then
      Returns (mkServer (sendResponse [EXECUTE_WRITE_RESPONSE] (att sv)) [] 0)
    else
      match firstOutOfRange (prepareWriteQueue sv) with
      | Some (elem, err) =>
          Returns (mkServer (sendErrorResponse opcode (handle elem) err (att sv)) [] 0)
      | None => Throws Js.TypeError (withAtt (setHandlingRequest true) sv)
      end.

(* switch (opcode) { ... }, with the other requests as in [AttServer] *)
Definition dispatch (attDb : Db.T) (conn : Connection) (opcode : Z) (pdu : list Z)
    (sv : Server) : Outcome :=
  if isKnownResponseOpcode opcode then Returns sv
  else if isHandlingRequest (att sv) && isKnownRequestOpcode opcode then Returns sv
  else if opcode =? PREPARE_WRITE_REQUEST then handlePrepareWrite attDb conn opcode pdu sv
  else if opcode =? EXECUTE_WRITE_REQUEST then handleExecuteWrite opcode pdu sv
  else lift sv (AttServer.dispatch attDb conn opcode pdu (att sv)).

(* registerOnDataFn(data => { ... }), see [AttServer.onData] *)
Definition onData (fuel : nat) (attDb : Db.T) (conn : Connection) (pdu : list Z)
    (sv : Server) : Outcome :=
  if timedout (att sv) then Returns sv
  else if Buf.len pdu =? 0 then Returns sv
  else if Buf.len pdu >? currentMtu (att sv) then Returns sv
  else
    let opcode := nth 0 pdu 0 in
    match currentOutgoingRequest (att sv) with
    | Some cur =>
        if currentOutgoingRequestIsSent (att sv)
           && ((opcode =? responseOpcode cur) || (opcode =? ERROR_RESPONSE))
        then lift sv (onResponse fuel opcode pdu cur (att sv))
        else dispatch attDb conn opcode pdu sv
    | None => dispatch attDb conn opcode pdu sv
    end.

(** The lower layer under the server: the request is the data of the
    server's data callback; the PDU the server hands to sendDataFn is sent
    and its sentCallback is called.  The result is the PDU sent and the
    server after it, or nothing when the server sends no PDU, sends more
    than one, or throws. *)
Definition serve (fuel : nat) (attDb : Db.T) (conn : Connection) (request : list Z)
    (sv : Server) : option (list Z * Server) :=
  match onData fuel attDb conn request sv with
  | Returns sv1 =>
      match skipn (length (trace (att sv))) (trace (att sv1)) with
      | [Tx pdu cb] => Some (pdu, withAtt (runSentCallback cb) sv1)
      | _ => None
      end
  | _ => None
  end.

(* a sequence of requests, each answered before the next arrives *)
Fixpoint serveAll (fuel : nat) (attDb : Db.T) (conn : Connection) (requests : list (list Z))
    (sv : Server) : option (list (list Z) * Server) :=
  match requests with
  | [] => Some ([], sv)
  | request :: rest =>
      match serve fuel attDb conn request sv with
      | None => None
      | Some (response, sv1) =>
          match serveAll fuel attDb conn rest sv1 with
          | None => None
          | Some (responses, sv2) => Some (response :: responses, sv2)
          end
      end
  end.

(* The PREPARE_WRITE requests, as prepareWrite builds them, that carry a
   value in parts: the first part goes to [offset], every other part to
   where the one before it ends. *)
Fixpoint prepareRequests (handle_ offset_ : Z) (parts : list (list Z)) : list (list Z) :=
  match parts with
  | [] => []
  | part :: rest =>
      ([PREPARE_WRITE_REQUEST] ++ Buf.uint16LE handle_ ++ Buf.uint16LE offset_ ++ part)
      :: prepareRequests handle_ (offset_ + Buf.len part) rest
  end.

End AttWrite.

(** ** The client side of a write: the requests of AttConnection and their parsers *)

Module WriteClient.

Import Att AttClient.

(* prepareWrite(attributeHandle, valueOffset, partAttributeValue, callback): the request
     var buffer = Buffer.alloc(5 + partAttributeValue.length)
     buffer[0] = BleGattAttribute.PREPARE_WRITE_REQUEST
     buffer.writeUInt16LE(attributeHandle, 1)
     buffer.writeUInt16LE(valueOffset, 3)
     partAttributeValue.copy(buffer, 5) *)
Definition prepareWriteRequest (attributeHandle valueOffset : Z)
    (partAttributeValue : list Z) : Js.result (list Z) :=
  try! x := AttServer.writeUInt16LE (Some attributeHandle) in
  try! y := AttServer.writeUInt16LE (Some valueOffset) in
  Js.Ok ([PREPARE_WRITE_REQUEST] ++ x ++ y ++ partAttributeValue).

(* the parser of prepareWrite:
     if (err) { callback(err); return true }
     if (data.length < 5) return false
     callback(0, buffer.slice(1).equals(data.slice(1))); return true *)
Definition prepareWriteParser (buffer : list Z) (err : Z) (data : list Z) : Parsed bool :=
  if negb (err =? 0) then Failed err
  else if Buf.len data <? 5 then Rejected
  else Done (bool_decide (skipn 1 buffer = skipn 1 data)).

(* executeWrite(isExecute, callback): the request
     Buffer.from([BleGattAttribute.EXECUTE_WRITE_REQUEST, isExecute ? 0x01 : 0x00]) *)
Definition executeWriteRequest (isExecute : bool) : list Z :=
  [EXECUTE_WRITE_REQUEST; if isExecute then 1 else 0].

End WriteClient.
(** ** removeService *)

Module RemoveService.

Import GattDb.

(* delete attDb[handle]: the element becomes a hole, the length stays *)
Definition deleteAt (handle : Z) (attDb : Db.T) : Db.T :=
  if (0 <=? handle) && (handle <? Z.of_nat (length attDb))
  then firstn (Z.to_nat handle) attDb ++ [None] ++ skipn (S (Z.to_nat handle)) attDb
  else attDb.

(* for (var handle = s.startHandle; handle <= s.endHandle; handle++) delete attDb[handle]
   with [count] turns left *)
Fixpoint deleteFrom (count : nat) (handle : Z) (attDb : Db.T) : Db.T :=
  match count with
  | O => attDb
  | S count' => deleteFrom count' (handle + 1) (deleteAt handle attDb)
  end.

(* var handle
   for (handle = s.startHandle - 1; handle >= 1; --handle) { if (attDb[handle]) break }
   with at most [turns] turns: the value of handle after the loop *)
Fixpoint lastBefore (turns : nat) (handle : Z) (attDb : Db.T) : Z :=
  match turns with
  | O => handle
  | S turns' =>
      if handle >=? 1 then
        match Db.get attDb handle with
        | Some _ => handle
        | None => lastBefore turns' (handle - 1) attDb
        end
      else handle
  end.

(* attDb.length = n: the array is cut, or extended with holes; a length
   that is no array length throws *)
Definition setLength (n : Z) (attDb : Db.T) : Js.result Db.T :=
  if (n <? 0) || (n >? 4294967295) then Js.Throw Js.RangeError
  else Js.Ok (firstn (Z.to_nat n) attDb ++ repeat None (Z.to_nat n - length attDb)).

(* for (var i = 0; i < allServices.length; i++) if (allServices[i].userObj === service) ... *)
Fixpoint findService (service : nat) (allServices : list Service) (i : nat)
    : option (nat * Service) :=
  match allServices with
  | [] => None
  | s :: rest => if Nat.eqb (userObj s) service then Some (i, s)
                 else findService service rest (S i)
  end.

(* this.removeService = function(service) {
     for (var i = 0; i < allServices.length; i++) {
       if (allServices[i].userObj === service) {
         var s = allServices[i]
         allServices.splice(i, 1)
         for (var handle = s.startHandle; handle <= s.endHandle; handle++) delete attDb[handle]
         if (attDb.length === s.endHandle + 1) {
           var handle
           for (handle = s.startHandle - 1; handle >= 1; --handle) { if (attDb[handle]) break }
           attDb.length = handle + 1
         }
         return true
       }
     }
     return false
   }
   The loop over the handles below the service makes at most
   s.startHandle - 1 turns. *)
Definition removeService (service : nat) (allServices : list Service) (attDb : Db.T)
    : Js.result (bool * list Service * Db.T) :=
  match findService service allServices 0 with
  | None => Js.Ok (false, allServices, attDb)
  | Some (i, s) =>
      let allServices' := removeAt i allServices in
      let attDb1 :=
        deleteFrom (Z.to_nat (endHandle s - startHandle s + 1)) (startHandle s) attDb in
      if Z.of_nat (length attDb1) =? endHandle s + 1 then
        try! attDb2 :=
          setLength (lastBefore (Z.to_nat (startHandle s - 1)) (startHandle s - 1) attDb1 + 1)
            attDb1 in
        Js.Ok (true, allServices', attDb2)
      else Js.Ok (true, allServices', attDb1)
  end.

End RemoveService.

(** * Part II: properties *)

(** ** Bytes *)

Lemma lor_shiftl_bytes (lo hi : Z) :
  0 <= lo < 256 -> Z.lor lo (Z.shiftl hi 8) = lo + 256 * hi.
Proof.
  intros Hlo.
  assert (Hland : Z.land lo (Z.shiftl hi 8) = 0).
  { apply Z.bits_inj'. intros n Hn. rewrite Z.land_spec, Z.bits_0.
    destruct (Z.lt_ge_cases n 8) as [Hlt|Hge].
    - rewrite Z.shiftl_spec_low by assumption. apply andb_false_r.
    - replace (Z.testbit lo n) with false; [reflexivity|].
      symmetry. destruct (Z.eq_dec lo 0) as [->|Hne]; [apply Z.bits_0|].
      apply Z.bits_above_log2; [lia|].
      assert (Z.log2 lo < 8) by (apply Z.log2_lt_pow2; lia). lia. }
  rewrite <- Z.lxor_lor by assumption.
  rewrite <- Z.add_nocarry_lxor by assumption.
  rewrite Z.shiftl_mul_pow2 by lia. change (2 ^ 8) with 256. lia.
Qed.

Lemma lor_shiftl_div_mod (v : Z) :
  Z.lor (v mod 256) (Z.shiftl (v / 256) 8) = v.
Proof.
  rewrite lor_shiftl_bytes by (apply Z.mod_pos_bound; lia).
  Z.div_mod_to_equations; lia.
Qed.

(** ** UUID encoding *)

Lemma serializeUuid_number (u : Z) :
  0 <= u <= 65535 ->
  Utils.serializeUuid (Utils.UuidNum u) = Js.Ok [u mod 256; if 8 <? u then 1 else 0].
Proof.
  intros Hu. unfold Utils.serializeUuid, Buf.u8.
  replace ((0 <=? u) && (u <=? 65535)) with true by (symmetry; apply andb_true_intro; lia).
  destruct (8 <? u); reflexivity.
Qed.

Lemma hexDigitsOf_step (fuel : nat) (n : Z) (acc : string) :
  Buf.hexDigitsOf (S fuel) n acc =
  if n / 16 =? 0 then String (Buf.hexDigitLower (n mod 16)) acc
  else Buf.hexDigitsOf fuel (n / 16) (String (Buf.hexDigitLower (n mod 16)) acc).
Proof. reflexivity. Qed.

Lemma hexDigit_roundtrip (d : Z) :
  0 <= d < 16 -> Buf.hexDigitValue (Buf.upperChar (Buf.hexDigitLower d)) = Some d.
Proof.
  intros Hd.
  assert (H : In d (List.map Z.of_nat (seq 0 16))).
  { apply in_map_iff. exists (Z.to_nat d). split; [lia|]. apply in_seq. lia. }
  cbn in H. repeat (destruct H as [<-|H]; [reflexivity|]). destruct H.
Qed.

Ltac hexstep quo rem :=
  rewrite hexDigitsOf_step;
  match goal with
  | |- context [Buf.hexDigitsOf _ (?n / 16) _] =>
      replace (n / 16) with quo by (Z.div_mod_to_equations; lia);
      replace (n mod 16) with rem by (Z.div_mod_to_equations; lia)
  end;
  replace (quo =? 0) with false by (symmetry; apply Z.eqb_neq; lia).

(** (0x100000000 + v).toString(16) for a 16-bit v given by its hex digits *)
Lemma toString16_nibbles (a b c d : Z) :
  0 <= a < 16 -> 0 <= b < 16 -> 0 <= c < 16 -> 0 <= d < 16 ->
  Buf.toString16 (4294967296 + (4096 * a + 256 * b + 16 * c + d)) =
  String "1" (String "0" (String "0" (String "0" (String "0"
    (String (Buf.hexDigitLower a) (String (Buf.hexDigitLower b)
      (String (Buf.hexDigitLower c) (String (Buf.hexDigitLower d) EmptyString)))))))).
Proof.
  intros Ha Hb Hc Hd. unfold Buf.toString16.
  replace (_ <? 0) with false by (symmetry; apply Z.ltb_ge; lia).
  replace (Z.log2 _) with 32 by (symmetry; apply Z.log2_unique; lia).
  change (S (Z.to_nat 32)) with 33%nat.
  hexstep (268435456 + (256 * a + 16 * b + c)) d.
  hexstep (16777216 + (16 * a + b)) c.
  hexstep (1048576 + a) b.
  hexstep 65536 a.
  hexstep 4096 0. hexstep 256 0. hexstep 16 0. hexstep 1 0.
  reflexivity.
Qed.

Lemma serviceDeclarationValue_nibbles (a b c d : Z) :
  0 <= a < 16 -> 0 <= b < 16 -> 0 <= c < 16 -> 0 <= d < 16 ->
  Uuid.serviceDeclarationValue (Utils.UuidNum (4096 * a + 256 * b + 16 * c + d))
  = Js.Ok [16 * c + d; 16 * a + b].
Proof.
  intros Ha Hb Hc Hd.
  unfold Uuid.serviceDeclarationValue, Uuid.fixUuid.
  replace ((0 <=? _) && (_ <=? 65535)) with true by (symmetry; apply andb_true_intro; lia).
  unfold Uuid.ofNumber. rewrite toString16_nibbles by assumption.
  cbn [Js.bind].
  unfold Utils.serializeUuid.
  pose proof (hexDigit_roundtrip a Ha) as Ea. pose proof (hexDigit_roundtrip b Hb) as Eb.
  pose proof (hexDigit_roundtrip c Hc) as Ec. pose proof (hexDigit_roundtrip d Hd) as Ed.
  revert Ea Eb Ec Ed.
  generalize (Buf.hexDigitLower a) (Buf.hexDigitLower b) (Buf.hexDigitLower c)
    (Buf.hexDigitLower d).
  intros ca cb cc cd Ea Eb Ec Ed.
  cbn -[Buf.upperChar Buf.hexDigitValue Z.mul Z.add].
  change (Buf.upperChar "0") with "0"%char.
  cbv -[Buf.upperChar Buf.hexDigitValue Z.mul Z.add].
  rewrite Ea, Eb, Ec, Ed. reflexivity.
Qed.

(** The path addServices takes, fixUuid and then serializeUuid on the
    canonical string, gives the little-endian bytes, and a client that
    reads them back with getFullUuid gets the canonical form again. *)
Lemma serviceDeclaration_round_trip (u : Z) :
  0 <= u <= 65535 ->
  Uuid.serviceDeclarationValue (Utils.UuidNum u) = Js.Ok [u mod 256; u / 256]
  /\ Uuid.getFullUuid (Uuid.ABuf [u mod 256; u / 256]) = Uuid.getFullUuid (Uuid.ANum u).
Proof.
  intros Hu. split.
  - replace u with
      (4096 * (u / 4096) + 256 * ((u / 256) mod 16) + 16 * ((u / 16) mod 16) + u mod 16)
      at 1 by (Z.div_mod_to_equations; lia).
    rewrite serviceDeclarationValue_nibbles by (Z.div_mod_to_equations; lia).
    do 2 f_equal; [|f_equal]; Z.div_mod_to_equations; lia.
  - cbn [Uuid.getFullUuid length Nat.eqb nth]. rewrite lor_shiftl_div_mod. reflexivity.
Qed.

(** C1 (the code departs from the claim).  serializeUuid on the number
    0x2800, as the client's readByGroupType passes it, yields the bytes
    00 01 and not the little-endian encoding 00 28: the second byte comes
    from the comparison `uuid > 8`.  Read back with getFullUuid the bytes
    name the UUID 0x0100. *)
Theorem serializeUuid_number_second_byte :
  Utils.serializeUuid (Utils.UuidNum 0x2800) = Js.Ok [0x00; 0x01]
  /\ [0x2800 mod 256; 0x2800 / 256] = [0x00; 0x28]
  /\ Uuid.getFullUuid (Uuid.ABuf [0x00; 0x01])
     = Some "00000100-0000-1000-8000-00805F9B34FB"%string
  /\ Uuid.getFullUuid (Uuid.ANum 0x2800)
     = Some "00002800-0000-1000-8000-00805F9B34FB"%string.
Proof. repeat split; vm_compute; reflexivity. Qed.

(** ** Queue *)

Section QueueFacts.
Context {T : Type}.
Import Utils.

Lemma shift_single_restores (a : T) :
  shift (push a newQueue) = (Some a, push a newQueue).
Proof. reflexivity. Qed.

Lemma shiftMany_single (a : T) (n : nat) :
  shiftMany n (push a newQueue) = (repeat (Some a) n, push a newQueue).
Proof.
  induction n as [|n IH]; [reflexivity|].
  cbn [shiftMany]. rewrite shift_single_restores, IH. reflexivity.
Qed.

(** shift() never shrinks the array, and a queue that holds an entry never
    runs empty again. *)
Lemma shift_keeps_entries (Q : Queue T) :
  (pos Q < length (q Q))%nat ->
  q (snd (shift Q)) = q Q
  /\ (pos (snd (shift Q)) < length (q (snd (shift Q))))%nat
  /\ fst (shift Q) = nth_error (q Q) (pos Q)
  /\ is_Some (fst (shift Q)).
Proof.
  intros Hlt. unfold shift.
  destruct (Nat.eqb_spec (pos Q) (length (q Q))) as [E|_]; [lia|].
  assert (Hsome : is_Some (nth_error (q Q) (pos Q))).
  { destruct (nth_error (q Q) (pos Q)) eqn:E; [eauto|].
    apply nth_error_None in E. lia. }
  destruct (Nat.leb_spec (length (q Q)) (S (pos Q) * 2)); cbn [fst snd q pos];
    repeat split; try assumption; lia.
Qed.

Lemma getLength_after_shift (Q : Queue T) :
  (pos Q < length (q Q))%nat -> getLength (snd (shift Q)) <> 0.
Proof.
  intros Hlt. destruct (shift_keeps_entries Q Hlt) as (_ & Hpos & _).
  unfold getLength. lia.
Qed.

(** Three entries: the third is never returned. *)
Lemma shiftMany_three (a b c : T) :
  fst (shiftMany 6 (pushAll [a; b; c] newQueue))
  = [Some a; Some b; Some a; Some b; Some a; Some b].
Proof. reflexivity. Qed.

End QueueFacts.

(** ** The ATT request queue *)

Section RequestFacts.
Import Att Utils.

(** Once a request has been queued the queue never drains: whenever the
    client is idle, sendNextRequest finds an entry, transmits it, and leaves
    the array as long as it was. *)
Lemma sendNextRequest_never_drains (s : State) :
  currentOutgoingRequest s = None ->
  timedout s = false ->
  (pos (requestQueue s) < length (q (requestQueue s)))%nat ->
  exists r,
    nth_error (q (requestQueue s)) (pos (requestQueue s)) = Some r
    /\ transmitted (sendNextRequest s)
       = transmitted s ++ [Buf.slice0 (currentMtu s) (data r)]
    /\ q (requestQueue (sendNextRequest s)) = q (requestQueue s)
    /\ (pos (requestQueue (sendNextRequest s))
        < length (q (requestQueue (sendNextRequest s))))%nat.
Proof.
  intros Hidle Ht Hlt. unfold sendNextRequest. rewrite Hidle.
  destruct (shift_keeps_entries (requestQueue s) Hlt) as (Hq & Hpos & Hnth & [r Hr]).
  destruct (shift (requestQueue s)) as [next Q]. cbn [fst snd] in *. subst next.
  rewrite Hr. exists r. split; [reflexivity|].
  unfold sendDataFn. cbn [timedout setRequestIsSent setOutgoingRequest setRequestQueue].
  rewrite Ht. split; [|split; assumption].
  unfold transmitted, emit. cbn [trace currentMtu]. rewrite flat_map_app. reflexivity.
Qed.

End RequestFacts.

(** C2 (the code departs from the claim).  shift() resets [pos] without
    removing the entries it has handed out, so an entry comes back.  One
    request that is issued and answered is transmitted a second time; of
    three requests issued in a row the first is transmitted twice before
    the second, then the first again, and the third is not reached. *)
Theorem request_queue_returns_entries_again :
  fst (Utils.shiftMany 2 (Utils.push (Scenario.readRequest 3) Utils.newQueue))
    = [Some (Scenario.readRequest 3); Some (Scenario.readRequest 3)]
  /\ (exists s,
        Att.onData 1 Scenario.noAttributes Scenario.plainConnection
          Scenario.readResponse Scenario.oneRequestIssued = Att.Returned s
        /\ Att.transmitted s = [Scenario.readRequest 3; Scenario.readRequest 3]
        /\ Att.completions s = [(Att.READ_RESPONSE, 0)])
  /\ (exists s1 s2 s3,
        Att.onData 1 Scenario.noAttributes Scenario.plainConnection
          Scenario.readResponse Scenario.threeRequestsIssued = Att.Returned s1
        /\ Att.onData 1 Scenario.noAttributes Scenario.plainConnection
             Scenario.readResponse (Att.runSentCallback Att.OnRequestSent s1)
           = Att.Returned s2
        /\ Att.onData 1 Scenario.noAttributes Scenario.plainConnection
             Scenario.readResponse (Att.runSentCallback Att.OnRequestSent s2)
           = Att.Returned s3
        /\ Att.transmitted s3
           = [Scenario.readRequest 3; Scenario.readRequest 3; Scenario.readRequest 4;
              Scenario.readRequest 3]).
Proof.
  split; [reflexivity|]. split.
  - eexists. split; [vm_compute; reflexivity|]. split; reflexivity.
  - eexists. eexists. eexists. split; [vm_compute; reflexivity|].
    split; [vm_compute; reflexivity|]. split; [vm_compute; reflexivity|]. reflexivity.
Qed.

(** ** The MTU *)

Section MtuFacts.
Import Att.

Lemma currentMtu_sendResponse (pdu : list Z) (s : State) :
  currentMtu (sendResponse pdu s) = currentMtu s.
Proof. unfold sendResponse, sendDataFn. cbn. destruct (timedout s); reflexivity. Qed.

Lemma currentMtu_sendErrorResponse (op h e : Z) (s : State) :
  currentMtu (sendErrorResponse op h e s) = currentMtu s.
Proof. apply currentMtu_sendResponse. Qed.

Lemma exchange_currentMtu (x : MtuExchange) (s : State) :
  currentMtu (exchange x s) =
  if (currentMtu s =? 23) && wellFormed x then Z.min (receivedMtu x) 517 else currentMtu s.
Proof.
  destruct x as [pdu|pdu]; cbn [exchange wellFormed receivedMtu].
  - unfold handleExchangeMtuRequest.
    destruct (Buf.len pdu =? 3); cbn [negb].
    + rewrite currentMtu_sendResponse.
      set (rx := Buf.readUInt16LE 1 pdu).
      replace (if rx <? 23 then 23 else rx) with (Z.max 23 rx)
        by (destruct (Z.ltb_spec rx 23); lia).
      destruct (Z.eqb_spec (currentMtu s) 23) as [E|E]; cbn [andb].
      * destruct (Z.eqb_spec (Z.min (Z.max 23 rx) 517) 23) as [E'|E']; cbn [negb].
        -- rewrite currentMtu_sendResponse. lia.
        -- reflexivity.
      * apply currentMtu_sendResponse.
    + rewrite andb_false_r. apply currentMtu_sendErrorResponse.
  - unfold exchangeMtuHandler. cbn [Z.eqb negb].
    destruct (Buf.len pdu =? 3); cbn [negb snd].
    + set (rx := Buf.readUInt16LE 1 pdu).
      replace (Z.min 517 (Z.max 23 rx)) with (Z.min (Z.max 23 rx) 517) by lia.
      destruct (Z.eqb_spec (currentMtu s) 23) as [E|E]; cbn [andb].
      * destruct (Z.eqb_spec (Z.min (Z.max 23 rx) 517) 23) as [E'|E']; cbn [negb];
          cbn; lia.
      * reflexivity.
    + rewrite andb_false_r. reflexivity.
Qed.

Lemma exchange_bounds (x : MtuExchange) (s : State) :
  23 <= currentMtu s <= 517 ->
  currentMtu s <= currentMtu (exchange x s) <= 517.
Proof.
  intros Hs. rewrite exchange_currentMtu.
  destruct (Z.eqb_spec (currentMtu s) 23); cbn [andb]; [|lia].
  destruct (wellFormed x); [|lia].
  assert (23 <= receivedMtu x) by (destruct x; cbn; lia). lia.
Qed.

Lemma exchanges_snoc (xs : list MtuExchange) (x : MtuExchange) (s : State) :
  exchanges (xs ++ [x]) s = exchange x (exchanges xs s).
Proof. unfold exchanges. rewrite fold_left_app. reflexivity. Qed.

Lemma exchanges_bounds (xs : list MtuExchange) (s : State) :
  23 <= currentMtu s <= 517 ->
  currentMtu s <= currentMtu (exchanges xs s) <= 517.
Proof.
  revert s. induction xs as [|x xs IH]; intros s Hs; [cbn; lia|].
  change (exchanges (x :: xs) s) with (exchanges xs (exchange x s)).
  pose proof (exchange_bounds x s Hs). specialize (IH (exchange x s)). lia.
Qed.

Lemma changes_mtuHistory (xs : list MtuExchange) (s : State) :
  (changes (currentMtu s) (mtuHistory xs s) <= (if Z.eqb (currentMtu s) 23 then 1 else 0))%nat.
Proof.
  revert s. induction xs as [|x xs IH]; intros s.
  - cbn. destruct (currentMtu s =? 23); lia.
  - cbn [mtuHistory changes]. specialize (IH (exchange x s)).
    revert IH. rewrite exchange_currentMtu.
    destruct (Z.eqb_spec (currentMtu s) 23) as [E|E]; cbn [andb].
    + destruct (wellFormed x).
      * destruct (Z.eqb_spec (Z.min (receivedMtu x) 517) 23) as [E'|E'].
        -- rewrite E, E'. cbn. lia.
        -- rewrite E. destruct (Z.eqb_spec 23 (Z.min (receivedMtu x) 517)); [lia|]. lia.
      * rewrite E. cbn. lia.
    + rewrite Z.eqb_refl. destruct (Z.eqb_spec (currentMtu s) 23); [contradiction|]. lia.
Qed.

End MtuFacts.

(** C3, as amended.  An exchange handled while the connection MTU is still
    23 sets it to min(received MTU clamped below by 23, 517); an exchange
    handled after the MTU has left 23, or one with a malformed PDU, leaves
    it as it is.  Along every run of exchanges the MTU never decreases,
    stays within 23..517, and changes at most once. *)
Theorem mtu_exchange_once (xs : list Att.MtuExchange) (x : Att.MtuExchange) :
  let s0 := Att.exchanges xs Att.initial in
  let s1 := Att.exchange x s0 in
  Att.currentMtu s1
    = (if (Att.currentMtu s0 =? 23) && Att.wellFormed x
       then Z.min (Att.receivedMtu x) 517 else Att.currentMtu s0)
  /\ 23 <= Att.currentMtu s0 <= Att.currentMtu s1
  /\ Att.currentMtu s1 <= 517
  /\ (Att.changes 23 (Att.mtuHistory (xs ++ [x]) Att.initial) <= 1)%nat.
Proof.
  intros s0 s1.
  assert (H0 : 23 <= Att.currentMtu s0 <= 517)
    by (apply (exchanges_bounds xs Att.initial); cbn; lia).
  pose proof (exchange_bounds x s0 H0) as H1.
  split; [apply exchange_currentMtu|].
  split; [subst s1; lia|]. split; [subst s1; lia|].
  apply (changes_mtuHistory (xs ++ [x]) Att.initial).
Qed.

(** C3 as stated fails on a second exchange: after the peer's request with
    100 has been answered, its request with 200 is answered as well, yet
    the connection MTU stays 100 and is not min(200, 517). *)
Lemma mtu_second_exchange_keeps_first :
  exists s1 s2,
    Att.onData 1 Scenario.noAttributes Scenario.plainConnection
      (Scenario.mtuRequest 100) Att.initial = Att.Returned s1
    /\ Att.onData 1 Scenario.noAttributes Scenario.plainConnection
         (Scenario.mtuRequest 200) (Att.runSentCallback Att.OnResponseSent s1)
       = Att.Returned s2
    /\ Att.transmitted s2 = [[Att.EXCHANGE_MTU_RESPONSE; 5; 2]; [Att.EXCHANGE_MTU_RESPONSE; 5; 2]]
    /\ Att.currentMtu s2 = 100
    /\ Att.currentMtu s2 <> Z.min (Z.max 23 200) 517.
Proof.
  eexists. eexists. split; [vm_compute; reflexivity|].
  split; [vm_compute; reflexivity|]. repeat split. cbn. lia.
Qed.

(** ** Notifications held during an MTU exchange *)

Section NotificationFacts.
Import Att Utils.

(** A notification submitted while this device's Exchange MTU request is
    outstanding is queued and nothing is transmitted. *)
Lemma notify_is_held (handle : Z) (value : list Z) (s : State) :
  mtuExchangeOutstanding s = true ->
  transmitted (notify handle value s) = transmitted s
  /\ notificationQueue (notify handle value s)
     = push ([HANDLE_VALUE_NOTIFICATION] ++ Buf.uint16LE handle ++ value) (notificationQueue s).
Proof. intros H. unfold notify. rewrite H. split; reflexivity. Qed.

Lemma notificationQueue_sendDataFn (pdu : list Z) (cb : SentCallback) (s : State) :
  notificationQueue (sendDataFn pdu cb s) = notificationQueue s.
Proof. unfold sendDataFn. destruct (timedout s); reflexivity. Qed.

(** With a held notification the loop never reaches an empty queue. *)
Lemma flush_nonempty_diverges (fuel : nat) (s : State) :
  (pos (notificationQueue s) < length (q (notificationQueue s)))%nat ->
  flushNotifications fuel s = Diverged.
Proof.
  revert s. induction fuel as [|fuel IH]; intros s Hlt; [reflexivity|].
  cbn [flushNotifications].
  destruct (shift_keeps_entries (notificationQueue s) Hlt) as (Hq & Hpos & _ & [pdu Hpdu]).
  replace (getLength (notificationQueue s) =? 0) with false
    by (symmetry; apply Z.eqb_neq; unfold getLength; lia).
  destruct (shift (notificationQueue s)) as [item Q]. cbn [fst snd] in *. subst item.
  apply IH. rewrite notificationQueue_sendDataFn. cbn [setNotificationQueue notificationQueue].
  exact Hpos.
Qed.

Lemma flush_single_diverges (x : list Z) (fuel : nat) (s : State) :
  notificationQueue s = push x newQueue ->
  flushNotifications fuel s = Diverged.
Proof. intros Hq. apply flush_nonempty_diverges. rewrite Hq. cbn. lia. Qed.

(** Each turn of the loop transmits the held notification once more. *)
Lemma flush_single_step (x : list Z) (fuel : nat) (s : State) :
  notificationQueue s = push x newQueue ->
  flushNotifications (S fuel) s
  = flushNotifications fuel (sendDataFn (Buf.slice0 (currentMtu s) x) OnUserSent s).
Proof.
  intros Hq. cbn [flushNotifications]. rewrite Hq. cbn.
  f_equal. destruct s; cbn in *. subst. reflexivity.
Qed.

Lemma notificationQueue_exchangeMtuHandler (err : Z) (pdu : list Z) (s : State) :
  notificationQueue (snd (exchangeMtuHandler err pdu s)) = notificationQueue s.
Proof.
  unfold exchangeMtuHandler.
  destruct (negb (err =? 0)); [reflexivity|].
  destruct (negb (Buf.len pdu =? 3)); [reflexivity|].
  destruct ((currentMtu s =? 23) && _); reflexivity.
Qed.

(** The response to this device's Exchange MTU request arrives while one
    notification is held: the data callback does not return. *)
Lemma mtu_response_with_held_notification (fuel : nat) (attDb : gmap Z Attribute)
    (conn : Connection) (x : list Z) (lo hi : Z) (s : State) :
  timedout s = false ->
  3 <= currentMtu s ->
  currentOutgoingRequest s = Some (mkOutgoing EXCHANGE_MTU_RESPONSE HExchangeMtu) ->
  currentOutgoingRequestIsSent s = true ->
  notificationQueue s = push x newQueue ->
  onData fuel attDb conn [EXCHANGE_MTU_RESPONSE; lo; hi] s = Diverged.
Proof.
  intros Ht Hm Hreq Hsent Hq. unfold onData. rewrite Ht, Hreq, Hsent.
  replace (Buf.len [EXCHANGE_MTU_RESPONSE; lo; hi] =? 0) with false by reflexivity.
  replace (Buf.len [EXCHANGE_MTU_RESPONSE; lo; hi] >? currentMtu s) with false
    by (symmetry; rewrite Z.gtb_ltb; apply Z.ltb_ge;
        change (Buf.len [EXCHANGE_MTU_RESPONSE; lo; hi]) with 3; lia).
  cbn [nth responseOpcode andb orb]. rewrite Z.eqb_refl. cbn [orb].
  unfold onResponse. cbn [responseOpcode handler runHandler].
  replace (EXCHANGE_MTU_RESPONSE =? ERROR_RESPONSE) with false by reflexivity.
  cbn [andb].
  pose proof (notificationQueue_exchangeMtuHandler 0 [EXCHANGE_MTU_RESPONSE; lo; hi] s) as Hk.
  unfold exchangeMtuHandler in *. cbn [Z.eqb negb] in *.
  replace (Buf.len [EXCHANGE_MTU_RESPONSE; lo; hi] =? 3) with true in * by reflexivity.
  cbn [negb snd] in *. rewrite Z.eqb_refl.
  erewrite flush_single_diverges; [reflexivity|].
  cbn [setOutgoingRequest notificationQueue]. rewrite <- Hq. exact Hk.
Qed.

End NotificationFacts.

(** C4 (the code departs from the claim).  The notification submitted during
    the outstanding MTU exchange is held back, as claimed.  When the
    Exchange MTU response arrives, the loop that empties the holding queue
    does not end, whatever bound it is given: shift() hands the held
    notification out again and again (the defect of C2), so the handler
    never returns and no indication is released afterwards. *)
Theorem held_notification_flush_never_ends (fuel : nat) :
  let held := Att.notify 0x10 [1] Scenario.mtuRequestOutstanding in
  Att.transmitted held = Att.transmitted Scenario.mtuRequestOutstanding
  /\ Utils.q (Att.notificationQueue held) = [Scenario.heldNotification]
  /\ Att.onData fuel Scenario.noAttributes Scenario.plainConnection
       Scenario.mtuResponse held = Att.Diverged.
Proof.
  intros held. split; [reflexivity|]. split; [reflexivity|].
  apply (mtu_response_with_held_notification fuel _ _ Scenario.heldNotification);
    try reflexivity.
  subst held. vm_compute. discriminate.
Qed.

(** ** READ_MULTIPLE_REQUEST *)

Section ReadMultipleFacts.
Import Att.

(** The scan over the collected entries never assigns firstReadNotPerm. *)
Lemma classifyAll_firstReadNotPerm (entries : list ReadEntry) (f f' : Firsts) :
  classifyAll f entries = Js.Ok f' -> firstReadNotPerm f' = firstReadNotPerm f.
Proof.
  revert f. induction entries as [|v rest IH]; intros f H.
  - cbn in H. congruence.
  - cbn [classifyAll] in H. destruct v as [err handle|value]; [|discriminate].
    unfold classify in H. destruct (firstOther f =? 0); cbn [Js.bind] in H;
      apply IH in H; rewrite H; reflexivity.
Qed.

(** A read that succeeded makes the scan throw. *)
Lemma classifyAll_value_throws (entries : list ReadEntry) (f : Firsts) :
  (exists value, In (EntryValue value) entries) ->
  classifyAll f entries = Js.Throw Js.TypeError.
Proof.
  revert f. induction entries as [|v rest IH]; intros f [value Hin]; [destruct Hin|].
  cbn [classifyAll]. destruct v as [err handle|value']; [|reflexivity].
  destruct Hin as [Heq|Hin]; [discriminate|].
  unfold classify. destruct (firstOther f =? 0); cbn [Js.bind]; apply IH; eauto.
Qed.

End ReadMultipleFacts.

(** C5 (the code departs from the claim).  A Read Multiple request for the
    handles 3 and 5, where reading 3 fails with the application error 0x80
    and 5 is not readable: the error response names handle 3 with 0x80,
    not handle 5 with READ_NOT_PERMITTED, because firstReadNotPerm is
    tested but never assigned.  And when a listed handle is read
    successfully before another fails, the handler throws and sends
    nothing. *)
Theorem read_multiple_error_priority :
  (exists s,
     Att.onData 1 Scenario.readMultipleDb Scenario.plainConnection
       Scenario.readMultipleRequest Att.initial = Att.Returned s
     /\ Att.transmitted s
        = [[Att.ERROR_RESPONSE; Att.READ_MULTIPLE_REQUEST; 3; 0; 0x80]]
     /\ Att.transmitted s
        <> [[Att.ERROR_RESPONSE; Att.READ_MULTIPLE_REQUEST; 5; 0;
             AttErrors.READ_NOT_PERMITTED]])
  /\ (exists s,
        Att.onData 1 Scenario.readMultipleDb2 Scenario.plainConnection
          Scenario.readMultipleRequest2 Att.initial = Att.Threw Js.TypeError s
        /\ Att.transmitted s = []).
Proof.
  split.
  - eexists. split; [vm_compute; reflexivity|]. split; [reflexivity|].
    cbn. discriminate.
  - eexists. split; [vm_compute; reflexivity|]. reflexivity.
Qed.

(** ** WRITE_REQUEST and WRITE_COMMAND *)

Section WriteFacts.
Import Att.

Lemma transmitted_sendErrorResponse (op h e : Z) (s : State) :
  timedout s = false ->
  transmitted (sendErrorResponse op h e s)
  = transmitted s ++ [[ERROR_RESPONSE; Buf.u8 op] ++ Buf.uint16LE h ++ [Buf.u8 e]].
Proof.
  intros Ht. unfold sendErrorResponse, sendResponse, sendDataFn.
  cbn [setHandlingRequest timedout]. rewrite Ht.
  unfold transmitted, emit. cbn [trace]. rewrite flat_map_app. reflexivity.
Qed.

(** A Write Request whose value is longer than maxLength, on an attribute
    that may be written and whose authorization succeeds, is answered with
    INVALID_ATTRIBUTE_VALUE_LENGTH. *)
Lemma write_request_overflow (attDb : gmap Z Attribute) (conn : Connection)
    (pdu : list Z) (item : Attribute) (s : State) :
  timedout s = false ->
  3 <= Buf.len pdu ->
  attDb !! Buf.readUInt16LE 1 pdu = Some item ->
  checkWritePermission conn item = 0 ->
  authorizeWrite item WRITE_REQUEST 0 (skipn 3 pdu) = Some 0 ->
  disconnected conn = false ->
  Buf.len (skipn 3 pdu) > maxLength item ->
  transmitted (handleWrite attDb conn WRITE_REQUEST pdu s)
  = transmitted s
    ++ [[ERROR_RESPONSE; WRITE_REQUEST] ++ Buf.uint16LE (Buf.readUInt16LE 1 pdu)
        ++ [AttErrors.INVALID_ATTRIBUTE_VALUE_LENGTH]].
Proof.
  intros Ht Hlen Hitem Hperm Hauth Hconn Hover. unfold handleWrite.
  replace (Buf.len pdu <? 3) with false by (symmetry; apply Z.ltb_ge; lia).
  rewrite Hitem, Hperm, Hauth, Hconn. cbn [Z.eqb negb].
  replace (Buf.len (skipn 3 pdu) >? maxLength item) with true
    by (symmetry; rewrite Z.gtb_ltb; apply Z.ltb_lt; lia).
  replace (WRITE_REQUEST =? WRITE_COMMAND) with false by reflexivity. cbn [negb].
  rewrite transmitted_sendErrorResponse by exact Ht. reflexivity.
Qed.

(** A Write Command leaves the wire alone unless its value is longer than
    the attribute's maxLength. *)
Lemma write_command_silent_unless_overflow (attDb : gmap Z Attribute) (conn : Connection)
    (pdu : list Z) (s : State) :
  transmitted (handleWrite attDb conn WRITE_COMMAND pdu s) <> transmitted s ->
  exists item,
    attDb !! Buf.readUInt16LE 1 pdu = Some item
    /\ Buf.len (skipn 3 pdu) > maxLength item.
Proof.
  unfold handleWrite. replace (WRITE_COMMAND =? WRITE_COMMAND) with true by reflexivity.
  cbn [negb]. intros H.
  destruct (Buf.len pdu <? 3); [contradiction|].
  destruct (attDb !! Buf.readUInt16LE 1 pdu) as [item|]; [|contradiction].
  exists item. split; [reflexivity|].
  destruct (negb (checkWritePermission conn item =? 0)); [contradiction|].
  destruct (authorizeWrite item WRITE_COMMAND 0 (skipn 3 pdu)) as [err|]; [|contradiction].
  destruct (disconnected conn); [contradiction|].
  destruct (negb (err =? 0)); [contradiction|].
  destruct (Z.gtb_spec (Buf.len (skipn 3 pdu)) (maxLength item)) as [Hgt|Hle]; [lia|].
  destruct (write item WRITE_COMMAND 0 (skipn 3 pdu)); contradiction.
Qed.

End WriteFacts.

(** C6 (the code departs from the claim).  A Write Command that carries
    three bytes for an attribute of maxLength 2 is answered with an Error
    Response INVALID_ATTRIBUTE_VALUE_LENGTH: the length check sends it
    without asking whether the PDU is a command.  The same bytes sent as a
    Write Request get the same error code, as claimed. *)
Theorem write_command_overflow_is_answered :
  Att.transmitted
    (Att.handleWrite Scenario.writeDb Scenario.plainConnection Att.WRITE_COMMAND
       Scenario.writeCommand3 Att.initial)
  = [[Att.ERROR_RESPONSE; Att.WRITE_COMMAND; 3; 0; AttErrors.INVALID_ATTRIBUTE_VALUE_LENGTH]]
  /\ Att.onData 1 Scenario.writeDb Scenario.plainConnection Scenario.writeCommand3 Att.initial
     = Att.Returned
         (Att.handleWrite Scenario.writeDb Scenario.plainConnection Att.WRITE_COMMAND
            Scenario.writeCommand3 Att.initial)
  /\ Att.transmitted
       (Att.handleWrite Scenario.writeDb Scenario.plainConnection Att.WRITE_REQUEST
          Scenario.writeRequest3 Att.initial)
     = [[Att.ERROR_RESPONSE; Att.WRITE_REQUEST; 3; 0; AttErrors.INVALID_ATTRIBUTE_VALUE_LENGTH]].
Proof. repeat split; vm_compute; reflexivity. Qed.

(** ** DuplicateCache *)

Section CacheFacts.
Import Utils.

(** After node.next has been read, node is not null: the two identity
    tests of remove() that follow are false. *)
Lemma sameObject_after_getProp (n : option loc) (node nx : Js.Val) :
  Js.getProp node "next" = Js.Ok nx -> sameObject n node = false.
Proof. destruct node, n; cbn; intros H; try reflexivity; discriminate. Qed.

Lemma remove_absent (k : string) (c : DuplicateCache) :
  nodeMap c !! k = None -> remove k c = (Js.Ok false, c).
Proof.
  intros H. unfold remove, isDuplicate. rewrite H.
  rewrite bool_decide_eq_false_2; [reflexivity|]. intros [x Hx]. discriminate.
Qed.

Lemma remove_first (k : string) (c : DuplicateCache) :
  first (snd (remove k c)) = first c.
Proof.
  unfold remove. destruct (isDuplicate k c); [|reflexivity].
  destruct (Js.getProp (get k c) "next") as [nx|e]; [|reflexivity].
  destruct (if Js.isNull nx then Js.Ok () else Js.canSetProp nx); reflexivity.
Qed.

(** add() never assigns a node to [first]. *)
Lemma add_first (k : string) (v : Js.Val) (c : DuplicateCache) :
  first c = None -> first (snd (add k v c)) = None.
Proof.
  intros Hf. unfold add. pose proof (remove_first k c) as Hr.
  destruct (remove k c) as [[exists_|e] c1]; cbn [snd] in Hr; [|cbn; congruence].
  rewrite Hf in Hr.
  destruct (capacity c1 =? 0).
  - unfold evictFirst. rewrite Hr. cbn. exact Hr.
  - cbn. exact Hr.
Qed.

(** A full cache throws on a key it does not hold. *)
Lemma add_full_throws (k : string) (v : Js.Val) (c : DuplicateCache) :
  first c = None -> capacity c = 0 -> nodeMap c !! k = None ->
  add k v c = (Js.Throw Js.TypeError, c).
Proof.
  intros Hf Hc Hk. unfold add. rewrite remove_absent by exact Hk.
  rewrite Hc. cbn [Z.eqb]. unfold evictFirst. rewrite Hf. reflexivity.
Qed.

Lemma add_fresh (k : string) (v : Js.Val) (c : DuplicateCache) :
  allocated c -> nodeMap c !! k = None -> capacity c <> 0 ->
  exists c',
    add k v c = (Js.Ok true, c')
    /\ allocated c'
    /\ first c' = first c
    /\ capacity c' = capacity c - 1
    /\ emitted c' = emitted c
    /\ nodeMap c' = <[k := nextLoc c]> (nodeMap c)
    /\ get k c' = v
    /\ (forall k', is_Some (nodeMap c !! k') -> get k' c' = get k' c).
Proof.
  intros Ha Hk Hc. unfold add. rewrite remove_absent by exact Hk.
  replace (capacity c =? 0) with false by (symmetry; apply Z.eqb_neq; exact Hc).
  eexists. split; [reflexivity|]. cbn [first capacity emitted nodeMap].
  rewrite app_nil_r.
  split; [|repeat split].
  - intros k' l'. cbn [nodeMap nextLoc heap].
    destruct (decide (k = k')) as [->|Hne].
    + rewrite lookup_insert_eq. intros [= <-]. split; [lia|].
      rewrite lookup_insert_eq. eauto.
    + rewrite lookup_insert_ne by exact Hne. intros Hl.
      destruct (Ha k' l' Hl) as [Hlt Hs]. split; [lia|].
      rewrite lookup_insert_ne by lia. exact Hs.
  - unfold get. cbn [nodeMap heap]. rewrite !lookup_insert_eq. reflexivity.
  - intros k' [l' Hl']. unfold get. cbn [nodeMap heap].
    assert (k <> k') by congruence.
    rewrite lookup_insert_ne by assumption. rewrite Hl'.
    destruct (Ha k' l' Hl') as [Hlt _]. rewrite lookup_insert_ne by lia. reflexivity.
Qed.

(** While there is room, adds of distinct new keys succeed, each returns
    true, and every added value can be read back. *)
Lemma addAll_fresh (kvs : list (string * Js.Val)) (c : DuplicateCache) :
  allocated c ->
  List.NoDup (List.map fst kvs) ->
  (forall k, In k (List.map fst kvs) -> nodeMap c !! k = None) ->
  Z.of_nat (length kvs) <= capacity c ->
  exists c',
    addAll kvs c = (Js.Ok (repeat true (length kvs)), c')
    /\ allocated c'
    /\ first c' = first c
    /\ capacity c' = capacity c - Z.of_nat (length kvs)
    /\ emitted c' = emitted c
    /\ (forall k, nodeMap c' !! k = None <-> (nodeMap c !! k = None /\ ~ In k (List.map fst kvs)))
    /\ (forall k v, In (k, v) kvs -> get k c' = v)
    /\ (forall k, is_Some (nodeMap c !! k) -> get k c' = get k c).
Proof.
  revert c. induction kvs as [|[k v] rest IH]; intros c Ha Hnd Hnew Hcap.
  - exists c. cbn [addAll length repeat List.map In]. rewrite Z.sub_0_r.
    split; [reflexivity|]. split; [exact Ha|]. do 3 (split; [reflexivity|]).
    split; [intros k0; tauto|]. split; [intros k0 v0 []|reflexivity].
  - cbn [List.map fst] in Hnd, Hnew. inversion Hnd as [|? ? Hnotin Hnd']; subst.
    cbn [length] in Hcap.
    destruct (add_fresh k v c Ha (Hnew k (or_introl eq_refl)) ltac:(lia))
      as (c1 & Hadd & Ha1 & Hf1 & Hc1 & He1 & Hm1 & Hg1 & Hold1).
    destruct (IH c1 Ha1 Hnd') as (c2 & Hall & Ha2 & Hf2 & Hc2 & He2 & Hm2 & Hg2 & Hold2).
    { intros k' Hin. rewrite Hm1. rewrite lookup_insert_ne by (intros ->; contradiction).
      apply Hnew. right. exact Hin. }
    { lia. }
    exists c2. cbn [addAll]. rewrite Hadd, Hall. cbn [length repeat].
    split; [reflexivity|]. split; [exact Ha2|]. split; [congruence|].
    split; [lia|]. split; [congruence|]. split; [|split].
    + intros k'. rewrite Hm2, Hm1. cbn [List.map fst In].
      destruct (decide (k = k')) as [->|Hne].
      * rewrite lookup_insert_eq. split; [intros [? _]; discriminate|]. intros [_ H]. tauto.
      * rewrite lookup_insert_ne by exact Hne. tauto.
    + intros k' v' [Heq|Hin].
      * injection Heq as Ek Ev. rewrite <- Ek, <- Ev. rewrite Hold2; [exact Hg1|].
        rewrite Hm1, lookup_insert_eq. eauto.
      * apply Hg2. exact Hin.
    + intros k' Hs. rewrite Hold2.
      * apply Hold1. exact Hs.
      * rewrite Hm1. destruct (decide (k = k')) as [->|Hne].
        -- rewrite lookup_insert_eq. eauto.
        -- rewrite lookup_insert_ne by exact Hne. exact Hs.
Qed.

(** A cache of capacity N takes N distinct keys, all of which can be read
    back; the add of one more key throws instead of evicting the oldest,
    and no 'remove' event is emitted. *)
Lemma full_cache_throws (cap : Z) (kvs : list (string * Js.Val)) (k : string) (v : Js.Val) :
  List.NoDup (List.map fst kvs) ->
  Z.of_nat (length kvs) = cap ->
  (0 < cap) ->
  ~ In k (List.map fst kvs) ->
  exists c0 c,
    newCache cap = Js.Ok c0
    /\ addAll kvs c0 = (Js.Ok (repeat true (length kvs)), c)
    /\ (forall k' v', In (k', v') kvs -> get k' c = v')
    /\ add k v c = (Js.Throw Js.TypeError, c)
    /\ emitted c = [].
Proof.
  intros Hnd Hlen Hpos Hk. unfold newCache.
  replace (cap <=? 0) with false by (symmetry; apply Z.leb_gt; lia).
  set (c0 := mkCache None None ∅ cap ∅ 0%nat []).
  destruct (addAll_fresh kvs c0) as (c & Hall & Ha & Hf & Hc & He & Hm & Hg & _).
  - intros k' l'. cbn. rewrite lookup_empty. discriminate.
  - exact Hnd.
  - intros k' _. cbn. apply lookup_empty.
  - cbn. lia.
  - exists c0, c. split; [reflexivity|]. split; [exact Hall|]. split; [exact Hg|].
    split; [|rewrite He; reflexivity].
    apply add_full_throws.
    + rewrite Hf. reflexivity.
    + rewrite Hc. cbn. lia.
    + apply Hm. split; [apply lookup_empty|exact Hk].
Qed.

End CacheFacts.

(** C7 (the code departs from the claim).  A cache of capacity 1 takes the
    key "a", which can then be read back.  The add of the second key "b"
    throws a TypeError at `this.first.key`, because add() never sets
    [first]: nothing is evicted, no 'remove' event is emitted, and "b" is
    not stored.  In a cache of capacity 2 that holds "a", adding "a" again
    throws inside remove() and leaves the key deleted. *)
Theorem duplicate_cache_full_add_throws :
  (exists c1 c2,
     Utils.newCache 1 = Js.Ok (Scenario.cacheOfCapacity 1)
     /\ Utils.add "a" (Js.VNum 1) (Scenario.cacheOfCapacity 1) = (Js.Ok true, c1)
     /\ Utils.get "a" c1 = Js.VNum 1
     /\ Utils.add "b" (Js.VNum 2) c1 = (Js.Throw Js.TypeError, c2)
     /\ Utils.emitted c2 = []
     /\ Utils.get "a" c2 = Js.VNum 1
     /\ Utils.isDuplicate "b" c2 = false)
  /\ (exists c1 c2,
        Utils.add "a" (Js.VNum 1) (Scenario.cacheOfCapacity 2) = (Js.Ok true, c1)
        /\ Utils.add "a" (Js.VNum 5) c1 = (Js.Throw Js.TypeError, c2)
        /\ Utils.isDuplicate "a" c2 = false).
Proof.
  split.
  - eexists. eexists. split; [reflexivity|]. split; [vm_compute; reflexivity|].
    split; [vm_compute; reflexivity|]. split; [vm_compute; reflexivity|].
    repeat split; vm_compute; reflexivity.
  - eexists. eexists. split; [vm_compute; reflexivity|].
    split; [vm_compute; reflexivity|]. vm_compute; reflexivity.
Qed.

(** ** invalidateServices *)

Section InvalidateFacts.
Import Gatt.

Lemma sweep_flag (maps : list MapRef) (startHandle endHandle : Z) (c : GattCache) (m : bool) :
  hasAllPrimaryServices (snd (sweep maps startHandle endHandle c m)) = hasAllPrimaryServices c.
Proof.
  revert c m. induction maps as [|r rest IH]; intros c m; [reflexivity|].
  destruct r; cbn [sweep].
  - destruct (sweepMap startHandle endHandle (allPrimaryServices c)) as [m' ch].
    rewrite IH. reflexivity.
  - destruct (sweepMap startHandle endHandle (secondaryServices c)) as [m' ch].
    rewrite IH. reflexivity.
  - reflexivity.
Qed.

Lemma sweep_byUuid (maps : list MapRef) (startHandle endHandle : Z) (c : GattCache) (m : bool) :
  primaryServicesByUUID (snd (sweep maps startHandle endHandle c m)) = primaryServicesByUUID c.
Proof.
  revert c m. induction maps as [|r rest IH]; intros c m; [reflexivity|].
  destruct r; cbn [sweep].
  - destruct (sweepMap startHandle endHandle (allPrimaryServices c)) as [m' ch].
    rewrite IH. reflexivity.
  - destruct (sweepMap startHandle endHandle (secondaryServices c)) as [m' ch].
    rewrite IH. reflexivity.
  - reflexivity.
Qed.

Lemma sweep_throws (maps : list MapRef) (startHandle endHandle : Z) (c : GattCache) (m : bool)
    (e : Js.Exn) :
  fst (sweep maps startHandle endHandle c m) = Js.Throw e -> e = Js.TypeError.
Proof.
  revert c m. induction maps as [|r rest IH]; intros c m; [discriminate|].
  destruct r; cbn [sweep].
  - destruct (sweepMap startHandle endHandle (allPrimaryServices c)) as [m' ch]. apply IH.
  - destruct (sweepMap startHandle endHandle (secondaryServices c)) as [m' ch]. apply IH.
  - cbn. congruence.
Qed.

(** Unless the whole handle range is invalidated, the call throws, the flag
    of the cache keeps its value, the per-UUID maps are as before, nothing
    is stored and the caller's callback is not run. *)
Lemma invalidateRequest_partial (strict : bool) (startHandle endHandle : Z) (cl : Client) :
  (startHandle =? 1) && (endHandle =? 65535) = false ->
  let after := invalidateRequest strict startHandle endHandle cl in
  fst after = Js.Throw Js.TypeError
  /\ hasAllPrimaryServices (gattCache (snd after)) = hasAllPrimaryServices (gattCache cl)
  /\ primaryServicesByUUID (gattCache (snd after)) = primaryServicesByUUID (gattCache cl)
  /\ storeCalls (snd after) = storeCalls cl
  /\ callbacks (snd after) = callbacks cl.
Proof.
  intros Hr. unfold invalidateRequest. rewrite Hr.
  pose proof (sweep_flag (mapsOf (gattCache cl)) startHandle endHandle (gattCache cl) false) as Hf.
  pose proof (sweep_byUuid (mapsOf (gattCache cl)) startHandle endHandle (gattCache cl) false)
    as Hu.
  pose proof (sweep_throws (mapsOf (gattCache cl)) startHandle endHandle (gattCache cl) false)
    as Ht.
  destruct (sweep _ _ _ _ _) as [[modified|e] c1]; cbn [fst snd] in *.
  - repeat split; assumption.
  - specialize (Ht e eq_refl). subst e. repeat split; assumption.
Qed.

(** The whole range: the cache is replaced by an empty one.  Sloppy code
    stores it and runs the callback; strict code stops at the assignment. *)
Lemma invalidateRequest_whole_range (strict : bool) (cl : Client) :
  invalidateRequest strict 1 65535 cl
  = if strict then (Js.Throw Js.ReferenceError, withCache emptyCache cl)
    else (Js.Ok tt, mkClient emptyCache (Some false) (storeCalls cl ++ [emptyCache])
                      (S (callbacks cl))).
Proof. destruct strict; reflexivity. Qed.

Lemma sweep_byUuid_object (startHandle endHandle : Z) (c : GattCache) (m : bool)
    (rest : list MapRef) :
  fst (sweep (TheAllPrimaryServices :: TheSecondaryServices :: TheByUuidObject :: rest)
         startHandle endHandle c m) = Js.Throw Js.TypeError.
Proof.
  cbn [sweep]. destruct (sweepMap startHandle endHandle (allPrimaryServices c)) as [m1 ch1].
  cbn [sweep secondaryServices].
  destruct (sweepMap startHandle endHandle (secondaryServices c)) as [m2 ch2]. reflexivity.
Qed.

(** As soon as one UUID has been searched, the sweep stops with a TypeError
    at the third element of `maps`, before any per-UUID map is touched. *)
Lemma sweep_with_uuid_maps (startHandle endHandle : Z) (c : GattCache) :
  primaryServicesByUUID c <> ∅ ->
  fst (sweep (mapsOf c) startHandle endHandle c false) = Js.Throw Js.TypeError.
Proof.
  intros Hne. unfold mapsOf.
  destruct (size (primaryServicesByUUID c)) as [|n] eqn:Hsize.
  { apply map_size_empty_iff in Hsize. contradiction. }
  cbn [repeat app]. apply sweep_byUuid_object.
Qed.

(** The part that works: on a range map whose intervals are in order and
    apart, the sweep removes exactly the intervals that meet the range. *)
Lemma remove_all_later (handles : list Z) (item : RangeMapItem) (rest : RangeMap) :
  (forall h, In h handles -> stop item < h) ->
  fold_left (fun m h => remove h m) handles (item :: rest)
  = item :: fold_left (fun m h => remove h m) handles rest.
Proof.
  revert rest. induction handles as [|h hs IH]; intros rest Hh; [reflexivity|].
  cbn [fold_left remove]. unfold covers at 1.
  replace (h <=? stop item) with false
    by (symmetry; apply Z.leb_gt; apply Hh; left; reflexivity).
  rewrite andb_false_r. apply IH. intros h' Hin. apply Hh. right. exact Hin.
Qed.

Lemma toRemove_later (startHandle endHandle lower : Z) (map : RangeMap) :
  ordered lower map -> forall h, In h (toRemove startHandle endHandle map) -> lower < h.
Proof.
  revert lower. induction map as [|item rest IH]; intros lower Ho h Hin; [destruct Hin|].
  destruct Ho as (Hlow & Hle & Hrest). unfold toRemove in Hin. cbn [List.filter] in Hin.
  assert (Hlater : In h (toRemove startHandle endHandle rest) -> lower < h).
  { intros Hin'. specialize (IH (stop item) Hrest h Hin'). lia. }
  destruct ((start item <=? endHandle) && (stop item >=? startHandle)).
  - cbn [List.map In] in Hin. destruct Hin as [<-|Hin']; [exact Hlow|apply Hlater, Hin'].
  - apply Hlater, Hin.
Qed.

Lemma sweepMap_ordered (startHandle endHandle lower : Z) (map : RangeMap) :
  ordered lower map ->
  fst (sweepMap startHandle endHandle map)
  = List.filter (fun v => negb (meets startHandle endHandle v)) map.
Proof.
  unfold sweepMap. cbn [fst]. revert lower.
  induction map as [|item rest IH]; intros lower Ho; [reflexivity|].
  destruct Ho as (Hlow & Hle & Hrest). specialize (IH (stop item) Hrest).
  unfold toRemove in *. cbn [List.filter]. unfold meets at 1.
  destruct ((start item <=? endHandle) && (stop item >=? startHandle)) eqn:Hm; cbn [negb].
  - cbn [List.map fold_left remove]. unfold covers.
    replace (start item <=? start item) with true by (symmetry; apply Z.leb_refl).
    replace (start item <=? stop item) with true by (symmetry; apply Z.leb_le; exact Hle).
    cbn [andb]. exact IH.
  - rewrite remove_all_later.
    + f_equal. exact IH.
    + apply (toRemove_later startHandle endHandle (stop item) rest Hrest).
Qed.

Lemma sweepMap_removes_overlaps (startHandle endHandle lower : Z) (map : RangeMap) :
  ordered lower map ->
  overlaps startHandle endHandle (fst (sweepMap startHandle endHandle map)) = false.
Proof.
  intros Ho. rewrite (sweepMap_ordered _ _ lower) by exact Ho.
  unfold overlaps. induction map as [|item rest IH] in lower, Ho |- *; [reflexivity|].
  destruct Ho as (_ & _ & Hrest). cbn [List.filter]. unfold meets at 1.
  destruct ((start item <=? endHandle) && (stop item >=? startHandle)) eqn:Hm; cbn [negb].
  - apply (IH (stop item) Hrest).
  - cbn [existsb]. rewrite Hm. apply (IH (stop item) Hrest).
Qed.

End InvalidateFacts.

(** C8 (the code departs from the claim).  For a peer that was searched
    completely and has no services, invalidateServices(1, 5) removes the
    cached interval and then throws a TypeError: the statement after the
    sweep begins with `[` and is read as an index into the sweep's result.
    The cache's hasAllPrimaryServices stays set, the cache is not stored
    and the callback is not run.  For a peer with a known primary service
    the sweep itself throws, since the loop pushes the object
    primaryServicesByUUID instead of its range maps: the interval stays in
    the per-UUID map.  Only invalidateServices(1, 0xffff) gets as far as
    the assignment `hasAllPrimaryServices = false`, which names a free
    identifier and not the property of gattCache. *)
Theorem invalidate_services_keeps_flag_and_uuid_maps (strict : bool) :
  Gatt.invalidateServices strict 1 5 Scenario.searchedEmptyPeer
  = (Js.Throw Js.TypeError, Gatt.mkClient (Gatt.mkGattCache true [] [] ∅) None [] 0)
  /\ (let after := Gatt.invalidateServices strict 1 5 Scenario.oneServiceKnown in
      fst after = Js.Throw Js.TypeError
      /\ Gatt.allPrimaryServices (Gatt.gattCache (snd after)) = []
      /\ Gatt.primaryServicesByUUID (Gatt.gattCache (snd after))
           !! "00001800-0000-1000-8000-00805F9B34FB"%string
         = Some [Gatt.mkItem 1 5 (Some Scenario.gapService)]
      /\ Gatt.storeCalls (snd after) = []
      /\ Gatt.callbacks (snd after) = 0%nat)
  /\ Gatt.invalidateServices strict 1 65535 Scenario.searchedEmptyPeer
     = if strict
       then (Js.Throw Js.ReferenceError, Gatt.mkClient Gatt.emptyCache None [] 0)
       else (Js.Ok tt, Gatt.mkClient Gatt.emptyCache (Some false) [Gatt.emptyCache] 1).
Proof. destruct strict; repeat split; vm_compute; reflexivity. Qed.

(** ** resolveAddress *)

Section ResolveFacts.
Import Storage.

Variable bondsOnDisk : string -> list (string * option string).
Variable aes128 : list Z -> list Z -> list Z.

(** AES maps a 16-byte block to a 16-byte block. *)
Hypothesis aes128_block :
  forall key block, length block = 16%nat -> length (aes128 key block) = 16%nat.

Lemma replaceChar_idempotent (c d : ascii) (s : string) :
  c <> d -> Buf.replaceChar c d (Buf.replaceChar c d s) = Buf.replaceChar c d s.
Proof.
  intros Hcd. induction s as [|a rest IH]; [reflexivity|].
  cbn [Buf.replaceChar]. rewrite IH. f_equal.
  destruct (Ascii.eqb_spec a c) as [->|Hne].
  - destruct (Ascii.eqb_spec d c) as [->|_]; [contradiction|reflexivity].
  - destruct (Ascii.eqb_spec a c); [contradiction|reflexivity].
Qed.

Lemma fixAddressToPath_idempotent (address : string) :
  fixAddressToPath (fixAddressToPath address) = fixAddressToPath address.
Proof. apply replaceChar_idempotent. discriminate. Qed.

Lemma tableSet_In {V : Type} (k : string) (v : V) (t : Table V) :
  In (k, v) (tableSet k v t).
Proof.
  induction t as [|[k' v'] rest IH]; [left; reflexivity|].
  cbn [tableSet]. destruct (String.eqb k' k); [left; reflexivity|right; exact IH].
Qed.

(** storeKeys keys the cipher of the peer's entry with the reversed IRK. *)
Lemma storeKeys_keys_cipher (own peer : string) (key : list Z) (cache : Cache) :
  length key = 16%nat ->
  exists cache' e,
    storeKeys bondsOnDisk own peer (Some key) cache = (Js.Ok tt, cache')
    /\ In (fixAddressToPath peer, e) (irks (entryOf (fixAddressToPath own) cache'))
    /\ cipherKey (aes e) = rev key
    /\ storedIrk e = key.
Proof.
  intros Hlen. unfold storeKeys, createCipheriv. cbv zeta.
  rewrite length_rev, Hlen. cbn [Nat.eqb].
  eexists. exists (mkIrks (mkCipher (rev key)) key).
  split; [reflexivity|]. split; [|split].
  - unfold entryOf at 1. rewrite lookup_insert_eq. cbn [irks]. apply tableSet_In.
  - reflexivity.
  - unfold storedIrk. cbn. apply rev_involutive.
Qed.

(** init keys the cipher of a loaded entry with the reversed bytes of the
    `irk` member of keys.json. *)
Lemma loadIrk_keys_cipher (t : Table BleIrks) (peer hex : string) :
  hex <> ""%string -> length (Buf.fromHex hex) = 16%nat ->
  exists e, In (peer, e) (loadIrk t (peer, Some hex)) /\ storedIrk e = Buf.fromHex hex.
Proof.
  intros Hne Hlen. unfold loadIrk. cbn [snd fst].
  destruct (String.eqb_spec hex ""); [contradiction|].
  unfold createCipheriv. rewrite length_rev, Hlen. cbn [Nat.eqb].
  eexists. split; [apply tableSet_In|]. unfold storedIrk. cbn. apply rev_involutive.
Qed.

Section Address.

Variable peerRandomAddress : string.
Hypothesis Hwf : wellFormedAddress peerRandomAddress = true.

Lemma prand_length : length (prandOf peerRandomAddress) = 3%nat.
Proof.
  unfold wellFormedAddress in Hwf. apply andb_prop in Hwf as [H _].
  apply Nat.eqb_eq. exact H.
Qed.

Lemma hash_length : length (addressHash peerRandomAddress) = 3%nat.
Proof.
  unfold wellFormedAddress in Hwf. apply andb_prop in Hwf as [_ H].
  apply Nat.eqb_eq. exact H.
Qed.

Lemma peerRandOf_prand :
  peerRandOf (stripColons peerRandomAddress) = repeat 0 13 ++ prandOf peerRandomAddress.
Proof.
  unfold peerRandOf.
  change (Buf.fromHex (Buf.substr 2 6 (stripColons peerRandomAddress)))
    with (prandOf peerRandomAddress).
  pose proof prand_length as Hl.
  destruct (prandOf peerRandomAddress) as [|a [|b [|c [|d rest]]]]; try discriminate.
  reflexivity.
Qed.

Lemma peerRand_length : length (peerRandOf (stripColons peerRandomAddress)) = 16%nat.
Proof. rewrite peerRandOf_prand, length_app, repeat_length, prand_length. reflexivity. Qed.

(** The test made for one candidate is the comparison of ah with the hash. *)
Lemma candidate_test (e : BleIrks) :
  timingSafeEqual
    (skipn 13 (update aes128 (aes e) (peerRandOf (stripColons peerRandomAddress))))
    (hashOf (stripColons peerRandomAddress))
  = Js.Ok (bool_decide (ah aes128 (storedIrk e) (prandOf peerRandomAddress)
                        = addressHash peerRandomAddress)).
Proof.
  unfold timingSafeEqual, update, ah, storedIrk.
  rewrite rev_involutive, <- peerRandOf_prand.
  fold (addressHash peerRandomAddress).
  rewrite length_skipn, aes128_block by apply peerRand_length.
  rewrite hash_length. reflexivity.
Qed.

Lemma firstMatch_find (t : Table BleIrks) :
  firstMatch aes128 t (peerRandOf (stripColons peerRandomAddress))
    (hashOf (stripColons peerRandomAddress))
  = Js.Ok (option_map (fun kv => fixAddressFromPath (fst kv))
             (find (fun kv => bool_decide
                      (ah aes128 (storedIrk (snd kv)) (prandOf peerRandomAddress)
                       = addressHash peerRandomAddress)) t)).
Proof.
  induction t as [|[peer e] rest IH]; [reflexivity|].
  cbn [firstMatch find fst snd]. rewrite candidate_test. cbn [Js.bind].
  destruct (bool_decide _); [reflexivity|exact IH].
Qed.

End Address.

End ResolveFacts.

(** C9.  For a random address of the form tt:aa:aa:aa:bb:bb:bb,
    resolveAddress returns the identity address of a stored entry exactly
    when, for some stored IRK, AES-128 under the byte-reversed IRK of the
    block that is zero except for prand in bytes 13..15 ends in the three
    hash bytes of the address; it returns null exactly when no stored IRK
    does. *)
Theorem resolveAddress_iff_some_irk_matches
    (bondsOnDisk : string -> list (string * option string))
    (aes128 : list Z -> list Z -> list Z)
    (aes128_block : forall key block,
        length block = 16%nat -> length (aes128 key block) = 16%nat)
    (cache : Storage.Cache) (ownAddress peerRandomAddress : string) :
  Storage.wellFormedAddress peerRandomAddress = true ->
  let table :=
    Storage.irks (Storage.entryOf (Storage.fixAddressToPath ownAddress)
                    (Storage.init bondsOnDisk (Storage.fixAddressToPath ownAddress) cache)) in
  let matches (e : Storage.BleIrks) :=
    Storage.ah aes128 (Storage.storedIrk e) (Storage.prandOf peerRandomAddress)
    = Storage.addressHash peerRandomAddress in
  let result :=
    fst (Storage.resolveAddress bondsOnDisk aes128 ownAddress peerRandomAddress cache) in
  (forall id, result = Js.Ok (Some id) ->
     exists peer e, In (peer, e) table /\ matches e /\ id = Storage.fixAddressFromPath peer)
  /\ ((exists peer e, In (peer, e) table /\ matches e) -> exists id, result = Js.Ok (Some id))
  /\ (result = Js.Ok None <-> forall peer e, In (peer, e) table -> ~ matches e).
Proof.
  intros Hwf table matches result.
  assert (Hres : result = Js.Ok (option_map (fun kv => Storage.fixAddressFromPath (fst kv))
             (find (fun kv => bool_decide (matches (snd kv))) table))).
  { subst result. unfold Storage.resolveAddress. cbn [fst].
    apply (firstMatch_find aes128 aes128_block peerRandomAddress Hwf). }
  rewrite Hres. split; [|split].
  - intros id H. injection H as H.
    destruct (find _ table) as [[peer e]|] eqn:Hfind; [|discriminate].
    injection H as <-. apply find_some in Hfind as [Hin Hm].
    exists peer, e. split; [exact Hin|]. split; [|reflexivity].
    apply bool_decide_eq_true_1 in Hm. exact Hm.
  - intros (peer & e & Hin & Hm).
    destruct (find (fun kv => bool_decide (matches (snd kv))) table) as [[peer' e']|] eqn:Hfind.
    + eexists. reflexivity.
    + exfalso. pose proof (find_none _ _ Hfind (peer, e) Hin) as Hn. cbn in Hn.
      apply bool_decide_eq_false_1 in Hn. contradiction.
  - split.
    + intros H peer e Hin Hm. injection H as H.
      destruct (find _ table) as [kv|] eqn:Hfind; [discriminate|].
      pose proof (find_none _ _ Hfind (peer, e) Hin) as Hn. cbn in Hn.
      apply bool_decide_eq_false_1 in Hn. contradiction.
    + intros Hnone.
      destruct (find (fun kv => bool_decide (matches (snd kv))) table) as [[peer e]|] eqn:Hfind;
        [|reflexivity].
      exfalso. apply find_some in Hfind as [Hin Hm].
      apply bool_decide_eq_true_1 in Hm. exact (Hnone peer e Hin Hm).
Qed.

Lemma shiftCipher_block (key block : list Z) :
  length block = 16%nat -> length (Scenario.shiftCipher key block) = 16%nat.
Proof. intros H. unfold Scenario.shiftCipher. rewrite length_map. exact H. Qed.

(** The theorem at work: with one IRK stored for 00:AA:BB:CC:DD:EE:FF, the
    address built from prand 42:1F:9A resolves to that identity. *)
Lemma resolveAddress_witness :
  Storage.wellFormedAddress Scenario.resolvableAddress = true
  /\ fst (Storage.resolveAddress Scenario.noBonds Scenario.shiftCipher Scenario.ownAddress
            Scenario.resolvableAddress Scenario.cacheWithIrk)
     = Js.Ok (Some Scenario.peerIdentity).
Proof.
  split; [reflexivity|].
  destruct (resolveAddress_iff_some_irk_matches Scenario.noBonds Scenario.shiftCipher
              shiftCipher_block Scenario.cacheWithIrk Scenario.ownAddress
              Scenario.resolvableAddress eq_refl) as (Hsome & _ & _).
  destruct (Hsome Scenario.peerIdentity) as (peer & e & _ & _ & _); reflexivity.
Defined.

(** ** The HCI command discipline *)

Section HciFacts.
Import Hci.

(** While a command is pending, what a callback sends is queued behind the
    commands already waiting. *)
Lemma runCallback_pending (cmds : list Command) (a : Adapter) (p : Pending) :
  isStopped a = false -> pendingCommand a = Some p ->
  runCallback cmds a = mkAdapter false (Some p) (commandQueue a ++ cmds) (trace a).
Proof.
  revert a. induction cmds as [|c cs IH]; intros a Hs Hp.
  - cbn. rewrite app_nil_r. destruct a; cbn in *. subst. reflexivity.
  - cbn [runCallback fold_left]. change (fold_left _ cs ?x) with (runCallback cs x).
    unfold sendCommand at 1. rewrite Hs, Hp.
    rewrite IH by reflexivity. cbn. rewrite <- app_assoc. reflexivity.
Qed.

(** With no command pending, the first one is written at once. *)
Lemma runCallback_idle (c : Command) (cs : list Command) (a : Adapter) :
  isStopped a = false -> pendingCommand a = None ->
  runCallback (c :: cs) a
  = mkAdapter false (Some (pendingOf c)) (commandQueue a ++ cs)
      (trace a ++ [Write (packetOf c)]).
Proof.
  intros Hs Hp. cbn [runCallback fold_left]. change (fold_left _ cs ?x) with (runCallback cs x).
  unfold sendCommand at 1. rewrite Hs, Hp. unfold reallySendCommand. rewrite Hs.
  rewrite (runCallback_pending cs _ (pendingOf c)) by reflexivity. reflexivity.
Qed.

(** The event for the pending opcode parses and reaches completePending. *)
Lemma onData_matching_event (a : Adapter) (pc : Pending) (ev : CommandEvent) :
  pendingCommand a = Some pc ->
  onData (eventPacket (pOpcode pc) ev) a
  = Returned (completePending pc (eventStatus ev)
                (mkReader (eventPacket (pOpcode pc) ev)
                   (length (eventPacket (pOpcode pc) ev) - length (eventRest ev))) a).
Proof.
  intros Hp. destruct ev as [numPkts status returnParams|status numPkts];
    unfold onData, eventPacket, commandCompleteEvent, commandStatusEvent.
  - cbn [length Nat.eqb u8 buf rpos Nat.add Nat.ltb Nat.leb nth app].
    replace (HCI_EVENT =? HCI_EVENT) with true by reflexivity.
    replace (4 + Buf.len returnParams + 3 =? _) with true
      by (symmetry; apply Z.eqb_eq; unfold Buf.len; cbn [length]; lia).
    cbn [negb]. replace ((CMD_COMPLETE =? CMD_COMPLETE) || _) with true by reflexivity.
    unfold onCommandEvent. replace (CMD_COMPLETE =? CMD_STATUS) with false by reflexivity.
    cbn [length Nat.eqb u8 u16 buf rpos Nat.add Nat.ltb Nat.leb nth app Js.bind fst snd].
    rewrite Hp, lor_shiftl_div_mod, Z.eqb_refl. cbn [negb].
    replace (CMD_COMPLETE =? CMD_COMPLETE) with true by reflexivity.
    cbn [eventStatus eventRest length]. do 2 f_equal. f_equal. lia.
  - cbn [length Nat.eqb u8 buf rpos Nat.add Nat.ltb Nat.leb nth app].
    replace (HCI_EVENT =? HCI_EVENT) with true by reflexivity.
    replace (4 + 3 =? _) with true by reflexivity.
    cbn [negb]. replace ((CMD_STATUS =? CMD_COMPLETE) || _) with true by reflexivity.
    unfold onCommandEvent. replace (CMD_STATUS =? CMD_STATUS) with true by reflexivity.
    cbn [length Nat.eqb u8 u16 buf rpos Nat.add Nat.ltb Nat.leb nth app Js.bind fst snd].
    rewrite Hp, lor_shiftl_div_mod, Z.eqb_refl. cbn [negb].
    replace (CMD_STATUS =? CMD_COMPLETE) with false by reflexivity.
    reflexivity.
Qed.

Lemma remaining_is_rest (opcode : Z) (ev : CommandEvent) :
  getRemainingBuffer
    (mkReader (eventPacket opcode ev)
       (length (eventPacket opcode ev) - length (eventRest ev)))
  = eventRest ev.
Proof.
  destruct ev as [numPkts status returnParams|status numPkts]; unfold getRemainingBuffer; cbn.
  - replace (S (S (S (S (S (S (S (length returnParams))))))) - length returnParams)%nat
      with 7%nat by lia.
    reflexivity.
  - reflexivity.
Qed.

(** Once the connection that a pending command belongs to has gone, the
    command is marked and its completion runs no callback. *)
Lemma disconnected_command_is_silenced (handle : Z) (a : Adapter) (pc : Pending)
    (ev : CommandEvent) :
  pendingCommand a = Some pc -> pHandle pc = Some handle ->
  exists pc',
    pendingCommand (dropCommandsOf handle a) = Some pc'
    /\ pOpcode pc' = pOpcode pc
    /\ ignoreResponse pc' = true
    /\ calledBy pc' ev = []
    /\ issuedBy pc' ev = [].
Proof.
  intros Hp Hh. unfold dropCommandsOf. cbn [pendingCommand]. rewrite Hp.
  rewrite bool_decide_eq_true_2 by exact Hh.
  eexists. split; [reflexivity|]. unfold calledBy, issuedBy. cbn.
  destruct (pCallback pc); repeat split.
Qed.

End HciFacts.

(** The body of onData run on the adapter itself, which is what a bound
    listener would do and what the registered one does not: when the
    Command Complete or Command Status event for the pending command
    arrives, the pending slot is cleared and the head of the command queue
    is written to the transport before the callback of the completed
    command runs; the commands that callback sends are placed behind those
    still queued (or, with an empty queue, the first of them is written after
    the callback has been entered).  A pending command marked ignoreResponse
    has no callback run at all. *)
Theorem command_event_hands_over_before_callback
    (a : Hci.Adapter) (pc : Hci.Pending) (ev : Hci.CommandEvent) :
  Hci.isStopped a = false ->
  Hci.pendingCommand a = Some pc ->
  exists a',
    Hci.onData (Hci.eventPacket (Hci.pOpcode pc) ev) a = Hci.Returned a'
    /\ (Hci.ignoreResponse pc = true -> Hci.calledBy pc ev = [] /\ Hci.issuedBy pc ev = [])
    /\ match Hci.commandQueue a with
       | next :: queued =>
           Hci.trace a' = Hci.trace a ++ [Hci.Write (Hci.packetOf next)] ++ Hci.calledBy pc ev
           /\ Hci.pendingCommand a' = Some (Hci.pendingOf next)
           /\ Hci.commandQueue a' = queued ++ Hci.issuedBy pc ev
       | [] =>
           Hci.trace a'
           = Hci.trace a ++ Hci.calledBy pc ev
             ++ match Hci.issuedBy pc ev with
                | c :: _ => [Hci.Write (Hci.packetOf c)]
                | [] => []
                end
           /\ Hci.pendingCommand a'
              = match Hci.issuedBy pc ev with
                | c :: _ => Some (Hci.pendingOf c)
                | [] => None
                end
           /\ Hci.commandQueue a' = tl (Hci.issuedBy pc ev)
       end.
Proof.
  intros Hs Hp. eexists. split; [apply onData_matching_event; exact Hp|].
  split.
  { intros Hi. unfold Hci.calledBy, Hci.issuedBy. rewrite Hi.
    destruct (Hci.pCallback pc); split; reflexivity. }
  unfold Hci.completePending, Hci.calledBy, Hci.issuedBy.
  rewrite remaining_is_rest. cbn [Hci.commandQueue Hci.isStopped Hci.pendingCommand Hci.trace].
  destruct (Hci.commandQueue a) as [|next queued] eqn:Hq.
  - destruct (Hci.pCallback pc) as [cb|]; [|cbn; rewrite app_nil_r; repeat split].
    destruct (Hci.ignoreResponse pc); cbn [negb]; [cbn; rewrite app_nil_r; repeat split|].
    destruct (cb (Hci.eventStatus ev) (Hci.eventRest ev)) as [|c cs].
    + cbn. repeat split.
    + rewrite runCallback_idle by (cbn; auto). cbn. rewrite <- app_assoc. repeat split.
  - unfold Hci.reallySendCommand. cbn [Hci.isStopped]. rewrite Hs.
    destruct (Hci.pCallback pc) as [cb|]; [|cbn; rewrite app_nil_r; repeat split].
    destruct (Hci.ignoreResponse pc); cbn [negb]; [cbn; rewrite !app_nil_r; repeat split|].
    rewrite (runCallback_pending _ _ (Hci.pendingOf next)) by reflexivity.
    cbn. rewrite <- app_assoc. repeat split.
Qed.

(** The same at work: Reset is pending, Set Event Mask is queued, and the
    callback of Reset sends Read Buffer Size.  With the adapter as receiver
    the queued command is written first on Command Complete, then the
    callback runs, and its command waits in the queue. *)
Lemma command_event_witness :
  Hci.isStopped Scenario.adapterWithQueue = false
  /\ Hci.pendingCommand Scenario.adapterWithQueue = Some Scenario.resetPending
  /\ exists a',
       Hci.onData (Hci.commandCompleteEvent 1 0x0c03 0 []) Scenario.adapterWithQueue
       = Hci.Returned a'
       /\ Hci.trace a'
          = [Hci.Write [0x01; 0x01; 0x0c; 0x08; 0x90; 0x88; 0x00; 0x02; 0x00; 0x80; 0x00; 0x20];
             Hci.Callback 0x0c03 0]
       /\ Hci.commandQueue a' = [Scenario.readBufferSize].
Proof.
  split; [reflexivity|]. split; [reflexivity|].
  destruct (command_event_hands_over_before_callback Scenario.adapterWithQueue
              Scenario.resetPending (Hci.CommandComplete 1 0 []) eq_refl eq_refl)
    as (a' & Hrun & _ & Htrace & _ & Hqueue).
  exists a'. split; [exact Hrun|]. split; [exact Htrace|exact Hqueue].
Defined.

(** ** The listener of the transport *)

Section ListenerFacts.
Import Hci.

(** On a transport that has no property pendingCommand, the listener ends
    in a TypeError for every Command Complete and Command Status event,
    whatever the adapter holds: `this.pendingCommand` is undefined, which
    is not null, and reading its opcode throws. *)
Lemma listener_throws_on_command_event (props : list (string * Js.Val)) (a : Adapter)
    (opcode : Z) (ev : CommandEvent) :
  Js.lookupField "pendingCommand" props = Js.VUndefined ->
  onTransportData (Js.VObj props) (eventPacket opcode ev) a = Threw Js.TypeError a.
Proof.
  intros Hp. destruct ev as [numPkts status returnParams|status numPkts];
    unfold onTransportData, eventPacket, commandCompleteEvent, commandStatusEvent.
  - cbn [length Nat.eqb u8 buf rpos Nat.add Nat.ltb Nat.leb nth app].
    replace (HCI_EVENT =? HCI_EVENT) with true by reflexivity.
    replace (4 + Buf.len returnParams + 3 =? _) with true
      by (symmetry; apply Z.eqb_eq; unfold Buf.len; cbn [length]; lia).
    cbn [negb]. replace ((CMD_COMPLETE =? CMD_COMPLETE) || _) with true by reflexivity.
    unfold onCommandEventAt. replace (CMD_COMPLETE =? CMD_STATUS) with false by reflexivity.
    cbn [length Nat.eqb u8 u16 buf rpos Nat.add Nat.ltb Nat.leb nth app Js.bind fst snd
           Js.getProp].
    rewrite Hp. reflexivity.
  - cbn [length Nat.eqb u8 buf rpos Nat.add Nat.ltb Nat.leb nth app].
    replace (HCI_EVENT =? HCI_EVENT) with true by reflexivity.
    replace (4 + 3 =? _) with true by reflexivity.
    cbn [negb]. replace ((CMD_STATUS =? CMD_COMPLETE) || _) with true by reflexivity.
    unfold onCommandEventAt. replace (CMD_STATUS =? CMD_STATUS) with true by reflexivity.
    cbn [length Nat.eqb u8 u16 buf rpos Nat.add Nat.ltb Nat.leb nth app Js.bind fst snd
           Js.getProp].
    rewrite Hp. reflexivity.
Qed.

(** While a command is pending, every further command is queued and
    nothing is written. *)
Lemma sendCommand_while_pending (c : Command) (a : Adapter) (pc : Pending) :
  pendingCommand a = Some pc ->
  pendingCommand (sendCommand c a) = Some pc /\ trace (sendCommand c a) = trace a.
Proof.
  intros Hp. unfold sendCommand. destruct (isStopped a); [auto|]. rewrite Hp. cbn. auto.
Qed.

End ListenerFacts.

(** C10 (the code departs from the claim).  The hand-over at a command
    event does not take place.  The constructor registers onData unbound,
    so the transport runs it with itself as receiver.  With Reset pending, Set Event Mask queued and the
    Command Complete event for Reset arriving from the transport, the
    listener throws a TypeError at `this.pendingCommand.opcode`: the
    pending slot still holds Reset, Set Event Mask is not written, the
    callback of Reset is not run, and a command sent afterwards only joins
    the queue.  Run on the adapter, the same body would write Set Event
    Mask and then run the callback. *)
Theorem command_event_does_not_reach_the_adapter :
  Hci.onTransportData Scenario.socketTransport (Hci.commandCompleteEvent 1 0x0c03 0 [])
    Scenario.adapterWithQueue
  = Hci.Threw Js.TypeError Scenario.adapterWithQueue
  /\ Hci.pendingCommand Scenario.adapterWithQueue = Some Scenario.resetPending
  /\ Hci.commandQueue Scenario.adapterWithQueue = [Scenario.setEventMask]
  /\ Hci.trace Scenario.adapterWithQueue = []
  /\ Hci.sendCommand Scenario.readBufferSize Scenario.adapterWithQueue
     = Hci.mkAdapter false (Some Scenario.resetPending)
         [Scenario.setEventMask; Scenario.readBufferSize] []
  /\ exists a',
       Hci.onData (Hci.commandCompleteEvent 1 0x0c03 0 []) Scenario.adapterWithQueue
       = Hci.Returned a'
       /\ Hci.trace a'
          = [Hci.Write [0x01; 0x01; 0x0c; 0x08; 0x90; 0x88; 0x00; 0x02; 0x00; 0x80; 0x00; 0x20];
             Hci.Callback 0x0c03 0]
       /\ Hci.pendingCommand a' = Some (Hci.pendingOf Scenario.setEventMask).
Proof.
  split.
  { exact (listener_throws_on_command_event
             [("write", Js.VObj []); ("_eventsCount", Js.VNum 1)]
             Scenario.adapterWithQueue 0x0c03 (Hci.CommandComplete 1 0 []) eq_refl). }
  split; [reflexivity|]. split; [reflexivity|]. split; [reflexivity|].
  split; [reflexivity|].
  destruct (command_event_hands_over_before_callback Scenario.adapterWithQueue
              Scenario.resetPending (Hci.CommandComplete 1 0 []) eq_refl eq_refl)
    as (a' & Hrun & _ & Htrace & Hpending & _).
  exists a'. split; [exact Hrun|]. split; [exact Htrace|exact Hpending].
Qed.

(** ** IdGenerator *)

Section IdGeneratorFacts.
Import IdGenerator.

Lemma get_in_range (s : string) (p : nat) :
  (p < String.length s)%nat -> exists c, String.get p s = Some c.
Proof.
  revert p. induction s as [|a s IH]; intros p Hp; cbn in Hp; [lia|].
  destruct p as [|p]; cbn; [eauto|]. apply IH. lia.
Qed.

(** The loop over a string that has one more character in front. *)
Lemma scan_cons (c : ascii) (rest : string) (count : nat) :
  (count <= String.length rest)%nat ->
  scan (String c rest) (S count) =
  match scan rest count with
  | Some s => Some (String c s)
  | None =>
      if Ascii.eqb c "z" then None
      else Some (String (nextChar c) (Num.repeatChar "a" (String.length rest)))
  end.
Proof.
  induction count as [|p IH]; intros Hc.
  - cbn. destruct (Ascii.eqb c "z"); [reflexivity|].
    rewrite Nat.sub_0_r. reflexivity.
  - destruct (get_in_range rest p) as [d Hd]; [lia|].
    change (scan (String c rest) (S (S p))) with
      (match String.get p rest with
       | Some c0 =>
           if Ascii.eqb c0 "z" then scan (String c rest) (S p)
           else Some (Buf.substr 0 (S p) (String c rest)
                      +:+ String (nextChar c0) EmptyString
                      +:+ Num.repeatChar "a" (String.length (String c rest) - S p - 1))
       | None => scan (String c rest) (S p)
       end).
    cbn [scan]. rewrite Hd.
    destruct (Ascii.eqb d "z"); [apply IH; lia|].
    reflexivity.
Qed.

Lemma rankFrom_bump (k : nat) (acc : Z) :
  rankFrom (acc + 1) (Num.repeatChar "a" k) = rankFrom acc (Num.repeatChar "z" k) + 1.
Proof.
  revert acc. induction k as [|k IH]; intros acc; cbn [Num.repeatChar rankFrom]; [reflexivity|].
  rewrite <- IH. f_equal. unfold letterValue. cbn. lia.
Qed.

Lemma letters_repeat_a (k : nat) : letters (Num.repeatChar "a" k) = true.
Proof. induction k as [|k IH]; [reflexivity|]. cbn [Num.repeatChar letters]. rewrite IH. reflexivity. Qed.

Lemma nextChar_letter (c : ascii) :
  isLetter c = true -> Ascii.eqb c "z" = false ->
  isLetter (nextChar c) = true /\ letterValue (nextChar c) = letterValue c + 1.
Proof.
  unfold isLetter, letterValue, nextChar. intros Hl Hz.
  apply andb_true_iff in Hl as [H1 H2]. apply Z.leb_le in H1, H2.
  assert (Hne : Ascii.N_of_ascii c <> 122%N).
  { intros E. apply Ascii.eqb_neq in Hz. apply Hz.
    rewrite <- (Ascii.ascii_N_embedding c), E. reflexivity. }
  rewrite Ascii.N_ascii_embedding by lia.
  split; [apply andb_true_iff; split; apply Z.leb_le; lia | lia].
Qed.

(** What the loop returns for an id of letters: the id whose rank is one
    higher, or nothing when every letter is a z. *)
Lemma scan_rank (s : string) (acc : Z) :
  letters s = true ->
  match scan s (String.length s) with
  | Some s' => rankFrom acc s' = rankFrom acc s + 1 /\ letters s' = true
  | None => s = Num.repeatChar "z" (String.length s)
  end.
Proof.
  revert acc. induction s as [|c rest IH]; intros acc Hl; [reflexivity|].
  cbn [letters] in Hl. apply andb_true_iff in Hl as [Hc Hrest].
  cbn [String.length]. rewrite scan_cons by lia.
  specialize (IH (26 * acc + letterValue c) Hrest).
  destruct (scan rest (String.length rest)) as [s'|].
  - destruct IH as [Hr Hs]. cbn [rankFrom letters]. rewrite Hc, Hs. split; [exact Hr|reflexivity].
  - destruct (Ascii.eqb c "z") eqn:Hz.
    + apply Ascii.eqb_eq in Hz. subst c. cbn [Num.repeatChar]. f_equal. exact IH.
    + destruct (nextChar_letter c Hc Hz) as [Hn Hv].
      cbn [rankFrom letters]. rewrite Hn, letters_repeat_a, Hv. split; [|reflexivity].
      rewrite IH at 2.
      replace (26 * acc + (letterValue c + 1)) with (26 * acc + letterValue c + 1) by lia.
      apply rankFrom_bump.
Qed.

Lemma next_rank (s : string) :
  letters s = true -> rank (next s) = rank s + 1 /\ letters (next s) = true.
Proof.
  intros Hl. unfold next, rank. pose proof (scan_rank s 0 Hl) as H.
  destruct (scan s (String.length s)) as [s'|]; [exact H|].
  split; [|apply letters_repeat_a].
  rewrite H at 2. rewrite Nat.add_1_r. cbn [Num.repeatChar rankFrom].
  change (26 * 0 + letterValue "a") with (0 + 1). apply rankFrom_bump.
Qed.

Lemma nth_id_rank (n : nat) :
  rank (nth_id n) = Z.of_nat n /\ letters (nth_id n) = true.
Proof.
  induction n as [|n [IHr IHl]]; [split; reflexivity|].
  cbn [nth_id]. destruct (next_rank _ IHl) as [Hr Hl]. split; [lia|exact Hl].
Qed.

End IdGeneratorFacts.

(** X1.  The ids of a fresh IdGenerator never repeat: the n-th and the m-th
    call of next() return different strings whenever n and m differ. *)
Theorem idGenerator_ids_never_repeat (n m : nat) :
  n <> m -> IdGenerator.nth_id n <> IdGenerator.nth_id m.
Proof.
  intros Hne E. apply Hne.
  pose proof (proj1 (nth_id_rank n)) as Hn. pose proof (proj1 (nth_id_rank m)) as Hm.
  rewrite E in Hn. lia.
Qed.

Lemma idGenerator_ids_never_repeat_witness :
  IdGenerator.nth_id 26 = "z"%string /\ IdGenerator.nth_id 27 = "aa"%string
  /\ IdGenerator.nth_id 26 <> IdGenerator.nth_id 27.
Proof.
  split; [reflexivity|]. split; [reflexivity|].
  apply (idGenerator_ids_never_repeat 26 27). lia.
Defined.

(** ** Characters, bytes and device addresses *)

Lemma all_ascii (P : ascii -> bool) :
  forallb P (List.map Ascii.ascii_of_nat (seq 0 256)) = true -> forall c, P c = true.
Proof.
  intros H c. rewrite forallb_forall in H. apply H.
  apply in_map_iff. exists (Ascii.nat_of_ascii c). split.
  - apply Ascii.ascii_nat_embedding.
  - apply in_seq. pose proof (Ascii.nat_ascii_bounded c). lia.
Qed.

Lemma all_bytes (P : Z -> bool) :
  forallb P (List.map Z.of_nat (seq 0 256)) = true -> forall b, 0 <= b < 256 -> P b = true.
Proof.
  intros H b Hb. rewrite forallb_forall in H. apply H.
  apply in_map_iff. exists (Z.to_nat b). split; [lia|]. apply in_seq. lia.
Qed.

Lemma hex_char_upper (c : ascii) (v : Z) :
  Buf.hexDigitValue c = Some v ->
  0 <= v < 16 /\ Buf.upperChar (Buf.hexDigitLower v) = Buf.upperChar c.
Proof.
  intros H.
  pose proof (all_ascii
    (fun c => match Buf.hexDigitValue c with
              | Some v => (0 <=? v) && (v <? 16)
                          && Ascii.eqb (Buf.upperChar (Buf.hexDigitLower v)) (Buf.upperChar c)
              | None => true
              end)) as A.
  specialize (A ltac:(vm_compute; reflexivity) c). cbn beta in A. rewrite H in A.
  apply andb_true_iff in A as [A1 A3]. apply andb_true_iff in A1 as [A1 A2].
  apply Ascii.eqb_eq in A3. split; [lia|exact A3].
Qed.

Lemma isHexChar_value (c : ascii) :
  Uuid.isHexChar c = true -> exists v, Buf.hexDigitValue c = Some v.
Proof. unfold Uuid.isHexChar. destruct (Buf.hexDigitValue c) as [v|]; [eauto|discriminate]. Qed.

(** parseInt of two hexadecimal digits *)
Lemma parseInt16_pair (x y : ascii) (vx vy : Z) :
  Buf.hexDigitValue x = Some vx -> Buf.hexDigitValue y = Some vy ->
  Num.parseInt16 (String x (String y EmptyString)) = Some (16 * vx + vy).
Proof.
  intros Hx Hy.
  pose proof (all_ascii
    (fun x => forallb (fun y =>
       match Buf.hexDigitValue x, Buf.hexDigitValue y with
       | Some vx, Some vy =>
           match Num.parseInt16 (String x (String y EmptyString)) with
           | Some n => n =? 16 * vx + vy
           | None => false
           end
       | _, _ => true
       end) (List.map Ascii.ascii_of_nat (seq 0 256)))) as A.
  specialize (A ltac:(vm_compute; reflexivity) x). cbn beta in A.
  pose proof (all_ascii _ A y) as B. cbn beta in B. rewrite Hx, Hy in B.
  destruct (Num.parseInt16 _) as [n|]; [|discriminate]. apply Z.eqb_eq in B. congruence.
Qed.

(** The two digits PacketReader.bdAddr writes for a byte *)
Lemma hexByte_digits (b : Z) :
  0 <= b < 256 ->
  Wire.hexByte b =
  String (Buf.upperChar (Buf.hexDigitLower (b / 16)))
    (String (Buf.upperChar (Buf.hexDigitLower (b mod 16))) EmptyString).
Proof.
  intros Hb.
  pose proof (all_bytes
    (fun b => String.eqb (Wire.hexByte b)
       (String (Buf.upperChar (Buf.hexDigitLower (b / 16)))
          (String (Buf.upperChar (Buf.hexDigitLower (b mod 16))) EmptyString)))) as A.
  specialize (A ltac:(vm_compute; reflexivity) b Hb). apply String.eqb_eq in A. exact A.
Qed.

Lemma hexByte_pair (x y : ascii) (vx vy : Z) :
  Buf.hexDigitValue x = Some vx -> Buf.hexDigitValue y = Some vy ->
  Wire.hexByte (16 * vx + vy) = String (Buf.upperChar x) (String (Buf.upperChar y) EmptyString).
Proof.
  intros Hx Hy. destruct (hex_char_upper x vx Hx) as [Bx Ux].
  destruct (hex_char_upper y vy Hy) as [By Uy].
  rewrite hexByte_digits by lia.
  replace ((16 * vx + vy) / 16) with vx by (Z.div_mod_to_equations; lia).
  replace ((16 * vx + vy) mod 16) with vy by (Z.div_mod_to_equations; lia).
  rewrite Ux, Uy. reflexivity.
Qed.

Section BdAddrFacts.
Import BdAddr.

Lemma groups_inv (n : nat) (s : string) :
  groups (S n) s = true ->
  exists a b rest va vb,
    s = String a (String b rest)
    /\ Buf.hexDigitValue a = Some va /\ Buf.hexDigitValue b = Some vb
    /\ match n with
       | O => rest = EmptyString
       | S _ => exists rest', rest = String ":" rest' /\ groups n rest' = true
       end.
Proof.
  destruct s as [|a [|b rest]]; cbn [groups]; try discriminate.
  intros H. apply andb_true_iff in H as [Hab H3]. apply andb_true_iff in Hab as [Ha Hb].
  destruct (isHexChar_value a Ha) as [va Hva]. destruct (isHexChar_value b Hb) as [vb Hvb].
  exists a, b, rest, va, vb. repeat split; try assumption.
  destruct n as [|n].
  - destruct rest; [reflexivity|discriminate].
  - destruct rest as [|c rest']; [discriminate|].
    destruct (Ascii.eqb_spec c ":") as [->|Hne].
    + exists rest'. split; [reflexivity|exact H3].
    + exfalso. apply Hne. clear -H3.
      destruct c as [[] [] [] [] [] [] [] []]; try discriminate H3. reflexivity.
Qed.

Lemma valid_shape (address : string) :
  isValidBdAddr address = true ->
  exists a5 b5 a4 b4 a3 b3 a2 b2 a1 b1 a0 b0 : ascii,
  exists x5 y5 x4 y4 x3 y3 x2 y2 x1 y1 x0 y0 : Z,
    address = String a5 (String b5 (String ":" (String a4 (String b4 (String ":"
              (String a3 (String b3 (String ":" (String a2 (String b2 (String ":"
              (String a1 (String b1 (String ":" (String a0 (String b0 EmptyString))))))))))))))))
    /\ Buf.hexDigitValue a5 = Some x5 /\ Buf.hexDigitValue b5 = Some y5
    /\ Buf.hexDigitValue a4 = Some x4 /\ Buf.hexDigitValue b4 = Some y4
    /\ Buf.hexDigitValue a3 = Some x3 /\ Buf.hexDigitValue b3 = Some y3
    /\ Buf.hexDigitValue a2 = Some x2 /\ Buf.hexDigitValue b2 = Some y2
    /\ Buf.hexDigitValue a1 = Some x1 /\ Buf.hexDigitValue b1 = Some y1
    /\ Buf.hexDigitValue a0 = Some x0 /\ Buf.hexDigitValue b0 = Some y0.
Proof.
  unfold isValidBdAddr. intros H.
  apply groups_inv in H as (a5 & b5 & r5 & x5 & y5 & -> & Ha5 & Hb5 & r5' & -> & H).
  apply groups_inv in H as (a4 & b4 & r4 & x4 & y4 & -> & Ha4 & Hb4 & r4' & -> & H).
  apply groups_inv in H as (a3 & b3 & r3 & x3 & y3 & -> & Ha3 & Hb3 & r3' & -> & H).
  apply groups_inv in H as (a2 & b2 & r2 & x2 & y2 & -> & Ha2 & Hb2 & r2' & -> & H).
  apply groups_inv in H as (a1 & b1 & r1 & x1 & y1 & -> & Ha1 & Hb1 & r1' & -> & H).
  apply groups_inv in H as (a0 & b0 & r0 & x0 & y0 & -> & Ha0 & Hb0 & ->).
  exists a5, b5, a4, b4, a3, b3, a2, b2, a1, b1, a0, b0.
  exists x5, y5, x4, y4, x3, y3, x2, y2, x1, y1, x0, y0.
  repeat split; assumption.
Qed.

Lemma byte_of_pair (x y : ascii) (vx vy : Z) :
  Buf.hexDigitValue x = Some vx -> Buf.hexDigitValue y = Some vy ->
  Num.toByte (Num.parseInt16 (String x (String y EmptyString))) = 16 * vx + vy.
Proof.
  intros Hx Hy. rewrite (parseInt16_pair x y vx vy Hx Hy). cbn [Num.toByte].
  destruct (hex_char_upper x vx Hx) as [Bx _]. destruct (hex_char_upper y vy Hy) as [By _].
  apply Z.mod_small. lia.
Qed.

Lemma bdAddrToBuffer_valid (address : string) :
  isValidBdAddr address = true ->
  Wire.readBdAddr (Hci.mkReader (bdAddrToBuffer address) 0)
  = Js.Ok (Buf.toUpperCase address, Hci.mkReader (bdAddrToBuffer address) 6)
  /\ length (bdAddrToBuffer address) = 6%nat
  /\ Forall (fun b => 0 <= b < 256) (bdAddrToBuffer address).
Proof.
  intros H.
  destruct (valid_shape address H)
    as (a5 & b5 & a4 & b4 & a3 & b3 & a2 & b2 & a1 & b1 & a0 & b0
        & x5 & y5 & x4 & y4 & x3 & y3 & x2 & y2 & x1 & y1 & x0 & y0
        & -> & Ha5 & Hb5 & Ha4 & Hb4 & Ha3 & Hb3 & Ha2 & Hb2 & Ha1 & Hb1 & Ha0 & Hb0).
  assert (E : bdAddrToBuffer
               (String a5 (String b5 (String ":" (String a4 (String b4 (String ":"
               (String a3 (String b3 (String ":" (String a2 (String b2 (String ":"
               (String a1 (String b1 (String ":" (String a0 (String b0 EmptyString)))))))))))))))))
              = [16 * x0 + y0; 16 * x1 + y1; 16 * x2 + y2; 16 * x3 + y3;
                 16 * x4 + y4; 16 * x5 + y5]).
  { unfold bdAddrToBuffer, parts, Buf.substr.
    cbn [List.map String.substring].
    rewrite (byte_of_pair a0 b0 x0 y0), (byte_of_pair a1 b1 x1 y1),
      (byte_of_pair a2 b2 x2 y2), (byte_of_pair a3 b3 x3 y3),
      (byte_of_pair a4 b4 x4 y4), (byte_of_pair a5 b5 x5 y5) by assumption.
    reflexivity. }
  rewrite E. split; [|split].
  - unfold Wire.readBdAddr, Wire.check, Wire.byteAt, Wire.advance.
    cbn [Hci.buf Hci.rpos length Nat.add Nat.ltb Nat.leb Js.bind nth].
    rewrite (hexByte_pair a0 b0 x0 y0), (hexByte_pair a1 b1 x1 y1),
      (hexByte_pair a2 b2 x2 y2), (hexByte_pair a3 b3 x3 y3),
      (hexByte_pair a4 b4 x4 y4), (hexByte_pair a5 b5 x5 y5) by assumption.
    reflexivity.
  - reflexivity.
  - pose proof (hex_char_upper _ _ Ha0). pose proof (hex_char_upper _ _ Hb0).
    pose proof (hex_char_upper _ _ Ha1). pose proof (hex_char_upper _ _ Hb1).
    pose proof (hex_char_upper _ _ Ha2). pose proof (hex_char_upper _ _ Hb2).
    pose proof (hex_char_upper _ _ Ha3). pose proof (hex_char_upper _ _ Hb3).
    pose proof (hex_char_upper _ _ Ha4). pose proof (hex_char_upper _ _ Hb4).
    pose proof (hex_char_upper _ _ Ha5). pose proof (hex_char_upper _ _ Hb5).
    repeat constructor; lia.
Qed.

End BdAddrFacts.

(** X2.  A device address accepted by isValidBdAddr is turned into six bytes
    by bdAddrToBuffer (and by PacketWriter.bdAddr, which pushes the same
    numbers), and PacketReader.bdAddr reads those bytes back as the same
    address in upper case. *)
Theorem bdAddr_string_round_trip (address : string) :
  BdAddr.isValidBdAddr address = true ->
  Wire.toBuffer (Wire.bdAddr address Wire.newWriter) = BdAddr.bdAddrToBuffer address
  /\ length (BdAddr.bdAddrToBuffer address) = 6%nat
  /\ Wire.readBdAddr (Hci.mkReader (BdAddr.bdAddrToBuffer address) 0)
     = Js.Ok (Buf.toUpperCase address, Hci.mkReader (BdAddr.bdAddrToBuffer address) 6).
Proof.
  intros H. destruct (bdAddrToBuffer_valid address H) as (Hr & Hl & _).
  split; [reflexivity|]. split; assumption.
Qed.

Lemma bdAddr_string_round_trip_witness :
  BdAddr.isValidBdAddr "c4:7f:0e:a1:5b:9d" = true
  /\ BdAddr.bdAddrToBuffer "c4:7f:0e:a1:5b:9d" = [0x9d; 0x5b; 0xa1; 0x0e; 0x7f; 0xc4]
  /\ Wire.readBdAddr (Hci.mkReader (BdAddr.bdAddrToBuffer "c4:7f:0e:a1:5b:9d") 0)
     = Js.Ok ("C4:7F:0E:A1:5B:9D"%string,
              Hci.mkReader (BdAddr.bdAddrToBuffer "c4:7f:0e:a1:5b:9d") 6).
Proof.
  split; [reflexivity|]. split; [reflexivity|].
  apply (bdAddr_string_round_trip "c4:7f:0e:a1:5b:9d"). reflexivity.
Defined.

(** X3.  PacketReader.bdAddr turns any six bytes into an address that
    isValidBdAddr accepts, and bdAddrToBuffer (the same loop as
    PacketWriter.bdAddr) gives the six bytes back. *)
Theorem bdAddr_bytes_round_trip (b0 b1 b2 b3 b4 b5 : Z) :
  0 <= b0 < 256 -> 0 <= b1 < 256 -> 0 <= b2 < 256 ->
  0 <= b3 < 256 -> 0 <= b4 < 256 -> 0 <= b5 < 256 ->
  exists address,
    Wire.readBdAddr (Hci.mkReader [b0; b1; b2; b3; b4; b5] 0)
    = Js.Ok (address, Hci.mkReader [b0; b1; b2; b3; b4; b5] 6)
    /\ BdAddr.isValidBdAddr address = true
    /\ BdAddr.bdAddrToBuffer address = [b0; b1; b2; b3; b4; b5].
Proof.
  intros H0 H1 H2 H3 H4 H5. eexists. split; [reflexivity|].
  cbn [Wire.byteAt Hci.buf Hci.rpos Nat.add nth].
  rewrite !hexByte_digits by assumption.
  assert (D : forall b, 0 <= b < 256 ->
            Buf.hexDigitValue (Buf.upperChar (Buf.hexDigitLower (b / 16))) = Some (b / 16)
            /\ Buf.hexDigitValue (Buf.upperChar (Buf.hexDigitLower (b mod 16))) = Some (b mod 16)
            /\ 16 * (b / 16) + b mod 16 = b).
  { intros b Hb. split; [|split].
    - apply hexDigit_roundtrip. Z.div_mod_to_equations; lia.
    - apply hexDigit_roundtrip. Z.div_mod_to_equations; lia.
    - Z.div_mod_to_equations; lia. }
  destruct (D b0 H0) as (A0 & B0 & E0). destruct (D b1 H1) as (A1 & B1 & E1).
  destruct (D b2 H2) as (A2 & B2 & E2). destruct (D b3 H3) as (A3 & B3 & E3).
  destruct (D b4 H4) as (A4 & B4 & E4). destruct (D b5 H5) as (A5 & B5 & E5).
  revert A0 B0 A1 B1 A2 B2 A3 B3 A4 B4 A5 B5.
  generalize (Buf.upperChar (Buf.hexDigitLower (b0 / 16)))
    (Buf.upperChar (Buf.hexDigitLower (b0 mod 16)))
    (Buf.upperChar (Buf.hexDigitLower (b1 / 16)))
    (Buf.upperChar (Buf.hexDigitLower (b1 mod 16)))
    (Buf.upperChar (Buf.hexDigitLower (b2 / 16)))
    (Buf.upperChar (Buf.hexDigitLower (b2 mod 16)))
    (Buf.upperChar (Buf.hexDigitLower (b3 / 16)))
    (Buf.upperChar (Buf.hexDigitLower (b3 mod 16)))
    (Buf.upperChar (Buf.hexDigitLower (b4 / 16)))
    (Buf.upperChar (Buf.hexDigitLower (b4 mod 16)))
    (Buf.upperChar (Buf.hexDigitLower (b5 / 16)))
    (Buf.upperChar (Buf.hexDigitLower (b5 mod 16))).
  intros c0 d0 c1 d1 c2 d2 c3 d3 c4 d4 c5 d5 A0 B0 A1 B1 A2 B2 A3 B3 A4 B4 A5 B5.
  cbv [String.append]. split.
  - unfold BdAddr.isValidBdAddr. cbn [BdAddr.groups]. unfold Uuid.isHexChar.
    rewrite A0, B0, A1, B1, A2, B2, A3, B3, A4, B4, A5, B5. reflexivity.
  - unfold BdAddr.bdAddrToBuffer, BdAddr.parts, Buf.substr.
    cbn [List.map String.substring].
    rewrite (byte_of_pair c0 d0 _ _ A0 B0), (byte_of_pair c1 d1 _ _ A1 B1),
      (byte_of_pair c2 d2 _ _ A2 B2), (byte_of_pair c3 d3 _ _ A3 B3),
      (byte_of_pair c4 d4 _ _ A4 B4), (byte_of_pair c5 d5 _ _ A5 B5).
    rewrite E0, E1, E2, E3, E4, E5. reflexivity.
Qed.

Lemma bdAddr_bytes_round_trip_witness :
  exists address,
    Wire.readBdAddr (Hci.mkReader [0x9d; 0x5b; 0xa1; 0x0e; 0x7f; 0xc4] 0)
    = Js.Ok (address, Hci.mkReader [0x9d; 0x5b; 0xa1; 0x0e; 0x7f; 0xc4] 6)
    /\ BdAddr.isValidBdAddr address = true
    /\ BdAddr.bdAddrToBuffer address = [0x9d; 0x5b; 0xa1; 0x0e; 0x7f; 0xc4].
Proof. apply (bdAddr_bytes_round_trip 0x9d 0x5b 0xa1 0x0e 0x7f 0xc4); lia. Defined.

(** ** PacketWriter and PacketReader *)

Section WireFacts.

Lemma lor_shiftl_low (k lo hi : Z) :
  0 <= k -> 0 <= lo < 2 ^ k -> Z.lor lo (Z.shiftl hi k) = lo + hi * 2 ^ k.
Proof.
  intros Hk Hlo.
  assert (Hland : Z.land lo (Z.shiftl hi k) = 0).
  { apply Z.bits_inj'. intros n Hn. rewrite Z.land_spec, Z.bits_0.
    destruct (Z.lt_ge_cases n k) as [Hlt|Hge].
    - rewrite Z.shiftl_spec_low by assumption. apply andb_false_r.
    - replace (Z.testbit lo n) with false; [reflexivity|].
      symmetry. destruct (Z.eq_dec lo 0) as [->|Hne]; [apply Z.bits_0|].
      apply Z.bits_above_log2; [lia|].
      assert (Z.log2 lo < k) by (apply Z.log2_lt_pow2; lia). lia. }
  rewrite <- Z.lxor_lor by assumption.
  rewrite <- Z.add_nocarry_lxor by assumption.
  rewrite Z.shiftl_mul_pow2 by lia. reflexivity.
Qed.

Lemma toInt32_small (n : Z) : -2147483648 <= n < 2147483648 -> Num.toInt32 n = n.
Proof.
  intros H. unfold Num.toInt32, Num.toUint32. cbv zeta.
  destruct (n mod 4294967296 <? 2147483648) eqn:E;
    [apply Z.ltb_lt in E | apply Z.ltb_ge in E]; Z.div_mod_to_equations; lia.
Qed.

(** value & 0xff and (value >>> k) & 0xff, for a value below 2^32 *)
Lemma and_255 (n : Z) : 0 <= n < 4294967296 -> Num.and n 255 = n mod 256.
Proof.
  intros H. unfold Num.and. rewrite (toInt32_small 255) by lia.
  change 255 with (Z.ones 8). rewrite Z.land_ones by lia. change (2 ^ 8) with 256.
  assert (E : Num.toInt32 n mod 256 = n mod 256).
  { unfold Num.toInt32, Num.toUint32. cbv zeta.
    destruct (n mod 4294967296 <? 2147483648); Z.div_mod_to_equations; lia. }
  rewrite E. apply toInt32_small. Z.div_mod_to_equations; lia.
Qed.

Lemma ushr_div (n k : Z) :
  0 <= n < 4294967296 -> 0 <= k < 32 -> Num.ushr n k = n / 2 ^ k.
Proof.
  intros H Hk. unfold Num.ushr, Num.toUint32.
  rewrite (Z.mod_small n) by lia. rewrite (Z.mod_small k) by lia.
  apply Z.shiftr_div_pow2. lia.
Qed.

Lemma shl_byte (b k : Z) :
  0 <= b < 256 -> 0 <= k <= 16 -> Num.shl b k = b * 2 ^ k.
Proof.
  intros Hb Hk. unfold Num.shl. rewrite (toInt32_small b) by lia.
  rewrite (Z.mod_small k) by lia. rewrite Z.shiftl_mul_pow2 by lia.
  apply toInt32_small.
  assert (0 < 2 ^ k <= 2 ^ 16) by (split; [lia | apply Z.pow_le_mono_r; lia]).
  change (2 ^ 16) with 65536 in *. nia.
Qed.

(** b << 24 overflows into the sign for a byte above 127. *)
Lemma shl_24 (b : Z) :
  0 <= b < 256 ->
  Num.shl b 24 = Z.shiftl (if b <? 128 then b else b - 256) 24.
Proof.
  intros Hb. unfold Num.shl. rewrite (toInt32_small b) by lia.
  change (24 mod 32) with 24. rewrite !Z.shiftl_mul_pow2 by lia.
  change (2 ^ 24) with 16777216.
  unfold Num.toInt32, Num.toUint32. cbv zeta.
  destruct (b <? 128) eqn:E; [apply Z.ltb_lt in E | apply Z.ltb_ge in E];
    destruct (_ <? 2147483648) eqn:E2;
    try apply Z.ltb_lt in E2; try apply Z.ltb_ge in E2;
    Z.div_mod_to_equations; lia.
Qed.

Lemma or_low (k lo hi : Z) :
  0 <= k -> 0 <= lo < 2 ^ k -> 2 ^ k <= 2147483648 ->
  -2147483648 <= lo + hi * 2 ^ k < 2147483648 ->
  -2147483648 <= Z.shiftl hi k < 2147483648 ->
  Num.or lo (Z.shiftl hi k) = lo + hi * 2 ^ k.
Proof.
  intros Hk Hlo Hpow Hsum Hhi. unfold Num.or.
  rewrite (toInt32_small lo) by lia. rewrite (toInt32_small (Z.shiftl hi k)) by exact Hhi.
  rewrite lor_shiftl_low by assumption. apply toInt32_small. exact Hsum.
Qed.

End WireFacts.

(** X4.  What PacketWriter writes, PacketReader reads back: u16 gives a
    16-bit value back as it was, i8 a value of -128..127; u32 gives back a
    value below 2^31 as it was and a value from 2^31 on less 2^32, since
    the reader combines the four bytes with `|` and `<<`, which work on
    signed 32-bit integers. *)
Theorem packet_writer_reader_round_trip (v : Z) :
  (0 <= v < 65536 ->
   exists r, Hci.u16 (Hci.mkReader (Wire.toBuffer (Wire.u16 v Wire.newWriter)) 0)
             = Js.Ok (v, r))
  /\ (-128 <= v < 128 ->
      exists r, Wire.readI8 (Hci.mkReader (Wire.toBuffer (Wire.i8 v Wire.newWriter)) 0)
                = Js.Ok (v, r))
  /\ (0 <= v < 4294967296 ->
      exists r, Wire.readU32 (Hci.mkReader (Wire.toBuffer (Wire.u32 v Wire.newWriter)) 0)
                = Js.Ok (if v <? 2147483648 then v else v - 4294967296, r)).
Proof.
  split; [|split].
  - intros Hv. eexists. unfold Wire.u16, Wire.newWriter, Wire.toBuffer, Hci.u16.
    cbn [app List.map Num.toByte Hci.buf Hci.rpos length Nat.add Nat.ltb Nat.leb nth].
    rewrite ushr_div by lia. rewrite !and_255 by (change (2 ^ 8) with 256; Z.div_mod_to_equations; lia).
    change (2 ^ 8) with 256. rewrite !Z.mod_mod by lia.
    rewrite lor_shiftl_bytes by (Z.div_mod_to_equations; lia).
    f_equal. f_equal. Z.div_mod_to_equations; lia.
  - intros Hv. eexists. unfold Wire.i8, Wire.newWriter, Wire.toBuffer, Wire.readI8, Hci.u8.
    cbn [app List.map Num.toByte Hci.buf Hci.rpos length Nat.add Nat.ltb Nat.leb nth Js.bind fst snd].
    f_equal. f_equal.
    destruct (v mod 256 >=? 128) eqn:E; [apply Z.geb_le in E | rewrite Z.geb_leb in E; apply Z.leb_gt in E];
      Z.div_mod_to_equations; lia.
  - intros Hv. eexists. unfold Wire.u32, Wire.newWriter, Wire.toBuffer, Wire.readU32, Wire.check,
      Wire.byteAt, Wire.advance.
    cbn [app List.map Num.toByte Hci.buf Hci.rpos length Nat.add Nat.ltb Nat.leb nth Js.bind].
    rewrite !ushr_div by lia.
    rewrite !and_255 by
      (change (2 ^ 8) with 256; change (2 ^ 16) with 65536; change (2 ^ 24) with 16777216;
       Z.div_mod_to_equations; lia).
    change (2 ^ 8) with 256; change (2 ^ 16) with 65536; change (2 ^ 24) with 16777216.
    rewrite !Z.mod_mod by lia.
    set (b0 := v mod 256). set (b1 := (v / 256) mod 256).
    set (b2 := (v / 65536) mod 256). set (b3 := (v / 16777216) mod 256).
    assert (R0 : 0 <= b0 < 256) by (subst b0; apply Z.mod_pos_bound; lia).
    assert (R1 : 0 <= b1 < 256) by (subst b1; apply Z.mod_pos_bound; lia).
    assert (R2 : 0 <= b2 < 256) by (subst b2; apply Z.mod_pos_bound; lia).
    assert (R3 : 0 <= b3 < 256) by (subst b3; apply Z.mod_pos_bound; lia).
    assert (Ev : v = b0 + 256 * b1 + 65536 * b2 + 16777216 * b3)
      by (subst b0 b1 b2 b3; Z.div_mod_to_equations; lia).
    rewrite (shl_byte b1 8), (shl_byte b2 16) by lia. rewrite shl_24 by assumption.
    change (2 ^ 8) with 256; change (2 ^ 16) with 65536.
    replace (b1 * 256) with (Z.shiftl b1 8) by (rewrite Z.shiftl_mul_pow2 by lia; reflexivity).
    rewrite (or_low 8 b0 b1); try (change (2 ^ 8) with 256); try lia;
      [|rewrite Z.shiftl_mul_pow2 by lia; change (2 ^ 8) with 256; lia].
    replace (b2 * 65536) with (Z.shiftl b2 16) by (rewrite Z.shiftl_mul_pow2 by lia; reflexivity).
    rewrite (or_low 16 (b0 + b1 * 256) b2); try (change (2 ^ 16) with 65536); try lia;
      [|rewrite Z.shiftl_mul_pow2 by lia; change (2 ^ 16) with 65536; lia].
    rewrite (or_low 24); try (change (2 ^ 24) with 16777216); try lia.
    + f_equal. f_equal.
      destruct (b3 <? 128) eqn:E3; [apply Z.ltb_lt in E3 | apply Z.ltb_ge in E3];
        destruct (v <? 2147483648) eqn:E; try apply Z.ltb_lt in E; try apply Z.ltb_ge in E; lia.
    + destruct (b3 <? 128) eqn:E3; [apply Z.ltb_lt in E3 | apply Z.ltb_ge in E3]; lia.
    + rewrite Z.shiftl_mul_pow2 by lia. change (2 ^ 24) with 16777216.
      destruct (b3 <? 128) eqn:E3; [apply Z.ltb_lt in E3 | apply Z.ltb_ge in E3]; lia.
Qed.

Lemma packet_writer_reader_round_trip_witness :
  (exists r, Hci.u16 (Hci.mkReader (Wire.toBuffer (Wire.u16 100 Wire.newWriter)) 0)
             = Js.Ok (100, r))
  /\ (exists r, Wire.readI8 (Hci.mkReader (Wire.toBuffer (Wire.i8 100 Wire.newWriter)) 0)
                = Js.Ok (100, r))
  /\ (exists r, Wire.readU32 (Hci.mkReader (Wire.toBuffer (Wire.u32 100 Wire.newWriter)) 0)
                = Js.Ok (100, r)).
Proof.
  destruct (packet_writer_reader_round_trip 100) as (H1 & H2 & H3).
  split; [apply H1; lia|]. split; [apply H2; lia|]. apply H3. lia.
Defined.

(** ** ACL data: reassembly of incoming frames *)

Section ReassemblyFacts.
Import Acl.

Lemma connOf_setConn (handle : Z) (c : Conn) (conns : list (Z * Conn)) :
  connOf handle (setConn handle c conns) = Some c.
Proof.
  induction conns as [|[h c'] rest IH]; cbn [setConn connOf].
  - rewrite Z.eqb_refl. reflexivity.
  - destruct (h =? handle) eqn:E.
    + cbn [connOf]. rewrite Z.eqb_refl. reflexivity.
    + destruct (handle <? h); cbn [connOf].
      * rewrite Z.eqb_refl. reflexivity.
      * rewrite E. exact IH.
Qed.

Lemma events_fold_emit (es : list Effect) (a : Adapter) :
  events (fold_left (fun acc e => emit e acc) es a) = events a ++ es.
Proof.
  revert a. induction es as [|e es IH]; intros a; cbn [fold_left].
  - symmetry. apply app_nil_r.
  - rewrite IH. cbn [emit events]. rewrite <- app_assoc. reflexivity.
Qed.

Lemma conns_fold_emit (es : list Effect) (a : Adapter) :
  activeConnections (fold_left (fun acc e => emit e acc) es a) = activeConnections a.
Proof. revert a. induction es as [|e es IH]; intros a; cbn [fold_left]; [reflexivity|]. rewrite IH. reflexivity. Qed.

(** The four bytes in front of the payload *)
Lemma l2capFrame_bytes (cid : Z) (data : list Z) :
  0 <= cid < 65536 -> Buf.len data < 65536 ->
  l2capFrame cid data
  = [Buf.len data mod 256; Buf.len data / 256; cid mod 256; cid / 256] ++ data.
Proof.
  intros Hc Hl. unfold l2capFrame, Wire.u16, Wire.newWriter, Wire.toBuffer, Buf.len in *.
  cbn [app List.map Num.toByte].
  rewrite !ushr_div by lia. rewrite !and_255 by (change (2 ^ 8) with 256; Z.div_mod_to_equations; lia).
  change (2 ^ 8) with 256. rewrite !Z.mod_mod by lia.
  rewrite (Z.mod_small (_ / 256)) by (Z.div_mod_to_equations; lia).
  rewrite (Z.mod_small (cid / 256)) by (Z.div_mod_to_equations; lia).
  reflexivity.
Qed.

Lemma u16At_bytes (v : Z) (rest : list Z) :
  0 <= v < 65536 -> u16At 0 (v mod 256 :: v / 256 :: rest) = v.
Proof. intros Hv. unfold u16At. cbn [nth]. apply lor_shiftl_div_mod. Qed.

(** onData hands an ACL packet for an active handle to the branch of its
    packet boundary flag. *)
Lemma onData_aclPacket (random : nat -> nat) (fuel : nat) (handle pb : Z) (chunk : list Z)
    (a : Adapter) (c : Conn) :
  0 <= handle < 4096 -> 0 <= pb < 4 -> Buf.len chunk < 65536 ->
  connOf handle (activeConnections a) = Some c ->
  onData random fuel (aclPacket handle pb chunk) a
  = onAclData (aclPacket handle pb chunk) (Hci.mkReader (aclPacket handle pb chunk) 1) a
  /\ Hci.u16 (Hci.mkReader (aclPacket handle pb chunk) 1)
     = Js.Ok (handle + 4096 * pb, Hci.mkReader (aclPacket handle pb chunk) 3)
  /\ Hci.u16 (Hci.mkReader (aclPacket handle pb chunk) 3)
     = Js.Ok (Buf.len chunk, Hci.mkReader (aclPacket handle pb chunk) 5)
  /\ Z.land (Z.shiftr (handle + 4096 * pb) 12) 3 = pb
  /\ Z.land (handle + 4096 * pb) 0xfff = handle.
Proof.
  intros Hh Hpb Hl Hc. unfold Buf.len in Hl.
  assert (Hlen : length (aclPacket handle pb chunk) = (5 + length chunk)%nat) by reflexivity.
  split; [|split; [|split; [|split]]].
  - unfold onData. rewrite Hlen. cbn [Nat.eqb Nat.add].
    unfold Hci.u8. cbn [Hci.buf Hci.rpos]. rewrite Hlen. reflexivity.
  - unfold Hci.u16. cbn [Hci.buf Hci.rpos]. rewrite Hlen.
    replace (Nat.ltb (5 + length chunk) (1 + 2)) with false by (symmetry; apply Nat.ltb_ge; lia).
    cbn [aclPacket app Buf.uint16LE nth Nat.add].
    rewrite lor_shiftl_bytes by (apply Z.mod_pos_bound; lia).
    f_equal. f_equal. Z.div_mod_to_equations; lia.
  - unfold Hci.u16. cbn [Hci.buf Hci.rpos]. rewrite Hlen.
    replace (Nat.ltb (5 + length chunk) (3 + 2)) with false by (symmetry; apply Nat.ltb_ge; lia).
    cbn [aclPacket app Buf.uint16LE nth Nat.add].
    rewrite lor_shiftl_bytes by (apply Z.mod_pos_bound; lia).
    f_equal. f_equal. unfold Buf.len. Z.div_mod_to_equations; lia.
  - rewrite Z.shiftr_div_pow2 by lia. change 3 with (Z.ones 2). rewrite Z.land_ones by lia.
    change (2 ^ 12) with 4096. change (2 ^ 2) with 4. Z.div_mod_to_equations; lia.
  - change 0xfff with (Z.ones 12). rewrite Z.land_ones by lia.
    change (2 ^ 12) with 4096. Z.div_mod_to_equations; lia.
Qed.


Lemma u16At_app (x y : list Z) : (2 <= length x)%nat -> u16At 0 (x ++ y) = u16At 0 x.
Proof. destruct x as [|a [|b x]]; cbn [length]; intros H; try lia. reflexivity. Qed.

Section Frame.

Variables (handle cid : Z) (data : list Z).
Hypothesis Hhandle : 0 <= handle < 4096.
Hypothesis Hcid : 0 <= cid < 65536.
Hypothesis Hdata : Buf.len data < 65536.

Let frame := l2capFrame cid data.

Lemma frame_length : Buf.len frame = 4 + Buf.len data.
Proof.
  subst frame. rewrite l2capFrame_bytes by assumption. unfold Buf.len.
  rewrite length_app. cbn [length]. lia.
Qed.

Lemma frame_prefix_length (x rest : list Z) :
  x ++ rest = frame -> (2 <= length x)%nat -> u16At 0 x = Buf.len data.
Proof.
  intros E Hx. rewrite <- (u16At_app x rest Hx), E. subst frame.
  rewrite l2capFrame_bytes by assumption. cbn [app].
  apply u16At_bytes. unfold Buf.len in *. lia.
Qed.

Lemma frame_cid : u16At 2 frame = cid /\ skipn 4 frame = data.
Proof.
  subst frame. rewrite l2capFrame_bytes by assumption. split; [|reflexivity].
  unfold u16At. cbn [app nth]. apply lor_shiftl_div_mod.
Qed.

(** The first packet of the frame: it is the whole frame, which is
    delivered, or its bytes are kept. *)
Lemma firstPacket_prefix (chunk rest : list Z) (c : Conn) :
  chunk ++ rest = frame -> Buf.len chunk < 65536 ->
  firstPacket handle (Buf.len chunk) (aclPacket handle 2 chunk)
    (Hci.mkReader (aclPacket handle 2 chunk) 5) c
  = if Buf.len chunk =? Buf.len frame
    then Js.Ok (setIncoming [] 0 c, [Data handle cid data])
    else Js.Ok (setIncoming [chunk] (Buf.len chunk) c, []).
Proof.
  intros E Hl. pose proof frame_length as Hf.
  assert (Hle : Buf.len chunk <= Buf.len frame).
  { rewrite <- E. unfold Buf.len. rewrite length_app. lia. }
  assert (Hrest : Hci.getRemainingBuffer (Hci.mkReader (aclPacket handle 2 chunk) 5) = chunk)
    by reflexivity.
  unfold firstPacket. rewrite Hrest.
  destruct (Buf.len chunk <? 4) eqn:E4.
  - apply Z.ltb_lt in E4.
    replace (Buf.len chunk =? Buf.len frame) with false by (symmetry; apply Z.eqb_neq; unfold Buf.len in *; lia).
    reflexivity.
  - apply Z.ltb_ge in E4.
    assert (H5 : u16At 5 (aclPacket handle 2 chunk) = u16At 0 chunk) by reflexivity.
    rewrite H5, (frame_prefix_length chunk rest E) by (unfold Buf.len in E4; lia).
    rewrite <- Hf.
    destruct (Buf.len frame =? Buf.len chunk) eqn:Eq.
    + apply Z.eqb_eq in Eq. rewrite Eq, Z.eqb_refl.
      assert (Er : rest = []).
      { apply (f_equal (@length Z)) in E. rewrite length_app in E.
        unfold Buf.len in Eq. destruct rest; [reflexivity|cbn [length] in E; lia]. }
      subst rest. rewrite app_nil_r in E.
      assert (U1 : Hci.u16 (Hci.mkReader (aclPacket handle 2 chunk) 5)
                   = Js.Ok (u16At 0 chunk, Hci.mkReader (aclPacket handle 2 chunk) 7)).
      { unfold Hci.u16. cbn [Hci.buf Hci.rpos].
        replace (Nat.ltb _ _) with false; [reflexivity|].
        symmetry. apply Nat.ltb_ge. cbn [aclPacket app length Buf.uint16LE].
        unfold Buf.len in E4. lia. }
      assert (U2 : Hci.u16 (Hci.mkReader (aclPacket handle 2 chunk) 7)
                   = Js.Ok (u16At 2 chunk, Hci.mkReader (aclPacket handle 2 chunk) 9)).
      { unfold Hci.u16. cbn [Hci.buf Hci.rpos].
        replace (Nat.ltb _ _) with false; [reflexivity|].
        symmetry. apply Nat.ltb_ge. cbn [aclPacket app length Buf.uint16LE].
        unfold Buf.len in E4. lia. }
      rewrite U1. cbn [Js.bind snd]. rewrite U2. cbn [Js.bind fst snd].
      assert (R9 : Hci.getRemainingBuffer (Hci.mkReader (aclPacket handle 2 chunk) 9)
                   = skipn 4 chunk) by reflexivity.
      rewrite R9, E. destruct frame_cid as [-> ->]. reflexivity.
    + apply Z.eqb_neq in Eq.
      replace (Buf.len chunk =? Buf.len frame) with false by (symmetry; apply Z.eqb_neq; lia).
      replace (Buf.len frame <? Buf.len chunk) with false by (symmetry; apply Z.ltb_ge; lia).
      reflexivity.
Qed.

(** A continuation while the frame is being collected: the bytes are
    added, and the frame is delivered when it is complete. *)
Lemma continuation_prefix (acc chunk rest : list Z) (c : Conn) :
  collecting acc c -> (acc ++ chunk) ++ rest = frame -> Buf.len acc < Buf.len frame ->
  exists c1,
    continuation handle (Hci.mkReader (aclPacket handle 1 chunk) 5) c
    = (c1, if Buf.len (acc ++ chunk) =? Buf.len frame then [Data handle cid data] else [])
    /\ if Buf.len (acc ++ chunk) =? Buf.len frame
       then incomingL2CAPBuffer c1 = []
       else collecting (acc ++ chunk) c1.
Proof.
  intros (Hcat & Htot & Hshape) E Hlt. pose proof frame_length as Hf.
  assert (Hrest : Hci.getRemainingBuffer (Hci.mkReader (aclPacket handle 1 chunk) 5) = chunk)
    by reflexivity.
  unfold continuation. rewrite Hrest. cbv zeta.
  destruct (rev (incomingL2CAPBuffer c)) as [|lastBuf before] eqn:Erev.
  { apply (f_equal (@rev (list Z))) in Erev. rewrite rev_involutive in Erev.
    rewrite Erev in Hshape. destruct Hshape. }
  assert (Eib : incomingL2CAPBuffer c = rev before ++ [lastBuf]).
  { apply (f_equal (@rev (list Z))) in Erev. rewrite rev_involutive in Erev. exact Erev. }
  set (ib1 := if Buf.len lastBuf <? 4 then rev before ++ [lastBuf ++ chunk]
              else incomingL2CAPBuffer c ++ [chunk]).
  assert (Hcat1 : concat ib1 = acc ++ chunk).
  { subst ib1. rewrite <- Hcat. destruct (Buf.len lastBuf <? 4).
    - rewrite Eib, !concat_app. cbn [concat]. rewrite !app_nil_r, app_assoc. reflexivity.
    - rewrite concat_app. cbn [concat]. rewrite app_nil_r. reflexivity. }
  assert (Hshape1 : match ib1 with [] => False | [_] => True | x :: _ => 4 <= Buf.len x end
                    /\ (2 <= length (acc ++ chunk) -> u16At 0 (nth 0 ib1 []) = u16At 0 (acc ++ chunk))%nat).
  { subst ib1. rewrite Eib in *. destruct (rev before) as [|x more] eqn:Eb.
    - cbn [app] in *. destruct (Buf.len lastBuf <? 4) eqn:E4.
      + split; [exact I|]. intros _. cbn [nth]. cbn [concat] in Hcat. rewrite app_nil_r in Hcat.
        rewrite Hcat. reflexivity.
      + apply Z.ltb_ge in E4. split; [exact E4|]. intros _. cbn [nth].
        cbn [concat] in Hcat. rewrite app_nil_r in Hcat. rewrite <- Hcat.
        symmetry. apply u16At_app. unfold Buf.len in E4. lia.
    - assert (Hx : 4 <= Buf.len x).
      { cbn [app] in Hshape. destruct (more ++ [lastBuf]) eqn:Em; [|exact Hshape].
        destruct more; discriminate. }
      assert (Hacc : exists tail, acc = x ++ tail).
      { rewrite <- Hcat. cbn [app concat]. eauto. }
      destruct Hacc as [tail ->].
      destruct (Buf.len lastBuf <? 4); cbn [app nth].
      + split.
        * destruct (more ++ [lastBuf ++ chunk]) eqn:Em; [destruct more; discriminate|exact Hx].
        * intros _. rewrite <- app_assoc. symmetry. apply u16At_app. unfold Buf.len in Hx. lia.
      + split.
        * destruct ((more ++ [lastBuf]) ++ [chunk]) eqn:Em; [destruct more; discriminate|exact Hx].
        * intros _. rewrite <- app_assoc. symmetry. apply u16At_app. unfold Buf.len in Hx. lia. }
  destruct Hshape1 as [Hshape1 Hhead].
  assert (Htot1 : totalLength c + Buf.len chunk = Buf.len (acc ++ chunk)).
  { rewrite Htot. unfold Buf.len. rewrite length_app. lia. }
  rewrite Htot1.
  assert (Hle : Buf.len (acc ++ chunk) <= Buf.len frame).
  { rewrite <- E. unfold Buf.len. rewrite (length_app (acc ++ chunk)). lia. }
  destruct (Buf.len (acc ++ chunk) =? Buf.len frame) eqn:Eq.
  - apply Z.eqb_eq in Eq.
    replace (Buf.len (acc ++ chunk) >=? 4) with true
      by (symmetry; rewrite Z.geb_leb; apply Z.leb_le; unfold Buf.len in *; lia).
    rewrite Hhead by (unfold Buf.len in *; lia).
    rewrite (frame_prefix_length (acc ++ chunk) rest E) by (unfold Buf.len in *; lia).
    rewrite <- Hf, Eq, Z.eqb_refl.
    assert (Er : rest = []).
    { apply (f_equal (@length Z)) in E. rewrite (length_app (acc ++ chunk)) in E.
      unfold Buf.len in Eq. destruct rest; [reflexivity|cbn [length] in E; lia]. }
    subst rest. rewrite app_nil_r in E.
    exists (setIncoming [] 0 c). split; [|reflexivity].
    rewrite Hcat1, E.
    assert (Ef : firstn (Z.to_nat (Buf.len frame)) (frame ++ repeat 0 (Z.to_nat (Buf.len frame)))
                 = frame).
    { unfold Buf.len. rewrite Nat2Z.id. rewrite firstn_app, Nat.sub_diag. cbn [firstn].
      rewrite firstn_all, app_nil_r. reflexivity. }
    rewrite Ef. destruct frame_cid as [-> ->]. reflexivity.
  - apply Z.eqb_neq in Eq.
    exists (setIncoming ib1 (Buf.len (acc ++ chunk)) c). split.
    + destruct (Buf.len (acc ++ chunk) >=? 4) eqn:E4; [|reflexivity].
      rewrite Z.geb_leb in E4. apply Z.leb_le in E4.
      rewrite Hhead by (unfold Buf.len in *; lia).
      rewrite (frame_prefix_length (acc ++ chunk) rest E) by (unfold Buf.len in *; lia).
      rewrite <- Hf.
      replace (Buf.len frame =? Buf.len (acc ++ chunk)) with false
        by (symmetry; apply Z.eqb_neq; lia).
      reflexivity.
    + repeat split; try assumption; reflexivity.
Qed.


Section Run.

Variables (random : nat -> nat) (fuel : nat).

Lemma onData_first (chunk : list Z) (a : Adapter) (c : Conn) :
  Buf.len chunk < 65536 -> connOf handle (activeConnections a) = Some c ->
  onData random fuel (aclPacket handle 2 chunk) a
  = match firstPacket handle (Buf.len chunk) (aclPacket handle 2 chunk)
            (Hci.mkReader (aclPacket handle 2 chunk) 5) c with
    | Js.Throw e =>
        Threw e (setConns (setConn handle (setIncoming [] 0 c) (activeConnections a)) a)
    | Js.Ok (c1, es) =>
        Returned (fold_left (fun acc e => emit e acc) es
                    (setConns (setConn handle c1 (activeConnections a)) a))
    end.
Proof.
  intros Hl Hc.
  destruct (onData_aclPacket random fuel handle 2 chunk a c Hhandle ltac:(lia) Hl Hc)
    as (-> & U1 & U2 & Epb & Eh).
  unfold onAclData. rewrite U1, Epb, Eh, U2, Hc. reflexivity.
Qed.

Lemma onData_continuation (chunk : list Z) (a : Adapter) (c : Conn) :
  Buf.len chunk < 65536 -> connOf handle (activeConnections a) = Some c ->
  onData random fuel (aclPacket handle 1 chunk) a
  = Returned (fold_left (fun acc e => emit e acc)
                (snd (continuation handle (Hci.mkReader (aclPacket handle 1 chunk) 5) c))
                (setConns (setConn handle
                             (fst (continuation handle
                                     (Hci.mkReader (aclPacket handle 1 chunk) 5) c))
                             (activeConnections a)) a)).
Proof.
  intros Hl Hc.
  destruct (onData_aclPacket random fuel handle 1 chunk a c Hhandle ltac:(lia) Hl Hc)
    as (-> & U1 & U2 & Epb & Eh).
  unfold onAclData. rewrite U1, Epb, Eh, U2, Hc.
  destruct (continuation _ _ _) as [c1 es]. reflexivity.
Qed.

(** Continuations that arrive while no frame is being collected are
    dropped. *)
Lemma continuations_dropped (chunks : list (list Z)) (a : Adapter) (c : Conn) :
  connOf handle (activeConnections a) = Some c -> incomingL2CAPBuffer c = [] ->
  Forall (fun ch => Buf.len ch < 65536) chunks ->
  exists a',
    receiveAll random fuel (List.map (aclPacket handle 1) chunks) a = Returned a'
    /\ events a' = events a
    /\ connOf handle (activeConnections a') = Some c.
Proof.
  revert a. induction chunks as [|ch rest IH]; intros a Hc Hib Hall.
  - exists a. repeat split; try reflexivity; exact Hc.
  - apply Forall_cons_iff in Hall as [Hch Hall].
    cbn [List.map receiveAll]. rewrite (onData_continuation ch a c Hch Hc).
    unfold continuation. rewrite Hib. cbn [rev fst snd fold_left].
    destruct (IH (setConns (setConn handle c (activeConnections a)) a)) as (a' & R & Ev & Cn).
    + cbn [setConns activeConnections]. apply connOf_setConn.
    + exact Hib.
    + exact Hall.
    + exists a'. repeat split; assumption.
Qed.

Lemma continuations_collect (chunks : list (list Z)) :
  forall (acc : list Z) (a : Adapter) (c : Conn),
  connOf handle (activeConnections a) = Some c -> collecting acc c ->
  acc ++ concat chunks = frame -> Buf.len acc < Buf.len frame ->
  Forall (fun ch => Buf.len ch < 65536) chunks ->
  exists a' c',
    receiveAll random fuel (List.map (aclPacket handle 1) chunks) a = Returned a'
    /\ events a' = events a ++ [Data handle cid data]
    /\ connOf handle (activeConnections a') = Some c'
    /\ incomingL2CAPBuffer c' = [].
Proof.
  induction chunks as [|ch rest IH]; intros acc a c Hc Hcol E Hlt Hall.
  - cbn [concat] in E. rewrite app_nil_r in E. subst acc. lia.
  - apply Forall_cons_iff in Hall as [Hch Hall].
    cbn [concat] in E. rewrite app_assoc in E.
    destruct (continuation_prefix acc ch (concat rest) c Hcol E Hlt) as (c1 & Ec & Hc1).
    cbn [List.map receiveAll]. rewrite (onData_continuation ch a c Hch Hc), Ec.
    cbn [fst snd].
    set (a1 := setConns (setConn handle c1 (activeConnections a)) a).
    assert (Hc1' : connOf handle (activeConnections a1) = Some c1)
      by (subst a1; cbn [setConns activeConnections]; apply connOf_setConn).
    destruct (Buf.len (acc ++ ch) =? Buf.len frame) eqn:Eq.
    + apply Z.eqb_eq in Eq. cbn [fold_left].
      destruct (continuations_dropped rest (emit (Data handle cid data) a1) c1)
        as (a' & R & Ev & Cn); [exact Hc1'|exact Hc1|exact Hall|].
      exists a', c1. repeat split; assumption.
    + apply Z.eqb_neq in Eq. cbn [fold_left].
      assert (Hle : Buf.len (acc ++ ch) <= Buf.len frame).
      { rewrite <- E. unfold Buf.len. rewrite (length_app (acc ++ ch)). lia. }
      destruct (IH (acc ++ ch) a1 c1 Hc1' Hc1 E ltac:(lia) Hall) as (a' & c' & R & Ev & Cn & Ib).
      exists a', c'. repeat split; assumption.
Qed.

End Run.

End Frame.

End ReassemblyFacts.

(** Reassembly of incoming ACL data in the body of onData run on the
    adapter itself, which is what a bound listener would do.  When an
    L2CAP frame for an active connection comes in any number of ACL
    packets (the first with packet boundary flag 2, the others with flag 1,
    cut at any places, empty packets included), the body emits exactly one
    'data' event, with the channel id and the payload of the frame, and
    leaves the connection's incoming buffer empty. *)
Lemma acl_frame_is_reassembled (random : nat -> nat) (fuel : nat)
    (handle cid : Z) (data : list Z) (chunks : list (list Z))
    (a : Acl.Adapter) (c : Acl.Conn) :
  0 <= handle < 4096 -> 0 <= cid < 65536 -> Buf.len data < 65536 ->
  Acl.connOf handle (Acl.activeConnections a) = Some c ->
  chunks <> [] -> concat chunks = Acl.l2capFrame cid data ->
  Forall (fun ch => Buf.len ch < 65536) chunks ->
  exists a' c',
    Acl.receiveAll random fuel (Acl.aclPackets handle chunks) a = Acl.Returned a'
    /\ Acl.events a' = Acl.events a ++ [Acl.Data handle cid data]
    /\ Acl.connOf handle (Acl.activeConnections a') = Some c'
    /\ Acl.incomingL2CAPBuffer c' = [].
Proof.
  intros Hh Hcid Hdata Hc Hne E Hall.
  destruct chunks as [|ch rest]; [congruence|]. clear Hne.
  apply Forall_cons_iff in Hall as [Hch Hall]. cbn [concat] in E.
  unfold Acl.aclPackets. cbn [Acl.receiveAll].
  rewrite (onData_first handle Hh random fuel ch a c Hch Hc).
  rewrite (firstPacket_prefix handle cid data Hcid Hdata ch (concat rest) c E Hch).
  assert (Hle : Buf.len ch <= Buf.len (Acl.l2capFrame cid data)).
  { rewrite <- E. unfold Buf.len. rewrite length_app. lia. }
  destruct (Buf.len ch =? Buf.len (Acl.l2capFrame cid data)) eqn:Eq.
  - cbn [fold_left].
    destruct (continuations_dropped handle Hh random fuel rest
                (Acl.emit (Acl.Data handle cid data)
                   (Acl.setConns (Acl.setConn handle (Acl.setIncoming [] 0 c)
                                    (Acl.activeConnections a)) a))
                (Acl.setIncoming [] 0 c))
      as (a' & R & Ev & Cn); [apply connOf_setConn|reflexivity|exact Hall|].
    exists a', (Acl.setIncoming [] 0 c). repeat split; assumption.
  - apply Z.eqb_neq in Eq. cbn [fold_left].
    destruct (continuations_collect handle cid data Hh Hcid Hdata random fuel rest ch
                (Acl.setConns (Acl.setConn handle (Acl.setIncoming [ch] (Buf.len ch) c)
                                 (Acl.activeConnections a)) a)
                (Acl.setIncoming [ch] (Buf.len ch) c))
      as (a' & c' & R & Ev & Cn & Ib).
    + apply connOf_setConn.
    + repeat split. cbn [Acl.setIncoming Acl.incomingL2CAPBuffer concat]. apply app_nil_r.
    + exact E.
    + lia.
    + exact Hall.
    + exists a', c'. repeat split; assumption.
Qed.

(** An ACL packet has its five bytes of header. *)
Lemma aclPacket_header (handle pb : Z) (chunk : list Z) :
  exists b1 b2 b3 b4,
    Acl.aclPacket handle pb chunk = Acl.HCI_ACLDATA :: b1 :: b2 :: b3 :: b4 :: chunk.
Proof.
  unfold Acl.aclPacket, Buf.uint16LE. cbn [app]. repeat eexists.
Qed.

(** X5.  Incoming ACL data does not reach the adapter.  The 'data'
    listener is onData as the constructor registers it, unbound, so the
    transport runs it with itself as receiver.  On a transport that has
    no member activeConnections, every ACL packet of a frame, for
    whatever connection handle and cut at whatever places, ends in a
    TypeError at `this.activeConnections[conhdl]`: no 'data' event is
    emitted, and the adapter, its connections and their incoming buffers
    are as they were. *)
Theorem acl_data_does_not_reach_the_adapter (props : list (string * Js.Val))
    (handle : Z) (chunks : list (list Z)) (packet : list Z) (a : Acl.Adapter) :
  Js.lookupField "activeConnections" props = Js.VUndefined ->
  In packet (Acl.aclPackets handle chunks) ->
  Acl.onTransportData (Js.VObj props) packet a = Acl.Threw Js.TypeError a.
Proof.
  intros Hp Hin.
  assert (Hpacket : exists pb chunk, packet = Acl.aclPacket handle pb chunk).
  { destruct chunks as [|ch rest]; [destruct Hin|]. cbn [Acl.aclPackets In] in Hin.
    destruct Hin as [<-|Hin]; [exists 2, ch; reflexivity|].
    apply in_map_iff in Hin as (ch' & <- & _). exists 1, ch'. reflexivity. }
  destruct Hpacket as (pb & chunk & ->).
  destruct (aclPacket_header handle pb chunk) as (b1 & b2 & b3 & b4 & ->).
  unfold Acl.onTransportData.
  cbn [length Nat.eqb Hci.u8 Hci.buf Hci.rpos Nat.add Nat.ltb Nat.leb nth].
  change (Acl.HCI_ACLDATA =? Hci.HCI_EVENT) with false.
  change (Acl.HCI_ACLDATA =? Acl.HCI_ACLDATA) with true. cbv iota.
  unfold Acl.onAclDataAt.
  cbn [length Nat.eqb Hci.u16 Hci.buf Hci.rpos Nat.add Nat.ltb Nat.leb nth Js.getProp].
  rewrite Hp. reflexivity.
Qed.

Lemma acl_data_does_not_reach_the_adapter_witness :
  Acl.onTransportData Scenario.socketTransport (Acl.aclPacket 64 2 [3; 0; 4; 0; 1; 2; 3])
    (Acl.mkAdapter Hci.newAdapter 27 3 [(64, Acl.newConn 1)] 0 [])
  = Acl.Threw Js.TypeError (Acl.mkAdapter Hci.newAdapter 27 3 [(64, Acl.newConn 1)] 0 []).
Proof.
  apply (acl_data_does_not_reach_the_adapter
           [("write", Js.VObj []); ("_eventsCount", Js.VNum 1)] 64 [[3; 0; 4; 0; 1; 2; 3]]).
  - reflexivity.
  - left. reflexivity.
Defined.

(** ** ACL data: fragments of outgoing frames *)

Section FragmentFacts.
Import Acl.

Variables (mtu : Z) (data : list Z) (sentCb completeCb : option nat).
Hypothesis Hmtu : 0 < mtu.

Lemma fragments_from (fuel : nat) :
  forall i, 0 <= i -> (Z.to_nat (Buf.len data - i) <= fuel)%nat ->
  let items := fragments fuel mtu data i sentCb completeCb in
  concat (List.map buffer items) = skipn (Z.to_nat i) data
  /\ Forall (fun it => 0 < Buf.len (buffer it) <= mtu) items
  /\ List.map isFirst items
     = match items with [] => [] | _ => (i =? 0) :: repeat false (length items - 1) end
  /\ (i < Buf.len data ->
      exists front lastItem,
        items = front ++ [lastItem]
        /\ sentCallback lastItem = sentCb /\ completeCallback lastItem = completeCb
        /\ Forall (fun it => sentCallback it = None /\ completeCallback it = None) front).
Proof.
  induction fuel as [|fuel IH]; intros i Hi Hfuel; cbv zeta.
  - cbn [fragments List.map concat]. unfold Buf.len in *.
    repeat split; [|constructor|lia].
    symmetry. apply skipn_all2. lia.
  - cbn [fragments]. destruct (i <? Buf.len data) eqn:Elt.
    + apply Z.ltb_lt in Elt.
      specialize (IH (i + mtu) ltac:(lia) ltac:(unfold Buf.len in *; lia)). cbv zeta in IH.
      destruct IH as (Hcat & Hall & Hfirst & Hlast).
      set (rest := fragments fuel mtu data (i + mtu) sentCb completeCb) in *.
      set (isLast := i + mtu >=? Buf.len data).
      set (stop := if isLast then Buf.len data else i + mtu).
      assert (Hstop : i < stop <= Buf.len data /\ stop <= i + mtu
                      /\ skipn (Z.to_nat stop) data = skipn (Z.to_nat (i + mtu)) data).
      { subst stop isLast. destruct (i + mtu >=? Buf.len data) eqn:E.
        - rewrite Z.geb_leb in E. apply Z.leb_le in E. repeat split; try lia.
          unfold Buf.len in *. rewrite !skipn_all2 by lia. reflexivity.
        - rewrite Z.geb_leb in E. apply Z.leb_gt in E. repeat split; try lia. }
      destruct Hstop as (Hs1 & Hs2 & Hs3).
      assert (Hsub : length (subarray i stop data) = Z.to_nat (stop - i)).
      { unfold subarray. rewrite length_firstn, length_skipn. unfold Buf.len in *. lia. }
      cbn [List.map concat buffer isFirst length]. repeat split.
      * rewrite Hcat, <- Hs3. unfold subarray.
        replace (Z.to_nat stop) with (Z.to_nat (stop - i) + Z.to_nat i)%nat by lia.
        rewrite <- skipn_skipn. apply firstn_skipn.
      * constructor; [|exact Hall]. cbn [buffer]. unfold Buf.len. rewrite Hsub. lia.
      * f_equal. rewrite Hfirst.
        replace (i + mtu =? 0) with false by (symmetry; apply Z.eqb_neq; lia).
        destruct rest; [reflexivity|]. cbn [length Nat.sub repeat].
        rewrite Nat.sub_0_r. reflexivity.
      * intros _. subst isLast. destruct (i + mtu >=? Buf.len data) eqn:E.
        -- rewrite Z.geb_leb in E. apply Z.leb_le in E.
           assert (Er : rest = []).
           { subst rest. destruct fuel; [reflexivity|]. cbn [fragments].
             replace (i + mtu <? Buf.len data) with false by (symmetry; apply Z.ltb_ge; lia).
             reflexivity. }
           rewrite Er. exists [], (mkItem (i =? 0) (subarray i stop data) sentCb completeCb).
           repeat split. constructor.
        -- rewrite Z.geb_leb in E. apply Z.leb_gt in E.
           destruct (Hlast E) as (front & lastItem & Er & Hs & Hc & Hf).
           exists (mkItem (i =? 0) (subarray i stop data) None None :: front), lastItem.
           rewrite Er. repeat split; try assumption. constructor; [split; reflexivity|exact Hf].
    + apply Z.ltb_ge in Elt. cbn [List.map concat]. unfold Buf.len in *.
      repeat split; [|constructor|lia].
      symmetry. apply skipn_all2. lia.
Qed.

End FragmentFacts.

(** X6.  sendData cuts the L2CAP frame (length, channel id, payload) into
    fragments of at most aclMtu bytes, none of them empty, which together
    are the frame; only the first is marked isFirst, and only the last
    carries the sentCallback and the completeCallback. *)
Theorem sendData_fragments (mtu cid : Z) (data : list Z) (sentCb completeCb : option nat) :
  0 < mtu ->
  let frame := Acl.l2capFrame cid data in
  let items := Acl.fragments (length frame) mtu frame 0 sentCb completeCb in
  concat (List.map Acl.buffer items) = frame
  /\ Forall (fun it => 0 < Buf.len (Acl.buffer it) <= mtu) items
  /\ List.map Acl.isFirst items = true :: repeat false (length items - 1)
  /\ exists front lastItem,
       items = front ++ [lastItem]
       /\ Acl.sentCallback lastItem = sentCb /\ Acl.completeCallback lastItem = completeCb
       /\ Forall (fun it => Acl.sentCallback it = None /\ Acl.completeCallback it = None) front.
Proof.
  intros Hmtu. cbv zeta.
  set (frame := Acl.l2capFrame cid data).
  assert (Hlen : 0 < Buf.len frame).
  { subst frame. unfold Acl.l2capFrame, Buf.len. rewrite length_app. cbn [length Wire.toBuffer
      Wire.u16 Wire.newWriter app List.map]. lia. }
  destruct (fragments_from mtu frame sentCb completeCb Hmtu (length frame) 0 ltac:(lia)
              ltac:(unfold Buf.len; lia)) as (Hcat & Hall & Hfirst & Hlast).
  set (items := Acl.fragments (length frame) mtu frame 0 sentCb completeCb) in *.
  destruct (Hlast Hlen) as (front & lastItem & Ei & Hl).
  split; [exact Hcat|]. split; [exact Hall|]. split.
  - rewrite Hfirst, Ei. destruct front; reflexivity.
  - exists front, lastItem. split; [exact Ei|exact Hl].
Qed.

Lemma sendData_fragments_witness :
  let frame := Acl.l2capFrame 4 [1; 2; 3] in
  let items := Acl.fragments (length frame) 3 frame 0 (Some 1%nat) (Some 2%nat) in
  List.map Acl.buffer items = [[3; 0; 4]; [0; 1; 2]; [3]]
  /\ concat (List.map Acl.buffer items) = frame.
Proof.
  split; [reflexivity|].
  apply (sendData_fragments 3 4 [1; 2; 3] (Some 1%nat) (Some 2%nat)). lia.
Defined.

(** ** ACL data: the buffers of the controller *)

Section CreditFacts.
Import Acl.

Lemma inController_nonneg (conns : list (Z * Conn)) : 0 <= inController conns.
Proof. induction conns as [|[h c] rest IH]; cbn [inController fold_right snd]; [lia|]. unfold inController in IH. lia. Qed.

Lemma ascending_weaken (lower lower' : Z) (conns : list (Z * Conn)) :
  lower' <= lower -> ascending lower conns -> ascending lower' conns.
Proof. destruct conns as [|[h c] rest]; cbn [ascending]; [trivial|]. intros H [H1 H2]. split; [lia|exact H2]. Qed.

Lemma connOf_below (lower handle : Z) (conns : list (Z * Conn)) :
  ascending lower conns -> handle <= lower -> connOf handle conns = None.
Proof.
  revert lower. induction conns as [|[h c] rest IH]; intros lower Ha Hl; [reflexivity|].
  cbn [ascending] in Ha. destruct Ha as [H1 H2]. cbn [connOf].
  replace (h =? handle) with false by (symmetry; apply Z.eqb_neq; lia).
  apply (IH h H2). lia.
Qed.

(** Replacing the entry of an active handle *)
Lemma setConn_active (handle : Z) (c c1 : Conn) (lower : Z) (conns : list (Z * Conn)) :
  ascending lower conns -> connOf handle conns = Some c ->
  ascending lower (setConn handle c1 conns)
  /\ inController (setConn handle c1 conns)
     = inController conns - Z.of_nat (length (outgoingL2CAPPacketsInController c))
       + Z.of_nat (length (outgoingL2CAPPacketsInController c1)).
Proof.
  revert lower. induction conns as [|[h c'] rest IH]; intros lower Ha Hc; [discriminate|].
  cbn [ascending] in Ha. destruct Ha as [H1 H2]. cbn [connOf] in Hc. cbn [setConn].
  destruct (h =? handle) eqn:E.
  - apply Z.eqb_eq in E. subst h. injection Hc as ->.
    split; [cbn [ascending]; split; assumption|].
    unfold inController. cbn [fold_right snd]. lia.
  - apply Z.eqb_neq in E. destruct (handle <? h) eqn:E2.
    + apply Z.ltb_lt in E2. rewrite (connOf_below h handle rest H2) in Hc by lia. discriminate.
    + destruct (IH h H2 Hc) as [A B]. split; [cbn [ascending]; split; assumption|].
      unfold inController in *. cbn [fold_right snd]. lia.
Qed.

Lemma dropConn_above (lower handle : Z) (conns : list (Z * Conn)) :
  ascending lower conns -> handle <= lower -> dropConn handle conns = conns.
Proof.
  revert lower. induction conns as [|[h c] rest IH]; intros lower Ha Hl; [reflexivity|].
  cbn [ascending] in Ha. destruct Ha as [H1 H2]. unfold dropConn in *. cbn [List.filter fst].
  replace (h =? handle) with false by (symmetry; apply Z.eqb_neq; lia).
  cbn [negb]. f_equal. apply (IH h H2). lia.
Qed.

Lemma dropConn_active (handle : Z) (c : Conn) (lower : Z) (conns : list (Z * Conn)) :
  ascending lower conns -> connOf handle conns = Some c ->
  ascending lower (dropConn handle conns)
  /\ inController (dropConn handle conns)
     = inController conns - Z.of_nat (length (outgoingL2CAPPacketsInController c)).
Proof.
  revert lower. induction conns as [|[h c'] rest IH]; intros lower Ha Hc; [discriminate|].
  cbn [ascending] in Ha. destruct Ha as [H1 H2]. cbn [connOf] in Hc.
  unfold dropConn in *. cbn [List.filter fst].
  destruct (h =? handle) eqn:E; cbn [negb].
  - apply Z.eqb_eq in E. subst h. injection Hc as ->.
    fold (dropConn handle rest). rewrite (dropConn_above handle handle rest H2) by lia.
    split; [apply (ascending_weaken handle); [lia|exact H2]|].
    unfold inController. cbn [fold_right snd]. lia.
  - destruct (IH h H2 Hc) as [A B]. split; [cbn [ascending]; split; assumption|].
    unfold inController in *. cbn [fold_right snd]. lia.
Qed.

Lemma connOf_key (h : Z) (conns : list (Z * Conn)) :
  In h (List.map fst conns) -> exists c, connOf h conns = Some c.
Proof.
  induction conns as [|[h' c'] rest IH]; cbn [List.map fst connOf]; intros Hin; [destruct Hin|].
  destruct (h' =? h) eqn:E; [eauto|].
  destruct Hin as [->|Hin]; [rewrite Z.eqb_refl in E; discriminate|]. apply IH. exact Hin.
Qed.

Lemma candidates_active (conns : list (Z * Conn)) (k : nat) :
  candidates conns <> [] ->
  exists c, connOf (nth (k mod length (candidates conns)) (candidates conns) 0) conns = Some c.
Proof.
  intros Hne. apply connOf_key.
  assert (Hin : In (nth (k mod length (candidates conns)) (candidates conns) 0) (candidates conns)).
  { apply nth_In. apply Nat.mod_upper_bound. destruct (candidates conns); [congruence|discriminate]. }
  revert Hin. generalize (nth (k mod length (candidates conns)) (candidates conns) 0).
  intros h Hin. unfold candidates in Hin.
  apply in_map_iff in Hin as (hc & Eh & Hin). apply filter_In in Hin as [Hin _].
  apply in_map_iff. exists hc. split; assumption.
Qed.

Variable random : nat -> nat.

(** triggerSendPackets ends after at most numFreeBuffers turns and moves
    buffers from the free ones to those in the controller. *)
Lemma triggerSendPackets_credits (fuel : nat) :
  forall (conn : option Z) (a : Adapter),
  sound a -> numFreeBuffers a < Z.of_nat fuel ->
  exists a',
    triggerSendPackets random fuel conn a = Returned a'
    /\ credits a' = credits a /\ sound a' /\ aclMtu a' = aclMtu a
    /\ numFreeBuffers a' <= numFreeBuffers a.
Proof.
  induction fuel as [|fuel IH]; intros conn a [Hfree Hasc] Hfuel; [lia|].
  cbn [triggerSendPackets].
  destruct (numFreeBuffers a =? 0) eqn:E0.
  { exists a. repeat split; try assumption; lia. }
  apply Z.eqb_neq in E0.
  destruct (isStopped a). { exists a. repeat split; try assumption; lia. }
  set (selection := match conn with None => _ | Some _ => _ end).
  assert (Hsel : match selection with
                 | None => True
                 | Some (handle, c, a1) =>
                     connOf handle (activeConnections a1) = Some c
                     /\ activeConnections a1 = activeConnections a
                     /\ numFreeBuffers a1 = numFreeBuffers a /\ aclMtu a1 = aclMtu a
                 end).
  { subst selection. destruct conn as [handle|].
    - destruct (connOf handle (activeConnections a)) as [c|] eqn:Ec; [|exact I].
      destruct (disconnecting c); [exact I|]. repeat split; assumption.
    - destruct (candidates (activeConnections a)) eqn:Ecs; [exact I|].
      rewrite <- Ecs.
      destruct (candidates_active (activeConnections a) (random (rolls a))) as [c Hc];
        [rewrite Ecs; discriminate|].
      rewrite Hc. repeat split; try reflexivity. exact Hc. }
  destruct selection as [[[handle c] a1]|]; [|exists a; repeat split; try assumption; lia].
  destruct Hsel as (Hc & Econns & Efree & Emtu).
  destruct (Utils.shift (outgoingL2CAPBuffer c)) as [[item|] Q].
  2:{ exists a1. unfold credits, sound. rewrite Econns, Efree, Emtu.
      repeat split; try assumption; lia. }
  set (c1 := mkConn _ _ _ _ Q _).
  rewrite Econns in Hc.
  destruct (setConn_active handle c c1 (-1) (activeConnections a) Hasc Hc) as [Hasc1 Hsum].
  match goal with
  | |- exists a', triggerSendPackets _ _ _ ?a4 = _ /\ _ =>
      destruct (IH conn a4) as (a' & R & Hcr & Hs & Hm & Hle)
  end.
  - destruct (sentCallback item); unfold sound;
      cbn [emit setConns setFree numFreeBuffers activeConnections];
      rewrite Econns, Efree; (split; [lia|exact Hasc1]).
  - destruct (sentCallback item);
      cbn [emit setConns setFree numFreeBuffers]; rewrite Efree; lia.
  - exists a'. rewrite R. split; [reflexivity|].
    assert (Hcr4 : forall a4,
              numFreeBuffers a4 = numFreeBuffers a - 1 ->
              activeConnections a4 = setConn handle c1 (activeConnections a) ->
              credits a4 = credits a).
    { intros a4 Hf Hcs. unfold credits. rewrite Hf, Hcs, Hsum. subst c1.
      cbn [outgoingL2CAPPacketsInController]. rewrite length_app. cbn [length]. lia. }
    destruct (sentCallback item);
      cbn [emit setConns setFree numFreeBuffers activeConnections aclMtu] in *;
      rewrite Econns, Efree in *;
      (repeat split; [rewrite Hcr; apply Hcr4; reflexivity | apply Hs | apply Hs | lia | lia]).
Qed.

Lemma sendData_credits (fuel : nat) (handle cid : Z) (data : list Z)
    (sentCb completeCb : option nat) (a : Adapter) :
  sound a -> 0 < aclMtu a -> numFreeBuffers a < Z.of_nat fuel ->
  match sendData random fuel handle cid data sentCb completeCb a with
  | Returned a' | Threw _ a' => credits a' = credits a /\ sound a' /\ aclMtu a' = aclMtu a
  | _ => False
  end.
Proof.
  intros [Hfree Hasc] Hmtu Hfuel. unfold sendData.
  destruct (isStopped a); [repeat split; assumption|].
  destruct (connOf handle (activeConnections a)) as [c|] eqn:Ec; [|repeat split; assumption].
  replace (aclMtu a <=? 0) with false by (symmetry; apply Z.leb_gt; lia).
  set (c1 := mkConn _ _ _ _ _ _).
  destruct (setConn_active handle c c1 (-1) (activeConnections a) Hasc Ec) as [Hasc1 Hsum].
  destruct (triggerSendPackets_credits fuel (Some handle)
              (setConns (setConn handle c1 (activeConnections a)) a))
    as (a' & R & Hcr & Hs & Hm & _).
  - split; [exact Hfree|exact Hasc1].
  - exact Hfuel.
  - rewrite R. split; [|split; [exact Hs|exact Hm]].
    rewrite Hcr. unfold credits. cbn [setConns numFreeBuffers activeConnections].
    rewrite Hsum. subst c1. cbn [outgoingL2CAPPacketsInController]. lia.
Qed.

Lemma u16_in_range (r r' : Hci.Reader) (v : Z) :
  Forall (fun b => 0 <= b < 256) (Hci.buf r) -> Hci.u16 r = Js.Ok (v, r') ->
  0 <= v /\ Hci.buf r' = Hci.buf r.
Proof.
  intros Hb. unfold Hci.u16. destruct (Nat.ltb _ _) eqn:E; [discriminate|].
  apply Nat.ltb_ge in E. intros H. injection H as <- <-. split; [|reflexivity].
  rewrite List.Forall_forall in Hb.
  assert (H0 : 0 <= nth (Hci.rpos r) (Hci.buf r) 0 < 256) by (apply Hb, nth_In; lia).
  assert (H1 : 0 <= nth (Hci.rpos r + 1) (Hci.buf r) 0 < 256) by (apply Hb, nth_In; lia).
  rewrite lor_shiftl_bytes by exact H0. lia.
Qed.

Lemma u8_in_range (r r' : Hci.Reader) (v : Z) :
  Forall (fun b => 0 <= b < 256) (Hci.buf r) -> Hci.u8 r = Js.Ok (v, r') ->
  0 <= v /\ Hci.buf r' = Hci.buf r.
Proof.
  intros Hb. unfold Hci.u8. destruct (Nat.ltb _ _) eqn:E; [discriminate|].
  apply Nat.ltb_ge in E. intros H. injection H as <- <-. split; [|reflexivity].
  rewrite List.Forall_forall in Hb.
  assert (H0 : 0 <= nth (Hci.rpos r) (Hci.buf r) 0 < 256) by (apply Hb, nth_In; lia). lia.
Qed.

Lemma completedLoop_credits (numHandles : nat) :
  forall (r : Hci.Reader) (callbacks : list (option nat)) (a : Adapter),
  Forall (fun b => 0 <= b < 256) (Hci.buf r) -> sound a ->
  let a' := snd (completedLoop numHandles r callbacks a) in
  credits a' = credits a /\ sound a' /\ aclMtu a' = aclMtu a.
Proof.
  induction numHandles as [|n IH]; intros r callbacks a Hb Hs; cbv zeta;
    [split; [reflexivity|split; [exact Hs|reflexivity]]|].
  cbn [completedLoop].
  destruct (Hci.u16 r) as [[handle r1]|e] eqn:U1;
    [|split; [reflexivity|split; [exact Hs|reflexivity]]].
  destruct (u16_in_range r r1 handle Hb U1) as [_ Hb1]. rewrite <- Hb1 in Hb.
  destruct (Hci.u16 r1) as [[numCompleted r2]|e] eqn:U2;
    [|split; [reflexivity|split; [exact Hs|reflexivity]]].
  destruct (u16_in_range r1 r2 numCompleted Hb U2) as [Hpos Hb2]. rewrite <- Hb2 in Hb.
  destruct (connOf handle (activeConnections a)) as [c|] eqn:Ec; [|apply IH; assumption].
  cbv zeta.
  set (k := if numCompleted >? _ then _ else numCompleted).
  set (c1 := mkConn _ _ _ _ _ _).
  destruct Hs as [Hfree Hasc].
  destruct (setConn_active handle c c1 (-1) (activeConnections a) Hasc Ec) as [Hasc1 Hsum].
  assert (Hk : 0 <= k <= Z.of_nat (length (outgoingL2CAPPacketsInController c))).
  { subst k. destruct (numCompleted >? _) eqn:E; [lia|]. rewrite Z.gtb_ltb in E.
    apply Z.ltb_ge in E. lia. }
  specialize (IH r2 (callbacks ++ firstn (Z.to_nat k) (outgoingL2CAPPacketsInController c))
                (setConns (setConn handle c1 (activeConnections a))
                          (setFree (numFreeBuffers a + k) a)) Hb).
  cbv zeta in IH. destruct IH as (A & B & C).
  - split; cbn [setConns setFree numFreeBuffers activeConnections]; [lia|exact Hasc1].
  - split; [|split; [exact B|exact C]]. rewrite A. unfold credits.
    cbn [setConns setFree numFreeBuffers activeConnections]. rewrite Hsum. subst c1.
    cbn [outgoingL2CAPPacketsInController]. rewrite length_skipn. lia.
Qed.

Lemma runCompleted_state (labels : list (option nat)) (a : Adapter) :
  numFreeBuffers (runCompleted labels a) = numFreeBuffers a
  /\ activeConnections (runCompleted labels a) = activeConnections a
  /\ aclMtu (runCompleted labels a) = aclMtu a.
Proof.
  revert a. induction labels as [|[l|] rest IH]; intros a; cbn [runCompleted fold_left];
    [repeat split| |apply IH].
  destruct (IH (emit (Complete l) a)) as (A & B & C). unfold runCompleted in *.
  rewrite A, B, C. repeat split.
Qed.

Lemma credits_bound (a : Adapter) : numFreeBuffers a <= credits a.
Proof. unfold credits. pose proof (inController_nonneg (activeConnections a)). lia. Qed.

Lemma numberOfCompletePackets_credits (fuel : nat) (r : Hci.Reader) (a : Adapter) :
  Forall (fun b => 0 <= b < 256) (Hci.buf r) -> sound a -> credits a < Z.of_nat fuel ->
  match handleNumberOfCompletePackets random fuel r a with
  | Returned a' | Threw _ a' => credits a' = credits a /\ sound a' /\ aclMtu a' = aclMtu a
  | _ => False
  end.
Proof.
  intros Hb Hs Hfuel. unfold handleNumberOfCompletePackets.
  destruct (Hci.u8 r) as [[numHandles r1]|e] eqn:U;
    [|split; [reflexivity|split; [exact Hs|reflexivity]]].
  destruct (u8_in_range r r1 numHandles Hb U) as [_ Hb1]. rewrite <- Hb1 in Hb.
  pose proof (completedLoop_credits (Z.to_nat numHandles) r1 [] a Hb Hs) as H. cbv zeta in H.
  destruct (completedLoop (Z.to_nat numHandles) r1 [] a) as [[callbacks|e] a1]; cbn [snd] in H;
    [|exact H].
  destruct H as (A & B & C).
  destruct (runCompleted_state callbacks a1) as (R1 & R2 & R3).
  destruct (triggerSendPackets_credits fuel None (runCompleted callbacks a1))
    as (a' & R & Hcr & Hs' & Hm & _).
  - unfold sound. rewrite R1, R2. exact B.
  - rewrite R1. pose proof (credits_bound a1). lia.
  - rewrite R. split; [|split; [exact Hs'|congruence]].
    rewrite Hcr. unfold credits. rewrite R1, R2. exact A.
Qed.

Lemma disconnectionComplete_credits (fuel : nat) (r : Hci.Reader) (a : Adapter) :
  sound a -> credits a < Z.of_nat fuel ->
  match handleDisconnectionComplete random fuel r a with
  | Returned a' | Threw _ a' => credits a' = credits a /\ sound a' /\ aclMtu a' = aclMtu a
  | _ => False
  end.
Proof.
  intros Hs Hfuel. unfold handleDisconnectionComplete.
  assert (Same : credits a = credits a /\ sound a /\ aclMtu a = aclMtu a)
    by (split; [reflexivity|split; [exact Hs|reflexivity]]).
  destruct (Hci.u8 r) as [[status r1]|e]; [|exact Same].
  destruct (negb (status =? 0)); [exact Same|].
  destruct (Hci.u16 r1) as [[handle r2]|e]; [|exact Same].
  destruct (Hci.u8 r2) as [[reason r3]|e]; [|exact Same].
  destruct (connOf handle (activeConnections a)) as [c|] eqn:Ec; [|exact Same].
  destruct Hs as [Hfree Hasc].
  destruct (dropConn_active handle c (-1) (activeConnections a) Hasc Ec) as [Hasc1 Hsum].
  match goal with
  | |- match triggerSendPackets _ _ _ ?a1 with _ => _ end =>
      assert (Hc1 : credits a1 = credits a /\ sound a1 /\ aclMtu a1 = aclMtu a)
  end.
  { unfold credits, sound. cbn [emit numFreeBuffers activeConnections aclMtu].
    rewrite Hsum. repeat split; try lia. exact Hasc1. }
  destruct Hc1 as (A & B & C).
  match goal with
  | |- match triggerSendPackets _ _ _ ?a1 with _ => _ end =>
      destruct (triggerSendPackets_credits fuel None a1) as (a' & R & Hcr & Hs' & Hm & _);
        [exact B | pose proof (credits_bound a1); lia |]
  end.
  rewrite R. split; [congruence|split; [exact Hs'|congruence]].
Qed.

Lemma firstPacket_packets (handle len : Z) (packet : list Z) (r : Hci.Reader) (c c1 : Conn)
    (es : list Effect) :
  firstPacket handle len packet r c = Js.Ok (c1, es) ->
  outgoingL2CAPPacketsInController c1 = outgoingL2CAPPacketsInController c.
Proof.
  unfold firstPacket. destruct (len <? 4); [intros H; injection H as <- _; reflexivity|].
  destruct (4 + _ =? len).
  - destruct (Hci.u16 r) as [[l r1]|e]; [|discriminate]. cbn [Js.bind snd].
    destruct (Hci.u16 r1) as [[ci r2]|e]; [|discriminate]. cbn [Js.bind].
    intros H; injection H as <- _; reflexivity.
  - destruct (4 + _ <? len); intros H; injection H as <- _; reflexivity.
Qed.

Lemma continuation_packets (handle : Z) (r : Hci.Reader) (c : Conn) :
  outgoingL2CAPPacketsInController (fst (continuation handle r c))
  = outgoingL2CAPPacketsInController c.
Proof.
  unfold continuation. destruct (rev (incomingL2CAPBuffer c)); [reflexivity|]. cbv zeta.
  destruct (_ >=? 4); [|reflexivity]. destruct (4 + _ =? _); reflexivity.
Qed.

Lemma onAclData_credits (packet : list Z) (r : Hci.Reader) (a : Adapter) :
  sound a ->
  match onAclData packet r a with
  | Returned a' | Threw _ a' => credits a' = credits a /\ sound a' /\ aclMtu a' = aclMtu a
  | _ => False
  end.
Proof.
  intros Hs. unfold onAclData.
  assert (Same : credits a = credits a /\ sound a /\ aclMtu a = aclMtu a)
    by (split; [reflexivity|split; [exact Hs|reflexivity]]).
  destruct (Nat.ltb _ 5); [exact Same|].
  destruct (Hci.u16 r) as [[conhdl r1]|e]; [|exact Same].
  destruct (Hci.u16 r1) as [[len r2]|e]; [|exact Same].
  set (h := Z.land conhdl 4095).
  destruct (connOf h (activeConnections a)) as [c|] eqn:Ec; [|exact Same].
  destruct Hs as [Hfree Hasc].
  assert (Upd : forall c1, outgoingL2CAPPacketsInController c1 = outgoingL2CAPPacketsInController c ->
            forall es,
            let a' := fold_left (fun acc e => emit e acc) es
                        (setConns (setConn h c1 (activeConnections a)) a) in
            credits a' = credits a /\ sound a' /\ aclMtu a' = aclMtu a).
  { intros c1 Hp es. cbv zeta.
    destruct (setConn_active h c c1 (-1) (activeConnections a) Hasc Ec) as [Hasc1 Hsum].
    assert (F : forall es a0, numFreeBuffers (fold_left (fun acc e => emit e acc) es a0) = numFreeBuffers a0
                              /\ aclMtu (fold_left (fun acc e => emit e acc) es a0) = aclMtu a0).
    { clear. induction es as [|e es IH]; intros a0; cbn [fold_left]; [split; reflexivity|].
      destruct (IH (emit e a0)) as [A B]. rewrite A, B. split; reflexivity. }
    destruct (F es (setConns (setConn h c1 (activeConnections a)) a)) as [F1 F2].
    unfold credits, sound. rewrite F1, F2, conns_fold_emit.
    cbn [setConns numFreeBuffers activeConnections aclMtu]. rewrite Hsum, Hp.
    repeat split; try lia. exact Hasc1. }
  destruct (Z.land (Z.shiftr conhdl 12) 3 =? 2).
  - destruct (firstPacket h len packet r2 c) as [[c1 es]|e] eqn:Ef.
    + apply (Upd c1 (firstPacket_packets _ _ _ _ _ _ _ Ef) es).
    + apply (Upd (setIncoming [] 0 c) eq_refl []).
  - destruct (Z.land (Z.shiftr conhdl 12) 3 =? 1); [|exact Same].
    pose proof (continuation_packets h r2 c) as Hp.
    destruct (continuation h r2 c) as [c1 es]. cbn [fst] in Hp. apply (Upd c1 Hp es).
Qed.

End CreditFacts.

(** X7.  The buffers of the controller are accounted for.  Whatever
    sendData is called with and whatever packet comes in (ACL data, Number
    Of Completed Packets, Disconnection Complete), the count of free
    buffers plus the packets held in the controller for the active
    connections stays the same, the count of free buffers is never
    negative, and the call ends: it returns or throws, and the loop of
    triggerSendPackets takes no more turns than there are buffers. *)
Theorem acl_buffers_are_conserved (random : nat -> nat) (fuel : nat) (op : Acl.Op)
    (a : Acl.Adapter) :
  Acl.sound a -> 0 < Acl.aclMtu a -> Acl.credits a < Z.of_nat fuel ->
  match op with
  | Acl.Receive packet => Forall (fun b => 0 <= b < 256) packet
  | Acl.Send _ _ _ _ _ => True
  end ->
  match Acl.step random fuel op a with
  | Acl.Returned a' | Acl.Threw _ a' =>
      Acl.credits a' = Acl.credits a /\ Acl.sound a' /\ Acl.aclMtu a' = Acl.aclMtu a
  | Acl.Diverged => False
  | Acl.Unmodelled => True
  end.
Proof.
  intros Hs Hmtu Hfuel Hop.
  assert (Same : Acl.credits a = Acl.credits a /\ Acl.sound a /\ Acl.aclMtu a = Acl.aclMtu a)
    by (split; [reflexivity|split; [exact Hs|reflexivity]]).
  destruct op as [handle cid data sentCb completeCb|packet]; cbn [Acl.step].
  - pose proof (sendData_credits random fuel handle cid data sentCb completeCb a Hs Hmtu
                  ltac:(pose proof (credits_bound a); lia)) as H.
    destruct (Acl.sendData _ _ _ _ _ _ _ _); try exact H; destruct H.
  - unfold Acl.onData. destruct (Nat.eqb _ 0); [exact Same|].
    destruct (Hci.u8 _) as [[packetType r]|e] eqn:U0; [|exact Same].
    destruct (u8_in_range (Hci.mkReader packet 0) r packetType Hop U0) as [_ Hb].
    cbn [Hci.buf] in Hb.
    destruct (packetType =? Hci.HCI_EVENT).
    + destruct (Nat.ltb _ 3); [exact Same|].
      destruct (Hci.u8 r) as [[eventCode r1]|e] eqn:U1; [|exact Same].
      destruct (u8_in_range r r1 _ ltac:(rewrite Hb; exact Hop) U1) as [_ Hb1].
      destruct (Hci.u8 r1) as [[paramLen r2]|e] eqn:U2; [|exact Same].
      destruct (u8_in_range r1 r2 _ ltac:(rewrite Hb1, Hb; exact Hop) U2) as [_ Hb2].
      destruct (negb _); [exact Same|].
      destruct (eventCode =? Acl.DISCONNECTION_COMPLETE).
      * pose proof (disconnectionComplete_credits random fuel r2 a Hs Hfuel) as H.
        destruct (Acl.handleDisconnectionComplete _ _ _ _); try exact H; destruct H.
      * destruct (eventCode =? Acl.NUMBER_OF_COMPLETE_PACKETS); [|exact I].
        pose proof (numberOfCompletePackets_credits random fuel r2 a
                      ltac:(rewrite Hb2, Hb1, Hb; exact Hop) Hs Hfuel) as H.
        destruct (Acl.handleNumberOfCompletePackets _ _ _ _); try exact H; destruct H.
    + destruct (packetType =? Acl.HCI_ACLDATA); [|exact Same].
      pose proof (onAclData_credits packet r a Hs) as H.
      destruct (Acl.onAclData _ _ _); try exact H; destruct H.
Qed.

Lemma acl_buffers_are_conserved_witness :
  match Acl.step (fun _ => O) 4 (Acl.Send 64 4 [1; 2; 3] (Some 1%nat) (Some 2%nat))
          (Acl.mkAdapter Hci.newAdapter 27 3 [(64, Acl.newConn 1)] 0 []) with
  | Acl.Returned a' | Acl.Threw _ a' =>
      Acl.credits a' = 3 /\ Acl.sound a' /\ Acl.aclMtu a' = 27
  | Acl.Diverged => False
  | Acl.Unmodelled => True
  end.
Proof.
  apply (acl_buffers_are_conserved (fun _ => O) 4
           (Acl.Send 64 4 [1; 2; 3] (Some 1%nat) (Some 2%nat))
           (Acl.mkAdapter Hci.newAdapter 27 3 [(64, Acl.newConn 1)] 0 [])).
  - split; [vm_compute; discriminate|]. split; [reflexivity|exact I].
  - reflexivity.
  - vm_compute. reflexivity.
  - exact I.
Defined.

(** ** ACL data: what triggerSendPackets takes from the queue *)

Section ResendFacts.
Import Acl.

Variable random : nat -> nat.
Variable handle : Z.
Variable items : list Item.

(** The number of entries shift() hands out before it starts again. *)
Let half : nat := ((length items + 1) / 2)%nat.

Let packetOf (it : Item) : list Z := aclHeader handle (isFirst it) (buffer it) ++ buffer it.

Lemma shift_cycle (p : nat) (d : Item) :
  (p < half)%nat ->
  Utils.shift (Utils.mkQueue items p)
  = (Some (nth p items d), Utils.mkQueue items (S p mod half)).
Proof.
  intros Hp. subst half.
  assert (Hm : (p < length items)%nat).
  { pose proof (Nat.div_mod_eq (length items + 1) 2).
    pose proof (Nat.mod_upper_bound (length items + 1) 2). lia. }
  unfold Utils.shift. cbn [Utils.q Utils.pos].
  replace (Nat.eqb p (length items)) with false by (symmetry; apply Nat.eqb_neq; lia).
  rewrite (nth_error_nth' items d Hm).
  destruct (Nat.leb (length items) (S p * 2)) eqn:E.
  - apply Nat.leb_le in E.
    assert (Eh : S p = ((length items + 1) / 2)%nat).
    { pose proof (Nat.div_mod_eq (length items + 1) 2).
      pose proof (Nat.mod_upper_bound (length items + 1) 2). lia. }
    rewrite <- Eh, Nat.Div0.mod_same. reflexivity.
  - apply Nat.leb_gt in E.
    rewrite Nat.mod_small; [reflexivity|].
    pose proof (Nat.div_mod_eq (length items + 1) 2).
    pose proof (Nat.mod_upper_bound (length items + 1) 2). lia.
Qed.

Lemma written_emit (e : Effect) (a : Adapter) :
  written (emit e a) = written a ++ match e with Write p => [p] | _ => [] end.
Proof.
  unfold written, emit. cbn [events]. rewrite flat_map_app. cbn [flat_map].
  rewrite app_nil_r. reflexivity.
Qed.

Lemma triggerSendPackets_cycle (n : nat) :
  forall (fuel k : nat) (a : Adapter) (c : Conn) (d : Item),
  items <> [] ->
  connOf handle (activeConnections a) = Some c -> disconnecting c = false ->
  outgoingL2CAPBuffer c = Utils.mkQueue items (k mod half) ->
  isStopped a = false -> numFreeBuffers a = Z.of_nat n -> (n < fuel)%nat ->
  exists a',
    triggerSendPackets random fuel (Some handle) a = Returned a'
    /\ written a' = written a
                    ++ List.map (fun j => packetOf (nth (j mod half) items d)) (seq k n)
    /\ numFreeBuffers a' = 0.
Proof.
  induction n as [|n IH]; intros fuel k a c d Hne Hc Hd Hq Hst Hfree Hfuel.
  - destruct fuel as [|fuel]; [lia|]. cbn [triggerSendPackets]. rewrite Hfree. cbn.
    exists a. rewrite app_nil_r. repeat split. exact Hfree.
  - destruct fuel as [|fuel]; [lia|]. cbn [triggerSendPackets].
    replace (numFreeBuffers a =? 0) with false by (symmetry; apply Z.eqb_neq; lia).
    rewrite Hst, Hc, Hd, Hq.
    assert (Hhalf : (0 < half)%nat).
    { subst half. destruct items as [|x l]; [congruence|]. cbn [length].
      pose proof (Nat.div_mod_eq (S (length l) + 1) 2).
      pose proof (Nat.mod_upper_bound (S (length l) + 1) 2). lia. }
    rewrite (shift_cycle (k mod half) d) by (apply Nat.mod_upper_bound; lia).
    set (item := nth (k mod half) items d).
    set (c1 := mkConn _ _ _ _ _ _).
    match goal with
    | |- exists a', triggerSendPackets _ _ _ ?a4 = _ /\ _ =>
        destruct (IH fuel (S k) a4 c1 d Hne) as (a' & R & W & F)
    end.
    + destruct (sentCallback item); cbn [emit setConns setFree activeConnections];
        apply connOf_setConn.
    + exact Hd.
    + subst c1. cbn [outgoingL2CAPBuffer]. f_equal.
      rewrite <- Nat.add_1_r, <- (Nat.add_1_r k).
      rewrite Nat.Div0.add_mod_idemp_l. reflexivity.
    + destruct (sentCallback item); exact Hst.
    + destruct (sentCallback item); cbn [emit setConns setFree numFreeBuffers]; lia.
    + lia.
    + exists a'. split; [exact R|]. split; [|exact F].
      rewrite W. cbn [seq List.map]. fold item.
      assert (Hw : forall a3 : Adapter,
                written (match sentCallback item with
                         | Some label => emit (Sent label) a3
                         | None => a3
                         end) = written a3).
      { intros a3. destruct (sentCallback item); [|reflexivity].
        rewrite written_emit. apply app_nil_r. }
      rewrite Hw, written_emit. unfold written at 1.
      cbn [setConns setFree events]. fold (written a).
      rewrite <- app_assoc. reflexivity.
Qed.

End ResendFacts.

(** X8.  triggerSendPackets takes its packets from the Queue of utils.ts,
    whose shift() hands entries out again.  After sendData on a connection
    whose queue was empty, with n free buffers, n ACL packets have been
    written and no buffer is free: the k-th packet carries fragment
    k mod h of the m fragments of the frame, h being (m + 1) div 2.  So a
    frame of one fragment is written n times, and of a frame of two or
    more fragments the last one, which carries the callbacks, is not
    written. *)
Theorem sendData_writes_head_fragments_again (random : nat -> nat) (fuel n : nat)
    (handle cid : Z) (data : list Z) (sentCb completeCb : option nat)
    (a : Acl.Adapter) (c : Acl.Conn) :
  Acl.isStopped a = false -> 0 < Acl.aclMtu a -> Acl.numFreeBuffers a = Z.of_nat n ->
  (n < fuel)%nat ->
  Acl.connOf handle (Acl.activeConnections a) = Some c ->
  Acl.disconnecting c = false -> Acl.outgoingL2CAPBuffer c = Utils.newQueue ->
  let frame := Acl.l2capFrame cid data in
  let items := Acl.fragments (length frame) (Acl.aclMtu a) frame 0 sentCb completeCb in
  let h := ((length items + 1) / 2)%nat in
  exists a',
    Acl.sendData random fuel handle cid data sentCb completeCb a = Acl.Returned a'
    /\ Acl.written a'
       = Acl.written a
         ++ List.map (fun k =>
                        let it := nth (k mod h) items (Acl.mkItem true [] None None) in
                        Acl.aclHeader handle (Acl.isFirst it) (Acl.buffer it) ++ Acl.buffer it)
                     (seq 0 n)
    /\ Acl.numFreeBuffers a' = 0.
Proof.
  intros Hst Hmtu Hfree Hfuel Hc Hd Hq. cbv zeta.
  set (frame := Acl.l2capFrame cid data).
  set (items := Acl.fragments (length frame) (Acl.aclMtu a) frame 0 sentCb completeCb).
  assert (Hne : items <> []).
  { destruct (sendData_fragments (Acl.aclMtu a) cid data sentCb completeCb Hmtu)
      as (_ & _ & _ & front & lastItem & E & _).
    fold frame in E. fold items in E. rewrite E. destruct front; discriminate. }
  unfold Acl.sendData. rewrite Hst, Hc.
  replace (Acl.aclMtu a <=? 0) with false by (symmetry; apply Z.leb_gt; lia).
  fold frame. fold items. rewrite Hq.
  assert (Hpush : Utils.pushAll items Utils.newQueue = Utils.mkQueue items 0).
  { unfold Utils.pushAll.
    assert (G : forall (l q0 : list Acl.Item),
              fold_left (fun acc x => Utils.push x acc) l (Utils.mkQueue q0 0)
              = Utils.mkQueue (q0 ++ l) 0).
    { induction l as [|x l IH]; intros q0; cbn [fold_left]; [rewrite app_nil_r; reflexivity|].
      unfold Utils.push at 2. cbn [Utils.q Utils.pos]. rewrite IH, <- app_assoc. reflexivity. }
    apply (G items []). }
  rewrite Hpush.
  set (c1 := Acl.mkConn _ _ _ _ _ _).
  destruct (triggerSendPackets_cycle random handle items n fuel 0
              (Acl.setConns (Acl.setConn handle c1 (Acl.activeConnections a)) a) c1
              (Acl.mkItem true [] None None) Hne)
    as (a' & R & W & F).
  - apply connOf_setConn.
  - exact Hd.
  - subst c1. cbn [Acl.outgoingL2CAPBuffer]. rewrite Nat.Div0.mod_0_l. reflexivity.
  - exact Hst.
  - exact Hfree.
  - exact Hfuel.
  - exists a'. split; [exact R|]. split; [exact W|exact F].
Qed.

Lemma sendData_writes_head_fragments_again_witness :
  exists a',
    Acl.sendData (fun _ => O) 4 64 4 [1; 2; 3] (Some 1%nat) (Some 2%nat)
      (Acl.mkAdapter Hci.newAdapter 4 3 [(64, Acl.newConn 1)] 0 [])
    = Acl.Returned a'
    /\ Acl.written a'
       = [[2; 64; 0; 4; 0; 3; 0; 4; 0]; [2; 64; 0; 4; 0; 3; 0; 4; 0]; [2; 64; 0; 4; 0; 3; 0; 4; 0]]
    /\ Acl.numFreeBuffers a' = 0.
Proof.
  apply (sendData_writes_head_fragments_again (fun _ => O) 4 3 64 4 [1; 2; 3]
           (Some 1%nat) (Some 2%nat)
           (Acl.mkAdapter Hci.newAdapter 4 3 [(64, Acl.newConn 1)] 0 []) (Acl.newConn 1));
    try reflexivity. lia.
Defined.

(** ** UUIDs as strings and as bytes *)

Section UuidFacts.

Lemma hex_upper_value (c : ascii) (v : Z) :
  Buf.hexDigitValue c = Some v ->
  Buf.hexDigitValue (Buf.upperChar c) = Some v
  /\ Ascii.eqb (Buf.upperChar c) "-" = false
  /\ Buf.upperChar (Buf.upperChar c) = Buf.upperChar c.
Proof.
  intros H.
  pose proof (all_ascii
    (fun c => match Buf.hexDigitValue c, Buf.hexDigitValue (Buf.upperChar c) with
              | Some v, Some v' =>
                  (v =? v') && negb (Ascii.eqb (Buf.upperChar c) "-")
                  && Ascii.eqb (Buf.upperChar (Buf.upperChar c)) (Buf.upperChar c)
              | Some _, None => false
              | None, _ => true
              end)) as A.
  specialize (A ltac:(vm_compute; reflexivity) c). cbn beta in A. rewrite H in A.
  destruct (Buf.hexDigitValue (Buf.upperChar c)) as [v'|]; [|discriminate].
  apply andb_true_iff in A as [A1 A3]. apply andb_true_iff in A1 as [A1 A2].
  apply Z.eqb_eq in A1. apply negb_true_iff in A2. apply Ascii.eqb_eq in A3.
  subst v'. repeat split; assumption.
Qed.

(** Buffer.from(s, 'hex') and toString('hex') on a string of hexadecimal
    digit pairs *)
Lemma fromHex_pair (x y : ascii) (vx vy : Z) (rest : string) :
  Buf.hexDigitValue x = Some vx -> Buf.hexDigitValue y = Some vy ->
  Buf.fromHex (String x (String y rest)) = (16 * vx + vy) :: Buf.fromHex rest.
Proof. intros Hx Hy. cbn [Buf.fromHex]. rewrite Hx, Hy. reflexivity. Qed.

Lemma toHex_pair (x y : ascii) (vx vy : Z) (rest : list Z) :
  Buf.hexDigitValue x = Some vx -> Buf.hexDigitValue y = Some vy ->
  Buf.toUpperCase (Buf.toHex ((16 * vx + vy) :: rest))
  = String (Buf.upperChar x) (String (Buf.upperChar y) (Buf.toUpperCase (Buf.toHex rest))).
Proof.
  intros Hx Hy. destruct (hex_char_upper x vx Hx) as [Bx Ux].
  destruct (hex_char_upper y vy Hy) as [By Uy].
  cbn [Buf.toHex Buf.toUpperCase].
  replace ((16 * vx + vy) / 16) with vx by (Z.div_mod_to_equations; lia).
  replace ((16 * vx + vy) mod 16) with vy by (Z.div_mod_to_equations; lia).
  rewrite Ux, Uy. reflexivity.
Qed.

Lemma allHex_pairs (n : nat) (s : string) :
  String.length s = (2 * n)%nat -> Uuid.allHex s = true ->
  Buf.toUpperCase (Buf.toHex (Buf.fromHex s)) = Buf.toUpperCase s
  /\ length (Buf.fromHex s) = n.
Proof.
  revert s. induction n as [|n IH]; intros s Hl Hh.
  - destruct s; [split; reflexivity|discriminate].
  - destruct s as [|x [|y rest]]; cbn [String.length] in Hl; try lia.
    cbn [Uuid.allHex] in Hh. apply andb_true_iff in Hh as [Hx Hh].
    apply andb_true_iff in Hh as [Hy Hh].
    destruct (isHexChar_value x Hx) as [vx Hvx]. destruct (isHexChar_value y Hy) as [vy Hvy].
    destruct (IH rest ltac:(lia) Hh) as [A B].
    rewrite (fromHex_pair x y vx vy rest Hvx Hvy), (toHex_pair x y vx vy _ Hvx Hvy), A.
    cbn [length]. split; [reflexivity|lia].
Qed.

Lemma removeChar_keep (c u : ascii) (rest : string) :
  Ascii.eqb u c = false ->
  Buf.removeChar c (String u rest) = String u (Buf.removeChar c rest).
Proof. intros H. cbn [Buf.removeChar]. rewrite H. reflexivity. Qed.

Lemma removeChar_drop (c : ascii) (rest : string) :
  Buf.removeChar c (String c rest) = Buf.removeChar c rest.
Proof. cbn [Buf.removeChar]. rewrite Ascii.eqb_refl. reflexivity. Qed.

End UuidFacts.

Ltac hex_chars :=
  repeat match goal with
  | H : Uuid.isHexChar ?c = true |- _ =>
      let v := fresh "v" in
      let Hv := fresh "Hv" in
      let Hr := fresh "Hr" in
      let Hu := fresh "Hu" in
      let U1 := fresh "U" in
      let U2 := fresh "U" in
      let U3 := fresh "U" in
      destruct (isHexChar_value c H) as [v Hv];
      destruct (hex_char_upper c v Hv) as [Hr Hu];
      destruct (hex_upper_value c v Hv) as (U1 & U2 & U3);
      clear H Hv;
      generalize dependent (Buf.upperChar c); clear c;
      let u := fresh "u" in
      intros u Hu U1 U2 U3
  end.

(** X9.  A UUID string in the 8-4-4-4-12 form survives the trip through
    the attribute value: fixUuid and serializeUuid, as addServices applies
    them, give 2 or 16 bytes, and getFullUuid, as the client applies it to
    the bytes it reads, gives the string back in upper case. *)
Theorem uuid_string_round_trip (s : string) :
  Uuid.isUuidString s = true ->
  exists bytes,
    Uuid.serviceDeclarationValue (Utils.UuidStr s) = Js.Ok bytes
    /\ (length bytes = 2 \/ length bytes = 16)%nat
    /\ Uuid.getFullUuid (Uuid.ABuf bytes) = Some (Buf.toUpperCase s).
Proof.
  intros H. pose proof H as H0. unfold Uuid.isUuidString in H0.
  repeat (apply andb_true_iff in H0; destruct H0 as [H0 ?]).
  apply Nat.eqb_eq in H0.
  do 36 (destruct s as [|? s]; cbn [String.length] in H0; [lia|]).
  destruct s; cbn [String.length] in H0; [clear H0|lia].
  unfold Uuid.serviceDeclarationValue, Uuid.fixUuid. rewrite H. clear H.
  repeat match goal with
  | H : String.eqb _ _ = true |- _ =>
      apply String.eqb_eq in H; cbv [Buf.substr String.substring] in H;
      injection H as H; subst
  end.
  repeat match goal with
  | H : Uuid.allHex _ = true |- _ =>
      cbv [Buf.substr String.substring Uuid.allHex] in H;
      repeat (apply andb_true_iff in H; let H' := fresh "H" in destruct H as [H' H]);
      clear H
  end.
  cbn [Js.bind Buf.toUpperCase].
  change (Buf.upperChar "-") with "-"%char.
  hex_chars.
  unfold Utils.serializeUuid.
  match goal with |- context [if ?c then _ else _] => destruct c eqn:Ec end.
  - apply andb_true_iff in Ec as [E1 E2].
    apply String.eqb_eq in E1, E2.
    cbv [Buf.substrFrom Buf.substr String.substring String.length Nat.sub
         Utils.BASE_UUID_SECOND_PART] in E1, E2.
    injection E1 as -> -> -> -> -> -> -> -> -> -> -> -> -> -> -> -> -> -> -> -> -> -> -> ->.
    injection E2 as -> -> -> ->.
    cbv [Buf.substr String.substring].
    repeat match goal with
    | A : Buf.hexDigitValue ?x = Some ?vx, B : Buf.hexDigitValue ?y = Some ?vy
      |- context [Buf.fromHex (String ?x (String ?y ?rest))] =>
        rewrite (fromHex_pair x y vx vy rest A B)
    end.
    cbn [Buf.fromHex rev app].
    eexists. split; [reflexivity|]. split; [left; reflexivity|].
    cbn [Uuid.getFullUuid length Nat.eqb nth].
    rewrite lor_shiftl_bytes by lia.
    match goal with
    | |- context [Uuid.ofNumber (16 * ?c + ?d + 256 * (16 * ?a + ?b))] =>
        replace (16 * c + d + 256 * (16 * a + b))
          with (4096 * a + 256 * b + 16 * c + d) by lia;
        unfold Uuid.ofNumber; rewrite (toString16_nibbles a b c d) by assumption
    end.
    cbv [Buf.substrLast Buf.substrFrom String.substring String.length Nat.sub].
    cbn [Buf.toUpperCase].
    change (Buf.upperChar "0") with "0"%char.
    repeat match goal with H : Buf.upperChar (Buf.hexDigitLower _) = _ |- _ =>
      rewrite H; clear H end.
    reflexivity.
  - clear Ec. cbv zeta.
    repeat (rewrite removeChar_drop || rewrite removeChar_keep by assumption).
    change (Buf.removeChar "-" "") with EmptyString.
    match goal with |- context [Buf.fromHex ?h] => set (hex := h) end.
    destruct (allHex_pairs 16 hex) as [A B]; [reflexivity| |].
    { subst hex. cbn [Uuid.allHex]. unfold Uuid.isHexChar.
      repeat match goal with H : Buf.hexDigitValue ?u = Some _ |- _ => rewrite H; clear H end.
      reflexivity. }
    rewrite length_rev, B. cbn [Nat.eqb].
    eexists. split; [reflexivity|]. split; [right; rewrite length_rev; exact B|].
    unfold Uuid.getFullUuid. rewrite length_rev, B. cbn [Nat.eqb].
    rewrite rev_involutive, A. subst hex. cbn [Buf.toUpperCase].
    repeat match goal with H : Buf.upperChar ?u = ?u |- _ => rewrite H; clear H end.
    reflexivity.
Qed.

Lemma uuid_string_round_trip_witness :
  exists bytes,
    Uuid.serviceDeclarationValue (Utils.UuidStr "6e400001-b5a3-f393-e0a9-e50e24dcca9e")
    = Js.Ok bytes
    /\ (length bytes = 2 \/ length bytes = 16)%nat
    /\ Uuid.getFullUuid (Uuid.ABuf bytes)
       = Some (Buf.toUpperCase "6e400001-b5a3-f393-e0a9-e50e24dcca9e").
Proof. apply uuid_string_round_trip. reflexivity. Defined.

(** ** RangeMap *)

(** X10.  A RangeMap whose intervals are in ascending order and apart
    stays so when insert adds an interval that meets none of them; get
    then finds the new entry at every index of the interval and answers
    as before at every other index, and remove at an index of the
    interval gives the former map back. *)
Theorem rangeMap_insert_get_remove (lower start_ end_ : Z) (v : option Gatt.Service)
    (map : Gatt.RangeMap) :
  Gatt.ordered lower map -> lower < start_ -> start_ <= end_ ->
  Gatt.overlaps start_ end_ map = false ->
  Gatt.ordered lower (Gatt.insert start_ end_ v map)
  /\ (forall index,
        Gatt.get index (Gatt.insert start_ end_ v map)
        = if (start_ <=? index) && (index <=? end_)
          then Some (Gatt.mkItem start_ end_ v)
          else Gatt.get index map)
  /\ (forall index, start_ <= index <= end_ ->
        Gatt.remove index (Gatt.insert start_ end_ v map) = map).
Proof.
  revert lower. induction map as [|item rest IH]; intros lower Ho Hl Hse Hov.
  - cbn [Gatt.insert]. split; [|split].
    + cbn [Gatt.ordered Gatt.start Gatt.stop]. auto.
    + intros index. unfold Gatt.get. cbn [find]. unfold Gatt.covers.
      cbn [Gatt.start Gatt.stop].
      destruct ((start_ <=? index) && (index <=? end_)); reflexivity.
    + intros index Hi. cbn [Gatt.remove]. unfold Gatt.covers. cbn [Gatt.start Gatt.stop].
      replace ((start_ <=? index) && (index <=? end_)) with true
        by (symmetry; apply andb_true_intro; lia).
      reflexivity.
  - destruct Ho as (H1 & H2 & H3).
    unfold Gatt.overlaps in Hov. cbn [existsb] in Hov.
    apply orb_false_iff in Hov as [Hov1 Hov2]. fold (Gatt.overlaps start_ end_ rest) in Hov2.
    cbn [Gatt.insert]. destruct (end_ <? Gatt.start item) eqn:Elt.
    + apply Z.ltb_lt in Elt. split; [|split].
      * cbn [Gatt.ordered Gatt.start Gatt.stop]. repeat split; assumption || lia.
      * intros index. unfold Gatt.get. cbn [find]. unfold Gatt.covers at 1.
        cbn [Gatt.start Gatt.stop].
        destruct ((start_ <=? index) && (index <=? end_)); reflexivity.
      * intros index Hi. cbn [Gatt.remove]. unfold Gatt.covers. cbn [Gatt.start Gatt.stop].
        replace ((start_ <=? index) && (index <=? end_)) with true
          by (symmetry; apply andb_true_intro; lia).
        reflexivity.
    + apply Z.ltb_ge in Elt.
      assert (Hafter : Gatt.stop item < start_).
      { apply andb_false_iff in Hov1 as [E|E]; [apply Z.leb_gt in E; lia|].
        rewrite Z.geb_leb in E. apply Z.leb_gt in E. exact E. }
      destruct (IH (Gatt.stop item) H3 Hafter Hse Hov2) as (I1 & I2 & I3).
      split; [|split].
      * cbn [Gatt.ordered]. repeat split; assumption.
      * intros index. unfold Gatt.get. cbn [find].
        destruct (Gatt.covers index item) eqn:Ec.
        -- unfold Gatt.covers in Ec. apply andb_true_iff in Ec as [E1 E2].
           apply Z.leb_le in E1, E2.
           replace (start_ <=? index) with false by (symmetry; apply Z.leb_gt; lia).
           reflexivity.
        -- apply I2.
      * intros index Hi. cbn [Gatt.remove].
        replace (Gatt.covers index item) with false.
        -- rewrite (I3 index Hi). reflexivity.
        -- symmetry. unfold Gatt.covers. apply andb_false_iff. right. apply Z.leb_gt. lia.
Qed.

Lemma rangeMap_insert_get_remove_witness :
  let map := [Gatt.mkItem 1 5 None; Gatt.mkItem 20 30 None] in
  Gatt.ordered 0 (Gatt.insert 8 12 None map)
  /\ Gatt.get 10 (Gatt.insert 8 12 None map) = Some (Gatt.mkItem 8 12 None)
  /\ Gatt.remove 10 (Gatt.insert 8 12 None map) = map.
Proof.
  intros map.
  destruct (rangeMap_insert_get_remove 0 8 12 None map) as (A & B & C);
    [cbn; lia|lia|lia|reflexivity|].
  split; [exact A|]. split; [exact (B 10)|apply C; lia].
Defined.

(** ** The attribute database *)

Section DbFacts.

Lemma get_set_same (handle : Z) (item : Db.Item) (attDb : Db.T) :
  0 <= handle -> Db.get (Db.set handle item attDb) handle = Some item.
Proof.
  intros Hh. unfold Db.get, Db.set.
  replace (handle <? 0) with false by (symmetry; apply Z.ltb_ge; lia).
  destruct (Nat.ltb_spec (Z.to_nat handle) (length attDb)) as [Hlt|Hge].
  - rewrite app_nth2 by (rewrite length_firstn; lia).
    rewrite length_firstn. replace (_ - _)%nat with 0%nat by lia. reflexivity.
  - rewrite app_nth2 by lia. rewrite app_nth2 by (rewrite repeat_length; lia).
    rewrite repeat_length. replace (_ - _ - _)%nat with 0%nat by lia. reflexivity.
Qed.

Lemma get_set_other (handle i : Z) (item : Db.Item) (attDb : Db.T) :
  0 <= handle -> i <> handle -> Db.get (Db.set handle item attDb) i = Db.get attDb i.
Proof.
  intros Hh Hi. unfold Db.get, Db.set.
  destruct (i <? 0) eqn:Ei; [reflexivity|]. apply Z.ltb_ge in Ei.
  assert (Hn : Z.to_nat i <> Z.to_nat handle) by lia.
  destruct (Nat.ltb_spec (Z.to_nat handle) (length attDb)) as [Hlt|Hge].
  - destruct (Nat.lt_ge_cases (Z.to_nat i) (Z.to_nat handle)) as [Hl|Hg].
    + rewrite app_nth1 by (rewrite length_firstn; lia).
      rewrite <- (firstn_skipn (Z.to_nat handle) attDb) at 2.
      rewrite app_nth1 by (rewrite length_firstn; lia). reflexivity.
    + rewrite app_nth2 by (rewrite length_firstn; lia).
      rewrite length_firstn. rewrite Nat.min_l by lia.
      destruct (Z.to_nat i - Z.to_nat handle)%nat as [|k] eqn:Ek; [lia|].
      cbn [app nth].
      rewrite <- (firstn_skipn (S (Z.to_nat handle)) attDb) at 2.
      rewrite app_nth2 by (rewrite length_firstn; lia).
      rewrite length_firstn. rewrite Nat.min_l by lia.
      f_equal. lia.
  - destruct (Nat.lt_ge_cases (Z.to_nat i) (length attDb)) as [Hl|Hg].
    + rewrite app_nth1 by lia. reflexivity.
    + rewrite app_nth2 by lia. rewrite (nth_overflow attDb) by lia.
      destruct (Nat.lt_ge_cases (Z.to_nat i - length attDb) (Z.to_nat handle - length attDb))
        as [Hl2|Hg2].
      * rewrite app_nth1 by (rewrite repeat_length; lia).
        apply nth_repeat.
      * rewrite app_nth2 by (rewrite repeat_length; lia).
        rewrite repeat_length.
        destruct (Z.to_nat i - length attDb - (Z.to_nat handle - length attDb))%nat
          as [|k] eqn:Ek; [lia|].
        cbn [nth]. destruct k; reflexivity.
Qed.

Lemma toUpperCase_app (a b : string) :
  Buf.toUpperCase (a +:+ b) = Buf.toUpperCase a +:+ Buf.toUpperCase b.
Proof.
  induction a as [|c a IH]; [reflexivity|].
  change (String c a +:+ b) with (String c (a +:+ b)).
  cbn [Buf.toUpperCase]. rewrite IH. reflexivity.
Qed.

Lemma upperChar_idem (c : ascii) : Buf.upperChar (Buf.upperChar c) = Buf.upperChar c.
Proof.
  pose proof (all_ascii
    (fun c => Ascii.eqb (Buf.upperChar (Buf.upperChar c)) (Buf.upperChar c))) as A.
  specialize (A ltac:(vm_compute; reflexivity) c). apply Ascii.eqb_eq in A. exact A.
Qed.

Lemma toUpperCase_idem (s : string) :
  Buf.toUpperCase (Buf.toUpperCase s) = Buf.toUpperCase s.
Proof.
  induction s as [|c s IH]; [reflexivity|].
  cbn [Buf.toUpperCase]. rewrite upperChar_idem, IH. reflexivity.
Qed.

Lemma ofNumber_upper (u : Z) : Buf.toUpperCase (Uuid.ofNumber u) = Uuid.ofNumber u.
Proof.
  unfold Uuid.ofNumber. rewrite toUpperCase_app, toUpperCase_idem. reflexivity.
Qed.

(** The full form of a 16-bit UUID, by its hexadecimal digits *)
Lemma ofNumber_nibbles (a b c d : Z) :
  0 <= a < 16 -> 0 <= b < 16 -> 0 <= c < 16 -> 0 <= d < 16 ->
  Uuid.ofNumber (4096 * a + 256 * b + 16 * c + d)
  = String "0" (String "0" (String "0" (String "0"
      (String (Buf.upperChar (Buf.hexDigitLower a))
        (String (Buf.upperChar (Buf.hexDigitLower b))
          (String (Buf.upperChar (Buf.hexDigitLower c))
            (String (Buf.upperChar (Buf.hexDigitLower d))
               Utils.BASE_UUID_SECOND_PART))))))).
Proof.
  intros Ha Hb Hc Hd. unfold Uuid.ofNumber.
  rewrite (toString16_nibbles a b c d) by assumption.
  reflexivity.
Qed.

(** parseInt(uuid, 16) on a UUID of the base range reads the first group *)
Lemma parseInt16_base (x4 x5 x6 x7 : ascii) (v4 v5 v6 v7 : Z) :
  Buf.hexDigitValue x4 = Some v4 -> Buf.hexDigitValue x5 = Some v5 ->
  Buf.hexDigitValue x6 = Some v6 -> Buf.hexDigitValue x7 = Some v7 ->
  Num.parseInt16
    (String "0" (String "0" (String "0" (String "0"
       (String x4 (String x5 (String x6 (String x7 Utils.BASE_UUID_SECOND_PART))))))))
  = Some (4096 * v4 + 256 * v5 + 16 * v6 + v7).
Proof.
  intros H4 H5 H6 H7. unfold Num.parseInt16.
  change (Num.trimStart (String "0" ?s)) with (String "0" s).
  cbv beta iota zeta.
  change (Num.hexPrefix _ 0 false) with
    (Num.hexPrefix (String x4 (String x5 (String x6 (String x7 Utils.BASE_UUID_SECOND_PART))))
       0 true).
  cbn [Num.hexPrefix]. rewrite H4. cbn [Num.hexPrefix]. rewrite H5.
  cbn [Num.hexPrefix]. rewrite H6. cbn [Num.hexPrefix]. rewrite H7.
  change (Num.hexPrefix Utils.BASE_UUID_SECOND_PART ?acc true) with (Some acc).
  cbv beta iota. f_equal. lia.
Qed.

Lemma uuid16Of_number (u : Z) :
  0 <= u <= 65535 -> Db.uuid16Of (Uuid.ofNumber u) = Some (Some u).
Proof.
  intros Hu.
  set (a := u / 4096). set (b := (u / 256) mod 16). set (c := (u / 16) mod 16).
  set (d := u mod 16).
  assert (Ha : 0 <= a < 16) by (subst a; Z.div_mod_to_equations; lia).
  assert (Hb : 0 <= b < 16) by (subst b; Z.div_mod_to_equations; lia).
  assert (Hc : 0 <= c < 16) by (subst c; Z.div_mod_to_equations; lia).
  assert (Hd : 0 <= d < 16) by (subst d; Z.div_mod_to_equations; lia).
  replace u with (4096 * a + 256 * b + 16 * c + d) at 1
    by (subst a b c d; Z.div_mod_to_equations; lia).
  rewrite ofNumber_nibbles by assumption.
  unfold Db.uuid16Of.
  rewrite (parseInt16_base _ _ _ _ a b c d) by (apply hexDigit_roundtrip; assumption).
  replace (String.eqb _ _ && String.eqb _ _) with true by reflexivity.
  do 2 f_equal. subst a b c d. Z.div_mod_to_equations; lia.
Qed.

Lemma uuid16Of_string (s : string) :
  Uuid.isUuidString s = true ->
  match Db.uuid16Of (Buf.toUpperCase s) with
  | Some (Some u) => 0 <= u <= 65535 /\ Uuid.ofNumber u = Buf.toUpperCase s
  | Some None => False
  | None => True
  end.
Proof.
  intros H0. unfold Uuid.isUuidString in H0.
  repeat (apply andb_true_iff in H0; destruct H0 as [H0 ?]).
  apply Nat.eqb_eq in H0.
  do 36 (destruct s as [|? s]; cbn [String.length] in H0; [lia|]).
  destruct s; cbn [String.length] in H0; [clear H0|lia].
  repeat match goal with
  | H : String.eqb _ _ = true |- _ =>
      apply String.eqb_eq in H; cbv [Buf.substr String.substring] in H;
      injection H as H; subst
  end.
  repeat match goal with
  | H : Uuid.allHex _ = true |- _ =>
      cbv [Buf.substr String.substring Uuid.allHex] in H;
      repeat (apply andb_true_iff in H; let H' := fresh "H" in destruct H as [H' H]);
      clear H
  end.
  cbn [Buf.toUpperCase].
  change (Buf.upperChar "-") with "-"%char.
  hex_chars.
  unfold Db.uuid16Of.
  match goal with |- context [if ?c then _ else _] => destruct c eqn:Ec end; [|exact I].
  apply andb_true_iff in Ec as [E1 E2].
  apply String.eqb_eq in E1, E2.
  cbv [Buf.substrFrom Buf.substr String.substring String.length Nat.sub
       Utils.BASE_UUID_SECOND_PART] in E1, E2.
  injection E1 as -> -> -> -> -> -> -> -> -> -> -> -> -> -> -> -> -> -> -> -> -> -> -> ->.
  injection E2 as -> -> -> ->.
  match goal with
  | A : Buf.hexDigitValue ?x4 = Some ?v4, B : Buf.hexDigitValue ?x5 = Some ?v5,
    C : Buf.hexDigitValue ?x6 = Some ?v6, D : Buf.hexDigitValue ?x7 = Some ?v7
    |- context [Num.parseInt16 (String _ (String _ (String _ (String _
                  (String ?x4 (String ?x5 (String ?x6 (String ?x7 _))))))))] =>
      change (Num.parseInt16 _) with
        (Num.parseInt16
           (String "0" (String "0" (String "0" (String "0"
              (String x4 (String x5 (String x6 (String x7 Utils.BASE_UUID_SECOND_PART))))))))) ;
      rewrite (parseInt16_base x4 x5 x6 x7 v4 v5 v6 v7 A B C D);
      split; [lia|];
      rewrite (ofNumber_nibbles v4 v5 v6 v7) by assumption
  end.
  repeat match goal with H : Buf.upperChar (Buf.hexDigitLower _) = _ |- _ =>
    rewrite H; clear H end.
  reflexivity.
Qed.

End DbFacts.

(** X11.  addAttribute stores the attribute at its handle and leaves the
    other handles as they were.  For a UUID as fixUuid returns it, the
    attribute's uuid is that string, and uuid16 is the 16-bit number u
    exactly when the string is the full form of u; otherwise it is null,
    and it is never NaN. *)
Theorem addAttribute_uuid16 (attDb : Db.T) (handle : Z) (groupEndHandle : option Z)
    (uuid : Utils.UuidArg) (full : string) (value : option (list Z)) (maxLength : Z)
    (readPerm writePerm : Att.Perm) (readFn : option (Z -> Z -> Db.Reply))
    (writeFn authorizeWriteFn : option (Z -> Z -> list Z -> option Z)) :
  0 <= handle -> Uuid.fixUuid uuid = Js.Ok full ->
  exists attDb' item,
    Db.addAttribute handle groupEndHandle (Uuid.AStr full) value maxLength readPerm writePerm
      readFn writeFn authorizeWriteFn attDb = Js.Ok attDb'
    /\ Db.get attDb' handle = Some item
    /\ (forall i, i <> handle -> Db.get attDb' i = Db.get attDb i)
    /\ Db.uuid item = full
    /\ match Db.uuid16 item with
       | Some (Some u) => 0 <= u <= 65535 /\ Uuid.ofNumber u = full
       | Some None => False
       | None => forall u, 0 <= u <= 65535 -> Uuid.ofNumber u <> full
       end.
Proof.
  intros Hh Hfix.
  assert (Hup : Buf.toUpperCase full = full).
  { destruct uuid as [s|n]; cbn [Uuid.fixUuid] in Hfix.
    - destruct (Uuid.isUuidString s); [|discriminate].
      injection Hfix as <-. apply toUpperCase_idem.
    - destruct ((0 <=? n) && (n <=? 65535)); [|discriminate].
      injection Hfix as <-. apply ofNumber_upper. }
  assert (H16 : match Db.uuid16Of full with
                | Some (Some u) => 0 <= u <= 65535 /\ Uuid.ofNumber u = full
                | Some None => False
                | None => forall u, 0 <= u <= 65535 -> Uuid.ofNumber u <> full
                end).
  { assert (Hnone : Db.uuid16Of full = None ->
                    forall u, 0 <= u <= 65535 -> Uuid.ofNumber u <> full).
    { intros E u Hu <-. rewrite (uuid16Of_number u Hu) in E. discriminate. }
    destruct uuid as [s|n]; cbn [Uuid.fixUuid] in Hfix.
    - destruct (Uuid.isUuidString s) eqn:Es; [|discriminate].
      injection Hfix as <-. pose proof (uuid16Of_string s Es) as B.
      destruct (Db.uuid16Of (Buf.toUpperCase s)) as [[u|]|]; [exact B|exact B|].
      apply Hnone. reflexivity.
    - destruct ((0 <=? n) && (n <=? 65535)) eqn:En; [|discriminate].
      injection Hfix as <-. apply andb_true_iff in En as [E1 E2].
      apply Z.leb_le in E1, E2.
      rewrite (uuid16Of_number n) by lia. split; [lia|reflexivity]. }
  unfold Db.addAttribute. cbn [Uuid.getFullUuid]. rewrite Hup.
  eexists. eexists. split; [reflexivity|].
  split; [apply get_set_same; exact Hh|].
  split; [intros i Hi; apply get_set_other; assumption|].
  split; [reflexivity|exact H16].
Qed.

Lemma addAttribute_uuid16_witness :
  exists attDb' item,
    Db.addAttribute 3 None (Uuid.AStr "00002A00-0000-1000-8000-00805F9B34FB") None 248
      Att.Open Att.NotPermitted None None None [] = Js.Ok attDb'
    /\ Db.get attDb' 3 = Some item
    /\ Db.uuid item = "00002A00-0000-1000-8000-00805F9B34FB"%string
    /\ Db.uuid16 item = Some (Some 0x2a00).
Proof.
  destruct (addAttribute_uuid16 [] 3 None (Utils.UuidNum 0x2a00)
              "00002A00-0000-1000-8000-00805F9B34FB" None 248 Att.Open Att.NotPermitted
              None None None) as (db & item & A & B & _ & C & _); [lia|reflexivity|].
  exists db, item. split; [exact A|]. split; [exact B|]. split; [exact C|].
  unfold Db.addAttribute in A. cbn [Uuid.getFullUuid] in A. injection A as <-.
  rewrite get_set_same in B by lia. injection B as <-. reflexivity.
Defined.

(** ** Discovery: FIND_INFORMATION *)

Section WireFacts.

Lemma readUInt16LE_uint16LE (v : Z) (rest : list Z) :
  0 <= v <= 65535 -> Buf.readUInt16LE 0 (Buf.uint16LE v ++ rest) = v.
Proof.
  intros Hv. unfold Buf.readUInt16LE, Buf.uint16LE. cbn [app nth].
  Z.div_mod_to_equations; lia.
Qed.

Lemma readUInt16LE_app (pre buf : list Z) (j : nat) :
  Buf.readUInt16LE (length pre + j) (pre ++ buf) = Buf.readUInt16LE j buf.
Proof.
  unfold Buf.readUInt16LE.
  rewrite app_nth2 by lia. replace (length pre + j - length pre)%nat with j by lia.
  replace (S (length pre + j)) with (length pre + S j)%nat by lia.
  rewrite app_nth2 by lia. replace (length pre + S j - length pre)%nat with (S j) by lia.
  reflexivity.
Qed.

Lemma writeUInt16LE_ok (v : Z) :
  0 <= v <= 65535 -> AttServer.writeUInt16LE (Some v) = Js.Ok (Buf.uint16LE v).
Proof.
  intros Hv. unfold AttServer.writeUInt16LE.
  replace ((v <? 0) || (v >? 65535)) with false; [reflexivity|].
  symmetry. apply orb_false_iff. split; [apply Z.ltb_ge; lia|].
  rewrite Z.gtb_ltb. apply Z.ltb_ge. lia.
Qed.

(** writeUuid128 and getFullUuid on its sixteen bytes *)
Lemma getFullUuid_writeUuid128 (s : string) :
  Uuid.isUuidString s = true ->
  length (AttServer.writeUuid128 (Buf.toUpperCase s)) = 16%nat
  /\ Uuid.getFullUuid (Uuid.ABuf (AttServer.writeUuid128 (Buf.toUpperCase s)))
     = Some (Buf.toUpperCase s).
Proof.
  intros H0. split; [reflexivity|].
  unfold Uuid.isUuidString in H0.
  repeat (apply andb_true_iff in H0; destruct H0 as [H0 ?]).
  apply Nat.eqb_eq in H0.
  do 36 (destruct s as [|? s]; cbn [String.length] in H0; [lia|]).
  destruct s; cbn [String.length] in H0; [clear H0|lia].
  repeat match goal with
  | H : String.eqb _ _ = true |- _ =>
      apply String.eqb_eq in H; cbv [Buf.substr String.substring] in H;
      injection H as H; subst
  end.
  repeat match goal with
  | H : Uuid.allHex _ = true |- _ =>
      cbv [Buf.substr String.substring Uuid.allHex] in H;
      repeat (apply andb_true_iff in H; let H' := fresh "H" in destruct H as [H' H]);
      clear H
  end.
  cbn [Buf.toUpperCase].
  change (Buf.upperChar "-") with "-"%char.
  hex_chars.
  unfold AttServer.writeUuid128.
  repeat (rewrite removeChar_drop || rewrite removeChar_keep by assumption).
  change (Buf.removeChar "-" "") with EmptyString.
  cbv [List.map Buf.substr String.substring].
  repeat match goal with
  | A : Buf.hexDigitValue ?x = Some ?vx, B : Buf.hexDigitValue ?y = Some ?vy
    |- context [Num.parseInt16 (String ?x (String ?y EmptyString))] =>
      rewrite (parseInt16_pair x y vx vy A B)
  end.
  cbn [Num.toByte].
  repeat match goal with
  | |- context [(16 * ?a + ?b) mod 256] =>
      rewrite (Z.mod_small (16 * a + b) 256) by lia
  end.
  cbn [Uuid.getFullUuid length Nat.eqb rev app].
  repeat match goal with
  | A : Buf.hexDigitValue ?x = Some ?vx, B : Buf.hexDigitValue ?y = Some ?vy
    |- context [Buf.toUpperCase (Buf.toHex ((16 * ?vx + ?vy) :: ?rest))] =>
      rewrite (toHex_pair x y vx vy rest A B)
  end.
  cbn [Buf.toHex Buf.toUpperCase].
  repeat match goal with H : Buf.upperChar ?u = ?u |- _ => rewrite H; clear H end.
  reflexivity.
Qed.

End WireFacts.

Section FindInformationFacts.
Import AttServer.

Variable attDb : Db.T.
Variables max16 max128 : Z.
Hypothesis max16_pos : 0 < max16.
Hypothesis max128_pos : 0 < max128.

Lemma findLoop_spec (count : nat) :
  forall (i format : Z) (l : list Found),
    (l = [] /\ format = 0) \/ (l <> [] /\ Forall (fun v => kind v = format) l) ->
    exists k,
      (k <= length (Db.attributesIn attDb count i))%nat
      /\ snd (findLoop attDb max16 max128 count i format l)
         = l ++ List.map toFound (firstn k (Db.attributesIn attDb count i))
      /\ ((snd (findLoop attDb max16 max128 count i format l) = []
           /\ fst (findLoop attDb max16 max128 count i format l) = 0)
          \/ (snd (findLoop attDb max16 max128 count i format l) <> []
              /\ Forall (fun v => kind v = fst (findLoop attDb max16 max128 count i format l))
                   (snd (findLoop attDb max16 max128 count i format l))))
      /\ (l = [] -> Db.attributesIn attDb count i <> [] -> (0 < k)%nat)
      /\ (forall a, nth_error (Db.attributesIn attDb count i) k = Some a ->
            if kind (toFound a) =? 1
            then fst (findLoop attDb max16 max128 count i format l) = 2
                 \/ Z.of_nat (length (snd (findLoop attDb max16 max128 count i format l)))
                    = max16
            else fst (findLoop attDb max16 max128 count i format l) = 1
                 \/ Z.of_nat (length (snd (findLoop attDb max16 max128 count i format l)))
                    = max128).
Proof.
  induction count as [|count' IH]; intros i format l Inv.
  - exists 0%nat. cbn [findLoop Db.attributesIn fst snd firstn List.map length].
    rewrite app_nil_r. repeat split; try lia.
    + destruct Inv as [[-> ->]|[Hne Hf]]; [left; auto|right; auto].
    + intros _ Hc. congruence.
    + intros a Ha. discriminate Ha.
  - cbn [findLoop Db.attributesIn]. destruct (Db.get attDb i) as [item|] eqn:Eg.
    2:{ apply IH. exact Inv. }
    assert (Hformat : l <> [] -> format = 1 \/ format = 2).
    { intros Hne. destruct Inv as [[-> _]|[_ Hf]]; [congruence|].
      destruct l as [|v l']; [congruence|]. inversion Hf as [|? ? Hv _]; subst.
      destruct v; cbn [kind]; auto. }
    destruct (Db.uuid16 item) as [u|] eqn:Eu.
    + destruct ((format =? 2) || (Z.of_nat (length l) =? max16)) eqn:Ec.
      * exists 0%nat. cbn [fst snd firstn List.map]. rewrite app_nil_r.
        split; [cbn [length]; lia|]. split; [reflexivity|]. split; [|split].
        -- destruct Inv as [[-> ->]|[Hne Hf]]; [left; auto|right; auto].
        -- intros -> _. destruct Inv as [[_ ->]|[Hne _]]; [|congruence].
           cbn [length] in Ec. apply orb_true_iff in Ec as [E|E];
             [discriminate|apply Z.eqb_eq in E; lia].
        -- intros a Ha. cbn [nth_error] in Ha. injection Ha as <-.
           unfold toFound. cbn [snd fst]. rewrite Eu. cbn [kind].
           match goal with |- context [?x =? 1] =>
             let b := eval vm_compute in (x =? 1) in change (x =? 1) with b end.
           cbv iota.
           apply orb_true_iff in Ec as [E|E]; apply Z.eqb_eq in E; auto.
      * apply orb_false_iff in Ec as [E2 E16]. apply Z.eqb_neq in E2.
        destruct (IH (i + 1) 1 (l ++ [Found16 i u])) as (k & K1 & K2 & K3 & K4 & K5).
        { right. split; [destruct l; discriminate|].
          apply Forall_app. split; [|repeat constructor].
          destruct l as [|v l']; [constructor|].
          destruct (Hformat ltac:(discriminate)) as [->| ->]; [|congruence].
          destruct Inv as [[? _]|[_ Hf]]; [discriminate|exact Hf]. }
        exists (S k). cbn [length firstn List.map].
        split; [lia|]. split; [|split; [|split]].
        -- rewrite K2, <- app_assoc. cbn [app]. unfold toFound at 2. cbn [fst snd].
           rewrite Eu. reflexivity.
        -- exact K3.
        -- intros _ _. lia.
        -- intros a Ha. cbn [nth_error] in Ha. apply K5. exact Ha.
    + destruct ((format =? 1) || (Z.of_nat (length l) =? max128)) eqn:Ec.
      * exists 0%nat. cbn [fst snd firstn List.map]. rewrite app_nil_r.
        split; [cbn [length]; lia|]. split; [reflexivity|]. split; [|split].
        -- destruct Inv as [[-> ->]|[Hne Hf]]; [left; auto|right; auto].
        -- intros -> _. destruct Inv as [[_ ->]|[Hne _]]; [|congruence].
           cbn [length] in Ec. apply orb_true_iff in Ec as [E|E];
             [discriminate|apply Z.eqb_eq in E; lia].
        -- intros a Ha. cbn [nth_error] in Ha. injection Ha as <-.
           unfold toFound. cbn [snd fst]. rewrite Eu. cbn [kind].
           match goal with |- context [?x =? 1] =>
             let b := eval vm_compute in (x =? 1) in change (x =? 1) with b end.
           cbv iota.
           apply orb_true_iff in Ec as [E|E]; apply Z.eqb_eq in E; auto.
      * apply orb_false_iff in Ec as [E1 E128]. apply Z.eqb_neq in E1.
        destruct (IH (i + 1) 2 (l ++ [Found128 i (Db.uuid item)]))
          as (k & K1 & K2 & K3 & K4 & K5).
        { right. split; [destruct l; discriminate|].
          apply Forall_app. split; [|repeat constructor].
          destruct l as [|v l']; [constructor|].
          destruct (Hformat ltac:(discriminate)) as [->| ->]; [congruence|].
          destruct Inv as [[? _]|[_ Hf]]; [discriminate|exact Hf]. }
        exists (S k). cbn [length firstn List.map].
        split; [lia|]. split; [|split; [|split]].
        -- rewrite K2, <- app_assoc. cbn [app]. unfold toFound at 2. cbn [fst snd].
           rewrite Eu. reflexivity.
        -- exact K3.
        -- intros _ _. lia.
        -- intros a Ha. cbn [nth_error] in Ha. apply K5. exact Ha.
Qed.

End FindInformationFacts.

Section AttributeFacts.

Lemma attributesIn_in (attDb : Db.T) (count : nat) :
  forall (i j : Z) (item : Db.Item),
    In (j, item) (Db.attributesIn attDb count i) ->
    i <= j < i + Z.of_nat count /\ Db.get attDb j = Some item.
Proof.
  induction count as [|count' IH]; intros i j item Hin; [destruct Hin|].
  cbn [Db.attributesIn] in Hin. destruct (Db.get attDb i) as [it|] eqn:Eg.
  - destruct Hin as [E|Hin].
    + injection E as <- <-. split; [lia|exact Eg].
    + destruct (IH _ _ _ Hin). split; [lia|assumption].
  - destruct (IH _ _ _ Hin). split; [lia|assumption].
Qed.

Lemma attributesIn_app (attDb : Db.T) (n m : nat) :
  forall i, Db.attributesIn attDb (n + m) i
            = Db.attributesIn attDb n i ++ Db.attributesIn attDb m (i + Z.of_nat n).
Proof.
  induction n as [|n IH]; intros i.
  - cbn [Nat.add Db.attributesIn app]. f_equal. lia.
  - cbn [Nat.add Db.attributesIn]. rewrite IH.
    replace (i + 1 + Z.of_nat n) with (i + Z.of_nat (S n)) by lia.
    destruct (Db.get attDb i); reflexivity.
Qed.

Lemma attributesIn_beyond (attDb : Db.T) (m : nat) :
  forall i, Z.of_nat (length attDb) <= i -> Db.attributesIn attDb m i = [].
Proof.
  induction m as [|m IH]; intros i Hi; [reflexivity|].
  cbn [Db.attributesIn]. unfold Db.get.
  replace (i <? 0) with false by (symmetry; apply Z.ltb_ge; lia).
  rewrite nth_overflow by lia. apply IH. lia.
Qed.

Lemma attributesIn_clip (attDb : Db.T) (startingHandle endingHandle : Z) :
  0 <= startingHandle ->
  Db.attributesIn attDb
    (Z.to_nat (Z.min endingHandle (Z.of_nat (length attDb) - 1) - startingHandle + 1))
    startingHandle
  = Db.attributesIn attDb (Z.to_nat (endingHandle - startingHandle + 1)) startingHandle.
Proof.
  intros Hs. destruct (Z.le_gt_cases endingHandle (Z.of_nat (length attDb) - 1)) as [Hle|Hgt].
  - rewrite Z.min_l by lia. reflexivity.
  - rewrite Z.min_r by lia.
    set (n := Z.to_nat (Z.of_nat (length attDb) - 1 - startingHandle + 1)).
    replace (Z.to_nat (endingHandle - startingHandle + 1))
      with (n + (Z.to_nat (endingHandle - startingHandle + 1) - n))%nat by lia.
    rewrite attributesIn_app, (attributesIn_beyond attDb _ (startingHandle + Z.of_nat n))
      by lia.
    rewrite app_nil_r. reflexivity.
Qed.

Lemma fromFixUuid_cases (item : Db.Item) :
  Db.fromFixUuid item ->
  (exists u, Db.uuid16 item = Some (Some u) /\ 0 <= u <= 65535
             /\ Uuid.ofNumber u = Db.uuid item)
  \/ (Db.uuid16 item = None
      /\ exists s, Uuid.isUuidString s = true /\ Db.uuid item = Buf.toUpperCase s).
Proof.
  intros [[arg Hfix] H16]. rewrite H16.
  destruct arg as [s|n]; cbn [Uuid.fixUuid] in Hfix.
  - destruct (Uuid.isUuidString s) eqn:Es; [|discriminate].
    injection Hfix as Hfix. rewrite <- Hfix.
    pose proof (uuid16Of_string s Es) as B.
    destruct (Db.uuid16Of (Buf.toUpperCase s)) as [[u|]|].
    + left. exists u. destruct B. auto.
    + destruct B.
    + right. split; [reflexivity|]. exists s. auto.
  - destruct ((0 <=? n) && (n <=? 65535)) eqn:En; [|discriminate].
    injection Hfix as Hfix. rewrite <- Hfix.
    apply andb_true_iff in En as [E1 E2]. apply Z.leb_le in E1, E2.
    left. exists n. rewrite (uuid16Of_number n) by lia. repeat split; lia || reflexivity.
Qed.

(** What the client's loop reads from one entry of the response *)
Lemma found_round_trip (format : Z) (a : Z * Db.Item) :
  0 <= fst a <= 65535 -> Db.fromFixUuid (snd a) ->
  AttServer.kind (AttServer.toFound a) = format ->
  exists c,
    AttServer.writeFound format (AttServer.toFound a) = Js.Ok c
    /\ length c = (if format =? 1 then 4%nat else 18%nat)
    /\ Buf.readUInt16LE 0 c = fst a
    /\ Uuid.getFullUuid
         (if format =? 1 then Uuid.ANum (Buf.readUInt16LE 2 c)
          else Uuid.ABuf (firstn 16 (skipn 2 c)))
       = Some (Db.uuid (snd a)).
Proof.
  destruct a as [i item]. cbn [fst snd]. intros Hi Hwf Hk.
  unfold AttServer.toFound in *. cbn [fst snd] in *.
  destruct (fromFixUuid_cases item Hwf) as [(u & E16 & Hu & Hfull)|(E16 & s & Hs & Hfull)];
    rewrite E16 in *; cbn [AttServer.kind] in Hk; subst format.
  - unfold AttServer.writeFound. cbn [AttServer.foundHandle].
    rewrite !writeUInt16LE_ok by lia. cbn [Js.bind].
    change (1 =? 1) with true. cbv iota. cbn [Js.bind].
    eexists. split; [reflexivity|]. split; [reflexivity|].
    split; [apply readUInt16LE_uint16LE; lia|].
    change 2%nat with (length (Buf.uint16LE i) + 0)%nat.
    rewrite readUInt16LE_app. rewrite <- (app_nil_r (Buf.uint16LE u)).
    rewrite readUInt16LE_uint16LE by lia. cbn [Uuid.getFullUuid]. congruence.
  - unfold AttServer.writeFound. cbn [AttServer.foundHandle].
    rewrite writeUInt16LE_ok by lia. cbn [Js.bind].
    change (2 =? 1) with false. cbv iota.
    destruct (getFullUuid_writeUuid128 s Hs) as [L G]. rewrite <- Hfull in L, G.
    eexists. split; [reflexivity|]. split; [rewrite length_app, L; reflexivity|].
    split; [apply readUInt16LE_uint16LE; lia|].
    change (skipn 2 (Buf.uint16LE i ++ ?x)) with x.
    rewrite firstn_all2 by lia. exact G.
Qed.

Lemma writeAll_chunks {A B : Type} (enc : A -> Js.result (list Z)) (g : B -> A)
    (P : B -> list Z -> Prop) (l : list B) :
  (forall b, In b l -> exists c, enc (g b) = Js.Ok c /\ P b c) ->
  exists chunks,
    AttServer.writeAll enc (List.map g l) = Js.Ok (concat chunks) /\ Forall2 P l chunks.
Proof.
  induction l as [|v l IH]; intros H.
  - exists []. split; [reflexivity|constructor].
  - destruct (H v (or_introl eq_refl)) as (c & Ec & Pc).
    destruct IH as (chunks & Ew & F); [intros w Hw; apply H; right; exact Hw|].
    exists (c :: chunks). cbn [List.map AttServer.writeAll concat]. rewrite Ec, Ew.
    cbn [Js.bind]. split; [reflexivity|constructor; assumption].
Qed.

Lemma concat_length_chunks {B : Type} (n : nat) (P : B -> list Z -> Prop) (l : list B)
    (chunks : list (list Z)) :
  (forall b c, P b c -> length c = n) -> Forall2 P l chunks ->
  length (concat chunks) = (n * length l)%nat /\ length chunks = length l.
Proof.
  intros Hn F. induction F as [|b c l chunks Hp _ [IH1 IH2]]; [cbn; lia|].
  cbn [concat length]. rewrite length_app, (Hn b c Hp), IH1, IH2. lia.
Qed.

Lemma informationLoop_chunks (format : Z) (B : Type) (entries : list B)
    (f : B -> Z * option string) (chunks : list (list Z)) :
  Forall2 (fun b c =>
             length c = (if format =? 1 then 4%nat else 18%nat)
             /\ (Buf.readUInt16LE 0 c,
                 Uuid.getFullUuid
                   (if format =? 1 then Uuid.ANum (Buf.readUInt16LE 2 c)
                    else Uuid.ABuf (firstn 16 (skipn 2 c)))) = f b) entries chunks ->
  forall (pre : list Z) (fuel : nat),
    (length chunks <= fuel)%nat ->
    AttClient.informationLoop (S fuel) format (pre ++ concat chunks) (length pre)
    = List.map f entries.
Proof.
  induction 1 as [|b c entries chunks [Hlen Hdec] _ IH]; intros pre fuel Hfuel.
  - cbn [concat AttClient.informationLoop List.map]. rewrite app_nil_r.
    rewrite Nat.ltb_irrefl. reflexivity.
  - cbn [length] in Hfuel. destruct fuel as [|fuel]; [lia|].
    cbn [concat List.map]. remember (S fuel) as fuel1.
    cbn [AttClient.informationLoop].
    assert (Hpos : (4 <= length c)%nat) by (rewrite Hlen; destruct (format =? 1); lia).
    replace (length pre <? length (pre ++ c ++ concat chunks))%nat with true
      by (symmetry; apply Nat.ltb_lt; rewrite !length_app; lia).
    f_equal.
    + rewrite <- Hdec. f_equal.
      * rewrite <- (Nat.add_0_r (length pre)), readUInt16LE_app.
        unfold Buf.readUInt16LE. rewrite !app_nth1 by lia. reflexivity.
      * destruct (format =? 1) eqn:Ef.
        -- rewrite readUInt16LE_app. unfold Buf.readUInt16LE.
           rewrite !app_nth1 by lia. reflexivity.
        -- do 2 f_equal. rewrite skipn_app, skipn_all2 by lia.
           replace (length pre + 2 - length pre)%nat with 2%nat by lia.
           cbn [app]. rewrite skipn_app, firstn_app.
           rewrite length_skipn, Hlen. replace (16 - (18 - 2))%nat with 0%nat by lia.
           cbn [firstn]. rewrite app_nil_r. reflexivity.
    + subst fuel1. rewrite app_assoc.
      replace (length pre + (if (format =? 1)%Z then 4 else 18))%nat
        with (length (pre ++ c))
        by (rewrite length_app, Hlen; reflexivity).
      apply IH. lia.
Qed.

(** The request of the client and the answer of the server, entry by
    entry *)
Lemma findInformation_response (fuel : nat) (attDb : Db.T) (conn : Att.Connection)
    (s : Att.State) (startingHandle endingHandle : Z) :
  Att.timedout s = false -> Att.isHandlingRequest s = false ->
  Att.currentOutgoingRequest s = None -> 23 <= Att.currentMtu s <= 517 ->
  1 <= startingHandle <= endingHandle -> endingHandle <= 65535 ->
  (forall i item, Db.get attDb i = Some item -> Db.fromFixUuid item) ->
  Db.attributesIn attDb (Z.to_nat (endingHandle - startingHandle + 1)) startingHandle <> [] ->
  exists request k format chunks,
    let attrs :=
      Db.attributesIn attDb (Z.to_nat (endingHandle - startingHandle + 1)) startingHandle in
    AttClient.findInformationRequest startingHandle endingHandle = Js.Ok request
    /\ AttServer.onData fuel attDb conn request s
       = Att.Returned (Att.sendResponse
                         ([Att.FIND_INFORMATION_RESPONSE; format] ++ concat chunks) s)
    /\ (0 < k <= length attrs)%nat
    /\ (format = 1 \/ format = 2)
    /\ Forall (fun a => AttServer.kind (AttServer.toFound a) = format) (firstn k attrs)
    /\ Forall2 (fun a c =>
                  length c = (if format =? 1 then 4%nat else 18%nat)
                  /\ (Buf.readUInt16LE 0 c,
                      Uuid.getFullUuid
                        (if format =? 1 then Uuid.ANum (Buf.readUInt16LE 2 c)
                         else Uuid.ABuf (firstn 16 (skipn 2 c))))
                     = (fst a, Some (Db.uuid (snd a))))
         (firstn k attrs) chunks
    /\ (forall a, nth_error attrs k = Some a ->
          if AttServer.kind (AttServer.toFound a) =? 1
          then format = 2 \/ Z.of_nat k = (Att.currentMtu s - 2) / 2
          else format = 1 \/ Z.of_nat k = (Att.currentMtu s - 2) / 16).
Proof.
  intros Ht Hh Hc Hmtu Hrange Hend Hwf Hne.
  exists ([Att.FIND_INFORMATION_REQUEST] ++ Buf.uint16LE startingHandle
          ++ Buf.uint16LE endingHandle).
  set (mtu := Att.currentMtu s) in *.
  assert (M16 : AttServer.quotUint32 (mtu - 2) 2 = (mtu - 2) / 2).
  { unfold AttServer.quotUint32, Num.toUint32. rewrite Z.quot_div_nonneg by lia.
    apply Z.mod_small. Z.div_mod_to_equations; lia. }
  assert (M128 : AttServer.quotUint32 (mtu - 2) 16 = (mtu - 2) / 16).
  { unfold AttServer.quotUint32, Num.toUint32. rewrite Z.quot_div_nonneg by lia.
    apply Z.mod_small. Z.div_mod_to_equations; lia. }
  assert (P16 : 0 < (mtu - 2) / 2) by (Z.div_mod_to_equations; lia).
  assert (P128 : 0 < (mtu - 2) / 16) by (Z.div_mod_to_equations; lia).
  destruct (findLoop_spec attDb _ _ P16 P128
              (Z.to_nat (Z.min endingHandle (Z.of_nat (length attDb) - 1) - startingHandle + 1))
              startingHandle 0 [] (or_introl (conj eq_refl eq_refl)))
    as (k & K1 & K2 & K3 & K4 & K5).
  rewrite attributesIn_clip in K1, K2, K4, K5 by lia.
  set (attrs := Db.attributesIn attDb (Z.to_nat (endingHandle - startingHandle + 1))
                  startingHandle) in *.
  specialize (K4 eq_refl Hne). cbn [app] in K2.
  destruct (AttServer.findLoop attDb ((mtu - 2) / 2) ((mtu - 2) / 16)
              (Z.to_nat (Z.min endingHandle (Z.of_nat (length attDb) - 1) - startingHandle + 1))
              startingHandle 0 []) as [format found] eqn:Eloop.
  cbn [fst snd] in K2, K3, K5. subst found.
  assert (Hk : length (List.map AttServer.toFound (firstn k attrs)) = k).
  { rewrite length_map, length_firstn. lia. }
  assert (Hnonempty : List.map AttServer.toFound (firstn k attrs) <> []).
  { intros E. rewrite E in Hk. cbn [length] in Hk. lia. }
  destruct K3 as [[E _]|[_ Hkind]]; [congruence|].
  rewrite Forall_map in Hkind.
  assert (Hformat : format = 1 \/ format = 2).
  { destruct (firstn k attrs) as [|a rest]; [cbn in Hnonempty; congruence|].
    inversion Hkind as [|? ? Ha _]; subst. destruct (AttServer.toFound a); cbn [AttServer.kind]; auto. }
  destruct (writeAll_chunks (AttServer.writeFound format) AttServer.toFound
              (fun a c =>
                 length c = (if format =? 1 then 4%nat else 18%nat)
                 /\ (Buf.readUInt16LE 0 c,
                     Uuid.getFullUuid
                       (if format =? 1 then Uuid.ANum (Buf.readUInt16LE 2 c)
                        else Uuid.ABuf (firstn 16 (skipn 2 c))))
                    = (fst a, Some (Db.uuid (snd a))))
              (firstn k attrs)) as (chunks & Ew & F).
  { intros a Ha.
    assert (Hin : In a attrs)
      by (rewrite <- (firstn_skipn k attrs); apply in_or_app; left; exact Ha).
    destruct a as [j item]. apply attributesIn_in in Hin as [Hj Hg].
    destruct (found_round_trip format (j, item)) as (c & C1 & C2 & C3 & C4).
    - cbn [fst]. lia.
    - cbn [snd]. eapply Hwf. exact Hg.
    - rewrite List.Forall_forall in Hkind. apply Hkind. exact Ha.
    - exists c. split; [exact C1|]. split; [exact C2|]. rewrite C3, C4. reflexivity. }
  exists k, format, chunks. cbv zeta.
  split.
  { unfold AttClient.findInformationRequest, AttClient.request5.
    rewrite !writeUInt16LE_ok by lia. reflexivity. }
  split.
  { unfold Buf.uint16LE. cbn [app].
    set (request := [Att.FIND_INFORMATION_REQUEST; startingHandle mod 256;
                     (startingHandle / 256) mod 256; endingHandle mod 256;
                     (endingHandle / 256) mod 256]).
    assert (L5 : Buf.len request = 5) by reflexivity.
    assert (R1 : Buf.readUInt16LE 1 request = startingHandle).
    { unfold Buf.readUInt16LE, request. cbn [nth]. Z.div_mod_to_equations; lia. }
    assert (R3 : Buf.readUInt16LE 3 request = endingHandle).
    { unfold Buf.readUInt16LE, request. cbn [nth]. Z.div_mod_to_equations; lia. }
    unfold AttServer.onData. rewrite Ht, Hc, L5. fold mtu.
    change (5 =? 0) with false. cbv iota.
    replace (5 >? mtu) with false by (symmetry; rewrite Z.gtb_ltb; apply Z.ltb_ge; lia).
    change (nth 0 request 0) with Att.FIND_INFORMATION_REQUEST.
    unfold AttServer.dispatch. rewrite Hh.
    change (Att.isKnownResponseOpcode Att.FIND_INFORMATION_REQUEST) with false.
    cbn [andb]. change (Att.FIND_INFORMATION_REQUEST =? Att.FIND_INFORMATION_REQUEST) with true.
    cbv iota.
    unfold AttServer.handleFindInformation. rewrite L5, R1, R3. fold mtu.
    change (negb (5 =? 5)) with false. cbv iota.
    replace ((startingHandle =? 0) || (startingHandle >? endingHandle)) with false.
    2:{ symmetry. apply orb_false_iff. split; [apply Z.eqb_neq; lia|].
        rewrite Z.gtb_ltb. apply Z.ltb_ge. lia. }
    cbv zeta. rewrite M16, M128, Eloop.
    replace (format =? 0) with false by (symmetry; apply Z.eqb_neq; lia).
    rewrite Ew. reflexivity. }
  split; [lia|]. split; [exact Hformat|]. split; [exact Hkind|]. split; [exact F|].
  intros a Ha. specialize (K5 a Ha). rewrite Hk in K5. exact K5.
Qed.

End AttributeFacts.

(** X12.  Discovery by FIND_INFORMATION, server and client together.  For
    a request over a range that holds an attribute, sent to a server that
    is idle, the response of the server, read by the parser of the
    client's findInformation, is the list of handle and UUID of the first
    k attributes of the range in ascending order, for some k > 0.  The
    attributes are those addAttribute makes from UUIDs that went through
    fixUuid. *)
Theorem findInformation_round_trip (fuel : nat) (attDb : Db.T) (conn : Att.Connection)
    (s : Att.State) (startingHandle endingHandle : Z) :
  Att.timedout s = false -> Att.isHandlingRequest s = false ->
  Att.currentOutgoingRequest s = None -> 23 <= Att.currentMtu s <= 517 ->
  1 <= startingHandle <= endingHandle -> endingHandle <= 65535 ->
  (forall i item, Db.get attDb i = Some item -> Db.fromFixUuid item) ->
  Db.attributesIn attDb (Z.to_nat (endingHandle - startingHandle + 1)) startingHandle <> [] ->
  exists request response k,
    AttClient.findInformationRequest startingHandle endingHandle = Js.Ok request
    /\ AttServer.onData fuel attDb conn request s
       = Att.Returned (Att.sendResponse response s)
    /\ (0 < k)%nat
    /\ AttClient.findInformationParser 0 response
       = AttClient.Done
           (List.map (fun a => (fst a, Some (Db.uuid (snd a))))
              (firstn k (Db.attributesIn attDb
                           (Z.to_nat (endingHandle - startingHandle + 1)) startingHandle))).
Proof.
  intros Ht Hh Hc Hmtu Hrange Hend Hwf Hne.
  destruct (findInformation_response fuel attDb conn s startingHandle endingHandle
              Ht Hh Hc Hmtu Hrange Hend Hwf Hne)
    as (request & k & format & chunks & Hreq & Hresp & Hk & Hformat & _ & F & _).
  cbv zeta in *.
  set (attrs := Db.attributesIn attDb (Z.to_nat (endingHandle - startingHandle + 1))
                  startingHandle) in *.
  exists request, ([Att.FIND_INFORMATION_RESPONSE; format] ++ concat chunks), k.
  split; [exact Hreq|]. split; [exact Hresp|]. split; [lia|].
  destruct (concat_length_chunks (if format =? 1 then 4%nat else 18%nat) _ _ _
              (fun a c H => proj1 H) F) as [Lc Lk].
  rewrite length_firstn, Nat.min_l in Lc, Lk by lia.
  unfold AttClient.findInformationParser. change (negb (0 =? 0)) with false. cbv iota.
  assert (Hlen : Buf.len ([Att.FIND_INFORMATION_RESPONSE; format] ++ concat chunks)
                 = 2 + (if format =? 1 then 4 else 18) * Z.of_nat k).
  { unfold Buf.len. rewrite length_app, Lc. cbn [length].
    destruct (format =? 1); lia. }
  rewrite Hlen.
  replace (2 + (if format =? 1 then 4 else 18) * Z.of_nat k <? 6) with false
    by (symmetry; apply Z.ltb_ge; destruct (format =? 1); lia).
  cbn [app nth].
  replace (format >? 2) with false
    by (symmetry; rewrite Z.gtb_ltb; apply Z.ltb_ge; lia).
  replace ((2 + (if format =? 1 then 4 else 18) * Z.of_nat k - 2)
           mod (if format =? 1 then 4 else 18) =? 0) with true.
  2:{ symmetry. apply Z.eqb_eq.
      replace (2 + (if format =? 1 then 4 else 18) * Z.of_nat k - 2)
        with (Z.of_nat k * (if format =? 1 then 4 else 18)) by lia.
      apply Z.mod_mul. destruct (format =? 1); lia. }
  cbn [negb]. f_equal.
  change (Att.FIND_INFORMATION_RESPONSE :: format :: concat chunks)
    with ([Att.FIND_INFORMATION_RESPONSE; format] ++ concat chunks).
  replace (length ([Att.FIND_INFORMATION_RESPONSE; format] ++ concat chunks))
    with (S (S (length (concat chunks)))) by reflexivity.
  apply (informationLoop_chunks format _ (firstn k attrs)
           (fun a => (fst a, Some (Db.uuid (snd a)))) chunks F
           [Att.FIND_INFORMATION_RESPONSE; format]).
  rewrite Lc, Lk. destruct (format =? 1); lia.
Qed.

Lemma findInformation_round_trip_witness :
  let attDb :=
    [None;
     Some (Db.mkItem (Some 2) (Some (Some 0x2800)) "00002800-0000-1000-8000-00805F9B34FB"
             (Some [0x0a; 0x18]) 512 Att.Open Att.NotPermitted
             (Db.defaultRead (Some [0x0a; 0x18])) None None);
     Some (Db.mkItem None (Some (Some 0x2803)) "00002803-0000-1000-8000-00805F9B34FB"
             (Some [2; 3; 0; 0x29; 0x2a]) 512 Att.Open Att.NotPermitted
             (Db.defaultRead (Some [2; 3; 0; 0x29; 0x2a])) None None)] in
  exists request response k,
    AttClient.findInformationRequest 1 0xffff = Js.Ok request
    /\ AttServer.onData 0 attDb Scenario.plainConnection request Att.initial
       = Att.Returned (Att.sendResponse response Att.initial)
    /\ (0 < k)%nat
    /\ AttClient.findInformationParser 0 response
       = AttClient.Done
           (List.map (fun a => (fst a, Some (Db.uuid (snd a))))
              (firstn k (Db.attributesIn attDb (Z.to_nat (0xffff - 1 + 1)) 1))).
Proof.
  intros attDb.
  apply (findInformation_round_trip 0 attDb Scenario.plainConnection Att.initial 1 0xffff);
    try reflexivity; try (cbn; lia).
  - intros i item Hg. unfold Db.get in Hg. destruct (i <? 0); [discriminate|].
    destruct (Z.to_nat i) as [|[|[|[|n]]]]; cbn in Hg; try discriminate;
      injection Hg as <-.
    + split; [exists (Utils.UuidNum 0x2800); reflexivity|reflexivity].
    + split; [exists (Utils.UuidNum 0x2803); reflexivity|reflexivity].
  - change (Z.to_nat (0xffff - 1 + 1)) with (S (Z.to_nat 0xfffe)).
    cbn [Db.attributesIn]. change (Db.get attDb 1) with (nth 1 attDb None).
    cbn [nth attDb]. discriminate.
Defined.

(** X13.  The response to FIND_INFORMATION is not kept within the MTU:
    the server lists up to (MTU - 2) / 2 entries of four bytes.  When the
    range starts with j attributes of 16-bit UUID and 2 + 4 j is more than
    the MTU, j being at most (MTU - 2) / 2, the response is longer than
    the MTU, and a client of the same MTU drops it in its data callback,
    so that its request stays unanswered. *)
Theorem findInformation_response_exceeds_mtu (fuel : nat) (attDb : Db.T)
    (conn : Att.Connection) (s : Att.State) (startingHandle endingHandle : Z) (j : nat) :
  Att.timedout s = false -> Att.isHandlingRequest s = false ->
  Att.currentOutgoingRequest s = None -> 23 <= Att.currentMtu s <= 517 ->
  1 <= startingHandle <= endingHandle -> endingHandle <= 65535 ->
  (forall i item, Db.get attDb i = Some item -> Db.fromFixUuid item) ->
  (j <= length (Db.attributesIn attDb (Z.to_nat (endingHandle - startingHandle + 1))
                  startingHandle))%nat ->
  Forall (fun a => Db.uuid16 (snd a) <> None)
    (firstn j (Db.attributesIn attDb (Z.to_nat (endingHandle - startingHandle + 1))
                 startingHandle)) ->
  Z.of_nat j <= (Att.currentMtu s - 2) / 2 -> Att.currentMtu s < 2 + 4 * Z.of_nat j ->
  exists request response,
    AttClient.findInformationRequest startingHandle endingHandle = Js.Ok request
    /\ AttServer.onData fuel attDb conn request s
       = Att.Returned (Att.sendResponse response s)
    /\ Att.currentMtu s < Buf.len response
    /\ AttClient.deliver (Att.currentMtu s) request AttClient.findInformationParser response
       = AttClient.Rejected.
Proof.
  intros Ht Hh Hc Hmtu Hrange Hend Hwf Hj H16 Hjmax Hover.
  set (attrs := Db.attributesIn attDb (Z.to_nat (endingHandle - startingHandle + 1))
                  startingHandle) in *.
  assert (Hne : attrs <> []).
  { intros E. rewrite E in Hj. cbn [length] in Hj. lia. }
  destruct (findInformation_response fuel attDb conn s startingHandle endingHandle
              Ht Hh Hc Hmtu Hrange Hend Hwf Hne)
    as (request & k & format & chunks & Hreq & Hresp & Hk & Hformat & Hkind & F & Hstop).
  cbv zeta in *. fold attrs in Hk, Hkind, F, Hstop.
  assert (Hone : forall a, In a (firstn j attrs) -> AttServer.kind (AttServer.toFound a) = 1).
  { intros a Ha. rewrite List.Forall_forall in H16. specialize (H16 a Ha).
    unfold AttServer.toFound. destruct (Db.uuid16 (snd a)); [reflexivity|congruence]. }
  assert (Hf1 : format = 1).
  { destruct attrs as [|a0 rest]; [congruence|].
    destruct k as [|k']; [lia|]. destruct j as [|j']; [lia|].
    cbn [firstn] in Hkind, Hone. apply Forall_inv in Hkind.
    rewrite <- Hkind. apply Hone. left. reflexivity. }
  assert (Hkj : (j <= k)%nat).
  { destruct (Nat.le_gt_cases j k) as [Hle|Hgt]; [exact Hle|].
    destruct (nth_error attrs k) as [a|] eqn:Ea.
    2:{ apply nth_error_None in Ea. lia. }
    specialize (Hstop a eq_refl).
    assert (Hin : In a (firstn j attrs)).
    { apply (nth_error_In _ k). rewrite nth_error_firstn.
      replace (k <? j)%nat with true by (symmetry; apply Nat.ltb_lt; lia). exact Ea. }
    rewrite (Hone a Hin) in Hstop. change (1 =? 1) with true in Hstop. cbv iota in Hstop.
    destruct Hstop as [E|E]; lia. }
  destruct (concat_length_chunks (if format =? 1 then 4%nat else 18%nat) _ _ _
              (fun a c H => proj1 H) F) as [Lc _].
  rewrite length_firstn, Nat.min_l in Lc by lia.
  exists request, ([Att.FIND_INFORMATION_RESPONSE; format] ++ concat chunks).
  assert (Hlen : Buf.len ([Att.FIND_INFORMATION_RESPONSE; format] ++ concat chunks)
                 = 2 + 4 * Z.of_nat k).
  { unfold Buf.len. rewrite length_app, Lc, Hf1. cbn [length].
    change (1 =? 1) with true. cbv iota. lia. }
  split; [exact Hreq|]. split; [exact Hresp|]. split; [lia|].
  unfold AttClient.deliver. rewrite Hlen.
  replace (2 + 4 * Z.of_nat k =? 0) with false by (symmetry; apply Z.eqb_neq; lia).
  replace (2 + 4 * Z.of_nat k >? Att.currentMtu s) with true
    by (symmetry; rewrite Z.gtb_ltb; apply Z.ltb_lt; lia).
  reflexivity.
Qed.

Lemma findInformation_response_exceeds_mtu_witness :
  let item u full :=
    Some (Db.mkItem None (Some (Some u)) full (Some []) 512 Att.Open Att.NotPermitted
            (Db.defaultRead (Some [])) None None) in
  let attDb :=
    [None;
     item 0x2800 "00002800-0000-1000-8000-00805F9B34FB"%string;
     item 0x2803 "00002803-0000-1000-8000-00805F9B34FB"%string;
     item 0x2a00 "00002A00-0000-1000-8000-00805F9B34FB"%string;
     item 0x2901 "00002901-0000-1000-8000-00805F9B34FB"%string;
     item 0x2902 "00002902-0000-1000-8000-00805F9B34FB"%string;
     item 0x2904 "00002904-0000-1000-8000-00805F9B34FB"%string] in
  exists request response,
    AttClient.findInformationRequest 1 6 = Js.Ok request
    /\ AttServer.onData 0 attDb Scenario.plainConnection request Att.initial
       = Att.Returned (Att.sendResponse response Att.initial)
    /\ Att.currentMtu Att.initial < Buf.len response
    /\ AttClient.deliver (Att.currentMtu Att.initial) request
         AttClient.findInformationParser response
       = AttClient.Rejected.
Proof.
  intros item attDb.
  apply (findInformation_response_exceeds_mtu 0 attDb Scenario.plainConnection Att.initial
           1 6 6); try reflexivity; try (cbn; lia).
  - intros i it Hg. unfold Db.get in Hg. destruct (i <? 0); [discriminate|].
    destruct (Z.to_nat i) as [|[|[|[|[|[|[|[|n]]]]]]]]; cbn in Hg; try discriminate;
      injection Hg as <-.
    + split; [exists (Utils.UuidNum 0x2800); reflexivity|reflexivity].
    + split; [exists (Utils.UuidNum 0x2803); reflexivity|reflexivity].
    + split; [exists (Utils.UuidNum 0x2a00); reflexivity|reflexivity].
    + split; [exists (Utils.UuidNum 0x2901); reflexivity|reflexivity].
    + split; [exists (Utils.UuidNum 0x2902); reflexivity|reflexivity].
    + split; [exists (Utils.UuidNum 0x2904); reflexivity|reflexivity].
  - cbn. repeat constructor; discriminate.
  - vm_compute. discriminate.
Defined.

(** ** Reading a value: READ and READ_BLOB *)

Section ReadFacts.

(** A response sent by an idle server leaves it idle once the PDU is out. *)
Lemma respond_idle (resp : list Z) (s : Att.State) :
  Link.idle s ->
  skipn (length (Att.trace s)) (Att.trace (Att.sendResponse resp s))
  = [Att.Tx resp Att.OnResponseSent]
  /\ Link.idle (Att.runSentCallback Att.OnResponseSent (Att.sendResponse resp s))
  /\ Att.currentMtu (Att.runSentCallback Att.OnResponseSent (Att.sendResponse resp s))
     = Att.currentMtu s
  /\ Att.sendResponse resp (Att.setHandlingRequest true s) = Att.sendResponse resp s.
Proof.
  intros (Ht & Hh & Hc). destruct s. cbn in Ht, Hh, Hc. subst.
  unfold Att.sendResponse, Att.sendDataFn, Att.setHandlingRequest, Att.emit,
    Att.runSentCallback, Link.idle. cbn.
  rewrite skipn_app, skipn_all, Nat.sub_diag. repeat split.
Qed.

Variable fuel : nat.
Variable attDb : Db.T.
Variable conn : Att.Connection.
Variable handle : Z.
Variable item : Db.Item.
Variable v : list Z.

Hypothesis handle_range : 0 <= handle <= 65535.
Hypothesis item_at : Db.get attDb handle = Some item.
Hypothesis readable : Att.checkPerm conn (Db.readPerm item) false = 0.
Hypothesis stored :
  forall opcode offset, Db.read item opcode offset = Db.defaultRead (Some v) opcode offset.

Lemma shr8 : Num.shr handle 8 = handle / 256.
Proof.
  unfold Num.shr. rewrite toInt32_small by lia. change (8 mod 32) with 8.
  rewrite Z.shiftr_div_pow2 by lia. reflexivity.
Qed.

(** READ_REQUEST: the server's answer and what the parser of read makes of it *)
Lemma read_exchange (s : Att.State) :
  Link.idle s -> 23 <= Att.currentMtu s <= 517 ->
  exists response,
    AttServer.onData fuel attDb conn (AttClient.readRequest handle) s
    = Att.Returned (Att.sendResponse response s)
    /\ AttClient.deliver (Att.currentMtu s) (AttClient.readRequest handle)
         AttClient.readParser response
       = AttClient.Done (Buf.slice0 (Att.currentMtu s - 1) v).
Proof.
  intros Hidle Hmtu. pose proof Hidle as (Ht & Hh & Hc).
  set (mtu := Att.currentMtu s) in *.
  set (resp := Att.READ_RESPONSE :: Buf.slice0 (mtu - 1) v).
  destruct (respond_idle resp s Hidle) as (T & I & M & R).
  exists resp. unfold AttClient.readRequest. rewrite shr8.
  set (request := [Att.READ_REQUEST; Buf.u8 handle; Buf.u8 (handle / 256)]).
  split.
  - unfold AttServer.onData. rewrite Ht, Hc. fold mtu.
    change (Buf.len request) with 3. change (3 =? 0) with false. cbv iota.
    replace (3 >? mtu) with false by (symmetry; rewrite Z.gtb_ltb; apply Z.ltb_ge; lia).
    change (nth 0 request 0) with Att.READ_REQUEST.
    unfold AttServer.dispatch. rewrite Hh.
    change (Att.isKnownResponseOpcode Att.READ_REQUEST) with false.
    cbn [andb]. change (Att.READ_REQUEST =? Att.FIND_INFORMATION_REQUEST) with false.
    change (Att.READ_REQUEST =? Att.READ_REQUEST) with true. cbv iota.
    unfold AttServer.handleRead. change (Buf.len request) with 3.
    change (negb (3 =? 3)) with false. cbv iota.
    assert (R1 : Buf.readUInt16LE 1 request = handle).
    { unfold Buf.readUInt16LE, request, Buf.u8. cbn [nth]. Z.div_mod_to_equations; lia. }
    rewrite R1, item_at. cbv zeta. rewrite readable. change (negb (0 =? 0)) with false.
    cbv iota. unfold AttServer.answerRead. rewrite stored.
    unfold Db.defaultRead.
    replace (0 >? Buf.len v) with false
      by (symmetry; rewrite Z.gtb_ltb; apply Z.ltb_ge; unfold Buf.len; lia).
    change (negb (0 =? 0)) with false. cbv iota.
    change (skipn (Z.to_nat 0) v) with v.
    fold mtu. fold resp. rewrite R. reflexivity.
  - unfold AttClient.deliver.
    assert (Hl : Buf.len resp = 1 + Buf.len (Buf.slice0 (mtu - 1) v))
      by (unfold Buf.len, resp; cbn [length]; lia).
    assert (Hcut : Buf.len (Buf.slice0 (mtu - 1) v) <= mtu - 1).
    { unfold Buf.len, Buf.slice0. rewrite length_firstn. lia. }
    replace (Buf.len resp =? 0) with false
      by (symmetry; apply Z.eqb_neq; unfold Buf.len in *; lia).
    replace (Buf.len resp >? mtu) with false
      by (symmetry; rewrite Z.gtb_ltb; apply Z.ltb_ge; lia).
    reflexivity.
Qed.

(** READ_BLOB_REQUEST at any offset *)
Lemma readBlob_exchange (s : Att.State) (offset : Z) :
  Link.idle s -> 23 <= Att.currentMtu s <= 517 -> 0 <= offset <= 65535 ->
  exists request response,
    AttClient.readBlobRequest handle offset = Js.Ok request
    /\ AttServer.onData fuel attDb conn request s
       = Att.Returned (Att.sendResponse response s)
    /\ AttClient.deliver (Att.currentMtu s) request AttClient.readParser response
       = (if offset >? Buf.len v then AttClient.Failed AttErrors.INVALID_OFFSET
          else AttClient.Done
                 (Buf.slice0 (Att.currentMtu s - 1) (skipn (Z.to_nat offset) v))).
Proof.
  intros Hidle Hmtu Hoff. pose proof Hidle as (Ht & Hh & Hc).
  set (mtu := Att.currentMtu s) in *.
  set (request := [Att.READ_BLOB_REQUEST] ++ Buf.uint16LE handle ++ Buf.uint16LE offset).
  assert (Hreq : AttClient.readBlobRequest handle offset = Js.Ok request).
  { unfold AttClient.readBlobRequest, AttClient.request5.
    rewrite !writeUInt16LE_ok by lia. reflexivity. }
  assert (R1 : Buf.readUInt16LE 1 request = handle).
  { unfold Buf.readUInt16LE, request, Buf.uint16LE. cbn [nth app].
    Z.div_mod_to_equations; lia. }
  assert (R3 : Buf.readUInt16LE 3 request = offset).
  { unfold Buf.readUInt16LE, request, Buf.uint16LE. cbn [nth app].
    Z.div_mod_to_equations; lia. }
  set (resp :=
         if offset >? Buf.len v
         then [Att.ERROR_RESPONSE; Buf.u8 Att.READ_BLOB_REQUEST] ++ Buf.uint16LE handle
              ++ [Buf.u8 AttErrors.INVALID_OFFSET]
         else Att.READ_BLOB_RESPONSE :: Buf.slice0 (mtu - 1) (skipn (Z.to_nat offset) v)).
  destruct (respond_idle resp s Hidle) as (T & I & M & R).
  exists request, resp. split; [exact Hreq|]. split.
  - unfold AttServer.onData. rewrite Ht, Hc. fold mtu.
    change (Buf.len request) with 5. change (5 =? 0) with false. cbv iota.
    replace (5 >? mtu) with false by (symmetry; rewrite Z.gtb_ltb; apply Z.ltb_ge; lia).
    change (nth 0 request 0) with Att.READ_BLOB_REQUEST.
    unfold AttServer.dispatch. rewrite Hh.
    change (Att.isKnownResponseOpcode Att.READ_BLOB_REQUEST) with false.
    cbn [andb]. change (Att.READ_BLOB_REQUEST =? Att.FIND_INFORMATION_REQUEST) with false.
    change (Att.READ_BLOB_REQUEST =? Att.READ_REQUEST) with false.
    change (Att.READ_BLOB_REQUEST =? Att.READ_BLOB_REQUEST) with true. cbv iota.
    unfold AttServer.handleReadBlob. change (Buf.len request) with 5.
    change (negb (5 =? 5)) with false. cbv iota.
    rewrite R1, R3, item_at. cbv zeta. rewrite readable. change (negb (0 =? 0)) with false.
    cbv iota. unfold AttServer.answerRead. rewrite stored.
    unfold Db.defaultRead. subst resp.
    destruct (offset >? Buf.len v).
    + change (negb (AttErrors.INVALID_OFFSET =? 0)) with true. cbv iota.
      unfold Att.sendErrorResponse. rewrite R. reflexivity.
    + change (negb (0 =? 0)) with false. cbv iota.
      fold mtu. rewrite R. reflexivity.
  - unfold AttClient.deliver. subst resp.
    destruct (offset >? Buf.len v).
    + unfold Buf.uint16LE. cbn [app].
      match goal with |- context [Buf.len ?l] => change (Buf.len l) with 5 end.
      replace (5 >? mtu) with false by (symmetry; rewrite Z.gtb_ltb; apply Z.ltb_ge; lia).
      reflexivity.
    + set (value := Buf.slice0 (mtu - 1) (skipn (Z.to_nat offset) v)).
      assert (Hcut : Buf.len value <= mtu - 1).
      { unfold Buf.len, value, Buf.slice0. rewrite length_firstn. lia. }
      assert (Hl : Buf.len (Att.READ_BLOB_RESPONSE :: value) = 1 + Buf.len value)
        by (unfold Buf.len; cbn [length]; lia).
      rewrite Hl.
      replace (1 + Buf.len value =? 0) with false
        by (symmetry; apply Z.eqb_neq; unfold Buf.len in *; lia).
      replace (1 + Buf.len value >? mtu) with false
        by (symmetry; rewrite Z.gtb_ltb; apply Z.ltb_ge; lia).
      reflexivity.
Qed.

End ReadFacts.

(** X14.  READ and READ_BLOB, server and client together.  For an
    attribute that is readable on the connection and answers with its
    stored value, sent to a server that is idle: the response to the
    request of read, taken through the client's data callback and the
    parser of read, is the first MTU-1 bytes of the value; the response to
    the request of readBlob for an offset, taken through the parser of
    readBlob, is the MTU-1 bytes of the value from that offset on (fewer
    at the end of the value, none at its very end), and the error
    INVALID_OFFSET for an offset past the end.  No response is longer than
    the MTU: the client's data callback takes them all. *)
Theorem read_and_read_blob_give_the_value (fuel : nat) (attDb : Db.T)
    (conn : Att.Connection) (s : Att.State) (handle offset : Z) (item : Db.Item)
    (v : list Z) :
  Att.timedout s = false -> Att.isHandlingRequest s = false ->
  Att.currentOutgoingRequest s = None -> 23 <= Att.currentMtu s <= 517 ->
  0 <= handle <= 65535 -> Db.get attDb handle = Some item ->
  Att.checkPerm conn (Db.readPerm item) false = 0 ->
  (forall opcode offset, Db.read item opcode offset = Db.defaultRead (Some v) opcode offset) ->
  0 <= offset <= 65535 ->
  (exists response,
     AttServer.onData fuel attDb conn (AttClient.readRequest handle) s
     = Att.Returned (Att.sendResponse response s)
     /\ AttClient.deliver (Att.currentMtu s) (AttClient.readRequest handle)
          AttClient.readParser response
        = AttClient.Done (firstn (Z.to_nat (Att.currentMtu s - 1)) v))
  /\ (exists request response,
        AttClient.readBlobRequest handle offset = Js.Ok request
        /\ AttServer.onData fuel attDb conn request s
           = Att.Returned (Att.sendResponse response s)
        /\ AttClient.deliver (Att.currentMtu s) request AttClient.readParser response
           = (if offset >? Buf.len v then AttClient.Failed AttErrors.INVALID_OFFSET
              else AttClient.Done
                     (firstn (Z.to_nat (Att.currentMtu s - 1)) (skipn (Z.to_nat offset) v)))).
Proof.
  intros Ht Hh Hc Hmtu Hhandle Hitem Hperm Hstored Hoff.
  assert (Hidle : Link.idle s) by (repeat split; assumption).
  split.
  - exact (read_exchange fuel attDb conn handle item v Hhandle Hitem Hperm Hstored s
             Hidle Hmtu).
  - exact (readBlob_exchange fuel attDb conn handle item v Hhandle Hitem Hperm Hstored s
             offset Hidle Hmtu Hoff).
Qed.

Lemma read_and_read_blob_give_the_value_witness :
  let v := List.map Z.of_nat (seq 1 50) in
  let item := Db.mkItem None None "6E400003-B5A3-F393-E0A9-E50E24DCCA9E" (Some v) 512
                Att.Open Att.NotPermitted (Db.defaultRead (Some v)) None None in
  exists request response,
    AttClient.readBlobRequest 3 22 = Js.Ok request
    /\ AttServer.onData 0 [None; None; None; Some item] Scenario.plainConnection request
         Att.initial
       = Att.Returned (Att.sendResponse response Att.initial)
    /\ AttClient.deliver 23 request AttClient.readParser response
       = AttClient.Done (List.map Z.of_nat (seq 23 22)).
Proof.
  intros v item.
  destruct (read_and_read_blob_give_the_value 0 [None; None; None; Some item]
              Scenario.plainConnection Att.initial 3 22 item v)
    as [_ (request & response & Hreq & Hdata & Hparse)];
    try reflexivity; try (cbn; lia).
  exists request, response. split; [exact Hreq|]. split; [exact Hdata|exact Hparse].
Defined.

(** ** Discovery: READ_BY_GROUP_TYPE *)

Section GroupFacts.
Import AttServer.

Variable attDb : Db.T.
Variable type : string.
Variable mtu : Z.
Hypothesis mtu_range : 23 <= mtu <= 517.
Hypothesis valued :
  forall j item, Db.get attDb j = Some item -> Db.uuid item = type ->
                 exists v, Db.value item = Some v.

Lemma groupLoop_spec (count : nat) :
  forall (i : Z) (l : list Group),
    (l = [] \/ exists L, 0 <= L <= 251
                         /\ Forall (fun g => Buf.len (gValue g) = L) l
                         /\ 2 + (4 + L) * Z.of_nat (length l) <= mtu) ->
    exists k r,
      groupLoop attDb type mtu count i l = Js.Ok r
      /\ r = l ++ List.map (toGroup mtu) (firstn k (groupsIn attDb type count i))
      /\ (k <= length (groupsIn attDb type count i))%nat
      /\ (r = [] \/ exists L, 0 <= L <= 251
                              /\ Forall (fun g => Buf.len (gValue g) = L) r
                              /\ 2 + (4 + L) * Z.of_nat (length r) <= mtu)
      /\ (l = [] -> groupsIn attDb type count i <> [] -> (0 < k)%nat).
Proof.
  induction count as [|count' IH]; intros i l Inv.
  - exists 0%nat, l. cbn [groupLoop firstn List.map]. rewrite app_nil_r.
    repeat split; [cbn; lia|exact Inv|]. intros _ H. exfalso. apply H. reflexivity.
  - unfold groupsIn in *. cbn [groupLoop Db.attributesIn].
    destruct (Db.get attDb i) as [item|] eqn:Eg; [|apply IH; exact Inv].
    cbn [List.filter snd]. destruct (String.eqb (Db.uuid item) type) eqn:Eu;
      [|apply IH; exact Inv].
    apply String.eqb_eq in Eu. destruct (valued i item Eg Eu) as [v Ev]. rewrite Ev.
    set (value := Buf.slice0 (Z.min 251 (mtu - 6)) v).
    assert (Hvalue : 0 <= Buf.len value <= Z.min 251 (mtu - 6)).
    { unfold Buf.len, value, Buf.slice0. rewrite length_firstn. lia. }
    assert (Hto : toGroup mtu (i, item) = mkGroup i (groupEnd item i) value).
    { unfold toGroup. cbn [fst snd]. rewrite Ev. reflexivity. }
    match goal with |- context [if ?c then _ else _] => destruct c eqn:Efull end.
    + exists 0%nat, l. cbn [firstn List.map]. rewrite app_nil_r.
      repeat split; [cbn [length]; lia|exact Inv|].
      intros -> _. discriminate Efull.
    + destruct (IH (i + 1) (l ++ [mkGroup i (groupEnd item i) value]))
        as (k & r & K1 & K2 & K3 & K4 & K5).
      { right. destruct l as [|first rest].
        - exists (Buf.len value). cbn [app length gValue].
          split; [lia|]. split; [repeat constructor|]. lia.
        - apply orb_false_iff in Efull as [E1 E2]. apply negb_false_iff in E1.
          apply Z.eqb_eq in E1. rewrite Z.gtb_ltb in E2. apply Z.ltb_ge in E2.
          destruct Inv as [?|(L & HL & Hf & Hs)]; [discriminate|].
          assert (HLf : Buf.len (gValue first) = L) by (inversion Hf; assumption).
          exists L. split; [exact HL|]. split.
          + apply Forall_app. split; [exact Hf|]. repeat constructor. cbn [gValue]. lia.
          + rewrite length_app. cbn [length] in *. rewrite <- HLf, E1. lia. }
      exists (S k), r. split; [exact K1|]. split; [|split; [|split]].
      * rewrite K2, <- app_assoc. cbn [firstn List.map app]. rewrite Hto. reflexivity.
      * cbn [length]. lia.
      * exact K4.
      * intros _ _. lia.
Qed.

End GroupFacts.

Section GroupWire.
Import AttServer.

Lemma clientGroupLoop_chunks (L : nat) (groups : list Group) :
  Forall (fun g => length (gValue g) = L
                   /\ 0 <= gStart g <= 65535 /\ 0 <= gEnd g <= 65535) groups ->
  forall (pre : list Z) (fuel : nat),
    (length groups <= fuel)%nat ->
    AttClient.groupLoop (S fuel) (4 + L) 
      (pre ++ concat (List.map (fun g => Buf.uint16LE (gStart g) ++ Buf.uint16LE (gEnd g)
                                        ++ gValue g) groups))
      (length pre)
    = groups.
Proof.
  induction 1 as [|g groups (Hl & Hs & He) _ IH]; intros pre fuel Hfuel.
  - cbn [List.map concat AttClient.groupLoop]. rewrite app_nil_r, Nat.ltb_irrefl.
    reflexivity.
  - cbn [length] in Hfuel. destruct fuel as [|fuel]; [lia|].
    cbn [List.map concat]. remember (S fuel) as fuel1.
    set (rest := concat (List.map (fun g => Buf.uint16LE (gStart g) ++ Buf.uint16LE (gEnd g)
                                            ++ gValue g) groups)) in *.
    cbn [AttClient.groupLoop].
    replace (length pre <? length (pre ++ (Buf.uint16LE (gStart g) ++ Buf.uint16LE (gEnd g)
                                           ++ gValue g) ++ rest))%nat with true
      by (symmetry; apply Nat.ltb_lt; rewrite !length_app; cbn [length Buf.uint16LE]; lia).
    f_equal.
    + destruct g as [a b c]. cbn [gStart gEnd gValue] in *. f_equal.
      * rewrite <- (Nat.add_0_r (length pre)), readUInt16LE_app.
        rewrite <- !app_assoc. apply readUInt16LE_uint16LE. lia.
      * rewrite readUInt16LE_app. rewrite <- !app_assoc.
        change 2%nat with (length (Buf.uint16LE a) + 0)%nat.
        rewrite readUInt16LE_app. apply readUInt16LE_uint16LE. lia.
      * rewrite skipn_app, skipn_all2 by lia.
        replace (length pre + 4 - length pre)%nat with 4%nat by lia.
        cbn [app]. replace (4 + L - 4)%nat with L by lia.
        rewrite <- !app_assoc.
        change (skipn 4 (Buf.uint16LE a ++ Buf.uint16LE b ++ c ++ rest)) with (c ++ rest).
        rewrite firstn_app, firstn_all2 by lia.
        replace (L - length c)%nat with 0%nat by lia. cbn [firstn]. apply app_nil_r.
    + subst fuel1. rewrite app_assoc.
      replace (length pre + (4 + L))%nat
        with (length (pre ++ Buf.uint16LE (gStart g) ++ Buf.uint16LE (gEnd g) ++ gValue g))
        by (rewrite !length_app; cbn [length Buf.uint16LE]; lia).
      apply IH. lia.
Qed.

Lemma writeGroup_ok (g : Group) :
  0 <= gStart g <= 65535 -> 0 <= gEnd g <= 65535 ->
  writeGroup g = Js.Ok (Buf.uint16LE (gStart g) ++ Buf.uint16LE (gEnd g) ++ gValue g).
Proof.
  intros Hs He. unfold writeGroup. rewrite !writeUInt16LE_ok by lia. reflexivity.
Qed.

Lemma chunks_are_map {B : Type} (f : B -> list Z) (l : list B) (chunks : list (list Z)) :
  Forall2 (fun b c => c = f b) l chunks -> chunks = List.map f l.
Proof. induction 1 as [|b c l chunks -> _ ->]; reflexivity. Qed.

End GroupWire.

(** X15.  Service discovery by READ_BY_GROUP_TYPE, server and client
    together.  For a request for the primary or the secondary services
    over a range that holds one, the response of an idle server is no
    longer than the MTU, and the parser of the client's readByGroupType
    reads from it the first k services of the range in ascending order,
    for some k > 0: for each its handle, its group end handle (or its own
    handle when it has none) and its value, cut to min(251, MTU - 6)
    bytes. *)
Theorem readByGroupType_round_trip (fuel : nat) (attDb : Db.T) (conn : Att.Connection)
    (s : Att.State) (startingHandle endingHandle : Z) (primary : bool) :
  let type := if primary then AttServer.PRIMARY_SERVICE else AttServer.SECONDARY_SERVICE in
  let groups :=
    AttServer.groupsIn attDb type (Z.to_nat (endingHandle - startingHandle + 1))
      startingHandle in
  Link.idle s -> 23 <= Att.currentMtu s <= 517 ->
  1 <= startingHandle <= endingHandle -> endingHandle <= 65535 ->
  (forall j item, Db.get attDb j = Some item -> Db.uuid item = type ->
     (exists v, Db.value item = Some v)
     /\ (forall g, Db.groupEndHandle item = Some g -> 0 <= g <= 65535)) ->
  groups <> [] ->
  exists request response k,
    AttClient.readByGroupTypeRequest startingHandle endingHandle (Utils.UuidStr type)
    = Js.Ok request
    /\ AttServer.onData fuel attDb conn request s
       = Att.Returned (Att.sendResponse response s)
    /\ Buf.len response <= Att.currentMtu s
    /\ (0 < k)%nat
    /\ AttClient.readByGroupTypeParser 0 response
       = AttClient.Done (List.map (AttServer.toGroup (Att.currentMtu s)) (firstn k groups)).
Proof.
  intros type groups (Ht & Hh & Hc) Hmtu Hrange Hend Hdb Hne.
  set (mtu := Att.currentMtu s) in *.
  set (typeBytes := if primary then [0x00; 0x28] else [0x01; 0x28]).
  set (request := [Att.READ_BY_GROUP_TYPE_REQUEST] ++ Buf.uint16LE startingHandle
                  ++ Buf.uint16LE endingHandle ++ typeBytes).
  assert (Hreq : AttClient.readByGroupTypeRequest startingHandle endingHandle
                   (Utils.UuidStr type) = Js.Ok request).
  { unfold AttClient.readByGroupTypeRequest.
    assert (Es : Utils.serializeUuid (Utils.UuidStr type) = Js.Ok typeBytes)
      by (unfold type, typeBytes; destruct primary; reflexivity).
    rewrite Es. cbn [Js.bind]. rewrite !writeUInt16LE_ok by lia. reflexivity. }
  assert (L7 : Buf.len request = 7)
    by (unfold request, typeBytes; destruct primary; reflexivity).
  assert (R1 : Buf.readUInt16LE 1 request = startingHandle).
  { unfold Buf.readUInt16LE, request, Buf.uint16LE. cbn [nth app].
    Z.div_mod_to_equations; lia. }
  assert (R3 : Buf.readUInt16LE 3 request = endingHandle).
  { unfold Buf.readUInt16LE, request, Buf.uint16LE. cbn [nth app].
    Z.div_mod_to_equations; lia. }
  assert (Rt : AttServer.typeOfRequest request = Some type).
  { unfold AttServer.typeOfRequest. rewrite L7. change (7 =? 7) with true. cbv iota.
    unfold request, typeBytes, type, Buf.uint16LE, Buf.readUInt16LE.
    destruct primary; reflexivity. }
  assert (Hvalued : forall j item, Db.get attDb j = Some item -> Db.uuid item = type ->
                                   exists v, Db.value item = Some v)
    by (intros j item A B; apply (Hdb j item A B)).
  destruct (groupLoop_spec attDb type mtu Hmtu Hvalued
              (Z.to_nat (Z.min endingHandle (Z.of_nat (length attDb) - 1) - startingHandle + 1))
              startingHandle [] (or_introl eq_refl))
    as (k & r & K1 & K2 & K3 & K4 & K5).
  unfold AttServer.groupsIn in K2, K3, K5. rewrite attributesIn_clip in K2, K3, K5 by lia.
  fold (AttServer.groupsIn attDb type (Z.to_nat (endingHandle - startingHandle + 1))
          startingHandle) in K2, K3, K5.
  fold groups in K2, K3, K5. cbn [app] in K2. specialize (K5 eq_refl Hne).
  assert (Hlen : length r = k).
  { rewrite K2, length_map, length_firstn. lia. }
  destruct r as [|first rest] eqn:Er; [cbn [length] in Hlen; lia|]. rewrite <- Er in *.
  destruct K4 as [E|(L & HL & Hf & Hsize)]; [rewrite Er in E; discriminate|].
  assert (Hfirst : Buf.len (AttServer.gValue first) = L).
  { rewrite Er in Hf. inversion Hf; assumption. }
  assert (Hranges : Forall (fun g => length (AttServer.gValue g) = Z.to_nat L
                                     /\ 0 <= AttServer.gStart g <= 65535
                                     /\ 0 <= AttServer.gEnd g <= 65535) r).
  { rewrite List.Forall_forall in Hf. apply List.Forall_forall. intros g Hg.
    split; [specialize (Hf g Hg); unfold Buf.len in Hf; lia|].
    rewrite K2 in Hg. apply in_map_iff in Hg as (a & <- & Ha).
    assert (Hin : In a groups)
      by (rewrite <- (firstn_skipn k groups); apply in_or_app; left; exact Ha).
    unfold groups, AttServer.groupsIn in Hin. apply filter_In in Hin as [Hin Hu].
    destruct a as [j item]. apply attributesIn_in in Hin as [Hj Hg'].
    cbn [snd] in Hu. apply String.eqb_eq in Hu.
    destruct (Hdb j item Hg' Hu) as [_ Hge].
    unfold AttServer.toGroup, AttServer.groupEnd. cbn [AttServer.gStart AttServer.gEnd fst snd].
    split; [lia|]. destruct (Db.groupEndHandle item) as [g|] eqn:Egh; [|lia].
    specialize (Hge g eq_refl). destruct (g =? 0); lia. }
  destruct (writeAll_chunks AttServer.writeGroup (fun g : AttServer.Group => g)
              (fun g c => c = Buf.uint16LE (AttServer.gStart g)
                              ++ Buf.uint16LE (AttServer.gEnd g) ++ AttServer.gValue g) r)
    as (chunks & Ew & F).
  { intros g Hg. rewrite List.Forall_forall in Hranges.
    destruct (Hranges g Hg) as (_ & A & B). eexists. split; [apply writeGroup_ok; assumption|].
    reflexivity. }
  rewrite map_id in Ew. apply chunks_are_map in F. subst chunks.
  set (body := concat (List.map (fun g => Buf.uint16LE (AttServer.gStart g)
                                          ++ Buf.uint16LE (AttServer.gEnd g)
                                          ++ AttServer.gValue g) r)) in *.
  assert (Hbody : Buf.len body = (4 + L) * Z.of_nat k).
  { assert (Hnat : length body = ((4 + Z.to_nat L) * length r)%nat).
    { unfold body. clear - Hranges.
      induction Hranges as [|g r (A & _) _ IH]; [cbn; lia|].
      cbn [List.map concat length]. rewrite !length_app, IH, A.
      cbn [length Buf.uint16LE]. lia. }
    unfold Buf.len. rewrite Hnat, Hlen. lia. }
  set (response := [Att.READ_BY_GROUP_TYPE_RESPONSE; Buf.u8 (4 + L)] ++ body).
  assert (Hresponse : Buf.len response = 2 + (4 + L) * Z.of_nat k).
  { unfold response, Buf.len in *. rewrite length_app. cbn [length]. lia. }
  exists request, response, k.
  split; [exact Hreq|]. split; [|split; [|split]].
  - unfold AttServer.onData. rewrite Ht, Hc, L7. fold mtu.
    change (7 =? 0) with false. cbv iota.
    replace (7 >? mtu) with false by (symmetry; rewrite Z.gtb_ltb; apply Z.ltb_ge; lia).
    assert (Hop : nth 0 request 0 = Att.READ_BY_GROUP_TYPE_REQUEST) by reflexivity.
    rewrite Hop. unfold AttServer.dispatch. rewrite Hh.
    change (Att.isKnownResponseOpcode Att.READ_BY_GROUP_TYPE_REQUEST) with false.
    cbn [andb].
    change (Att.READ_BY_GROUP_TYPE_REQUEST =? Att.FIND_INFORMATION_REQUEST) with false.
    change (Att.READ_BY_GROUP_TYPE_REQUEST =? Att.READ_REQUEST) with false.
    change (Att.READ_BY_GROUP_TYPE_REQUEST =? Att.READ_BLOB_REQUEST) with false.
    change (Att.READ_BY_GROUP_TYPE_REQUEST =? Att.READ_BY_GROUP_TYPE_REQUEST) with true.
    cbv iota.
    unfold AttServer.handleReadByGroupType. rewrite L7, R1, R3, Rt. fold mtu.
    change (negb (7 =? 7) && negb (7 =? 21)) with false. cbv iota.
    replace ((startingHandle =? 0) || (startingHandle >? endingHandle)) with false.
    2:{ symmetry. apply orb_false_iff. split; [apply Z.eqb_neq; lia|].
        rewrite Z.gtb_ltb. apply Z.ltb_ge. lia. }
    cbv zeta.
    replace (String.eqb type AttServer.PRIMARY_SERVICE
             || String.eqb type AttServer.SECONDARY_SERVICE) with true
      by (unfold type; destruct primary; reflexivity).
    rewrite K1, Er. rewrite <- Er. rewrite Ew. rewrite Hfirst. reflexivity.
  - lia.
  - lia.
  - unfold AttClient.readByGroupTypeParser. change (negb (0 =? 0)) with false. cbv iota.
    rewrite Hresponse.
    replace (2 + (4 + L) * Z.of_nat k <? 6) with false by (symmetry; apply Z.ltb_ge; nia).
    assert (Hn1 : nth 1 response 0 = 4 + L).
    { unfold response, Buf.u8. cbn [app nth]. apply Z.mod_small. lia. }
    rewrite Hn1.
    replace (4 + L <? 4) with false by (symmetry; apply Z.ltb_ge; lia).
    replace ((2 + (4 + L) * Z.of_nat k - 2) mod (4 + L) =? 0) with true.
    2:{ symmetry. apply Z.eqb_eq.
        replace (2 + (4 + L) * Z.of_nat k - 2) with (Z.of_nat k * (4 + L)) by lia.
        apply Z.mod_mul. lia. }
    cbn [orb negb]. f_equal. rewrite <- K2.
    replace (Z.to_nat (4 + L)) with (4 + Z.to_nat L)%nat by lia.
    replace (length response) with (S (S (length body))) by reflexivity.
    apply (clientGroupLoop_chunks (Z.to_nat L) r Hranges
             [Att.READ_BY_GROUP_TYPE_RESPONSE; Buf.u8 (4 + L)]).
    unfold Buf.len in Hbody. nia.
Qed.

Lemma readByGroupType_round_trip_witness :
  let service g v :=
    Some (Db.mkItem (Some g) (Some (Some 0x2800)) AttServer.PRIMARY_SERVICE (Some v) 512
            Att.Open Att.NotPermitted (Db.defaultRead (Some v)) None None) in
  let attDb := [None; service 2 [0x01; 0x18]; None; service 4 [0x00; 0x18]; None] in
  exists request response k,
    AttClient.readByGroupTypeRequest 1 4 (Utils.UuidStr AttServer.PRIMARY_SERVICE)
    = Js.Ok request
    /\ AttServer.onData 0 attDb Scenario.plainConnection request Att.initial
       = Att.Returned (Att.sendResponse response Att.initial)
    /\ Buf.len response <= Att.currentMtu Att.initial
    /\ (0 < k)%nat
    /\ AttClient.readByGroupTypeParser 0 response
       = AttClient.Done
           (List.map (AttServer.toGroup (Att.currentMtu Att.initial))
              (firstn k (AttServer.groupsIn attDb AttServer.PRIMARY_SERVICE
                           (Z.to_nat (4 - 1 + 1)) 1))).
Proof.
  intros service attDb.
  apply (readByGroupType_round_trip 0 attDb Scenario.plainConnection Att.initial 1 4 true).
  - repeat split.
  - cbn. lia.
  - lia.
  - lia.
  - intros j item Hg _. unfold Db.get in Hg. destruct (j <? 0); [discriminate|].
    destruct (Z.to_nat j) as [|[|[|[|[|n]]]]]; cbn in Hg; try discriminate;
      try (destruct n; discriminate);
      injection Hg as <-; (split; [eexists; reflexivity|]);
      intros g Hgh; injection Hgh as <-; lia.
  - vm_compute. discriminate.
Defined.

(** ** The handles of the services *)

Section PlaceFacts.
Import GattDb.

Lemma last_any_default (y : Z) (m : list Z) (d1 d2 : Z) :
  List.last (y :: m) d1 = List.last (y :: m) d2.
Proof.
  revert y. induction m as [|x m IH]; intros y; [reflexivity|].
  change (List.last (y :: x :: m) d1) with (List.last (x :: m) d1).
  change (List.last (y :: x :: m) d2) with (List.last (x :: m) d2).
  apply IH.
Qed.

Lemma last_cons_default (x : Z) (m : list Z) (lo : Z) :
  List.last (x :: m) lo = List.last m x.
Proof.
  destruct m as [|y m]; [reflexivity|].
  change (List.last (x :: y :: m) lo) with (List.last (y :: m) lo).
  apply last_any_default.
Qed.

Lemma placed_app (lower : Z) (pre l : list Service) :
  placed lower (pre ++ l)
  <-> (placed lower pre /\ placed (List.last (List.map endHandle pre) lower) l).
Proof.
  revert lower. induction pre as [|e pre IH]; intros lower.
  - cbn [app List.map List.last placed]. split.
    + intros H. split; [|exact H]. destruct l as [|e l]; [exact H|].
      destruct H as (A & B & C).
      assert (D : endHandle e < 0xffff).
      { clear - C. revert C. generalize (endHandle e). induction l as [|x l IHl]; intros z C.
        - exact C.
        - destruct C as (C1 & C2 & C3). specialize (IHl _ C3). lia. }
      lia.
    + intros [_ H]. exact H.
  - cbn [app placed List.map].
    rewrite last_cons_default.
    rewrite IH. tauto.
Qed.

Lemma remove_insert {A : Type} (position : nat) (a : A) (l : list A) :
  (position <= length l)%nat -> removeAt position (insertAt position a l) = l.
Proof.
  intros H. unfold removeAt, insertAt.
  set (X := firstn position l). set (Y := skipn position l).
  assert (HX : length X = position) by (unfold X; rewrite length_firstn; lia).
  assert (E1 : firstn position (X ++ [a] ++ Y) = X).
  { rewrite <- HX. rewrite firstn_app, firstn_all, Nat.sub_diag. cbn [firstn].
    apply app_nil_r. }
  assert (E2 : skipn (S position) (X ++ [a] ++ Y) = Y).
  { rewrite <- HX. rewrite skipn_app, skipn_all2 by lia.
    replace (S (length X) - length X)%nat with 1%nat by lia. reflexivity. }
  rewrite E1, E2. apply firstn_skipn.
Qed.

Variable s : Request.
Hypothesis handles_pos : 1 <= numberOfHandles s.

Variable allServices : list Service.
Hypothesis all_placed : placed 0 allServices.

(** The position and start handle the loop holds fit into allServices. *)
Lemma scan_fits (rest : list Service) :
  forall (pre : list Service) (chosen : Z) (position : nat),
    allServices = pre ++ rest ->
    (chosen = 0
     \/ ((position <= length allServices)%nat
         /\ placed 0 (insertAt position
                        (mkService (reqObj s) chosen (chosen + numberOfHandles s - 1))
                        allServices))) ->
    let r := scan s (rest ++ [mkService 0 0xffff 0]) (length pre)
               (List.last (List.map endHandle pre) 0) chosen position in
    fst r = 0
    \/ ((snd r <= length allServices)%nat
        /\ placed 0 (insertAt (snd r)
                       (mkService (reqObj s) (fst r) (fst r + numberOfHandles s - 1))
                       allServices)).
Proof.
  induction rest as [|e rest IH]; intros pre chosen position Hall Inv.
  - rewrite app_nil_r in Hall. subst pre. cbn [app scan startHandle endHandle].
    set (lastHandle := List.last (List.map endHandle allServices) 0).
    assert (Hend : forall c,
               lastHandle < c -> c + numberOfHandles s <= 0xffff ->
               (length allServices <= length allServices)%nat
               /\ placed 0 (insertAt (length allServices)
                              (mkService (reqObj s) c (c + numberOfHandles s - 1))
                              allServices)).
    { intros c H1 H2. split; [lia|]. unfold insertAt.
      rewrite firstn_all, skipn_all. apply placed_app. split; [exact all_placed|].
      cbn [app placed startHandle endHandle]. fold lastHandle. lia. }
    destruct (0xffff - lastHandle - 1 >=? numberOfHandles s) eqn:Egap; [|exact Inv].
    rewrite Z.geb_leb in Egap. apply Z.leb_le in Egap.
    destruct (truthy (proposed s) && (lastHandle + 1 <=? default 0 (proposed s))
              && (default 0 (proposed s) + numberOfHandles s <=? 0xffff)) eqn:Ep.
    + apply andb_true_iff in Ep as [Ep E3]. apply andb_true_iff in Ep as [_ E2].
      apply Z.leb_le in E2, E3.
      destruct (chosen =? 0); cbn [fst snd]; right; apply Hend; lia.
    + destruct (chosen =? 0) eqn:Ec; cbn [fst snd scan].
      * right. apply Hend; lia.
      * exact Inv.
  - cbn [app scan].
    set (lastHandle := List.last (List.map endHandle pre) 0).
    assert (Hsplit : placed 0 pre /\ placed lastHandle (e :: rest)).
    { apply placed_app. rewrite <- Hall. exact all_placed. }
    destruct Hsplit as [Hpre Hrest]. destruct Hrest as (R1 & R2 & R3).
    assert (Hlen : (length pre <= length allServices)%nat)
      by (rewrite Hall, length_app; lia).
    assert (Hmid : forall c,
               lastHandle < c -> c + numberOfHandles s <= startHandle e ->
               (length pre <= length allServices)%nat
               /\ placed 0 (insertAt (length pre)
                              (mkService (reqObj s) c (c + numberOfHandles s - 1))
                              allServices)).
    { intros c H1 H2. split; [exact Hlen|]. unfold insertAt. rewrite Hall.
      rewrite firstn_app, firstn_all, Nat.sub_diag. cbn [firstn]. rewrite app_nil_r.
      rewrite skipn_app, skipn_all, Nat.sub_diag. cbn [skipn app].
      apply placed_app. split; [exact Hpre|].
      cbn [placed startHandle endHandle]. fold lastHandle. repeat split; try lia.
      exact R3. }
    assert (Hnext : forall c p,
               (c = 0 \/ ((p <= length allServices)%nat
                          /\ placed 0 (insertAt p
                                         (mkService (reqObj s) c (c + numberOfHandles s - 1))
                                         allServices))) ->
               let r := scan s (rest ++ [mkService 0 0xffff 0]) (S (length pre))
                          (endHandle e) c p in
               fst r = 0
               \/ ((snd r <= length allServices)%nat
                   /\ placed 0 (insertAt (snd r)
                                  (mkService (reqObj s) (fst r)
                                     (fst r + numberOfHandles s - 1))
                                  allServices))).
    { intros c p Hcp.
      specialize (IH (pre ++ [e]) c p).
      rewrite length_app, List.map_app in IH. cbn [length List.map] in IH.
      rewrite last_last in IH.
      replace (length pre + 1)%nat with (S (length pre)) in IH by lia.
      apply IH; [rewrite <- app_assoc; exact Hall|exact Hcp]. }
    destruct (startHandle e - lastHandle - 1 >=? numberOfHandles s) eqn:Egap;
      [|apply Hnext; exact Inv].
    rewrite Z.geb_leb in Egap. apply Z.leb_le in Egap.
    destruct (truthy (proposed s) && (lastHandle + 1 <=? default 0 (proposed s))
              && (default 0 (proposed s) + numberOfHandles s <=? startHandle e)) eqn:Ep.
    + apply andb_true_iff in Ep as [Ep E3]. apply andb_true_iff in Ep as [_ E2].
      apply Z.leb_le in E2, E3.
      destruct (chosen =? 0); cbn [fst snd]; right; apply Hmid; lia.
    + destruct (chosen =? 0) eqn:Ec.
      * apply Hnext. right. apply Hmid; lia.
      * apply Hnext. exact Inv.
Qed.

Lemma place_fits :
  match place allServices s with
  | Some (allServices', position) =>
      (position <= length allServices)%nat
      /\ placed 0 allServices'
      /\ exists e, allServices' = insertAt position e allServices
                   /\ userObj e = reqObj s
                   /\ endHandle e = startHandle e + numberOfHandles s - 1
  | None => True
  end.
Proof.
  unfold place.
  pose proof (scan_fits allServices [] 0 0%nat eq_refl (or_introl eq_refl)) as H.
  cbn [length List.map List.last] in H. cbv zeta in H.
  destruct (scan s (allServices ++ [mkService 0 0xffff 0]) 0 0 0 0) as [c p].
  cbn [fst snd] in H. destruct (c =? 0) eqn:Ec; [exact I|].
  apply Z.eqb_neq in Ec. destruct H as [H|[H1 H2]]; [congruence|].
  split; [exact H1|]. split; [exact H2|].
  eexists. split; [reflexivity|]. split; reflexivity.
Qed.

(** The loop stops at a free place that holds the proposed start handle. *)
Lemma scan_proposal (p : Z) (pre post : list Service) :
  proposed s = Some p -> 1 <= p ->
  List.last (List.map endHandle pre) 0 < p ->
  p + numberOfHandles s <= match post with e :: _ => startHandle e | [] => 0xffff end ->
  forall (mid pre0 : list Service) (chosen : Z) (position : nat),
    pre = pre0 ++ mid ->
    fst (scan s ((mid ++ post) ++ [mkService 0 0xffff 0]) (length pre0)
           (List.last (List.map endHandle pre0) 0) chosen position) = p.
Proof.
  intros Hp Hp1 Hlow Hhigh. induction mid as [|e mid IH]; intros pre0 chosen position Hpre.
  - rewrite app_nil_r in Hpre. subst pre0. cbn [app].
    assert (Hhead : exists e rest, post ++ [mkService 0 0xffff 0] = e :: rest
                                   /\ p + numberOfHandles s <= startHandle e).
    { destruct post as [|e post]; [exists (mkService 0 0xffff 0), []|exists e, (post ++ [mkService 0 0xffff 0])];
        split; try reflexivity; exact Hhigh. }
    destruct Hhead as (e & rest & -> & He). cbn [scan]. rewrite Hp. change (default 0 (Some p)) with p. cbn [truthy].
    replace (startHandle e - List.last (List.map endHandle pre) 0 - 1 >=? numberOfHandles s)
      with true by (symmetry; rewrite Z.geb_leb; apply Z.leb_le; lia).
    replace (negb (p =? 0)) with true
      by (symmetry; apply negb_true_iff; apply Z.eqb_neq; lia).
    replace (List.last (List.map endHandle pre) 0 + 1 <=? p) with true
      by (symmetry; apply Z.leb_le; lia).
    replace (p + numberOfHandles s <=? startHandle e) with true
      by (symmetry; apply Z.leb_le; lia).
    cbn [andb]. destruct (chosen =? 0); reflexivity.
  - cbn [app scan].
    assert (Hnext : forall c q,
               fst (scan s ((mid ++ post) ++ [mkService 0 0xffff 0]) (S (length pre0))
                      (endHandle e) c q) = p).
    { intros c q. specialize (IH (pre0 ++ [e]) c q).
      rewrite length_app, List.map_app in IH. cbn [length List.map] in IH.
      rewrite last_last in IH. replace (length pre0 + 1)%nat with (S (length pre0)) in IH by lia.
      apply IH. rewrite <- app_assoc. exact Hpre. }
    destruct (startHandle e - List.last (List.map endHandle pre0) 0 - 1 >=? numberOfHandles s);
      [|apply Hnext].
    rewrite Hp. change (default 0 (Some p)) with p.
    destruct (truthy (Some p) && (List.last (List.map endHandle pre0) 0 + 1 <=? p)
              && (p + numberOfHandles s <=? startHandle e)).
    + destruct (chosen =? 0); reflexivity.
    + destruct (chosen =? 0); apply Hnext.
Qed.

End PlaceFacts.

Section PlaceAllFacts.
Import GattDb.

Lemma in_insertAt {A : Type} (position : nat) (a x : A) (l : list A) :
  In x (insertAt position a l) <-> x = a \/ In x l.
Proof.
  unfold insertAt. rewrite <- (firstn_skipn position l) at 3.
  rewrite !in_app_iff. cbn [In]. intuition congruence.
Qed.

Lemma placeAll_inv (original : list Service) (servicesToAdd : list Request) :
  forall (current : list Service) (insertPositions : list nat),
    placed 0 current -> rollback insertPositions current = original ->
    Forall (fun s => 1 <= numberOfHandles s) servicesToAdd ->
    match placeAll servicesToAdd current insertPositions with
    | (Js.Ok _, allServices') =>
        placed 0 allServices'
        /\ length allServices' = (length current + length servicesToAdd)%nat
        /\ (forall e, In e current -> In e allServices')
        /\ Forall (fun s => exists e, In e allServices' /\ userObj e = reqObj s
                                      /\ endHandle e = startHandle e + numberOfHandles s - 1)
             servicesToAdd
    | (Js.Throw _, allServices') => allServices' = original
    end.
Proof.
  induction servicesToAdd as [|s rest IH]; intros current positions Hplaced Hroll Hn.
  - cbn [placeAll length]. repeat split; [exact Hplaced|lia|auto|constructor].
  - cbn [placeAll]. pose proof (List.Forall_inv Hn) as Hs.
    pose proof (List.Forall_inv_tail Hn) as Hrest. cbn beta in Hs.
    pose proof (place_fits s Hs current Hplaced) as Hfit.
    destruct (place current s) as [[current' position]|]; [|exact Hroll].
    destruct Hfit as (Hpos & Hplaced' & e & He & Hobj & Hend).
    specialize (IH current' (position :: positions) Hplaced').
    cbn [rollback] in IH. rewrite He, remove_insert in IH by exact Hpos.
    specialize (IH Hroll Hrest). rewrite <- He in IH.
    destruct (placeAll rest current' (position :: positions)) as [[u|err] all'];
      [|exact IH].
    destruct IH as (P1 & P2 & P3 & P4).
    assert (Hlen : length current' = S (length current)).
    { rewrite He. unfold insertAt. rewrite !length_app, length_firstn, length_skipn.
      cbn [length]. lia. }
    split; [exact P1|]. split; [cbn [length]; lia|]. split.
    + intros x Hx. apply P3. rewrite He. apply in_insertAt. right. exact Hx.
    + constructor; [|exact P4]. exists e. split; [|split; assumption].
      apply P3. rewrite He. apply in_insertAt. left. reflexivity.
Qed.

End PlaceAllFacts.

(** X16.  The handles addServices chooses.  When the services of the
    database lie in ascending order, apart from one another and below
    0xffff, and every service to add needs at least one handle, the loop
    either places them all, and then the services of the database are
    again in ascending order, apart and below 0xffff, the former ones
    are kept, and each new one has exactly numberOfHandles handles; or it
    throws, and then allServices is as it was before the call. *)
Theorem addServices_handles_apart (servicesToAdd : list GattDb.Request)
    (allServices : list GattDb.Service) :
  GattDb.placed 0 allServices ->
  Forall (fun s => 1 <= GattDb.numberOfHandles s) servicesToAdd ->
  match GattDb.placeAll servicesToAdd allServices [] with
  | (Js.Ok _, allServices') =>
      GattDb.placed 0 allServices'
      /\ length allServices' = (length allServices + length servicesToAdd)%nat
      /\ (forall e, In e allServices -> In e allServices')
      /\ Forall (fun s =>
                   exists e, In e allServices' /\ GattDb.userObj e = GattDb.reqObj s
                             /\ GattDb.endHandle e
                                = GattDb.startHandle e + GattDb.numberOfHandles s - 1)
           servicesToAdd
  | (Js.Throw _, allServices') => allServices' = allServices
  end.
Proof.
  intros Hplaced Hn.
  exact (placeAll_inv allServices servicesToAdd allServices [] Hplaced eq_refl Hn).
Qed.

Lemma addServices_handles_apart_witness :
  GattDb.placeAll [GattDb.mkRequest 7 None 5; GattDb.mkRequest 8 (Some 0x40) 3]
    [GattDb.mkService 1 1 4; GattDb.mkService 2 5 11] []
  = (Js.Ok tt,
     [GattDb.mkService 1 1 4; GattDb.mkService 2 5 11; GattDb.mkService 7 12 16;
      GattDb.mkService 8 0x40 0x42])
  /\ GattDb.placed 0
       [GattDb.mkService 1 1 4; GattDb.mkService 2 5 11; GattDb.mkService 7 12 16;
        GattDb.mkService 8 0x40 0x42].
Proof.
  pose proof (addServices_handles_apart
                [GattDb.mkRequest 7 None 5; GattDb.mkRequest 8 (Some 0x40) 3]
                [GattDb.mkService 1 1 4; GattDb.mkService 2 5 11]) as H.
  assert (E : GattDb.placeAll [GattDb.mkRequest 7 None 5; GattDb.mkRequest 8 (Some 0x40) 3]
                [GattDb.mkService 1 1 4; GattDb.mkService 2 5 11] []
              = (Js.Ok tt,
                 [GattDb.mkService 1 1 4; GattDb.mkService 2 5 11; GattDb.mkService 7 12 16;
                  GattDb.mkService 8 0x40 0x42])) by reflexivity.
  rewrite E in H. split; [reflexivity|].
  apply H.
  - cbn. lia.
  - repeat constructor; cbn; lia.
Defined.

(** X17.  A proposed start handle is kept when there is room for it: when
    the service to add gives a startHandle p and the handles p to
    p + numberOfHandles - 1 lie between two neighbouring services of the
    database (or before the first, or after the last and below 0xffff),
    the service is placed at p. *)
Theorem proposed_start_handle_is_kept (s : GattDb.Request) (p : Z)
    (pre post : list GattDb.Service) :
  GattDb.placed 0 (pre ++ post) -> 1 <= GattDb.numberOfHandles s ->
  GattDb.proposed s = Some p -> 1 <= p ->
  List.last (List.map GattDb.endHandle pre) 0 < p ->
  p + GattDb.numberOfHandles s
  <= match post with e :: _ => GattDb.startHandle e | [] => 0xffff end ->
  exists allServices' position e,
    GattDb.place (pre ++ post) s = Some (allServices', position)
    /\ In e allServices' /\ GattDb.userObj e = GattDb.reqObj s
    /\ GattDb.startHandle e = p
    /\ GattDb.endHandle e = p + GattDb.numberOfHandles s - 1
    /\ GattDb.placed 0 allServices'.
Proof.
  intros Hplaced Hn Hp Hp1 Hlow Hhigh.
  pose proof (scan_proposal s p pre post Hp Hp1 Hlow Hhigh pre [] 0 0%nat eq_refl) as Hscan.
  cbn [length List.map List.last] in Hscan.
  pose proof (place_fits s Hn (pre ++ post) Hplaced) as Hfit.
  unfold GattDb.place in *.
  destruct (GattDb.scan s ((pre ++ post) ++ [GattDb.mkService 0 0xffff 0]) 0 0 0 0)
    as [c q]. cbn [fst] in Hscan. subst c.
  replace (p =? 0) with false in * by (symmetry; apply Z.eqb_neq; lia).
  destruct Hfit as (_ & Hplaced' & _).
  eexists. eexists. eexists. split; [reflexivity|].
  split; [apply in_insertAt; left; reflexivity|].
  cbn [GattDb.userObj GattDb.startHandle GattDb.endHandle].
  repeat split. exact Hplaced'.
Qed.

Lemma proposed_start_handle_is_kept_witness :
  exists allServices' position e,
    GattDb.place ([GattDb.mkService 1 1 4] ++ [GattDb.mkService 2 0x50 0x60])
      (GattDb.mkRequest 9 (Some 0x20) 6)
    = Some (allServices', position)
    /\ In e allServices' /\ GattDb.userObj e = 9%nat
    /\ GattDb.startHandle e = 0x20
    /\ GattDb.endHandle e = 0x20 + 6 - 1
    /\ GattDb.placed 0 allServices'.
Proof.
  apply (proposed_start_handle_is_kept (GattDb.mkRequest 9 (Some 0x20) 6) 0x20
           [GattDb.mkService 1 1 4] [GattDb.mkService 2 0x50 0x60]);
    cbn; try reflexivity; lia.
Defined.

(** ** The Client Characteristic Configuration descriptor *)

Section CccdFacts.

Lemma two_bytes (l : list Z) :
  length l = 2%nat -> l = [nth 0 l 0; nth 1 l 0].
Proof. destruct l as [|a [|b [|c l]]]; cbn; intros H; try discriminate; reflexivity. Qed.

End CccdFacts.

(** X18.  A write to the Client Characteristic Configuration descriptor.
    A write that is refused calls back with its error and changes
    nothing.  A write that is taken sets the subscription of the
    connection to b, where the two bytes that result are b 0 with b at
    most 3; a read of the descriptor on the same connection then returns
    b 0, notification and indication are only on when the characteristic
    has the property, and the subscriptions of other connections are
    untouched.  What follows depends on the bond: on a bonded connection
    whose value has changed, the call of storage.storeCccd throws a
    TypeError, storage being a module object with the one member
    `default`, so that callback(0) and onSubscriptionChange are not
    reached and nothing is stored; in every other case the callback gets
    0 and onSubscriptionChange the two bits. *)
Theorem cccd_write_then_read (properties : Z) (isBonded : bool) (id : nat) (offset : Z)
    (value : list Z) (cccds : gmap nat Z) :
  0 <= offset -> Forall (fun b => 0 <= b < 256) value ->
  match Cccd.write properties isBonded id offset value cccds with
  | Cccd.Calls err cccds' stored subscription =>
      stored = None
      /\ (err <> 0 -> cccds' = cccds /\ subscription = None)
      /\ (err = 0 ->
          exists b,
            0 <= b <= 3
            /\ firstn (Z.to_nat offset) [Buf.u8 (Cccd.current cccds id); 0] ++ value = [b; 0]
            /\ Cccd.read id 0 cccds' = [b; 0]
            /\ (Num.and b 1 <> 0 -> Num.and properties 0x10 <> 0)
            /\ (Num.and b 2 <> 0 -> Num.and properties 0x20 <> 0)
            /\ (forall other, other <> id -> cccds' !! other = cccds !! other)
            /\ subscription = Some (negb (Num.and b 1 =? 0), negb (Num.and b 2 =? 0))
            /\ (isBonded = true -> [b; 0] = [Buf.u8 (Cccd.current cccds id); 0]))
  | Cccd.Throws e cccds' =>
      e = Js.TypeError /\ isBonded = true
      /\ exists b,
           0 <= b <= 3
           /\ firstn (Z.to_nat offset) [Buf.u8 (Cccd.current cccds id); 0] ++ value = [b; 0]
           /\ Cccd.read id 0 cccds' = [b; 0]
           /\ (Num.and b 1 <> 0 -> Num.and properties 0x10 <> 0)
           /\ (Num.and b 2 <> 0 -> Num.and properties 0x20 <> 0)
           /\ (forall other, other <> id -> cccds' !! other = cccds !! other)
           /\ [b; 0] <> [Buf.u8 (Cccd.current cccds id); 0]
  end.
Proof.
  intros Hoff Hbytes. unfold Cccd.write.
  destruct (offset >? 2) eqn:E2.
  { split; [reflexivity|]. split; [auto|]. intros H; discriminate H. }
  rewrite Z.gtb_ltb in E2. apply Z.ltb_ge in E2.
  destruct (negb (offset + Buf.len value =? 2)) eqn:El.
  { split; [reflexivity|]. split; [auto|]. intros H; discriminate H. }
  apply negb_false_iff in El. apply Z.eqb_eq in El.
  set (prev := [Buf.u8 (Cccd.current cccds id); 0]).
  set (v := firstn (Z.to_nat offset) prev ++ value).
  cbv zeta.
  assert (Hlen : length v = 2%nat).
  { unfold v, Buf.len in *. rewrite length_app, length_firstn. cbn [length prev]. lia. }
  assert (Hv0 : 0 <= nth 0 v 0 < 256).
  { assert (Hall : Forall (fun b => 0 <= b < 256) v).
    { unfold v. apply Forall_app. split; [|exact Hbytes].
      apply Forall_take. unfold prev.
      constructor; [unfold Buf.u8; apply Z.mod_pos_bound; lia|].
      constructor; [lia|constructor]. }
    rewrite (two_bytes v Hlen) in Hall. inversion Hall; assumption. }
  match goal with |- context [if ?c then _ else _] => destruct c eqn:Ec end.
  { split; [reflexivity|]. split; [auto|]. intros H; discriminate H. }
  apply orb_false_iff in Ec as [Ec E3]. apply orb_false_iff in Ec as [Ec E1].
  apply orb_false_iff in Ec as [En Ei].
  apply negb_false_iff in E1. apply Z.eqb_eq in E1.
  rewrite Z.gtb_ltb in E3. apply Z.ltb_ge in E3.
  assert (Hv : v = [nth 0 v 0; 0]) by (rewrite (two_bytes v Hlen) at 1; rewrite E1; reflexivity).
  assert (Hread : Cccd.read id 0 (<[id := nth 0 v 0]> cccds) = [nth 0 v 0; 0]).
  { unfold Cccd.read, Cccd.current. rewrite lookup_insert_eq. cbn [Z.to_nat skipn].
    unfold Buf.u8. rewrite Z.mod_small by lia. reflexivity. }
  assert (Hn : Num.and (nth 0 v 0) 1 <> 0 -> Num.and properties 0x10 <> 0).
  { intros Hb. apply andb_false_iff in En as [E|E].
    - apply negb_false_iff in E. apply Z.eqb_eq in E. congruence.
    - apply Z.eqb_neq in E. exact E. }
  assert (Hi : Num.and (nth 0 v 0) 2 <> 0 -> Num.and properties 0x20 <> 0).
  { intros Hb. apply andb_false_iff in Ei as [E|E].
    - apply negb_false_iff in E. apply Z.eqb_eq in E. congruence.
    - apply Z.eqb_neq in E. exact E. }
  assert (Ho : forall other, other <> id ->
                 <[id := nth 0 v 0]> cccds !! other = cccds !! other).
  { intros other Hne. apply lookup_insert_ne. congruence. }
  change (Cccd.storageHas "constructAddress" && Cccd.storageHas "storeCccd") with false.
  cbv iota.
  destruct (isBonded && negb (bool_decide (prev = v))) eqn:Eb.
  - apply andb_true_iff in Eb as [Eb Ech]. apply negb_true_iff in Ech.
    apply bool_decide_eq_false in Ech.
    split; [reflexivity|]. split; [exact Eb|].
    exists (nth 0 v 0). split; [lia|]. split; [exact Hv|]. split; [exact Hread|].
    split; [exact Hn|]. split; [exact Hi|]. split; [exact Ho|].
    rewrite <- Hv. intros E. apply Ech. symmetry. exact E.
  - split; [reflexivity|]. split; [intros H; congruence|]. intros _.
    exists (nth 0 v 0). split; [lia|]. split; [exact Hv|]. split; [exact Hread|].
    split; [exact Hn|]. split; [exact Hi|]. split; [exact Ho|]. split; [reflexivity|].
    intros ->. cbn [andb] in Eb. apply negb_false_iff in Eb.
    apply bool_decide_eq_true in Eb. rewrite <- Hv. symmetry. exact Eb.
Qed.

Lemma cccd_write_then_read_witness :
  Cccd.write 0x12 true 7 0 [1; 0] ∅ = Cccd.Throws Js.TypeError (<[7%nat := 1]> ∅)
  /\ Cccd.read 7 0 (<[7%nat := 1]> ∅) = [1; 0]
  /\ Cccd.write 0x12 false 7 0 [1; 0] ∅
     = Cccd.Calls 0 (<[7%nat := 1]> ∅) None (Some (true, false)).
Proof.
  pose proof (cccd_write_then_read 0x12 true 7 0 [1; 0] ∅ ltac:(lia)
                ltac:(repeat constructor; lia)) as H.
  change (Cccd.write 0x12 true 7 0 [1; 0] ∅)
    with (Cccd.Throws Js.TypeError (<[7%nat := 1]> ∅)) in H.
  destruct H as (_ & _ & b & _ & Hb & Hr & _).
  injection Hb as <-. split; [reflexivity|]. split; [exact Hr|]. reflexivity.
Defined.

(** ** Storage: the CCCD values of a bonded peer *)

Section CccdStoreFacts.
Import CccdStore.

Lemma nibble_in (a : Z) :
  0 <= a < 16 -> In a [0; 1; 2; 3; 4; 5; 6; 7; 8; 9; 10; 11; 12; 13; 14; 15].
Proof.
  intros H. assert (E : a = 0 \/ a = 1 \/ a = 2 \/ a = 3 \/ a = 4 \/ a = 5 \/ a = 6 \/ a = 7
                       \/ a = 8 \/ a = 9 \/ a = 10 \/ a = 11 \/ a = 12 \/ a = 13 \/ a = 14
                       \/ a = 15) by lia.
  cbn [In]. intuition.
Qed.

(** The name of the file of a handle passes the test of init, and parseInt
    reads the handle from it. *)
Lemma cccdFileName_round_trip (handle : Z) :
  0 <= handle <= 65535 ->
  isCccdFileName (cccdFileName handle) = true
  /\ Num.parseInt16 (cccdFileName handle) = Some handle.
Proof.
  intros H.
  pose (nibbles := [0; 1; 2; 3; 4; 5; 6; 7; 8; 9; 10; 11; 12; 13; 14; 15]).
  pose (ok := fun h => isCccdFileName (cccdFileName h)
                       && match Num.parseInt16 (cccdFileName h) with
                          | Some v => v =? h
                          | None => false
                          end).
  assert (A : forallb (fun a => forallb (fun b => forallb (fun c => forallb (fun d =>
                ok (4096 * a + 256 * b + 16 * c + d)) nibbles) nibbles) nibbles) nibbles
              = true) by (vm_compute; reflexivity).
  rewrite forallb_forall in A.
  specialize (A (handle / 4096) ltac:(apply nibble_in; Z.div_mod_to_equations; lia)).
  rewrite forallb_forall in A.
  specialize (A ((handle / 256) mod 16) ltac:(apply nibble_in; Z.div_mod_to_equations; lia)).
  rewrite forallb_forall in A.
  specialize (A ((handle / 16) mod 16) ltac:(apply nibble_in; Z.div_mod_to_equations; lia)).
  rewrite forallb_forall in A.
  specialize (A (handle mod 16) ltac:(apply nibble_in; Z.div_mod_to_equations; lia)).
  replace (4096 * (handle / 4096) + 256 * ((handle / 256) mod 16)
           + 16 * ((handle / 16) mod 16) + handle mod 16) with handle in A
    by (Z.div_mod_to_equations; lia).
  unfold ok in A. apply andb_true_iff in A as [A1 A2]. split; [exact A1|].
  destruct (Num.parseInt16 (cccdFileName handle)) as [v|]; [|discriminate].
  apply Z.eqb_eq in A2. congruence.
Qed.

Lemma cccdFileName_eqb (k h : Z) :
  0 <= k <= 65535 -> 0 <= h <= 65535 ->
  String.eqb (cccdFileName k) (cccdFileName h) = (k =? h).
Proof.
  intros Hk Hh. destruct (Z.eqb_spec k h) as [->|Hne]; [apply String.eqb_refl|].
  apply String.eqb_neq. intros E.
  pose proof (proj2 (cccdFileName_round_trip k Hk)) as Pk.
  pose proof (proj2 (cccdFileName_round_trip h Hh)) as Ph.
  rewrite E in Pk. congruence.
Qed.

End CccdStoreFacts.

Section CccdStoreInvariant.
Import CccdStore.

Lemma assign_fresh (key : Num.t) (value : Z) (table : Table) :
  lookup key table = None -> assign key value table = table ++ [(key, value)].
Proof.
  induction table as [|[k v] table IH]; intros H; [reflexivity|].
  cbn [lookup] in H. cbn [assign app]. destruct (sameKey k key); [discriminate|].
  rewrite IH by exact H. reflexivity.
Qed.

Lemma lookup_app_fresh (key : Num.t) (table rest : Table) :
  lookup key table = None -> lookup key (table ++ rest) = lookup key rest.
Proof.
  induction table as [|[k v] table IH]; intros H; [reflexivity|].
  cbn [lookup app] in *. destruct (sameKey k key); [discriminate|]. apply IH. exact H.
Qed.

(** The table of a peer and its directory, entry by entry: every handle
    is in range, every value is one of 0..3, no handle comes twice, and
    the directory holds one file for each entry, in the same order. *)
Lemma store_keeps_files (handle value : Z) (table : Table) :
  0 <= handle <= 65535 -> 0 <= value <= 3 ->
  Forall (fun e => exists h, fst e = Some h /\ 0 <= h <= 65535 /\ 0 <= snd e <= 3) table ->
  Forall (fun e => exists h, fst e = Some h /\ 0 <= h <= 65535 /\ 0 <= snd e <= 3)
    (assign (Some handle) value table)
  /\ writeFile (cccdFileName handle) (Js.VNum value)
       (List.map (fun e => (cccdFileName (default 0 (fst e)), Js.VNum (snd e))) table)
     = List.map (fun e => (cccdFileName (default 0 (fst e)), Js.VNum (snd e)))
         (assign (Some handle) value table)
  /\ (forall key, key <> Some handle ->
        lookup key (assign (Some handle) value table) = lookup key table)
  /\ lookup (Some handle) (assign (Some handle) value table) = Some value.
Proof.
  intros Hh Hv. induction table as [|[k v] table IH]; intros Hall.
  - cbn [assign List.map writeFile lookup sameKey]. rewrite Z.eqb_refl.
    split; [repeat constructor; exists handle; cbn; auto|].
    split; [reflexivity|]. split; [|reflexivity].
    intros key Hk. destruct key as [x|]; cbn [sameKey]; [|reflexivity].
    destruct (Z.eqb_spec handle x); [congruence|reflexivity].
  - inversion Hall as [|? ? (h & Ek & Hr & Hvv) Hrest]; subst. cbn [fst snd] in *. subst k.
    destruct (IH Hrest) as (I1 & I2 & I3 & I4).
    cbn [assign List.map writeFile lookup sameKey fst snd].
    change (default 0 (Some h)) with h.
    rewrite (cccdFileName_eqb h handle Hr Hh).
    destruct (Z.eqb_spec h handle) as [->|Hne].
    + cbn [List.map fst snd lookup sameKey]. rewrite Z.eqb_refl.
      split; [constructor; [exists handle; cbn; auto|exact Hrest]|].
      split; [reflexivity|]. split; [|reflexivity].
      intros key Hk. destruct key as [x|]; cbn [sameKey]; [|reflexivity].
      destruct (Z.eqb_spec handle x); [congruence|reflexivity].
    + cbn [List.map fst snd lookup sameKey].
      replace (h =? handle) with false by (symmetry; apply Z.eqb_neq; exact Hne).
      split; [constructor; [exists h; cbn; auto|exact I1]|].
      split; [rewrite I2; reflexivity|]. split; [|exact I4].
      intros key Hk. rewrite (I3 key Hk). reflexivity.
Qed.

Lemma load_files (table : Table) :
  Forall (fun e => exists h, fst e = Some h /\ 0 <= h <= 65535 /\ 0 <= snd e <= 3) table ->
  forall (loaded : option Table) (acc : Table),
    ((loaded = None /\ acc = []) \/ loaded = Some acc) ->
    (forall e, In e table -> lookup (fst e) acc = None) ->
    List.NoDup (List.map fst table) ->
    table <> [] ->
    loadCccds (List.map (fun e => (cccdFileName (default 0 (fst e)), Js.VNum (snd e))) table)
      loaded
    = Some (acc ++ table).
Proof.
  induction 1 as [|[k v] table (h & Ek & Hr & Hv) Hrest IH];
    intros loaded acc Hloaded Hfresh Hnd Hne; [exfalso; apply Hne; reflexivity|].
  cbn [fst snd] in *. subst k. cbn [List.map loadCccds fst snd].
  change (default 0 (Some h)) with h.
  destruct (cccdFileName_round_trip h Hr) as [A B]. rewrite A, B.
  replace ((v =? 0) || (v =? 1) || (v =? 2) || (v =? 3)) with true.
  2:{ symmetry. assert (E : v = 0 \/ v = 1 \/ v = 2 \/ v = 3) by lia.
      destruct E as [->|[->|[->| ->]]]; reflexivity. }
  assert (Hacc : match loaded with Some t => t | None => [] end = acc).
  { destruct Hloaded as [[-> ->]| ->]; reflexivity. }
  rewrite Hacc. clear Hacc Hloaded.
  rewrite assign_fresh by (apply (Hfresh (Some h, v)); left; reflexivity).
  cbn [List.map fst] in Hnd. apply List.NoDup_cons_iff in Hnd as [Hnotin Hnd'].
  destruct table as [|e table].
  - cbn [List.map loadCccds]. reflexivity.
  - transitivity (Some ((acc ++ [(Some h, v)]) ++ e :: table));
      [|rewrite <- app_assoc; reflexivity].
    apply (IH (Some (acc ++ [(Some h, v)])) (acc ++ [(Some h, v)]));
      [right; reflexivity| |exact Hnd'|discriminate].
    intros e' He'. rewrite lookup_app_fresh by (apply Hfresh; right; exact He').
    cbn [lookup]. destruct (sameKey (Some h) (fst e')) eqn:Es; [|reflexivity].
    exfalso. apply Hnotin. apply in_map_iff. exists e'. split; [|exact He'].
    destruct (fst e') as [x|]; cbn [sameKey] in Es; [|discriminate].
    apply Z.eqb_eq in Es. congruence.
Qed.

Lemma assign_keys (handle value : Z) (table : Table) :
  List.NoDup (List.map fst table) -> List.NoDup (List.map fst (assign (Some handle) value table))
  /\ (forall key, In key (List.map fst (assign (Some handle) value table)) ->
        key = Some handle \/ In key (List.map fst table))
  /\ assign (Some handle) value table <> [].
Proof.
  induction table as [|[k v] table IH]; intros Hnd.
  - cbn. split; [constructor; [intros []|constructor]|]. split; [intuition|discriminate].
  - cbn [assign]. cbn [List.map fst] in Hnd.
    apply List.NoDup_cons_iff in Hnd as [Hnotin Hnd'].
    destruct (sameKey k (Some handle)) eqn:Es.
    + cbn [List.map fst]. split; [constructor; assumption|].
      split; [intros key Hk; right; exact Hk|discriminate].
    + destruct (IH Hnd') as (I1 & I2 & _). cbn [List.map fst].
      split; [|split; [|discriminate]].
      * constructor; [|exact I1]. intros Hin. destruct (I2 k Hin) as [E|E]; [|auto].
        subst k. cbn [sameKey] in Es. rewrite Z.eqb_refl in Es. discriminate.
      * intros key [E|Hk]; [right; left; exact E|].
        destruct (I2 key Hk) as [E|E]; [left; exact E|right; right; exact E].
Qed.

Lemma storeAll_inv (writes : list (Z * Z)) :
  Forall (fun w => 0 <= fst w <= 65535 /\ 0 <= snd w <= 3) writes ->
  forall (st : option Table * Files) (table : Table),
    ((fst st = None /\ table = []) \/ (fst st = Some table /\ table <> [])) ->
    snd st = List.map (fun e => (cccdFileName (default 0 (fst e)), Js.VNum (snd e))) table ->
    Forall (fun e => exists h, fst e = Some h /\ 0 <= h <= 65535 /\ 0 <= snd e <= 3) table ->
    List.NoDup (List.map fst table) ->
    exists table',
      ((fst (storeAll writes st) = None /\ table' = [])
       \/ (fst (storeAll writes st) = Some table' /\ table' <> []))
      /\ snd (storeAll writes st)
         = List.map (fun e => (cccdFileName (default 0 (fst e)), Js.VNum (snd e))) table'
      /\ Forall (fun e => exists h, fst e = Some h /\ 0 <= h <= 65535 /\ 0 <= snd e <= 3)
           table'
      /\ List.NoDup (List.map fst table').
Proof.
  induction 1 as [|[handle value] writes [Hh Hv] _ IH]; intros st table Hst Hfiles Hall Hnd.
  - exists table. cbn [storeAll]. auto.
  - cbn [fst snd] in Hh, Hv. cbn [storeAll].
    assert (Htable : match fst st with Some t => t | None => [] end = table).
    { destruct Hst as [[-> ->]|[-> _]]; reflexivity. }
    destruct (store_keeps_files handle value table Hh Hv Hall) as (S1 & S2 & _ & _).
    destruct (assign_keys handle value table Hnd) as (K1 & _ & K3).
    unfold storeCccd. rewrite Htable.
    destruct (lookup (Some handle) table) as [v|] eqn:El.
    + destruct (v =? value) eqn:Ev.
      * apply (IH _ table); cbn [fst snd]; try assumption.
        right. split; [reflexivity|]. intros ->. discriminate El.
      * apply (IH _ (assign (Some handle) value table)); cbn [fst snd]; try assumption.
        -- right. split; [reflexivity|exact K3].
        -- rewrite Hfiles. exact S2.
    + apply (IH _ (assign (Some handle) value table)); cbn [fst snd]; try assumption.
      * right. split; [reflexivity|exact K3].
      * rewrite Hfiles. exact S2.
Qed.

Lemma sameKey_eq (a b : Num.t) : sameKey a b = true <-> a = b.
Proof.
  destruct a as [x|], b as [y|]; cbn [sameKey]; try (split; congruence).
  rewrite Z.eqb_eq. split; congruence.
Qed.

Lemma lookup_in (key : Num.t) (v : Z) (table : Table) :
  List.NoDup (List.map fst table) -> (lookup key table = Some v <-> In (key, v) table).
Proof.
  induction table as [|[k w] table IH]; intros Hnd; [split; [discriminate|intros []]|].
  cbn [List.map fst] in Hnd. apply List.NoDup_cons_iff in Hnd as [Hnotin Hnd'].
  cbn [lookup]. destruct (sameKey k key) eqn:Es.
  - apply sameKey_eq in Es. subst k. split.
    + intros E. left. congruence.
    + intros [E|Hin]; [congruence|].
      exfalso. apply Hnotin. apply in_map_iff. exists (key, v). auto.
  - rewrite (IH Hnd'). split; [intros Hin; right; exact Hin|].
    intros [E|Hin]; [|exact Hin]. inversion E; subst.
    assert (Et : sameKey key key = true) by (apply sameKey_eq; reflexivity). congruence.
Qed.

(** The order of the entries of a table does not matter for a lookup. *)
Lemma lookup_permutation (key : Num.t) (table table' : Table) :
  List.NoDup (List.map fst table) -> Permutation table table' ->
  lookup key table' = lookup key table.
Proof.
  intros Hnd Hp.
  assert (Hnd' : List.NoDup (List.map fst table')).
  { apply (Permutation_NoDup (Permutation_map fst Hp)). exact Hnd. }
  destruct (lookup key table) as [v|] eqn:E.
  - apply (lookup_in key v table' Hnd'). apply (Permutation_in _ Hp).
    apply (lookup_in key v table Hnd). exact E.
  - destruct (lookup key table') as [v|] eqn:E'; [|reflexivity].
    apply (lookup_in key v table' Hnd') in E'.
    apply (Permutation_in _ (Permutation_sym Hp)) in E'.
    apply (lookup_in key v table Hnd) in E'. congruence.
Qed.

End CccdStoreInvariant.

(** X19.  The CCCD values of a bonded peer survive a restart.  After any
    calls of storeCccd, with handles of 16 bits and values 0 to 3, on a
    peer that had no values and no files, the files written are such that
    init, run in a fresh process on the directory, in whatever order
    readdirSync lists the files, loads a table from which getCccd answers
    for every handle what it answered before the restart. *)
Theorem cccd_values_survive_restart (writes : list (Z * Z)) (listing : CccdStore.Files)
    (handle : Z) :
  Forall (fun w => 0 <= fst w <= 65535 /\ 0 <= snd w <= 3) writes ->
  Permutation (snd (CccdStore.storeAll writes (None, []))) listing ->
  CccdStore.getCccd handle (CccdStore.loadCccds listing None)
  = CccdStore.getCccd handle (fst (CccdStore.storeAll writes (None, []))).
Proof.
  intros Hw Hp.
  destruct (storeAll_inv writes Hw (None, []) [] (or_introl (conj eq_refl eq_refl))
              eq_refl (List.Forall_nil _) (List.NoDup_nil _))
    as (table & Hst & Hfiles & Hall & Hnd).
  rewrite Hfiles in Hp. apply Permutation_sym, Permutation_map_inv in Hp.
  destruct Hp as (table' & -> & Hp).
  destruct Hst as [[-> ->]|[-> Hne]].
  - apply Permutation_nil in Hp. subst table'. reflexivity.
  - assert (Hall' : Forall (fun e => exists h, fst e = Some h /\ 0 <= h <= 65535
                                      /\ 0 <= snd e <= 3) table').
    { apply (Permutation_Forall Hp). exact Hall. }
    assert (Hnd' : List.NoDup (List.map fst table')).
    { apply (Permutation_NoDup (Permutation_map fst Hp)). exact Hnd. }
    assert (Hne' : table' <> []).
    { intros ->. apply Permutation_sym, Permutation_nil in Hp. exact (Hne Hp). }
    rewrite (load_files table' Hall' None [] (or_introl (conj eq_refl eq_refl))
               (fun _ _ => eq_refl) Hnd' Hne').
    cbn [CccdStore.getCccd app]. apply lookup_permutation; assumption.
Qed.

Lemma cccd_values_survive_restart_witness :
  CccdStore.getCccd 0x2a
    (CccdStore.loadCccds [("0010.json", Js.VNum 2); ("002a.json", Js.VNum 3)]%string None)
  = Some 3.
Proof.
  rewrite (cccd_values_survive_restart [(0x2a, 1); (0x10, 2); (0x2a, 3)]
             [("0010.json", Js.VNum 2); ("002a.json", Js.VNum 3)]%string 0x2a).
  - reflexivity.
  - repeat constructor; cbn; lia.
  - vm_compute. apply perm_swap.
Defined.

(** ** Long writes: PREPARE_WRITE and EXECUTE_WRITE *)

Section LongWriteFacts.

Import AttWrite.

Lemma enqueue_first (item : Db.Item) (handle offset : Z) (value : list Z) :
  enqueue item handle offset value [] = [mkElem item handle offset value].
Proof. reflexivity. Qed.

Lemma enqueue_next (item : Db.Item) (handle offset : Z) (data value : list Z)
    (before : list Elem) :
  enqueue item handle (offset + Buf.len data) value
    (before ++ [mkElem item handle offset data])
  = before ++ [mkElem item handle offset (data ++ value)].
Proof.
  unfold enqueue. rewrite rev_unit. cbn [AttWrite.handle AttWrite.offset AttWrite.data
    AttWrite.item]. rewrite !Z.eqb_refl. cbn [andb]. rewrite rev_involutive. reflexivity.
Qed.

Lemma handleExecuteWrite_execute (sv : Server) :
  prepareWriteQueue sv <> [] ->
  handleExecuteWrite Att.EXECUTE_WRITE_REQUEST (WriteClient.executeWriteRequest true) sv
  = match firstOutOfRange (prepareWriteQueue sv) with
    | Some (elem, err) =>
        Returns
          (mkServer
             (Att.sendErrorResponse Att.EXECUTE_WRITE_REQUEST (AttWrite.handle elem) err (att sv))
             [] 0)
    | None => Throws Js.TypeError (withAtt (Att.setHandlingRequest true) sv)
    end.
Proof.
  intros Hne. unfold handleExecuteWrite.
  change (negb (Buf.len (WriteClient.executeWriteRequest true) =? 2)
          || (nth 1 (WriteClient.executeWriteRequest true) 0 >? 1)) with false.
  change (nth 1 (WriteClient.executeWriteRequest true) 0 =? 0) with false.
  cbv iota zeta. cbn [orb].
  replace (Z.of_nat (length (prepareWriteQueue sv)) =? 0) with false; [reflexivity|].
  symmetry. apply Z.eqb_neq. destruct (prepareWriteQueue sv); [congruence|cbn [length]; lia].
Qed.

Variable fuel : nat.
Variable attDb : Db.T.
Variable conn : Att.Connection.
Variable handle : Z.
Variable item : Db.Item.
Variable authorize : Z -> Z -> list Z -> option Z.

Hypothesis handle_range : 0 <= handle <= 65535.
Hypothesis item_at : Db.get attDb handle = Some item.
Hypothesis writable : Att.checkPerm conn (Db.writePerm item) true = 0.
Hypothesis has_authorize : Db.authorizeWrite item = Some authorize.
Hypothesis accepts : forall opcode offset value, authorize opcode offset value = Some 0.

(** A PREPARE_WRITE request at an idle server with room in its queue *)
Lemma serve_prepare (sv : Server) (offset : Z) (part : list Z) :
  Link.idle (att sv) -> 23 <= Att.currentMtu (att sv) <= 517 ->
  0 <= offset <= 65535 -> Buf.len part <= Att.currentMtu (att sv) - 5 ->
  prepareWriteQueueSize sv < 128 ->
  exists s',
    serve fuel attDb conn
      ([Att.PREPARE_WRITE_REQUEST] ++ Buf.uint16LE handle ++ Buf.uint16LE offset ++ part) sv
    = Some (Att.PREPARE_WRITE_RESPONSE :: Buf.uint16LE handle ++ Buf.uint16LE offset ++ part,
            mkServer s' (enqueue item handle offset part (prepareWriteQueue sv))
              (prepareWriteQueueSize sv + 1))
    /\ Link.idle s' /\ Att.currentMtu s' = Att.currentMtu (att sv).
Proof.
  intros Hidle Hmtu Hoff Hpart Hsize. pose proof Hidle as (Ht & Hh & Hc).
  destruct sv as [s queue size]. cbn [att prepareWriteQueue prepareWriteQueueSize] in *.
  set (mtu := Att.currentMtu s) in *.
  set (request := [Att.PREPARE_WRITE_REQUEST] ++ Buf.uint16LE handle ++ Buf.uint16LE offset
                    ++ part).
  set (resp := Att.PREPARE_WRITE_RESPONSE :: Buf.uint16LE handle ++ Buf.uint16LE offset
                 ++ part).
  destruct (respond_idle resp s Hidle) as (T & I & M & R).
  exists (Att.runSentCallback Att.OnResponseSent (Att.sendResponse resp s)).
  split; [|split; [exact I|exact M]].
  assert (Hlen : Buf.len request = 5 + Buf.len part).
  { unfold Buf.len, request, Buf.uint16LE. cbn [length app]. lia. }
  assert (R1 : Buf.readUInt16LE 1 request = handle).
  { unfold Buf.readUInt16LE, request, Buf.uint16LE. cbn [nth app].
    Z.div_mod_to_equations; lia. }
  assert (R3 : Buf.readUInt16LE 3 request = offset).
  { unfold Buf.readUInt16LE, request, Buf.uint16LE. cbn [nth app].
    Z.div_mod_to_equations; lia. }
  unfold serve, onData. cbn [att]. rewrite Ht, Hc. fold mtu. rewrite Hlen.
  replace (5 + Buf.len part =? 0) with false
    by (symmetry; apply Z.eqb_neq; unfold Buf.len; lia).
  replace (5 + Buf.len part >? mtu) with false
    by (symmetry; rewrite Z.gtb_ltb; apply Z.ltb_ge; lia).
  cbv iota. change (nth 0 request 0) with Att.PREPARE_WRITE_REQUEST.
  unfold dispatch. cbn [att]. rewrite Hh.
  change (Att.isKnownResponseOpcode Att.PREPARE_WRITE_REQUEST) with false.
  cbn [andb]. change (Att.PREPARE_WRITE_REQUEST =? Att.PREPARE_WRITE_REQUEST) with true.
  cbv iota. unfold handlePrepareWrite. rewrite Hlen.
  replace (5 + Buf.len part <? 5) with false
    by (symmetry; apply Z.ltb_ge; unfold Buf.len; lia).
  cbv iota zeta. rewrite R1, R3, item_at, writable.
  change (negb (0 =? 0)) with false. cbv iota.
  unfold withAtt. cbn [att prepareWriteQueue prepareWriteQueueSize].
  replace (size >=? 128) with false by (symmetry; rewrite Z.geb_leb; apply Z.leb_gt; lia).
  cbv iota. rewrite has_authorize, accepts. change (negb (0 =? 0)) with false. cbv iota.
  change (skipn 5 request) with part.
  change (Att.PREPARE_WRITE_RESPONSE :: skipn 1 request) with resp.
  rewrite R. cbn [att]. rewrite T. reflexivity.
Qed.

(** What the parser of prepareWrite makes of the echo *)
Lemma prepare_echo_accepted (mtu offset : Z) (part : list Z) :
  0 <= Buf.len part <= mtu - 5 ->
  let request := [Att.PREPARE_WRITE_REQUEST] ++ Buf.uint16LE handle ++ Buf.uint16LE offset
                   ++ part in
  AttClient.deliver mtu request (WriteClient.prepareWriteParser request)
    (Att.PREPARE_WRITE_RESPONSE :: skipn 1 request)
  = AttClient.Done true.
Proof.
  intros Hpart request.
  set (resp := Att.PREPARE_WRITE_RESPONSE :: skipn 1 request).
  assert (Hrl : Buf.len resp = 5 + Buf.len part).
  { unfold Buf.len, resp, request, Buf.uint16LE. cbn [length app skipn]. lia. }
  unfold AttClient.deliver. rewrite Hrl.
  replace (5 + Buf.len part =? 0) with false by (symmetry; apply Z.eqb_neq; lia).
  replace (5 + Buf.len part >? mtu) with false
    by (symmetry; rewrite Z.gtb_ltb; apply Z.ltb_ge; lia).
  cbv iota. change (nth 0 resp 0) with Att.PREPARE_WRITE_RESPONSE.
  change (nth 0 request 0 + 1) with Att.PREPARE_WRITE_RESPONSE.
  change (Att.PREPARE_WRITE_RESPONSE =? Att.PREPARE_WRITE_RESPONSE) with true.
  change (Att.PREPARE_WRITE_RESPONSE =? Att.ERROR_RESPONSE) with false.
  cbn [orb andb]. cbv iota. unfold WriteClient.prepareWriteParser.
  change (negb (0 =? 0)) with false. cbv iota. rewrite Hrl.
  replace (5 + Buf.len part <? 5) with false by (symmetry; apply Z.ltb_ge; lia).
  change (skipn 1 resp) with (skipn 1 request).
  rewrite bool_decide_eq_true_2 by reflexivity. reflexivity.
Qed.

Lemma echoes_accepted (mtu : Z) (parts : list (list Z)) :
  Forall (fun part => Buf.len part <= mtu - 5) parts ->
  forall offset : Z,
    Forall (fun request =>
              AttClient.deliver mtu request (WriteClient.prepareWriteParser request)
                (Att.PREPARE_WRITE_RESPONSE :: skipn 1 request)
              = AttClient.Done true)
      (prepareRequests handle offset parts).
Proof.
  induction parts as [|part rest IH]; intros Hparts offset; [constructor|].
  apply Forall_cons_iff in Hparts as [Hpart Hrest].
  cbn [prepareRequests]. constructor.
  - apply prepare_echo_accepted. unfold Buf.len in *. lia.
  - apply IH. exact Hrest.
Qed.

(** EXECUTE_WRITE at an idle server goes to its handler. *)
Lemma onData_execute (sv : Server) :
  Link.idle (att sv) -> 23 <= Att.currentMtu (att sv) <= 517 ->
  onData fuel attDb conn (WriteClient.executeWriteRequest true) sv
  = handleExecuteWrite Att.EXECUTE_WRITE_REQUEST (WriteClient.executeWriteRequest true) sv.
Proof.
  intros (Ht & Hh & Hc) Hmtu. unfold onData. rewrite Ht, Hc.
  change (Buf.len (WriteClient.executeWriteRequest true)) with 2.
  change (2 =? 0) with false. cbv iota.
  replace (2 >? Att.currentMtu (att sv)) with false
    by (symmetry; rewrite Z.gtb_ltb; apply Z.ltb_ge; lia).
  cbv iota. change (nth 0 (WriteClient.executeWriteRequest true) 0)
    with Att.EXECUTE_WRITE_REQUEST.
  unfold dispatch. rewrite Hh. reflexivity.
Qed.

(** The parts of a value, prepared one after the other, gather in the
    last element of the queue. *)
Lemma serveAll_prepares (parts : list (list Z)) :
  forall (sv : Server) (before : list Elem) (start : Z) (acc : list Z),
    Link.idle (att sv) -> 23 <= Att.currentMtu (att sv) <= 517 ->
    prepareWriteQueue sv = before ++ [mkElem item handle start acc] ->
    0 <= start -> start + Buf.len acc + Buf.len (concat parts) <= 65535 ->
    0 <= prepareWriteQueueSize sv ->
    prepareWriteQueueSize sv + Z.of_nat (length parts) <= 128 ->
    Forall (fun part => Buf.len part <= Att.currentMtu (att sv) - 5) parts ->
    exists sv',
      serveAll fuel attDb conn (prepareRequests handle (start + Buf.len acc) parts) sv
      = Some (List.map (fun request => Att.PREPARE_WRITE_RESPONSE :: skipn 1 request)
                (prepareRequests handle (start + Buf.len acc) parts),
              sv')
      /\ prepareWriteQueue sv' = before ++ [mkElem item handle start (acc ++ concat parts)]
      /\ prepareWriteQueueSize sv' = prepareWriteQueueSize sv + Z.of_nat (length parts)
      /\ Link.idle (att sv')
      /\ Att.currentMtu (att sv') = Att.currentMtu (att sv).
Proof.
  induction parts as [|part rest IH];
    intros sv before start acc Hidle Hmtu Hqueue Hstart Hend Hsize0 Hsize Hparts.
  - exists sv. cbn [prepareRequests serveAll List.map concat length]. rewrite app_nil_r.
    split; [reflexivity|]. split; [exact Hqueue|]. split; [lia|]. split; [exact Hidle|].
    reflexivity.
  - apply Forall_cons_iff in Hparts as [Hpart Hparts].
    cbn [concat] in Hend.
    assert (Hl : Buf.len (part ++ concat rest) = Buf.len part + Buf.len (concat rest))
      by (unfold Buf.len; rewrite length_app; lia).
    assert (Hp0 : 0 <= Buf.len part) by (unfold Buf.len; lia).
    assert (Ha0 : 0 <= Buf.len acc) by (unfold Buf.len; lia).
    assert (Hr0 : 0 <= Buf.len (concat rest)) by (unfold Buf.len; lia).
    cbn [length] in Hsize.
    destruct (serve_prepare sv (start + Buf.len acc) part Hidle Hmtu ltac:(lia) Hpart
                ltac:(lia)) as (s1 & Hs & Hidle1 & Hm1).
    rewrite Hqueue, enqueue_next in Hs.
    set (sv1 := mkServer s1 (before ++ [mkElem item handle start (acc ++ part)])
                  (prepareWriteQueueSize sv + 1)) in *.
    assert (Hl1 : Buf.len (acc ++ part) = Buf.len acc + Buf.len part)
      by (unfold Buf.len; rewrite length_app; lia).
    destruct (IH sv1 before start (acc ++ part)) as (sv' & Hall & Hq & Hsz & Hidle' & Hm');
      try (cbn [att prepareWriteQueue prepareWriteQueueSize sv1]; first
             [assumption|reflexivity|lia|rewrite Hm1; assumption]).
    rewrite Hl1, Z.add_assoc in Hall.
    exists sv'. cbn [prepareRequests serveAll List.map concat length].
    rewrite Hs, Hall. split; [reflexivity|].
    split; [rewrite Hq, <- app_assoc; reflexivity|].
    split; [rewrite Hsz; cbn [prepareWriteQueueSize sv1]; lia|].
    split; [exact Hidle'|]. rewrite Hm'. exact Hm1.
Qed.

End LongWriteFacts.

(** X20.  Prepared writes are gathered and never executed.  An idle
    server with an empty prepare queue gets PREPARE_WRITE requests for one
    attribute that is writable on the connection and authorizes every
    write; the requests carry a value in at most 128 parts, each within
    the MTU, the first at an offset and every other one where the part
    before it ends.  The server echoes every request, and the client's
    parser of prepareWrite takes each echo for a match; the queue then
    holds one element with the handle, the first offset and the parts
    joined, and the count of requests is the number of parts.  The
    EXECUTE_WRITE request that follows gets INVALID_OFFSET or
    INVALID_ATTRIBUTE_VALUE_LENGTH, with the queue emptied, when the value
    ends beyond maxLength.  Otherwise its handler throws a TypeError
    before the write function of the attribute is called: no response is
    sent, the queue stays as it is, and the server is left handling the
    request. *)
Theorem prepared_writes_are_never_executed (fuel : nat) (attDb : Db.T)
    (conn : Att.Connection) (sv : AttWrite.Server) (handle offset : Z) (item : Db.Item)
    (authorize : Z -> Z -> list Z -> option Z) (parts : list (list Z)) :
  Att.timedout (AttWrite.att sv) = false ->
  Att.isHandlingRequest (AttWrite.att sv) = false ->
  Att.currentOutgoingRequest (AttWrite.att sv) = None ->
  23 <= Att.currentMtu (AttWrite.att sv) <= 517 ->
  AttWrite.prepareWriteQueue sv = [] -> AttWrite.prepareWriteQueueSize sv = 0 ->
  0 <= handle <= 65535 -> Db.get attDb handle = Some item ->
  Att.checkPerm conn (Db.writePerm item) true = 0 ->
  Db.authorizeWrite item = Some authorize ->
  (forall opcode offset part, authorize opcode offset part = Some 0) ->
  0 <= offset -> offset + Buf.len (concat parts) <= 65535 ->
  parts <> [] -> (length parts <= 128)%nat ->
  Forall (fun part => Buf.len part <= Att.currentMtu (AttWrite.att sv) - 5) parts ->
  let requests := AttWrite.prepareRequests handle offset parts in
  let echo := fun request => Att.PREPARE_WRITE_RESPONSE :: skipn 1 request in
  exists sv',
    AttWrite.serveAll fuel attDb conn requests sv = Some (List.map echo requests, sv')
    /\ Forall (fun request =>
                 AttClient.deliver (Att.currentMtu (AttWrite.att sv)) request
                   (WriteClient.prepareWriteParser request) (echo request)
                 = AttClient.Done true) requests
    /\ AttWrite.prepareWriteQueue sv' = [AttWrite.mkElem item handle offset (concat parts)]
    /\ AttWrite.prepareWriteQueueSize sv' = Z.of_nat (length parts)
    /\ AttWrite.onData fuel attDb conn (WriteClient.executeWriteRequest true) sv'
       = (if offset >? Db.maxLength item then
            AttWrite.Returns
              (AttWrite.mkServer
                 (Att.sendErrorResponse Att.EXECUTE_WRITE_REQUEST handle
                    AttErrors.INVALID_OFFSET (AttWrite.att sv')) [] 0)
          else if offset + Buf.len (concat parts) >? Db.maxLength item then
            AttWrite.Returns
              (AttWrite.mkServer
                 (Att.sendErrorResponse Att.EXECUTE_WRITE_REQUEST handle
                    AttErrors.INVALID_ATTRIBUTE_VALUE_LENGTH (AttWrite.att sv')) [] 0)
          else AttWrite.Throws Js.TypeError
                 (AttWrite.withAtt (Att.setHandlingRequest true) sv')).
Proof.
  intros Ht Hh Hc Hmtu Hqueue Hsize Hhandle Hitem Hperm Hauth Hacc Hoff Hend Hne Hcount
    Hparts requests echo.
  assert (Hidle : Link.idle (AttWrite.att sv)) by (repeat split; assumption).
  destruct parts as [|part rest]; [congruence|]. clear Hne.
  pose proof Hparts as Hparts0.
  apply Forall_cons_iff in Hparts as [Hpart Hrest].
  cbn [concat] in Hend.
  assert (Hl : Buf.len (part ++ concat rest) = Buf.len part + Buf.len (concat rest))
    by (unfold Buf.len; rewrite length_app; lia).
  assert (Hp0 : 0 <= Buf.len part) by (unfold Buf.len; lia).
  assert (Hr0 : 0 <= Buf.len (concat rest)) by (unfold Buf.len; lia).
  cbn [length] in Hcount.
  destruct (serve_prepare fuel attDb conn handle item authorize Hhandle Hitem Hperm Hauth Hacc
              sv offset part Hidle Hmtu ltac:(lia) Hpart ltac:(lia))
    as (s1 & Hs & Hidle1 & Hm1).
  rewrite Hqueue, enqueue_first, Hsize in Hs.
  set (sv1 := AttWrite.mkServer s1 [AttWrite.mkElem item handle offset part] (0 + 1)) in *.
  destruct (serveAll_prepares fuel attDb conn handle item authorize Hhandle Hitem Hperm Hauth
              Hacc rest sv1 [] offset part)
    as (sv' & Hall & Hq & Hsz & Hidle' & Hm');
    try (cbn [AttWrite.att AttWrite.prepareWriteQueue AttWrite.prepareWriteQueueSize sv1];
         first [assumption|reflexivity|lia|rewrite Hm1; assumption]).
  cbn [app AttWrite.prepareWriteQueueSize sv1 AttWrite.att] in Hq, Hsz, Hm'.
  exists sv'. subst requests. cbn [AttWrite.prepareRequests AttWrite.serveAll List.map].
  rewrite Hs, Hall. split; [reflexivity|]. split.
  { exact (echoes_accepted handle _ (part :: rest) Hparts0 offset). }
  split; [exact Hq|]. split; [rewrite Hsz; cbn [length]; lia|].
  rewrite onData_execute by (rewrite ?Hm', ?Hm1; assumption).
  rewrite handleExecuteWrite_execute by (rewrite Hq; discriminate).
  rewrite Hq. cbn [AttWrite.firstOutOfRange AttWrite.offset AttWrite.item AttWrite.data
    AttWrite.handle concat].
  destruct (offset >? Db.maxLength item); [reflexivity|].
  destruct (offset + Buf.len (part ++ concat rest) >? Db.maxLength item); reflexivity.
Qed.

Lemma prepared_writes_are_never_executed_witness :
  let item := Db.mkItem None None "6E400002-B5A3-F393-E0A9-E50E24DCCA9E" None 512
                Att.NotPermitted Att.Open (Db.defaultRead None)
                (Some (fun _ _ _ => Some 0)) (Some (fun _ _ _ => Some 0)) in
  let attDb := [None; None; None; Some item] in
  let sv := AttWrite.mkServer Att.initial [] 0 in
  exists sv',
    AttWrite.serveAll 0 attDb Scenario.plainConnection
      [[0x16; 3; 0; 0; 0; 1; 2; 3]; [0x16; 3; 0; 3; 0; 4; 5]] sv
    = Some ([[0x17; 3; 0; 0; 0; 1; 2; 3]; [0x17; 3; 0; 3; 0; 4; 5]], sv')
    /\ AttWrite.prepareWriteQueue sv' = [AttWrite.mkElem item 3 0 [1; 2; 3; 4; 5]]
    /\ AttWrite.onData 0 attDb Scenario.plainConnection [0x18; 1] sv'
       = AttWrite.Throws Js.TypeError (AttWrite.withAtt (Att.setHandlingRequest true) sv').
Proof.
  intros item attDb sv.
  destruct (prepared_writes_are_never_executed 0 attDb Scenario.plainConnection sv 3 0 item
              (fun _ _ _ => Some 0) [[1; 2; 3]; [4; 5]])
    as (sv' & Hall & _ & Hq & _ & Hexec);
    try reflexivity; try discriminate; try (cbn; lia).
  - constructor; [vm_compute; discriminate|].
    constructor; [vm_compute; discriminate|constructor].
  - exists sv'. split; [exact Hall|]. split; [exact Hq|exact Hexec].
Defined.

(** ** removeService *)

Section RemoveFacts.

Import GattDb RemoveService.

Lemma nth_hole (n j : nat) (l : Db.T) :
  (n < length l)%nat ->
  nth j (firstn n l ++ [None] ++ skipn (S n) l) None
  = if Nat.eqb j n then None else nth j l None.
Proof.
  revert j l. induction n as [|n IH]; intros j l Hn.
  - destruct l as [|x l]; [cbn in Hn; lia|]. destruct j; reflexivity.
  - destruct l as [|x l]; [cbn in Hn; lia|]. cbn [length] in Hn.
    destruct j as [|j]; [reflexivity|].
    cbn [firstn skipn app nth Nat.eqb]. apply (IH j l). lia.
Qed.

Lemma get_deleteAt (attDb : Db.T) (handle i : Z) :
  Db.get (deleteAt handle attDb) i = if i =? handle then None else Db.get attDb i.
Proof.
  unfold deleteAt, Db.get.
  destruct ((0 <=? handle) && (handle <? Z.of_nat (length attDb))) eqn:E.
  - apply andb_true_iff in E as [E1 E2]. apply Z.leb_le in E1. apply Z.ltb_lt in E2.
    destruct (i <? 0) eqn:Ei.
    + apply Z.ltb_lt in Ei. destruct (i =? handle); reflexivity.
    + apply Z.ltb_ge in Ei. rewrite nth_hole by lia.
      destruct (Z.eqb_spec i handle) as [->|Hne].
      * rewrite Nat.eqb_refl. reflexivity.
      * replace (Nat.eqb (Z.to_nat i) (Z.to_nat handle)) with false; [reflexivity|].
        symmetry. apply Nat.eqb_neq. lia.
  - destruct (Z.eqb_spec i handle) as [->|Hne]; [|reflexivity].
    destruct (handle <? 0) eqn:Eh; [reflexivity|]. apply Z.ltb_ge in Eh.
    apply nth_overflow. apply andb_false_iff in E as [E|E];
      [apply Z.leb_gt in E|apply Z.ltb_ge in E]; lia.
Qed.

Lemma length_deleteAt (attDb : Db.T) (handle : Z) :
  length (deleteAt handle attDb) = length attDb.
Proof.
  unfold deleteAt.
  destruct ((0 <=? handle) && (handle <? Z.of_nat (length attDb))) eqn:E; [|reflexivity].
  apply andb_true_iff in E as [E1 E2]. apply Z.leb_le in E1. apply Z.ltb_lt in E2.
  rewrite !length_app, length_firstn, length_skipn. cbn [length]. lia.
Qed.

Lemma get_deleteFrom (count : nat) :
  forall (handle : Z) (attDb : Db.T) (i : Z),
    Db.get (deleteFrom count handle attDb) i
    = if (handle <=? i) && (i <? handle + Z.of_nat count) then None else Db.get attDb i.
Proof.
  induction count as [|n IH]; intros handle attDb i.
  - cbn [deleteFrom]. replace ((handle <=? i) && (i <? handle + Z.of_nat 0)) with false;
      [reflexivity|]. symmetry. apply andb_false_iff.
    destruct (Z_le_gt_dec handle i); [right; apply Z.ltb_ge|left; apply Z.leb_gt]; lia.
  - cbn [deleteFrom]. rewrite IH, get_deleteAt.
    destruct (Z.eqb_spec i handle) as [->|Hne].
    + replace ((handle <=? handle) && (handle <? handle + Z.of_nat (S n))) with true
        by (symmetry; apply andb_true_intro; split; [apply Z.leb_le|apply Z.ltb_lt]; lia).
      destruct ((handle + 1 <=? handle) && (handle <? handle + 1 + Z.of_nat n)); reflexivity.
    + replace ((handle <=? i) && (i <? handle + Z.of_nat (S n)))
        with ((handle + 1 <=? i) && (i <? handle + 1 + Z.of_nat n)); [reflexivity|].
      apply eq_true_iff_eq. rewrite !andb_true_iff, !Z.leb_le, !Z.ltb_lt. lia.
Qed.

Lemma length_deleteFrom (count : nat) :
  forall (handle : Z) (attDb : Db.T), length (deleteFrom count handle attDb) = length attDb.
Proof.
  induction count as [|n IH]; intros handle attDb; [reflexivity|].
  cbn [deleteFrom]. rewrite IH. apply length_deleteAt.
Qed.

Lemma lastBefore_spec (attDb : Db.T) (turns : nat) :
  forall handle : Z,
    handle <= Z.of_nat turns ->
    lastBefore turns handle attDb <= handle
    /\ (0 <= handle -> 0 <= lastBefore turns handle attDb)
    /\ (forall h, lastBefore turns handle attDb < h <= handle -> Db.get attDb h = None).
Proof.
  induction turns as [|n IH]; intros handle Hh.
  - cbn [lastBefore]. split; [lia|]. split; [lia|]. intros h H. lia.
  - cbn [lastBefore]. destruct (handle >=? 1) eqn:E.
    + rewrite Z.geb_leb in E. apply Z.leb_le in E.
      destruct (Db.get attDb handle) eqn:Eg.
      * split; [lia|]. split; [lia|]. intros h H. lia.
      * destruct (IH (handle - 1) ltac:(lia)) as (I1 & I2 & I3).
        split; [lia|]. split; [lia|]. intros h H.
        destruct (Z.eq_dec h handle) as [->|Hne]; [exact Eg|]. apply I3. lia.
    + split; [lia|]. split; [lia|]. intros h H. lia.
Qed.

Lemma get_setLength (n : Z) (attDb attDb' : Db.T) (i : Z) :
  setLength n attDb = Js.Ok attDb' ->
  Db.get attDb' i = if i <? n then Db.get attDb i else None.
Proof.
  unfold setLength. destruct ((n <? 0) || (n >? 4294967295)) eqn:E; [discriminate|].
  intros H. injection H as <-. apply orb_false_iff in E as [E _]. apply Z.ltb_ge in E.
  unfold Db.get. destruct (i <? 0) eqn:Ei; [destruct (i <? n); reflexivity|].
  apply Z.ltb_ge in Ei.
  destruct (i <? n) eqn:En.
  - apply Z.ltb_lt in En.
    destruct (Nat.lt_ge_cases (Z.to_nat i) (length attDb)) as [Hl|Hl].
    + rewrite app_nth1 by (rewrite length_firstn; lia).
      rewrite nth_firstn. replace (Z.to_nat i <? Z.to_nat n)%nat with true; [reflexivity|].
      symmetry. apply Nat.ltb_lt. lia.
    + rewrite (nth_overflow attDb) by lia.
      rewrite app_nth2 by (rewrite length_firstn; lia). apply nth_repeat.
  - apply Z.ltb_ge in En. apply nth_overflow.
    rewrite length_app, length_firstn, repeat_length. lia.
Qed.

Lemma placed_lower (lower lower' : Z) (l : list Service) :
  lower' <= lower -> placed lower l -> placed lower' l.
Proof.
  intros Hl. destruct l as [|e l]; cbn [placed]; [lia|].
  intros (H1 & H2 & H3). split; [lia|]. split; assumption.
Qed.

Lemma last_end_bound (pre : list Service) (lower : Z) :
  placed lower pre -> lower <= List.last (List.map endHandle pre) lower.
Proof.
  revert lower. induction pre as [|e pre IH]; intros lower H; [cbn; lia|].
  cbn [placed] in H. destruct H as (H1 & H2 & H3).
  cbn [List.map]. rewrite last_cons_default. specialize (IH _ H3). lia.
Qed.

Lemma findService_first (service : nat) (pre post : list Service) (e : Service) (i : nat) :
  Forall (fun x => userObj x <> service) pre -> userObj e = service ->
  findService service (pre ++ e :: post) i = Some ((i + length pre)%nat, e).
Proof.
  revert i. induction pre as [|x pre IH]; intros i Hpre He.
  - cbn [app findService length]. rewrite He, Nat.eqb_refl. f_equal. f_equal. lia.
  - apply List.Forall_cons_iff in Hpre as [Hx Hpre]. cbn [app findService length].
    replace (Nat.eqb (userObj x) service) with false
      by (symmetry; apply Nat.eqb_neq; exact Hx).
    rewrite (IH (S i) Hpre He). f_equal. f_equal. lia.
Qed.

Lemma removeAt_middle {A : Type} (pre post : list A) (e : A) :
  removeAt (length pre) (pre ++ e :: post) = pre ++ post.
Proof.
  unfold removeAt. rewrite firstn_app, Nat.sub_diag, firstn_all. cbn [firstn].
  rewrite app_nil_r.
  replace (S (length pre)) with (length pre + 1)%nat by lia.
  rewrite skipn_app, skipn_all2 by lia.
  replace (length pre + 1 - length pre)%nat with 1%nat by lia. reflexivity.
Qed.

End RemoveFacts.
(** X21.  removeService gives the handles of a service back.  When the
    services of the database lie in ascending order, apart and below
    0xffff, removing the first service whose user object is the given
    one returns true, takes that entry out of allServices and leaves the
    others in order; in attDb the handles of the service become holes and
    every other handle reads as before, also where the array is cut at
    its end.  A service that asks for the same start handle and as many
    handles is then placed at the very handles that were freed. *)
Theorem removeService_frees_the_handles (service newObj : nat)
    (pre post : list GattDb.Service) (e : GattDb.Service) (attDb : Db.T) :
  GattDb.placed 0 (pre ++ e :: post) ->
  Forall (fun x => GattDb.userObj x <> service) pre -> GattDb.userObj e = service ->
  exists attDb',
    RemoveService.removeService service (pre ++ e :: post) attDb
    = Js.Ok (true, pre ++ post, attDb')
    /\ GattDb.placed 0 (pre ++ post)
    /\ (forall h,
          Db.get attDb' h
          = if (GattDb.startHandle e <=? h) && (h <=? GattDb.endHandle e) then None
            else Db.get attDb h)
    /\ exists allServices' position,
         GattDb.place (pre ++ post)
           (GattDb.mkRequest newObj (Some (GattDb.startHandle e))
              (GattDb.endHandle e - GattDb.startHandle e + 1))
         = Some (allServices', position)
         /\ In (GattDb.mkService newObj (GattDb.startHandle e) (GattDb.endHandle e))
              allServices'
         /\ GattDb.placed 0 allServices'.
Proof.
  intros Hplaced Hpre He.
  destruct e as [obj start stop]. cbn [GattDb.userObj GattDb.startHandle GattDb.endHandle] in *.
  pose proof (proj1 (placed_app 0 pre (GattDb.mkService obj start stop :: post)) Hplaced)
    as [Hp1 Hp2].
  cbn [GattDb.placed GattDb.startHandle GattDb.endHandle] in Hp2.
  destruct Hp2 as (Hlow & Hse & Hpost).
  pose proof (last_end_bound pre 0 Hp1) as Hl0.
  set (L := List.last (List.map GattDb.endHandle pre) 0) in *.
  assert (Hplaced' : GattDb.placed 0 (pre ++ post)).
  { apply placed_app. split; [exact Hp1|]. fold L.
    apply (placed_lower stop); [lia|exact Hpost]. }
  assert (Hhigh : stop + 1 <= match post with x :: _ => GattDb.startHandle x | [] => 0xffff end).
  { destruct post as [|x post]; cbn [GattDb.placed] in Hpost; lia. }
  assert (Hstop : stop < 0xffff).
  { destruct post as [|x post]; cbn [GattDb.placed] in Hpost; [lia|].
    destruct Hpost as (H1 & H2 & H3).
    pose proof (last_end_bound post (GattDb.endHandle x) H3) as Hb.
    assert (Hx : GattDb.endHandle x < 0xffff).
    { clear - H3. revert H3. generalize (GattDb.endHandle x).
      induction post as [|y post IH]; intros lower H; cbn [GattDb.placed] in H; [lia|].
      destruct H as (A & B & C). specialize (IH _ C). lia. }
    lia. }
  set (count := Z.to_nat (stop - start + 1)).
  set (attDb1 := RemoveService.deleteFrom count start attDb).
  assert (Hget1 : forall h,
             Db.get attDb1 h
             = if (start <=? h) && (h <=? stop) then None else Db.get attDb h).
  { intros h. unfold attDb1. rewrite get_deleteFrom.
    replace ((start <=? h) && (h <? start + Z.of_nat count))
      with ((start <=? h) && (h <=? stop)); [reflexivity|].
    apply eq_true_iff_eq. rewrite !andb_true_iff, !Z.leb_le, Z.ltb_lt. unfold count. lia. }
  assert (Hrun : exists attDb',
             RemoveService.removeService service (pre ++ GattDb.mkService obj start stop :: post)
               attDb
             = Js.Ok (true, pre ++ post, attDb')
             /\ forall h, Db.get attDb' h = Db.get attDb1 h).
  { unfold RemoveService.removeService.
    rewrite (findService_first service pre post (GattDb.mkService obj start stop) 0 Hpre He).
    cbn [Nat.add]. rewrite removeAt_middle.
    cbn [GattDb.startHandle GattDb.endHandle]. fold count. fold attDb1.
    destruct (Z.of_nat (length attDb1) =? stop + 1) eqn:Elen.
    - apply Z.eqb_eq in Elen.
      destruct (lastBefore_spec attDb1 (Z.to_nat (start - 1)) (start - 1) ltac:(lia))
        as (B1 & B2 & B3).
      set (r0 := RemoveService.lastBefore (Z.to_nat (start - 1)) (start - 1) attDb1) in *.
      specialize (B2 ltac:(lia)).
      destruct (RemoveService.setLength (r0 + 1) attDb1) as [attDb2|err] eqn:Eset.
      + exists attDb2. cbn [Js.bind]. split; [reflexivity|].
        intros h. rewrite (get_setLength (r0 + 1) attDb1 attDb2 h Eset).
        destruct (h <? r0 + 1) eqn:Eh; [reflexivity|]. apply Z.ltb_ge in Eh.
        symmetry.
        destruct (Z_le_gt_dec h (start - 1)) as [H1|H1]; [apply B3; lia|].
        destruct (Z_le_gt_dec h stop) as [H2|H2].
        * rewrite Hget1.
          replace ((start <=? h) && (h <=? stop)) with true; [reflexivity|].
          symmetry. apply andb_true_intro. split; apply Z.leb_le; lia.
        * unfold Db.get. replace (h <? 0) with false by (symmetry; apply Z.ltb_ge; lia).
          apply nth_overflow. lia.
      + exfalso. unfold RemoveService.setLength in Eset.
        replace ((r0 + 1 <? 0) || (r0 + 1 >? 4294967295)) with false in Eset;
          [discriminate|].
        symmetry. apply orb_false_iff. split; [apply Z.ltb_ge; lia|].
        rewrite Z.gtb_ltb. apply Z.ltb_ge. lia.
    - exists attDb1. split; [reflexivity|]. intros h. reflexivity. }
  destruct Hrun as (attDb' & Hrun & Hsame).
  exists attDb'. split; [exact Hrun|]. split; [exact Hplaced'|].
  split; [intros h; rewrite Hsame; apply Hget1|].
  set (s := GattDb.mkRequest newObj (Some start) (stop - start + 1)).
  assert (Hn : 1 <= GattDb.numberOfHandles s) by (cbn; lia).
  pose proof (scan_proposal s start pre post eq_refl ltac:(lia) ltac:(fold L; lia)
                ltac:(cbn [GattDb.numberOfHandles s]; lia) pre [] 0 0%nat eq_refl) as Hscan.
  cbn [length List.map List.last app] in Hscan.
  pose proof (place_fits s Hn (pre ++ post) Hplaced') as Hfit.
  unfold GattDb.place in *.
  destruct (GattDb.scan s ((pre ++ post) ++ [GattDb.mkService 0 0xffff 0]) 0 0 0 0)
    as [c q]. cbn [fst] in Hscan. subst c.
  replace (start =? 0) with false in * by (symmetry; apply Z.eqb_neq; lia).
  destruct Hfit as (_ & Hplaced'' & _).
  eexists. eexists. split; [reflexivity|]. split; [|exact Hplaced''].
  apply in_insertAt. left. cbn [GattDb.reqObj GattDb.numberOfHandles s]. f_equal. lia.
Qed.

Lemma removeService_frees_the_handles_witness :
  let gap := Db.mkItem (Some 4) (Some (Some 0x2800)) "00002800-0000-1000-8000-00805F9B34FB"
               (Some [0; 0x18]) 512 Att.Open Att.NotPermitted
               (Db.defaultRead (Some [0; 0x18])) None None in
  exists attDb',
    RemoveService.removeService 2 ([GattDb.mkService 1 1 1] ++ GattDb.mkService 2 2 3 :: [])
      [None; Some gap; Some gap; Some gap]
    = Js.Ok (true, [GattDb.mkService 1 1 1] ++ [], attDb')
    /\ Db.get attDb' 1 = Some gap /\ Db.get attDb' 2 = None /\ Db.get attDb' 3 = None.
Proof.
  intros gap.
  destruct (removeService_frees_the_handles 2 9 [GattDb.mkService 1 1 1] []
              (GattDb.mkService 2 2 3) [None; Some gap; Some gap; Some gap])
    as (attDb' & Hrun & _ & Hget & _).
  - cbn. lia.
  - constructor; [cbn; lia|constructor].
  - reflexivity.
  - exists attDb'. split; [exact Hrun|].
    split; [rewrite Hget; reflexivity|]. split; rewrite Hget; reflexivity.
Defined.
